(** * Stopwatch and countdown timers of script.js

    script.js holds three implementations of the same timer page, one
    after the other:

    - the class variant (class Timer, Stopwatch, CountdownTimer and
      UIController), embedded in [ClassVariant];
    - the script variant (top-level variables and onclick handlers),
      embedded in [ScriptVariant];
    - the TimerBase variant (class TimerBase, Stopwatch, Countdown and
      ViewManager), embedded in [TimerBaseVariant] and [ViewManager].

    Numbers are the integers that Date.now(), the digit buttons and
    integer arithmetic produce (they stand for the doubles that hold
    them exactly), together with NaN; strings are lists of characters.
    Sums, differences, products and remainders are the exact ones, as
    they are on doubles while the values stay below 2^53;
    Math.floor(a / b) and String(x) are those of the doubles for every
    value: the quotient is rounded to 53 significant bits before its
    floor is taken, and a number is printed with the fewest digits that
    name its double, in exponent notation from 1e21.
    Every call of Date.now() is an explicit argument of the method that
    makes it.  Methods are state transformers that return a value or
    throw, and record their warnings and alerts. *)

From Stdlib Require Import ZArith List Ascii String DecimalString Bool Lia.
Import ListNotations.
Local Open Scope Z_scope.

(** ** JavaScript strings, numbers and effects *)

Module JS.

Definition jsstring : Type := list ascii.

Definition str (s : String.string) : jsstring := list_ascii_of_string s.

(** s.padStart(n, c) for a one-character fill string. *)
Definition padStart (n : nat) (c : ascii) (s : jsstring) : jsstring :=
  repeat c (n - List.length s) ++ s.

(** s.slice(a, b) and s.substring(a, b) for 0 <= a <= b. *)
Definition slice (a b : nat) (s : jsstring) : jsstring :=
  firstn (b - a) (skipn a s).

(** s.slice(-n): the last n characters, all of s when it is shorter. *)
Definition slice_last (n : nat) (s : jsstring) : jsstring :=
  skipn (List.length s - n) s.

(** s.slice(0, -1): s without its last character. *)
Definition slice_init (s : jsstring) : jsstring :=
  firstn (List.length s - 1) s.

(** A number is an integer or NaN (what arithmetic on undefined and
    parseInt of a string without digits give). *)
Inductive number : Type :=
| Num (z : Z)
| NaN.

Definition lift2 (f : Z -> Z -> Z) (a b : number) : number :=
  match a, b with
  | Num x, Num y => Num (f x y)
  | _, _ => NaN
  end.

Definition add : number -> number -> number := lift2 Z.add.
Definition sub : number -> number -> number := lift2 Z.sub.
Definition mul : number -> number -> number := lift2 Z.mul.

(** Math.max(a, b) *)
Definition Math_max : number -> number -> number := lift2 Z.max.

(** The integer nearest to p / q, the even one of two that are equally
    near: how a double rounds its significand (q > 0). *)
Definition round_half_even (p q : Z) : Z :=
  let f := p / q in
  let r := 2 * (p mod q) in
  if r <? q then f
  else if q <? r then f + 1
  else if Z.even f then f else f + 1.

(** Math.floor(x / b) for integers x and b > 0.  x / b is the double
    nearest to the quotient: when 2^e <= |x / b| < 2^(e+1) it is a
    multiple of 2^(e-52), the nearest one, and Math.floor takes its
    floor.  A quotient strictly between -1 and 0 has floor -1.  (No
    value of the timers comes near 2^1024, where doubles end.) *)
Definition floor_quotient (x b : Z) : Z :=
  let q := Z.abs x / b in
  if q =? 0 then
    if x <? 0 then -1 else round_half_even (x * 2 ^ 53) b / 2 ^ 53
  else
    let e := Z.log2 q in
    if e <=? 52 then round_half_even (x * 2 ^ (52 - e)) b / 2 ^ (52 - e)
    else round_half_even x (b * 2 ^ (e - 52)) * 2 ^ (e - 52).

(** Math.floor(a / b), b a positive integer constant. *)
Definition floor_div (a : number) (b : Z) : number :=
  match a with
  | Num x => Num (floor_quotient x b)
  | NaN => NaN
  end.

(** a % b: the remainder has the sign of a. *)
Definition rem (a : number) (b : Z) : number :=
  match a with
  | Num x => Num (Z.rem x b)
  | NaN => NaN
  end.

(** a <= b, a > b and a === b; every comparison with NaN is false. *)
Definition leb (a b : number) : bool :=
  match a, b with
  | Num x, Num y => x <=? y
  | _, _ => false
  end.

Definition gtb (a b : number) : bool :=
  match a, b with
  | Num x, Num y => y <? x
  | _, _ => false
  end.

Definition strict_eq (a b : number) : bool :=
  match a, b with
  | Num x, Num y => x =? y
  | _, _ => false
  end.

Definition decimal (n : N) : jsstring :=
  str (NilEmpty.string_of_uint (N.to_uint n)).

(** The double nearest to the integer n, 0 <= n < 2^1024: n itself up
    to 53 bits, and else n rounded to its 53 leading bits. *)
Definition nearest_double (n : Z) : Z :=
  let e := Z.log2 n in
  if e <=? 52 then n else round_half_even n (2 ^ (e - 52)) * 2 ^ (e - 52).

Definition decimal_length (x : Z) : Z :=
  Z.of_nat (List.length (decimal (Z.to_N x))).

(** Number::toString looks for integers n, k and s with k digits in s
    such that s * 10^(n-k) names the double x, k as small as possible
    and then s * 10^(n-k) as near to x as possible (the even s of two
    that are equally near).  A candidate is a pair (s, n). *)
Definition names_double (x k : Z) (c : Z * Z) : bool :=
  let (s, n) := c in
  (10 ^ (k - 1) <=? s) && (s <? 10 ^ k) && (0 <=? n - k)
  && (nearest_double (s * 10 ^ (n - k)) =? x).

Definition nearer (x k : Z) (c1 c2 : Z * Z) : Z * Z :=
  let d1 := Z.abs (fst c1 * 10 ^ (snd c1 - k) - x) in
  let d2 := Z.abs (fst c2 * 10 ^ (snd c2 - k) - x) in
  if d1 <? d2 then c1
  else if d2 <? d1 then c2
  else if Z.even (fst c1) then c1 else c2.

(** The candidates of k digits: the first k digits of x, these plus
    one, and the power of ten above x. *)
Definition candidates (x k : Z) : list (Z * Z) :=
  let d := decimal_length x in
  filter (names_double x k)
    [ (x / 10 ^ (d - k), d); (x / 10 ^ (d - k) + 1, d); (1, d + 1) ].

(** (s, n, k) for the double x, trying k, k + 1, ...; 17 digits name
    every double. *)
Fixpoint shortest (fuel : nat) (x k : Z) : Z * Z * Z :=
  match fuel with
  | O => (x, decimal_length x, decimal_length x)
  | S fuel' =>
      match candidates x k with
      | c :: cs => (fold_left (nearer x k) cs c, k)
      | [] => shortest fuel' x (k + 1)
      end
  end.

(** The k digits of s are followed by n - k zeros when n <= 21, and
    else written d.ddde+(n-1). *)
Definition print_shortest (x : Z) : jsstring :=
  match shortest 17 (nearest_double x) 1 with
  | (s, n, k) =>
      let ds := decimal (Z.to_N s) in
      if n <=? 21 then ds ++ repeat "0"%char (Z.to_nat (n - k))
      else
        match ds with
        | [] => []
        | [d] => d :: str "e+" ++ decimal (Z.to_N (n - 1))
        | d :: rest =>
            d :: "."%char :: rest ++ str "e+" ++ decimal (Z.to_N (n - 1))
        end
  end.

(** String(n) for an integer n >= 0.  Below 2^53 every integer is a
    double of its own, which no shorter decimal names but for zeros at
    its end: it is printed with all its digits. *)
Definition print_integer (n : Z) : jsstring :=
  if n <? 2 ^ 53 then decimal (Z.to_N n) else print_shortest n.

(** String(x) and x.toString() *)
Definition toString (x : number) : jsstring :=
  match x with
  | NaN => str "NaN"
  | Num z => if z <? 0 then "-"%char :: print_integer (- z) else print_integer z
  end.

Definition digit_value (c : ascii) : option Z :=
  let n := nat_of_ascii c in
  if ((48 <=? n) && (n <=? 57))%nat then Some (Z.of_nat (n - 48)) else None.

Fixpoint parse_digits (acc : Z) (s : jsstring) : Z :=
  match s with
  | c :: s' =>
      match digit_value c with
      | Some d => parse_digits (10 * acc + d) s'
      | None => acc
      end
  | [] => acc
  end.

(** parseInt(s, 10) on a string that starts with a digit or with
    anything else but white space or a sign (the timers only parse
    two-character pieces of the padded digit buffer): the value of the
    longest prefix of digits, NaN when there is none.  parseInt(s)
    without a radix is the same function on such strings. *)
Definition parseInt (s : jsstring) : number :=
  match s with
  | c :: _ =>
      match digit_value c with
      | Some _ => Num (parse_digits 0 s)
      | None => NaN
      end
  | [] => NaN
  end.

(** What a method does to the outside world: console.warn and
    console.error, the browser's alert(msg), showAlert(msg, type) of the
    class variant's controller, ViewManager.showAlert(msg) of the
    TimerBase variant, and the completion sound.  console.log lines are
    not recorded. *)
Inductive effect : Type :=
| ConsoleWarn (msg : String.string)
| ConsoleError (msg : String.string)
| Alert (msg : String.string)
| ShowAlert (msg type : String.string)
| Modal (msg : String.string)
| Sound.

(** A method of an object of type S: it returns a value or throws an
    Error with a message, leaves the object in a new state and has
    effects. *)
Record result (S A : Type) : Type := mkResult {
  value : A + String.string;
  state : S;
  output : list effect
}.
Arguments mkResult {S A} _ _ _.
Arguments value {S A} _.
Arguments state {S A} _.
Arguments output {S A} _.

Definition M (S A : Type) : Type := S -> result S A.

Definition ret {S A} (a : A) : M S A := fun s => mkResult (inl a) s [].

Definition bind {S A B} (m : M S A) (f : A -> M S B) : M S B :=
  fun s =>
    match m s with
    | mkResult (inl a) s1 o1 =>
        match f a s1 with
        | mkResult v s2 o2 => mkResult v s2 (o1 ++ o2)
        end
    | mkResult (inr e) s1 o1 => mkResult (inr e) s1 o1
    end.

Definition get {S} : M S S := fun s => mkResult (inl s) s [].

Definition modify {S} (f : S -> S) : M S unit :=
  fun s => mkResult (inl tt) (f s) [].

Definition emit {S} (e : effect) : M S unit :=
  fun s => mkResult (inl tt) s [e].

(** throw new Error(msg) *)
Definition throw {S A} (msg : String.string) : M S A :=
  fun s => mkResult (inr msg) s [].

(** try { m } catch (error) { handler error.message } *)
Definition try_catch {S} (m : M S unit) (handler : String.string -> M S unit)
  : M S unit :=
  fun s =>
    match m s with
    | mkResult (inl a) s1 o1 => mkResult (inl a) s1 o1
    | mkResult (inr e) s1 o1 =>
        match handler e s1 with
        | mkResult v s2 o2 => mkResult v s2 (o1 ++ o2)
        end
    end.

(** A method of a member object, run from the object that owns it. *)
Definition on_member {S T A} (proj : S -> T) (upd : T -> S -> S) (m : M T A)
  : M S A :=
  fun s =>
    match m (proj s) with
    | mkResult v t1 o1 => mkResult v (upd t1 s) o1
    end.

Definition when {S} (b : bool) (m : M S unit) : M S unit :=
  if b then m else ret tt.

Definition exec {S A} (m : M S A) (s : S) : S := state (m s).

(** One call of f after the other, for each element of a list. *)
Fixpoint for_each {S A} (f : A -> M S unit) (l : list A) : M S unit :=
  match l with
  | [] => ret tt
  | a :: l' => bind (f a) (fun _ => for_each f l')
  end.

End JS.

Import JS.

Declare Scope js_scope.
Delimit Scope js_scope with js.
Notation "x <- m ;; k" := (bind m (fun x => k))
  (at level 61, m at next level, right associativity) : js_scope.
Notation "m ;; k" := (bind m (fun _ => k))
  (at level 61, right associativity) : js_scope.
Local Open Scope js_scope.

(** What the displays show: the HH:MM:SS text and the text of the
    milliseconds part. *)
Record display : Type := mkDisplay {
  time_text : jsstring;
  ms_text : jsstring
}.

(** ** The class variant: Timer, Stopwatch, CountdownTimer, UIController *)

Module ClassVariant.

Record formatted_time : Type := mkFormatted {
  hours : jsstring;
  minutes : jsstring;
  seconds : jsstring;
  milliseconds : jsstring;
  formatted : jsstring;
  fullFormatted : jsstring
}.

(** class Timer.  [animationFrame] is true when the field holds the id
    of a requested frame and false when it is null. *)
Module Timer.

Record t : Type := mk {
  startTime : number;
  elapsedTime : number;
  isRunning : bool;
  animationFrame : bool
}.

Definition new : t := mk (Num 0) (Num 0) false false.

Definition set_startTime (v : number) (s : t) : t :=
  mk v (elapsedTime s) (isRunning s) (animationFrame s).
Definition set_elapsedTime (v : number) (s : t) : t :=
  mk (startTime s) v (isRunning s) (animationFrame s).
Definition set_isRunning (v : bool) (s : t) : t :=
  mk (startTime s) (elapsedTime s) v (animationFrame s).
Definition set_animationFrame (v : bool) (s : t) : t :=
  mk (startTime s) (elapsedTime s) (isRunning s) v.

(** _update(), with the value Date.now() returns in it. *)
Definition _update (now : Z) : M t unit :=
  s <- get ;;
  if negb (isRunning s) then ret tt
  else
    modify (set_elapsedTime (sub (Num now) (startTime s))) ;;
    modify (set_animationFrame true).

(** start(): [now] is read for the anchor, [now'] by the call of
    _update() that ends it. *)
Definition start (now now' : Z) : M t unit :=
  s <- get ;;
  if isRunning s then emit (ConsoleWarn "Timer is already running")
  else
    modify (set_isRunning true) ;;
    modify (set_startTime (sub (Num now) (elapsedTime s))) ;;
    _update now'.

Definition stop : M t unit :=
  s <- get ;;
  if negb (isRunning s) then emit (ConsoleWarn "Timer is not running")
  else
    modify (set_isRunning false) ;;
    when (animationFrame s) (modify (set_animationFrame false)).

Definition reset : M t unit :=
  stop ;;
  modify (set_elapsedTime (Num 0)).

(** static formatTime(ms) *)
Definition formatTime (ms : number) : formatted_time :=
  let totalSeconds := floor_div ms 1000 in
  let hours := padStart 2 "0" (toString (floor_div totalSeconds 3600)) in
  let minutes :=
    padStart 2 "0" (toString (floor_div (rem totalSeconds 3600) 60)) in
  let seconds := padStart 2 "0" (toString (rem totalSeconds 60)) in
  let milliseconds := padStart 3 "0" (toString (rem ms 1000)) in
  mkFormatted hours minutes seconds milliseconds
    (hours ++ str ":" ++ minutes ++ str ":" ++ seconds)
    (hours ++ str ":" ++ minutes ++ str ":" ++ seconds ++ str "."
       ++ milliseconds).

End Timer.

(** class Stopwatch extends Timer *)
Module Stopwatch.

Definition getTime (s : Timer.t) : jsstring :=
  formatted (Timer.formatTime (Timer.elapsedTime s)).

Definition getTimeWithMs (s : Timer.t) : jsstring :=
  fullFormatted (Timer.formatTime (Timer.elapsedTime s)).

End Stopwatch.

(** class CountdownTimer *)
Module CountdownTimer.

Record t : Type := mk {
  initialTime : number;
  remainingTime : number;
  isRunning : bool;
  startTime : number;
  animationFrame : bool;
  hasExpired : bool
}.

Definition new : t := mk (Num 0) (Num 0) false (Num 0) false false.

Definition set_initialTime (v : number) (s : t) : t :=
  mk v (remainingTime s) (isRunning s) (startTime s) (animationFrame s)
    (hasExpired s).
Definition set_remainingTime (v : number) (s : t) : t :=
  mk (initialTime s) v (isRunning s) (startTime s) (animationFrame s)
    (hasExpired s).
Definition set_isRunning (v : bool) (s : t) : t :=
  mk (initialTime s) (remainingTime s) v (startTime s) (animationFrame s)
    (hasExpired s).
Definition set_startTime (v : number) (s : t) : t :=
  mk (initialTime s) (remainingTime s) (isRunning s) v (animationFrame s)
    (hasExpired s).
Definition set_animationFrame (v : bool) (s : t) : t :=
  mk (initialTime s) (remainingTime s) (isRunning s) (startTime s) v
    (hasExpired s).
Definition set_hasExpired (v : bool) (s : t) : t :=
  mk (initialTime s) (remainingTime s) (isRunning s) (startTime s)
    (animationFrame s) v.

(** setTime(ms) *)
Definition setTime (ms : number) : M t unit :=
  if leb ms (Num 0) then throw "Countdown time must be positive"
  else
    modify (set_initialTime ms) ;;
    modify (set_remainingTime ms) ;;
    modify (set_hasExpired false).

(** _update(), with the value Date.now() returns in it. *)
Definition _update (now : Z) : M t unit :=
  s <- get ;;
  if negb (isRunning s) then ret tt
  else
    let elapsed := sub (Num now) (startTime s) in
    modify (set_remainingTime
              (Math_max (Num 0) (sub (initialTime s) elapsed))) ;;
    s1 <- get ;;
    when (leb (remainingTime s1) (Num 0))
      (modify (set_isRunning false) ;;
       modify (set_remainingTime (Num 0)) ;;
       modify (set_hasExpired true)) ;;
    modify (set_animationFrame true).

(** start(): [now] is read for startTime, [now'] by the call of
    _update() that ends it. *)
Definition start (now now' : Z) : M t unit :=
  s <- get ;;
  if isRunning s then emit (ConsoleWarn "Countdown is already running")
  else if leb (remainingTime s) (Num 0)
  then emit (ConsoleWarn "Countdown time is not set or expired")
  else
    modify (set_isRunning true) ;;
    modify (set_startTime (Num now)) ;;
    modify (set_hasExpired false) ;;
    _update now'.

Definition stop : M t unit :=
  s <- get ;;
  if negb (isRunning s) then emit (ConsoleWarn "Countdown is not running")
  else
    modify (set_isRunning false) ;;
    when (animationFrame s) (modify (set_animationFrame false)).

Definition reset : M t unit :=
  stop ;;
  s <- get ;;
  modify (set_remainingTime (initialTime s)) ;;
  modify (set_hasExpired false).

Definition clear : M t unit :=
  stop ;;
  modify (set_initialTime (Num 0)) ;;
  modify (set_remainingTime (Num 0)) ;;
  modify (set_hasExpired false).

Definition getTime (s : t) : jsstring :=
  formatted (Timer.formatTime (remainingTime s)).

Definition getTimeWithMs (s : t) : jsstring :=
  fullFormatted (Timer.formatTime (remainingTime s)).

Definition isExpired (s : t) : bool := hasExpired s.

End CountdownTimer.

(** class UIController.  Of the page only the elements whose hidden
    class the controller switches are kept, with the two displays. *)
Module UIController.

Inductive element : Type :=
| homeScreen | stopwatchScreen | countdownScreen
| startStopwatchBtn | pauseStopwatchBtn | continueStopwatchBtn
| countdownInput | countdownControls
| startCountdownBtn | pauseCountdownBtn | continueCountdownBtn
| clearCountdownBtn.

Definition element_eq_dec (a b : element) : {a = b} + {a <> b}.
Proof. decide equality. Defined.

Record t : Type := mk {
  hidden : element -> bool;
  stopwatchDisplay : display;
  countdownDisplay : display;
  stopwatch : Timer.t;
  countdownTimer : CountdownTimer.t;
  inputSequence : jsstring;
  stopwatchExpired : bool;
  countdownExpired : bool
}.

(** The constructor, on a page whose elements carry the classes
    [page] and whose displays show [sw] and [cd]; the call of
    _updateDisplays() that ends _init() is a frame of its own. *)
Definition new (page : element -> bool) (sw cd : display) : t :=
  mk page sw cd Timer.new CountdownTimer.new [] false false.

Definition set_hidden (v : element -> bool) (s : t) : t :=
  mk v (stopwatchDisplay s) (countdownDisplay s) (stopwatch s)
    (countdownTimer s) (inputSequence s) (stopwatchExpired s)
    (countdownExpired s).
Definition set_stopwatchDisplay (v : display) (s : t) : t :=
  mk (hidden s) v (countdownDisplay s) (stopwatch s) (countdownTimer s)
    (inputSequence s) (stopwatchExpired s) (countdownExpired s).
Definition set_countdownDisplay (v : display) (s : t) : t :=
  mk (hidden s) (stopwatchDisplay s) v (stopwatch s) (countdownTimer s)
    (inputSequence s) (stopwatchExpired s) (countdownExpired s).
Definition set_stopwatch (v : Timer.t) (s : t) : t :=
  mk (hidden s) (stopwatchDisplay s) (countdownDisplay s) v
    (countdownTimer s) (inputSequence s) (stopwatchExpired s)
    (countdownExpired s).
Definition set_countdownTimer (v : CountdownTimer.t) (s : t) : t :=
  mk (hidden s) (stopwatchDisplay s) (countdownDisplay s) (stopwatch s) v
    (inputSequence s) (stopwatchExpired s) (countdownExpired s).
Definition set_inputSequence (v : jsstring) (s : t) : t :=
  mk (hidden s) (stopwatchDisplay s) (countdownDisplay s) (stopwatch s)
    (countdownTimer s) v (stopwatchExpired s) (countdownExpired s).
Definition set_stopwatchExpired (v : bool) (s : t) : t :=
  mk (hidden s) (stopwatchDisplay s) (countdownDisplay s) (stopwatch s)
    (countdownTimer s) (inputSequence s) v (countdownExpired s).
Definition set_countdownExpired (v : bool) (s : t) : t :=
  mk (hidden s) (stopwatchDisplay s) (countdownDisplay s) (stopwatch s)
    (countdownTimer s) (inputSequence s) (stopwatchExpired s) v.

(** e.classList.add('hidden') and e.classList.remove('hidden') *)
Definition hide (e : element) : M t unit :=
  modify (fun s =>
    set_hidden (fun x => if element_eq_dec x e then true else hidden s x) s).
Definition unhide (e : element) : M t unit :=
  modify (fun s =>
    set_hidden (fun x => if element_eq_dec x e then false else hidden s x) s).

Definition on_stopwatch {A} (m : M Timer.t A) : M t A :=
  on_member stopwatch set_stopwatch m.
Definition on_countdownTimer {A} (m : M CountdownTimer.t A) : M t A :=
  on_member countdownTimer set_countdownTimer m.

(** showAlert(message, type) *)
Definition showAlert (message type : String.string) : M t unit :=
  emit (ShowAlert message type).

(** The digits HH:MM:SS of the padded input sequence, followed by
    the milliseconds span holding .000 *)
Definition input_display (inputSequence : jsstring) : display :=
  let padded := padStart 6 "0" inputSequence in
  let hours := slice 0 2 padded in
  let minutes := slice 2 4 padded in
  let seconds := slice 4 6 padded in
  mkDisplay (hours ++ str ":" ++ minutes ++ str ":" ++ seconds)
    (str ".000").

(** handleNumberInput(number) *)
Definition handleNumberInput (number : jsstring) : M t unit :=
  s <- get ;;
  modify (set_inputSequence (slice_last 6 (inputSequence s ++ number))) ;;
  s1 <- get ;;
  modify (set_countdownDisplay (input_display (inputSequence s1))).

(** handleBackspace() *)
Definition handleBackspace : M t unit :=
  s <- get ;;
  modify (set_inputSequence (slice_init (inputSequence s))) ;;
  s1 <- get ;;
  modify (set_countdownDisplay (input_display (inputSequence s1))).

(** clearCountdownInput() *)
Definition clearCountdownInput : M t unit :=
  modify (set_inputSequence []) ;;
  modify (set_countdownDisplay (mkDisplay (str "00:00:00") (str ".000"))).

(** resetCountdownUI() *)
Definition resetCountdownUI : M t unit :=
  unhide countdownInput ;;
  hide countdownControls ;;
  hide startCountdownBtn ;;
  hide pauseCountdownBtn ;;
  hide continueCountdownBtn ;;
  hide clearCountdownBtn ;;
  clearCountdownInput.

(** showScreen(screen) *)
Definition showScreen (screen : String.string) : M t unit :=
  try_catch
    (hide homeScreen ;;
     hide stopwatchScreen ;;
     hide countdownScreen ;;
     if String.eqb screen "home" then unhide homeScreen
     else if String.eqb screen "stopwatch" then
       unhide stopwatchScreen ;;
       modify (set_stopwatchExpired false)
     else if String.eqb screen "countdown" then
       unhide countdownScreen ;;
       resetCountdownUI ;;
       modify (set_countdownExpired false)
     else throw (String.append "Invalid screen: " screen))
    (fun message =>
       emit (ConsoleError (String.append "Error switching screens: " message))).

Definition startStopwatch (now now' : Z) : M t unit :=
  on_stopwatch (Timer.start now now') ;;
  hide startStopwatchBtn ;;
  unhide pauseStopwatchBtn ;;
  modify (set_stopwatchExpired false).

Definition pauseStopwatch : M t unit :=
  on_stopwatch Timer.stop ;;
  hide pauseStopwatchBtn ;;
  unhide continueStopwatchBtn.

Definition continueStopwatch (now now' : Z) : M t unit :=
  on_stopwatch (Timer.start now now') ;;
  hide continueStopwatchBtn ;;
  unhide pauseStopwatchBtn.

Definition clearStopwatch : M t unit :=
  on_stopwatch Timer.reset ;;
  unhide startStopwatchBtn ;;
  hide pauseStopwatchBtn ;;
  hide continueStopwatchBtn ;;
  showAlert "Stopwatch has been reset" "success".

(** The total of milliseconds setCountdownTime() computes from the
    input sequence. *)
Definition totalMs (inputSequence : jsstring) : number :=
  let padded := padStart 6 "0" inputSequence in
  let hours := parseInt (slice 0 2 padded) in
  let minutes := parseInt (slice 2 4 padded) in
  let seconds := parseInt (slice 4 6 padded) in
  mul (add (add (mul hours (Num 3600)) (mul minutes (Num 60))) seconds)
    (Num 1000).

(** setCountdownTime() *)
Definition setCountdownTime : M t unit :=
  try_catch
    (s <- get ;;
     let totalMs := totalMs (inputSequence s) in
     (if leb totalMs (Num 0)
      then throw "Countdown time must be greater than zero"
      else ret tt) ;;
     on_countdownTimer (CountdownTimer.setTime totalMs) ;;
     hide countdownInput ;;
     unhide countdownControls ;;
     unhide startCountdownBtn ;;
     unhide clearCountdownBtn ;;
     modify (set_countdownExpired false))
    (fun message =>
       emit (ConsoleError
               (String.append "Error setting countdown time: " message)) ;;
       showAlert "Please enter a valid time greater than zero" "error").

Definition startCountdown (now now' : Z) : M t unit :=
  on_countdownTimer (CountdownTimer.start now now') ;;
  hide startCountdownBtn ;;
  unhide pauseCountdownBtn ;;
  modify (set_countdownExpired false).

Definition pauseCountdown : M t unit :=
  on_countdownTimer CountdownTimer.stop ;;
  hide pauseCountdownBtn ;;
  unhide continueCountdownBtn.

Definition continueCountdown (now now' : Z) : M t unit :=
  on_countdownTimer (CountdownTimer.start now now') ;;
  hide continueCountdownBtn ;;
  unhide pauseCountdownBtn.

Definition clearCountdown : M t unit :=
  on_countdownTimer CountdownTimer.clear ;;
  resetCountdownUI ;;
  showAlert "Countdown has been cleared" "success".

(** _playCompletionSound(), in a browser that has an AudioContext *)
Definition _playCompletionSound : M t unit := emit Sound.

(** What a display shows once its innerHTML is the time with
    milliseconds, the part from the dot on wrapped in the
    milliseconds span. *)
Definition shown (f : formatted_time) : display :=
  mkDisplay (formatted f) (str "." ++ milliseconds f).

(** _updateDisplays(): one frame of the display loop. *)
Definition _updateDisplays : M t unit :=
  s <- get ;;
  when (negb (hidden s stopwatchScreen))
    (modify (set_stopwatchDisplay
               (shown (Timer.formatTime (Timer.elapsedTime (stopwatch s)))))) ;;
  when (negb (hidden s countdownScreen))
    (when (negb (hidden s countdownControls))
       (modify (set_countdownDisplay
                  (shown (Timer.formatTime
                            (CountdownTimer.remainingTime (countdownTimer s))))) ;;
        when (CountdownTimer.isExpired (countdownTimer s)
              && negb (countdownExpired s))
          (on_countdownTimer CountdownTimer.stop ;;
           hide pauseCountdownBtn ;;
           unhide startCountdownBtn ;;
           _playCompletionSound ;;
           showAlert "Countdown has expired!" "warning" ;;
           modify (set_countdownExpired true)))).

(** What the browser runs between two user actions: a frame of the
    countdown timer, a frame of the stopwatch, a frame of the
    display loop. *)
Inductive frame : Type :=
| CountdownFrame (now : Z)
| StopwatchFrame (now : Z)
| DisplayFrame.

Definition run_frame (f : frame) : M t unit :=
  match f with
  | CountdownFrame now => on_countdownTimer (CountdownTimer._update now)
  | StopwatchFrame now => on_stopwatch (Timer._update now)
  | DisplayFrame => _updateDisplays
  end.

Definition run_frames (fs : list frame) : M t unit :=
  for_each run_frame fs.

(** How many times the expiration alert was shown. *)
Definition is_expiration (e : effect) : bool :=
  match e with
  | ShowAlert msg _ => String.eqb msg "Countdown has expired!"
  | _ => false
  end.

Definition expirations (out : list effect) : nat :=
  List.length (filter is_expiration out).

End UIController.

End ClassVariant.

(** ** The browser's table of intervals

    setInterval enters a callback under a fresh id; clearInterval removes
    the entry with the given id, if there is one. *)

Module Intervals.

Record table (C : Type) : Type := mkTable {
  active : list (nat * C);
  next_id : nat
}.
Arguments mkTable {C} _ _.
Arguments active {C} _.
Arguments next_id {C} _.

Definition empty {C} : table C := mkTable [] 1%nat.

Definition setInterval {C} (callback : C) (tb : table C) : nat * table C :=
  (next_id tb, mkTable (active tb ++ [(next_id tb, callback)]) (S (next_id tb))).

(** clearInterval(id); the id of a variable that is still undefined
    or null is [None]. *)
Definition clearInterval {C} (id : option nat) (tb : table C) : table C :=
  match id with
  | Some i =>
      mkTable (filter (fun e => negb (Nat.eqb (fst e) i)) (active tb))
        (next_id tb)
  | None => tb
  end.

Definition callback_of {C} (i : nat) (tb : table C) : option C :=
  option_map snd (find (fun e => Nat.eqb (fst e) i) (active tb)).

End Intervals.

(** ** The script variant: top-level variables and click handlers *)

Module ScriptVariant.

(** function formatTime(ms): the pair { time, ms } *)
Definition formatTime (ms : number) : display :=
  let milliseconds := rem ms 1000 in
  let totalSeconds := floor_div ms 1000 in
  let hours := floor_div totalSeconds 3600 in
  let minutes := floor_div (rem totalSeconds 3600) 60 in
  let seconds := rem totalSeconds 60 in
  let pad := fun n => padStart 2 "0" (toString n) in
  mkDisplay (pad hours ++ str ":" ++ pad minutes ++ str ":" ++ pad seconds)
    (str "." ++ padStart 3 "0" (toString milliseconds)).

Inductive element : Type :=
| homeScreen | stopwatchScreen | countdownScreen
| swStartBtn | swPauseBtn | swContBtn
| cdSetBtn | cdClearInputBtn | cdStartBtn | cdPauseBtn | cdContBtn
| cdControls | cdInputControls.

Definition element_eq_dec (a b : element) : {a = b} + {a <> b}.
Proof. decide equality. Defined.

Inductive callback : Type := updateStopwatch_cb | runCountdown_cb.

(** The variables of the script and what the page shows.  swStart and
    cdEnd are undefined until a handler assigns them: arithmetic on
    them gives NaN until then, which is their value here. *)
Record t : Type := mk {
  hidden : element -> bool;
  swDisplay : display;
  cdDisplay : display;
  swInterval : option nat;
  swStart : number;
  swElapsed : number;
  cdDigits : jsstring;
  cdMilliseconds : number;
  cdInterval : option nat;
  cdEnd : number;
  intervals : Intervals.table callback
}.

Definition new (page : element -> bool) (sw cd : display) : t :=
  mk page sw cd None NaN (Num 0) [] (Num 0) None NaN Intervals.empty.

Definition set_hidden (v : element -> bool) (s : t) : t :=
  mk v (swDisplay s) (cdDisplay s) (swInterval s) (swStart s) (swElapsed s)
    (cdDigits s) (cdMilliseconds s) (cdInterval s) (cdEnd s) (intervals s).
Definition set_swDisplay (v : display) (s : t) : t :=
  mk (hidden s) v (cdDisplay s) (swInterval s) (swStart s) (swElapsed s)
    (cdDigits s) (cdMilliseconds s) (cdInterval s) (cdEnd s) (intervals s).
Definition set_cdDisplay (v : display) (s : t) : t :=
  mk (hidden s) (swDisplay s) v (swInterval s) (swStart s) (swElapsed s)
    (cdDigits s) (cdMilliseconds s) (cdInterval s) (cdEnd s) (intervals s).
Definition set_swInterval (v : option nat) (s : t) : t :=
  mk (hidden s) (swDisplay s) (cdDisplay s) v (swStart s) (swElapsed s)
    (cdDigits s) (cdMilliseconds s) (cdInterval s) (cdEnd s) (intervals s).
Definition set_swStart (v : number) (s : t) : t :=
  mk (hidden s) (swDisplay s) (cdDisplay s) (swInterval s) v (swElapsed s)
    (cdDigits s) (cdMilliseconds s) (cdInterval s) (cdEnd s) (intervals s).
Definition set_swElapsed (v : number) (s : t) : t :=
  mk (hidden s) (swDisplay s) (cdDisplay s) (swInterval s) (swStart s) v
    (cdDigits s) (cdMilliseconds s) (cdInterval s) (cdEnd s) (intervals s).
Definition set_cdDigits (v : jsstring) (s : t) : t :=
  mk (hidden s) (swDisplay s) (cdDisplay s) (swInterval s) (swStart s)
    (swElapsed s) v (cdMilliseconds s) (cdInterval s) (cdEnd s) (intervals s).
Definition set_cdMilliseconds (v : number) (s : t) : t :=
  mk (hidden s) (swDisplay s) (cdDisplay s) (swInterval s) (swStart s)
    (swElapsed s) (cdDigits s) v (cdInterval s) (cdEnd s) (intervals s).
Definition set_cdInterval (v : option nat) (s : t) : t :=
  mk (hidden s) (swDisplay s) (cdDisplay s) (swInterval s) (swStart s)
    (swElapsed s) (cdDigits s) (cdMilliseconds s) v (cdEnd s) (intervals s).
Definition set_cdEnd (v : number) (s : t) : t :=
  mk (hidden s) (swDisplay s) (cdDisplay s) (swInterval s) (swStart s)
    (swElapsed s) (cdDigits s) (cdMilliseconds s) (cdInterval s) v
    (intervals s).
Definition set_intervals (v : Intervals.table callback) (s : t) : t :=
  mk (hidden s) (swDisplay s) (cdDisplay s) (swInterval s) (swStart s)
    (swElapsed s) (cdDigits s) (cdMilliseconds s) (cdInterval s) (cdEnd s) v.

Definition hide (e : element) : M t unit :=
  modify (fun s =>
    set_hidden (fun x => if element_eq_dec x e then true else hidden s x) s).
Definition unhide (e : element) : M t unit :=
  modify (fun s =>
    set_hidden (fun x => if element_eq_dec x e then false else hidden s x) s).

(** setInterval(callback, 50), returning the id *)
Definition setInterval (cb : callback) : M t nat :=
  s <- get ;;
  let r := Intervals.setInterval cb (intervals s) in
  modify (set_intervals (snd r)) ;;
  ret (fst r).

Definition clearInterval (id : option nat) : M t unit :=
  modify (fun s => set_intervals (Intervals.clearInterval id (intervals s)) s).

(** function showScreen(screen) *)
Definition showScreen (screen : element) : M t unit :=
  hide homeScreen ;;
  hide stopwatchScreen ;;
  hide countdownScreen ;;
  unhide screen.

(** function updateStopwatch(), an interval callback *)
Definition updateStopwatch (now : Z) : M t unit :=
  s <- get ;;
  let elapsed := add (sub (Num now) (swStart s)) (swElapsed s) in
  modify (set_swDisplay (formatTime elapsed)).

Definition swStartBtn_onclick (now : Z) : M t unit :=
  modify (set_swStart (Num now)) ;;
  id <- setInterval updateStopwatch_cb ;;
  modify (set_swInterval (Some id)) ;;
  hide swStartBtn ;;
  unhide swPauseBtn.

Definition swPauseBtn_onclick (now : Z) : M t unit :=
  s <- get ;;
  clearInterval (swInterval s) ;;
  modify (set_swElapsed (add (swElapsed s) (sub (Num now) (swStart s)))) ;;
  hide swPauseBtn ;;
  unhide swContBtn.

Definition swContBtn_onclick (now : Z) : M t unit :=
  modify (set_swStart (Num now)) ;;
  id <- setInterval updateStopwatch_cb ;;
  modify (set_swInterval (Some id)) ;;
  hide swContBtn ;;
  unhide swPauseBtn.

Definition swClearBtn_onclick : M t unit :=
  s <- get ;;
  clearInterval (swInterval s) ;;
  modify (set_swDisplay (mkDisplay (str "00:00:00") (str ".000"))) ;;
  modify (set_swElapsed (Num 0)) ;;
  unhide swStartBtn ;;
  hide swPauseBtn ;;
  hide swContBtn.

(** function updateCountdownDisplay() *)
Definition updateCountdownDisplay : M t unit :=
  s <- get ;;
  let padded := padStart 6 "0" (cdDigits s) in
  let hours := slice 0 2 padded in
  let minutes := slice 2 4 padded in
  let seconds := slice 4 6 padded in
  modify (set_cdDisplay
            (mkDisplay (hours ++ str ":" ++ minutes ++ str ":" ++ seconds)
               (str ".000"))).

(** The onclick handler of the button made for digit i, 0 <= i <= 9 *)
Definition digit_onclick (i : Z) : M t unit :=
  s <- get ;;
  if (6 <=? List.length (cdDigits s))%nat then ret tt
  else
    modify (set_cdDigits (cdDigits s ++ toString (Num i))) ;;
    updateCountdownDisplay.

(** function getCountdownMilliseconds() *)
Definition getCountdownMilliseconds (cdDigits : jsstring) : number :=
  let padded := padStart 6 "0" cdDigits in
  let h := parseInt (slice 0 2 padded) in
  let m := parseInt (slice 2 4 padded) in
  let s := parseInt (slice 4 6 padded) in
  mul (add (add (mul h (Num 3600)) (mul m (Num 60))) s) (Num 1000).

Definition cdSetBtn_onclick : M t unit :=
  s <- get ;;
  modify (set_cdMilliseconds (getCountdownMilliseconds (cdDigits s))) ;;
  s1 <- get ;;
  if strict_eq (cdMilliseconds s1) (Num 0) then emit (Alert "Set a valid time.")
  else
    hide cdInputControls ;;
    hide cdSetBtn ;;
    hide cdClearInputBtn ;;
    unhide cdControls.

(** function runCountdown(), an interval callback *)
Definition runCountdown (now : Z) : M t unit :=
  s <- get ;;
  let remaining := Math_max (Num 0) (sub (cdEnd s) (Num now)) in
  modify (set_cdDisplay (formatTime remaining)) ;;
  when (leb remaining (Num 0))
    (clearInterval (cdInterval s) ;;
     emit (Alert "Time's up!")).

Definition cdStartBtn_onclick (now : Z) : M t unit :=
  s <- get ;;
  modify (set_cdEnd (add (Num now) (cdMilliseconds s))) ;;
  id <- setInterval runCountdown_cb ;;
  modify (set_cdInterval (Some id)) ;;
  hide cdStartBtn ;;
  unhide cdPauseBtn.

Definition cdPauseBtn_onclick (now : Z) : M t unit :=
  s <- get ;;
  clearInterval (cdInterval s) ;;
  modify (set_cdMilliseconds (Math_max (Num 0) (sub (cdEnd s) (Num now)))) ;;
  hide cdPauseBtn ;;
  unhide cdContBtn.

Definition cdContBtn_onclick (now : Z) : M t unit :=
  s <- get ;;
  modify (set_cdEnd (add (Num now) (cdMilliseconds s))) ;;
  id <- setInterval runCountdown_cb ;;
  modify (set_cdInterval (Some id)) ;;
  hide cdContBtn ;;
  unhide cdPauseBtn.

Definition cdClearBtn_onclick : M t unit :=
  s <- get ;;
  clearInterval (cdInterval s) ;;
  modify (set_cdDigits []) ;;
  modify (set_cdMilliseconds (Num 0)) ;;
  modify (set_cdDisplay (mkDisplay (str "00:00:00") (str ".000"))) ;;
  hide cdControls ;;
  unhide cdInputControls ;;
  unhide cdSetBtn ;;
  unhide cdClearInputBtn ;;
  unhide cdStartBtn ;;
  hide cdPauseBtn ;;
  hide cdContBtn.

Definition cdClearInputBtn_onclick : M t unit :=
  modify (set_cdDigits []) ;;
  updateCountdownDisplay.

(** The browser runs the callback entered under [id], if the table
    still has it. *)
Definition fire (id : nat) (now : Z) : M t unit :=
  s <- get ;;
  match Intervals.callback_of id (intervals s) with
  | Some updateStopwatch_cb => updateStopwatch now
  | Some runCountdown_cb => runCountdown now
  | None => ret tt
  end.

Definition fire_all (ticks : list (nat * Z)) : M t unit :=
  for_each (fun tick => fire (fst tick) (snd tick)) ticks.

Definition is_expiration (e : effect) : bool :=
  match e with
  | Alert msg => String.eqb msg "Time's up!"
  | _ => false
  end.

Definition expirations (out : list effect) : nat :=
  List.length (filter is_expiration out).

End ScriptVariant.

(** ** The TimerBase variant: TimerBase, Stopwatch, Countdown *)

Module TimerBaseVariant.

Module TimerBase.

(** formatTime(ms) *)
Definition formatTime (ms : number) : jsstring :=
  let ms := Math_max (Num 0) ms in
  let hours := floor_div ms 3600000 in
  let minutes := floor_div (rem ms 3600000) 60000 in
  let seconds := floor_div (rem ms 60000) 1000 in
  let milliseconds := rem ms 1000 in
  let pad := fun num => padStart 2 "0" (toString num) in
  pad hours ++ str ":" ++ pad minutes ++ str ":" ++ pad seconds ++ str "."
    ++ padStart 3 "0" (toString milliseconds).

Fixpoint before_dot (s : jsstring) : jsstring :=
  match s with
  | [] => []
  | c :: s' => if Ascii.eqb c "." then [] else c :: before_dot s'
  end.

Fixpoint after_dot (s : jsstring) : jsstring :=
  match s with
  | [] => []
  | c :: s' => if Ascii.eqb c "." then s' else after_dot s'
  end.

(** updateDisplay(timeInMs): the two spans hold the first two pieces
    of the formatted time split at the dots. *)
Definition updateDisplay (timeInMs : number) : display :=
  let f := formatTime timeInMs in
  mkDisplay (before_dot f) (before_dot (after_dot f)).

End TimerBase.

Inductive button_state : Type := initial | running | paused.
Inductive control_state : Type := input | timer.

(** class Stopwatch extends TimerBase *)
Module Stopwatch.

Inductive element : Type := startBtn | pauseBtn | continueBtn | clearBtn.

Definition element_eq_dec (a b : element) : {a = b} + {a <> b}.
Proof. decide equality. Defined.

Record t : Type := mk {
  displayElement : display;
  timerInterval : option nat;
  isRunning : bool;
  startTime : number;
  elapsedTime : number;
  hidden : element -> bool;
  intervals : Intervals.table unit
}.

Definition set_displayElement (v : display) (s : t) : t :=
  mk v (timerInterval s) (isRunning s) (startTime s) (elapsedTime s)
    (hidden s) (intervals s).
Definition set_timerInterval (v : option nat) (s : t) : t :=
  mk (displayElement s) v (isRunning s) (startTime s) (elapsedTime s)
    (hidden s) (intervals s).
Definition set_isRunning (v : bool) (s : t) : t :=
  mk (displayElement s) (timerInterval s) v (startTime s) (elapsedTime s)
    (hidden s) (intervals s).
Definition set_startTime (v : number) (s : t) : t :=
  mk (displayElement s) (timerInterval s) (isRunning s) v (elapsedTime s)
    (hidden s) (intervals s).
Definition set_elapsedTime (v : number) (s : t) : t :=
  mk (displayElement s) (timerInterval s) (isRunning s) (startTime s) v
    (hidden s) (intervals s).
Definition set_hidden (v : element -> bool) (s : t) : t :=
  mk (displayElement s) (timerInterval s) (isRunning s) (startTime s)
    (elapsedTime s) v (intervals s).
Definition set_intervals (v : Intervals.table unit) (s : t) : t :=
  mk (displayElement s) (timerInterval s) (isRunning s) (startTime s)
    (elapsedTime s) (hidden s) v.

Definition hide (e : element) : M t unit :=
  modify (fun s =>
    set_hidden (fun x => if element_eq_dec x e then true else hidden s x) s).
Definition unhide (e : element) : M t unit :=
  modify (fun s =>
    set_hidden (fun x => if element_eq_dec x e then false else hidden s x) s).

Definition updateDisplay (timeInMs : number) : M t unit :=
  modify (set_displayElement (TimerBase.updateDisplay timeInMs)).

Definition updateButtonVisibility (state : button_state) : M t unit :=
  hide startBtn ;;
  hide pauseBtn ;;
  hide continueBtn ;;
  unhide clearBtn ;;
  match state with
  | initial => unhide startBtn
  | running => unhide pauseBtn
  | paused => unhide continueBtn
  end.

(** start(); the interval it sets runs [tick]. *)
Definition start (now : Z) : M t unit :=
  s <- get ;;
  if isRunning s then ret tt
  else
    modify (set_isRunning true) ;;
    modify (set_startTime (sub (Num now) (elapsedTime s))) ;;
    s1 <- get ;;
    let r := Intervals.setInterval tt (intervals s1) in
    modify (set_intervals (snd r)) ;;
    modify (set_timerInterval (Some (fst r))) ;;
    updateButtonVisibility running.

(** The callback of the interval *)
Definition tick (now : Z) : M t unit :=
  s <- get ;;
  modify (set_elapsedTime (sub (Num now) (startTime s))) ;;
  s1 <- get ;;
  updateDisplay (elapsedTime s1).

Definition pause : M t unit :=
  s <- get ;;
  if negb (isRunning s) then ret tt
  else
    modify (set_isRunning false) ;;
    modify (fun s1 =>
      set_intervals (Intervals.clearInterval (timerInterval s1) (intervals s1))
        s1) ;;
    updateButtonVisibility paused.

Definition continue (now : Z) : M t unit := start now.

Definition reset : M t unit :=
  modify (set_isRunning false) ;;
  modify (fun s1 =>
    set_intervals (Intervals.clearInterval (timerInterval s1) (intervals s1))
      s1) ;;
  modify (set_startTime (Num 0)) ;;
  modify (set_elapsedTime (Num 0)) ;;
  updateDisplay (Num 0) ;;
  updateButtonVisibility initial.

Definition fire (id : nat) (now : Z) : M t unit :=
  s <- get ;;
  match Intervals.callback_of id (intervals s) with
  | Some _ => tick now
  | None => ret tt
  end.

End Stopwatch.

(** class Countdown extends TimerBase *)
Module Countdown.

Inductive element : Type :=
| inputControls | timerControls
| startBtn | pauseBtn | continueBtn | clearTimerBtn.

Definition element_eq_dec (a b : element) : {a = b} + {a <> b}.
Proof. decide equality. Defined.

(** startTime is undefined until start() assigns it. *)
Record t : Type := mk {
  displayElement : display;
  timerInterval : option nat;
  isRunning : bool;
  initialTime : number;
  remainingTime : number;
  inputBuffer : list jsstring;
  maxTimeMs : number;
  startTime : number;
  hidden : element -> bool;
  intervals : Intervals.table unit
}.

Definition set_displayElement (v : display) (s : t) : t :=
  mk v (timerInterval s) (isRunning s) (initialTime s) (remainingTime s)
    (inputBuffer s) (maxTimeMs s) (startTime s) (hidden s) (intervals s).
Definition set_timerInterval (v : option nat) (s : t) : t :=
  mk (displayElement s) v (isRunning s) (initialTime s) (remainingTime s)
    (inputBuffer s) (maxTimeMs s) (startTime s) (hidden s) (intervals s).
Definition set_isRunning (v : bool) (s : t) : t :=
  mk (displayElement s) (timerInterval s) v (initialTime s) (remainingTime s)
    (inputBuffer s) (maxTimeMs s) (startTime s) (hidden s) (intervals s).
Definition set_initialTime (v : number) (s : t) : t :=
  mk (displayElement s) (timerInterval s) (isRunning s) v (remainingTime s)
    (inputBuffer s) (maxTimeMs s) (startTime s) (hidden s) (intervals s).
Definition set_remainingTime (v : number) (s : t) : t :=
  mk (displayElement s) (timerInterval s) (isRunning s) (initialTime s) v
    (inputBuffer s) (maxTimeMs s) (startTime s) (hidden s) (intervals s).
Definition set_inputBuffer (v : list jsstring) (s : t) : t :=
  mk (displayElement s) (timerInterval s) (isRunning s) (initialTime s)
    (remainingTime s) v (maxTimeMs s) (startTime s) (hidden s) (intervals s).
Definition set_startTime (v : number) (s : t) : t :=
  mk (displayElement s) (timerInterval s) (isRunning s) (initialTime s)
    (remainingTime s) (inputBuffer s) (maxTimeMs s) v (hidden s)
    (intervals s).
Definition set_hidden (v : element -> bool) (s : t) : t :=
  mk (displayElement s) (timerInterval s) (isRunning s) (initialTime s)
    (remainingTime s) (inputBuffer s) (maxTimeMs s) (startTime s) v
    (intervals s).
Definition set_intervals (v : Intervals.table unit) (s : t) : t :=
  mk (displayElement s) (timerInterval s) (isRunning s) (initialTime s)
    (remainingTime s) (inputBuffer s) (maxTimeMs s) (startTime s) (hidden s)
    v.

Definition hide (e : element) : M t unit :=
  modify (fun s =>
    set_hidden (fun x => if element_eq_dec x e then true else hidden s x) s).
Definition unhide (e : element) : M t unit :=
  modify (fun s =>
    set_hidden (fun x => if element_eq_dec x e then false else hidden s x) s).

Definition clearInterval : M t unit :=
  modify (fun s =>
    set_intervals (Intervals.clearInterval (timerInterval s) (intervals s)) s).

Definition updateDisplay (timeInMs : number) : M t unit :=
  modify (set_displayElement (TimerBase.updateDisplay timeInMs)).

Definition updateButtonVisibility (state : button_state) : M t unit :=
  hide startBtn ;;
  hide pauseBtn ;;
  hide continueBtn ;;
  unhide clearTimerBtn ;;
  match state with
  | initial => unhide startBtn
  | running => unhide pauseBtn
  | paused => unhide continueBtn
  end.

Definition updateControlVisibility (state : control_state) : M t unit :=
  hide inputControls ;;
  hide timerControls ;;
  match state with
  | input => unhide inputControls ;; updateButtonVisibility initial
  | timer => unhide timerControls ;; updateButtonVisibility initial
  end.

(** The milliseconds updateInputDisplay() computes from the digits
    of the buffer. *)
Definition currentInputMs (inputBuffer : list jsstring) : number :=
  let rawTime := List.concat inputBuffer in
  let paddedTime :=
    if (6 <? List.length rawTime)%nat then slice_last 6 rawTime
    else padStart 6 "0" rawTime in
  let hours := parseInt (slice 0 2 paddedTime) in
  let minutes := parseInt (slice 2 4 paddedTime) in
  let seconds := parseInt (slice 4 6 paddedTime) in
  add (add (mul hours (Num 3600000)) (mul minutes (Num 60000)))
    (mul seconds (Num 1000)).

(** updateInputDisplay() *)
Definition updateInputDisplay : M t unit :=
  s <- get ;;
  modify (set_remainingTime (currentInputMs (inputBuffer s))) ;;
  s1 <- get ;;
  updateDisplay (remainingTime s1).

(** appendDigit(digit) *)
Definition appendDigit (digit : jsstring) : M t unit :=
  s <- get ;;
  when (6 <=? List.length (inputBuffer s))%nat
    (modify (fun s1 => set_inputBuffer (tl (inputBuffer s1)) s1)) ;;
  modify (fun s1 => set_inputBuffer (inputBuffer s1 ++ [digit]) s1) ;;
  updateInputDisplay.

(** resetInput() *)
Definition resetInput : M t unit :=
  clearInterval ;;
  modify (set_isRunning false) ;;
  modify (set_inputBuffer []) ;;
  modify (set_initialTime (Num 0)) ;;
  modify (set_remainingTime (Num 0)) ;;
  updateDisplay (Num 0) ;;
  updateControlVisibility input ;;
  updateButtonVisibility initial.

(** resetTimer() *)
Definition resetTimer : M t unit :=
  clearInterval ;;
  modify (set_isRunning false) ;;
  modify (set_initialTime (Num 0)) ;;
  modify (set_remainingTime (Num 0)) ;;
  updateDisplay (Num 0) ;;
  updateControlVisibility input ;;
  updateButtonVisibility initial ;;
  modify (set_inputBuffer []).

(** The constructor, on a page whose elements carry the classes
    [page]: it ends with resetInput(). *)
Definition new (page : element -> bool) : t :=
  exec resetInput
    (mk (mkDisplay [] []) None false (Num 0) (Num 0) []
       (Num (99 * 3600000 + 59 * 60000 + 59 * 1000)) NaN page
       Intervals.empty).

(** The warning setTime() logs for a time above the maximum; what
    this.log writes before it, a time stamp and WARN, is left out. *)
Definition exceeds_message (remainingTime : number) : String.string :=
  String.append "Entered time ("
    (String.append (string_of_list_ascii (TimerBase.formatTime remainingTime))
       ") exceeds maximum allowed (99:59:59).").

(** setTime() *)
Definition setTime : M t unit :=
  try_catch
    (s <- get ;;
     if (List.length (inputBuffer s) =? 0)%nat
        || strict_eq (remainingTime s) (Num 0)
     then
       emit (ConsoleWarn
               "Cannot set countdown to 0. Please enter a valid time.") ;;
       emit (Modal "Please enter a time greater than zero.")
     else if gtb (remainingTime s) (maxTimeMs s) then
       emit (ConsoleWarn (exceeds_message (remainingTime s))) ;;
       emit (Modal "Maximum time allowed is 99:59:59.") ;;
       resetInput
     else
       modify (set_initialTime (remainingTime s)) ;;
       updateControlVisibility timer ;;
       updateButtonVisibility initial)
    (fun message =>
       emit (ConsoleError (String.append "Error in setTime: " message)) ;;
       throw "Failed to set countdown time.").

(** The callback of the interval start() sets *)
Definition tick (now : Z) : M t unit :=
  s <- get ;;
  let elapsedSinceLastUpdate := sub (Num now) (startTime s) in
  modify (set_startTime (Num now)) ;;
  modify (set_remainingTime (sub (remainingTime s) elapsedSinceLastUpdate)) ;;
  s1 <- get ;;
  if leb (remainingTime s1) (Num 0) then
    modify (set_remainingTime (Num 0)) ;;
    clearInterval ;;
    modify (set_isRunning false) ;;
    updateDisplay (Num 0) ;;
    emit (Modal "Countdown Expired!") ;;
    updateControlVisibility input ;;
    resetInput
  else
    updateDisplay (remainingTime s1).

(** start() *)
Definition start (now : Z) : M t unit :=
  s <- get ;;
  if isRunning s then ret tt
  else if leb (remainingTime s) (Num 0) then
    emit (ConsoleWarn "Cannot start countdown, time is zero or less.") ;;
    emit (Modal "Countdown is zero. Please set a time.") ;;
    resetInput
  else
    modify (set_isRunning true) ;;
    modify (set_startTime (Num now)) ;;
    s1 <- get ;;
    let r := Intervals.setInterval tt (intervals s1) in
    modify (set_intervals (snd r)) ;;
    modify (set_timerInterval (Some (fst r))) ;;
    updateButtonVisibility running.

Definition pause : M t unit :=
  s <- get ;;
  if negb (isRunning s) then ret tt
  else
    modify (set_isRunning false) ;;
    clearInterval ;;
    updateButtonVisibility paused.

Definition continue (now : Z) : M t unit := start now.

Definition fire (id : nat) (now : Z) : M t unit :=
  s <- get ;;
  match Intervals.callback_of id (intervals s) with
  | Some _ => tick now
  | None => ret tt
  end.

Definition is_expiration (e : effect) : bool :=
  match e with
  | Modal msg => String.eqb msg "Countdown Expired!"
  | _ => false
  end.

End Countdown.

End TimerBaseVariant.

(** ** The time formatter as the specification words it *)

Definition spec_hours (ms : Z) : Z := ms / 3600000.
Definition spec_minutes (ms : Z) : Z := (ms mod 3600000) / 60000.
Definition spec_seconds (ms : Z) : Z := (ms mod 60000) / 1000.
Definition spec_millis (ms : Z) : Z := ms mod 1000.

(** A non-negative integer written in decimal and zero-padded on the
    left to at least [width] characters. *)
Definition zero_padded (width : nat) (v : Z) : jsstring :=
  padStart width "0" (decimal (Z.to_N v)).

(** ** The digit buffer as the specification words it *)

Definition is_digit (d : Z) : Prop := 0 <= d <= 9.

(** The text of the button of digit d, and of a row of buttons pressed
    one after the other. *)
Definition digit_text (d : Z) : jsstring := toString (Num d).

Definition digits_text (ds : list Z) : jsstring :=
  List.concat (map digit_text ds).

(** The character of digit d. *)
Definition digit_char (d : Z) : ascii := ascii_of_nat (Z.to_nat (48 + d)).

(** The last n elements of a list, all of it when it is shorter. *)
Definition last_n {A : Type} (n : nat) (l : list A) : list A :=
  skipn (List.length l - n) l.

(** At most six digits, left-padded with zeros to six, read as HHMMSS:
    (HH * 3600 + MM * 60 + SS) * 1000 milliseconds. *)
Definition hhmmss_ms (ds : list Z) : Z :=
  let p := repeat 0 (6 - List.length ds) ++ ds in
  let HH := 10 * nth 0 p 0 + nth 1 p 0 in
  let MM := 10 * nth 2 p 0 + nth 3 p 0 in
  let SS := 10 * nth 4 p 0 + nth 5 p 0 in
  (HH * 3600 + MM * 60 + SS) * 1000.

(** The same digits as the text HH:MM:SS. *)
Definition hhmmss_text (ds : list Z) : jsstring :=
  let p := repeat 0 (6 - List.length ds) ++ ds in
  digits_text (firstn 2 p) ++ str ":" ++ digits_text (firstn 2 (skipn 2 p))
    ++ str ":" ++ digits_text (firstn 2 (skipn 4 p)).

(** Pressing digit buttons one after the other in each variant. *)
Definition class_press (ds : list Z) : M ClassVariant.UIController.t unit :=
  for_each (fun d => ClassVariant.UIController.handleNumberInput (digit_text d)) ds.

Definition script_press (ds : list Z) : M ScriptVariant.t unit :=
  for_each ScriptVariant.digit_onclick ds.

Definition timerbase_press (ds : list Z)
  : M TimerBaseVariant.Countdown.t unit :=
  for_each (fun d => TimerBaseVariant.Countdown.appendDigit (digit_text d)) ds.

(** ** Sample states

    A page none of whose elements is hidden, with blank displays, and
    each variant's state when its script has just run on it. *)

Definition blank : display := mkDisplay [] [].

Definition class_ui0 : ClassVariant.UIController.t :=
  ClassVariant.UIController.new (fun _ => false) blank blank.

Definition script0 : ScriptVariant.t :=
  ScriptVariant.new (fun _ => false) blank blank.

Definition timerbase0 : TimerBaseVariant.Countdown.t :=
  TimerBaseVariant.Countdown.new (fun _ => false).

(** ** Phases of a countdown run of the class variant

    [armed d t0]: the countdown screen and its controls are shown, the
    timer runs towards the duration d from the anchor t0 with its next
    frame requested, and nothing was notified.  [expired]: the timer stopped at zero with hasExpired
    set.  [fired] counts the notification the display loop has given
    for it. *)

Definition armed (d t0 : Z) (ui : ClassVariant.UIController.t) : Prop :=
  let c := ClassVariant.UIController.countdownTimer ui in
  ClassVariant.UIController.hidden ui ClassVariant.UIController.countdownScreen
  = false
  /\ ClassVariant.UIController.hidden ui
       ClassVariant.UIController.countdownControls = false
  /\ ClassVariant.CountdownTimer.isRunning c = true
  /\ ClassVariant.CountdownTimer.initialTime c = Num d
  /\ ClassVariant.CountdownTimer.startTime c = Num t0
  /\ ClassVariant.CountdownTimer.hasExpired c = false
  /\ ClassVariant.UIController.countdownExpired ui = false
  /\ ClassVariant.CountdownTimer.animationFrame c = true.

Definition expired (ui : ClassVariant.UIController.t) : Prop :=
  let c := ClassVariant.UIController.countdownTimer ui in
  ClassVariant.UIController.hidden ui ClassVariant.UIController.countdownScreen
  = false
  /\ ClassVariant.UIController.hidden ui
       ClassVariant.UIController.countdownControls = false
  /\ ClassVariant.CountdownTimer.isRunning c = false
  /\ ClassVariant.CountdownTimer.hasExpired c = true
  /\ ClassVariant.CountdownTimer.remainingTime c = Num 0.

Definition fired (ui : ClassVariant.UIController.t) : nat :=
  if ClassVariant.UIController.countdownExpired ui then 1%nat else 0%nat.

(** The frames of the countdown timer in [fs] all come before [limit]. *)
Definition frames_before (limit : Z) (fs : list ClassVariant.UIController.frame)
  : Prop :=
  forall now, In (ClassVariant.UIController.CountdownFrame now) fs -> now < limit.

(** A countdown run of the class variant: Set, Start, then the frames
    the browser runs. *)
Definition countdown_run (t0 t0' : Z) (fs : list ClassVariant.UIController.frame)
  : M ClassVariant.UIController.t unit :=
  ClassVariant.UIController.setCountdownTime ;;
  ClassVariant.UIController.startCountdown t0 t0' ;;
  ClassVariant.UIController.run_frames fs.

(** What a run has reached after [n] expiration alerts. *)
Definition run_phase (d t0 : Z) (ui : ClassVariant.UIController.t) (n : nat)
  : Prop :=
  (armed d t0 ui /\ n = 0%nat) \/ (expired ui /\ n = fired ui).

(** ** Reachable states of the countdown engines

    The calls a CountdownTimer of the class variant can receive, with
    the integers they are given and the clock readings they make. *)

Inductive countdown_op : Type :=
| OpSetTime (ms : Z)
| OpStart (now now' : Z)
| OpStop
| OpReset
| OpClear
| OpUpdate (now : Z).

Definition run_op (o : countdown_op) : M ClassVariant.CountdownTimer.t unit :=
  match o with
  | OpSetTime ms => ClassVariant.CountdownTimer.setTime (Num ms)
  | OpStart now now' => ClassVariant.CountdownTimer.start now now'
  | OpStop => ClassVariant.CountdownTimer.stop
  | OpReset => ClassVariant.CountdownTimer.reset
  | OpClear => ClassVariant.CountdownTimer.clear
  | OpUpdate now => ClassVariant.CountdownTimer._update now
  end.

(** The clock does not go back: a reading is not before the reading
    start() stored in startTime. *)
Definition clock_ok (s : ClassVariant.CountdownTimer.t) (o : countdown_op)
  : Prop :=
  match o with
  | OpStart now now' => now <= now'
  | OpUpdate now =>
      forall t, ClassVariant.CountdownTimer.startTime s = Num t -> t <= now
  | _ => True
  end.

Inductive reachable : ClassVariant.CountdownTimer.t -> Prop :=
| reachable_new : reachable ClassVariant.CountdownTimer.new
| reachable_op (s : ClassVariant.CountdownTimer.t) (o : countdown_op) :
    reachable s -> clock_ok s o -> reachable (exec (run_op o) s).

Definition configures (o : countdown_op) : bool :=
  match o with
  | OpSetTime _ | OpClear => true
  | _ => false
  end.

(** The calls a Countdown of the TimerBase variant can receive. *)
Inductive timerbase_op : Type :=
| TbAppendDigit (d : Z)
| TbSetTime
| TbStart (now : Z)
| TbTick (now : Z)
| TbPause
| TbContinue (now : Z)
| TbResetInput
| TbResetTimer.

Definition run_timerbase_op (o : timerbase_op)
  : M TimerBaseVariant.Countdown.t unit :=
  match o with
  | TbAppendDigit d => TimerBaseVariant.Countdown.appendDigit (digit_text d)
  | TbSetTime => TimerBaseVariant.Countdown.setTime
  | TbStart now => TimerBaseVariant.Countdown.start now
  | TbTick now => TimerBaseVariant.Countdown.tick now
  | TbPause => TimerBaseVariant.Countdown.pause
  | TbContinue now => TimerBaseVariant.Countdown.continue now
  | TbResetInput => TimerBaseVariant.Countdown.resetInput
  | TbResetTimer => TimerBaseVariant.Countdown.resetTimer
  end.

Definition timerbase_clock_ok (c : TimerBaseVariant.Countdown.t)
  (o : timerbase_op) : Prop :=
  match o with
  | TbTick now =>
      exists t, TimerBaseVariant.Countdown.startTime c = Num t /\ t <= now
  | _ => True
  end.

Definition is_digit_entry (o : timerbase_op) : bool :=
  match o with
  | TbAppendDigit _ => true
  | _ => false
  end.

(** remainingTime <= initialTime, both being integers. *)
Definition within_initial (initialTime remainingTime : number) : Prop :=
  exists i r, initialTime = Num i /\ remainingTime = Num r /\ r <= i.

(** ** Stretches of running of the three stopwatches

    A stretch of the class variant's Timer: start() reading [a] and
    then [a'], the frames reading [us], stop().  Its length is the last
    reading less the first. *)

Definition class_stretch (st : Z * Z * list Z) : M ClassVariant.Timer.t unit :=
  let '(a, a', us) := st in
  ClassVariant.Timer.start a a' ;;
  for_each ClassVariant.Timer._update us ;;
  ClassVariant.Timer.stop.

Definition class_stretch_length (st : Z * Z * list Z) : Z :=
  let '(a, a', us) := st in last us a' - a.

(** A stretch of the script variant's stopwatch: the handler of
    Continue at [a], the updates the interval makes at [us], the handler
    of Pause at [b]. *)
Definition script_stretch (st : Z * list Z * Z) : M ScriptVariant.t unit :=
  let '(a, us, b) := st in
  ScriptVariant.swContBtn_onclick a ;;
  for_each ScriptVariant.updateStopwatch us ;;
  ScriptVariant.swPauseBtn_onclick b.

Definition script_stretch_length (st : Z * list Z * Z) : Z :=
  let '(a, us, b) := st in b - a.

(** A stretch of the TimerBase variant's Stopwatch: start() at [a], the
    ticks of the interval at [us], pause().  Only the ticks move
    elapsedTime: the stretch counts up to its last tick. *)
Definition timerbase_stretch (st : Z * list Z)
  : M TimerBaseVariant.Stopwatch.t unit :=
  let '(a, us) := st in
  TimerBaseVariant.Stopwatch.start a ;;
  for_each TimerBaseVariant.Stopwatch.tick us ;;
  TimerBaseVariant.Stopwatch.pause.

Definition timerbase_stretch_length (st : Z * list Z) : Z :=
  let '(a, us) := st in
  match us with
  | [] => 0
  | _ => last us a - a
  end.

Definition total (lengths : list Z) : Z := fold_right Z.add 0 lengths.

(** The TimerBase variant's Stopwatch when its constructor, which ends
    with reset(), has run on a page none of whose buttons is hidden. *)
Definition timerbase_stopwatch0 : TimerBaseVariant.Stopwatch.t :=
  exec TimerBaseVariant.Stopwatch.reset
    (TimerBaseVariant.Stopwatch.mk blank None false (Num 0) (Num 0)
       (fun _ => false) Intervals.empty).

(** ** Histories of calls

    The states a CountdownTimer of the class variant reaches from a new
    one by any calls, whatever the clock reads. *)
Inductive countdown_history : ClassVariant.CountdownTimer.t -> Prop :=
| history_new : countdown_history ClassVariant.CountdownTimer.new
| history_op (s : ClassVariant.CountdownTimer.t) (o : countdown_op) :
    countdown_history s -> countdown_history (exec (run_op o) s).

(** ** Entering a time in the class variant

    The three actions on the input, and what they make of the row of
    digits typed so far. *)
Inductive input_op : Type :=
| Press (d : Z)
| Backspace
| ClearInput.

Definition class_input (o : input_op) : M ClassVariant.UIController.t unit :=
  match o with
  | Press d => ClassVariant.UIController.handleNumberInput (digit_text d)
  | Backspace => ClassVariant.UIController.handleBackspace
  | ClearInput => ClassVariant.UIController.clearCountdownInput
  end.

Definition typed (l : list Z) (o : input_op) : list Z :=
  match o with
  | Press d => last_n 6 (l ++ [d])
  | Backspace => removelast l
  | ClearInput => []
  end.

Definition presses_digits (o : input_op) : Prop :=
  match o with
  | Press d => is_digit d
  | _ => True
  end.

(** ** The screens of the class variant, by the names showScreen takes *)
Definition screens : list (String.string * ClassVariant.UIController.element) :=
  [("home"%string, ClassVariant.UIController.homeScreen);
   ("stopwatch"%string, ClassVariant.UIController.stopwatchScreen);
   ("countdown"%string, ClassVariant.UIController.countdownScreen)].

Definition is_screen (screen : String.string) : bool :=
  existsb (fun p => String.eqb screen (fst p)) screens.

(** ** Histories of calls of the TimerBase variant's Stopwatch

    The Stopwatch the constructor leaves on a page whose buttons carry
    the classes [page], the calls it can then receive (the four
    handlers, and a tick of the interval of some id), and the states
    they lead to. *)
Definition stopwatch_constructed (page : TimerBaseVariant.Stopwatch.element -> bool)
  : TimerBaseVariant.Stopwatch.t :=
  exec TimerBaseVariant.Stopwatch.reset
    (TimerBaseVariant.Stopwatch.mk blank None false (Num 0) (Num 0) page
       Intervals.empty).

Inductive stopwatch_call : Type :=
| SwStart (now : Z)
| SwPause
| SwContinue (now : Z)
| SwReset
| SwFire (id : nat) (now : Z).

Definition run_stopwatch_call (c : stopwatch_call)
  : M TimerBaseVariant.Stopwatch.t unit :=
  match c with
  | SwStart now => TimerBaseVariant.Stopwatch.start now
  | SwPause => TimerBaseVariant.Stopwatch.pause
  | SwContinue now => TimerBaseVariant.Stopwatch.continue now
  | SwReset => TimerBaseVariant.Stopwatch.reset
  | SwFire id now => TimerBaseVariant.Stopwatch.fire id now
  end.

Inductive stopwatch_history : TimerBaseVariant.Stopwatch.t -> Prop :=
| stopwatch_history_new (page : TimerBaseVariant.Stopwatch.element -> bool) :
    stopwatch_history (stopwatch_constructed page)
| stopwatch_history_call (s : TimerBaseVariant.Stopwatch.t) (c : stopwatch_call) :
    stopwatch_history s -> stopwatch_history (exec (run_stopwatch_call c) s).

(** The intervals a Stopwatch has live: the one timerInterval names
    while it runs, none otherwise. *)
Definition stopwatch_intervals_ok (s : TimerBaseVariant.Stopwatch.t) : Prop :=
  if TimerBaseVariant.Stopwatch.isRunning s
  then exists id,
      TimerBaseVariant.Stopwatch.timerInterval s = Some id
      /\ Intervals.active (TimerBaseVariant.Stopwatch.intervals s) = [(id, tt)]
  else Intervals.active (TimerBaseVariant.Stopwatch.intervals s) = [].

(** Which of Start, Pause and Continue is shown, if exactly one is. *)
Definition stopwatch_shown (s : TimerBaseVariant.Stopwatch.t)
  : option TimerBaseVariant.button_state :=
  match TimerBaseVariant.Stopwatch.hidden s TimerBaseVariant.Stopwatch.startBtn,
        TimerBaseVariant.Stopwatch.hidden s TimerBaseVariant.Stopwatch.pauseBtn,
        TimerBaseVariant.Stopwatch.hidden s TimerBaseVariant.Stopwatch.continueBtn
  with
  | false, true, true => Some TimerBaseVariant.initial
  | true, false, true => Some TimerBaseVariant.running
  | true, true, false => Some TimerBaseVariant.paused
  | _, _, _ => None
  end.

(** What every history of a Stopwatch keeps. *)
Definition stopwatch_ok (s : TimerBaseVariant.Stopwatch.t) : Prop :=
  stopwatch_intervals_ok s
  /\ (exists b, stopwatch_shown s = Some b
      /\ (b = TimerBaseVariant.running <-> TimerBaseVariant.Stopwatch.isRunning s = true)
      /\ (b = TimerBaseVariant.initial -> TimerBaseVariant.Stopwatch.elapsedTime s = Num 0))
  /\ TimerBaseVariant.Stopwatch.hidden s TimerBaseVariant.Stopwatch.clearBtn
     = false.

(** ** Histories of calls of the TimerBase variant's Countdown

    The calls a Countdown can receive from the page: the seven
    handlers, and a tick of the interval of some id.  A history starts
    with the constructor. *)
Inductive countdown_call : Type :=
| CdDigit (digit : jsstring)
| CdSet
| CdClearInput
| CdStart (now : Z)
| CdPause
| CdContinue (now : Z)
| CdClearTimer
| CdFire (id : nat) (now : Z).

Definition run_countdown_call (c : countdown_call)
  : M TimerBaseVariant.Countdown.t unit :=
  match c with
  | CdDigit digit => TimerBaseVariant.Countdown.appendDigit digit
  | CdSet => TimerBaseVariant.Countdown.setTime
  | CdClearInput => TimerBaseVariant.Countdown.resetInput
  | CdStart now => TimerBaseVariant.Countdown.start now
  | CdPause => TimerBaseVariant.Countdown.pause
  | CdContinue now => TimerBaseVariant.Countdown.continue now
  | CdClearTimer => TimerBaseVariant.Countdown.resetTimer
  | CdFire id now => TimerBaseVariant.Countdown.fire id now
  end.

Inductive timerbase_countdown_history : TimerBaseVariant.Countdown.t -> Prop :=
| timerbase_countdown_new (page : TimerBaseVariant.Countdown.element -> bool) :
    timerbase_countdown_history (TimerBaseVariant.Countdown.new page)
| timerbase_countdown_call (s : TimerBaseVariant.Countdown.t)
    (c : countdown_call) :
    timerbase_countdown_history s ->
    timerbase_countdown_history (exec (run_countdown_call c) s).

(** The intervals a Countdown has live: the one timerInterval names
    while it runs, none otherwise. *)
Definition countdown_intervals_ok (s : TimerBaseVariant.Countdown.t) : Prop :=
  if TimerBaseVariant.Countdown.isRunning s
  then exists id,
      TimerBaseVariant.Countdown.timerInterval s = Some id
      /\ Intervals.active (TimerBaseVariant.Countdown.intervals s) = [(id, tt)]
  else Intervals.active (TimerBaseVariant.Countdown.intervals s) = [].

(** Which of Start, Pause and Continue is shown, if exactly one is,
    and which of the two groups of controls. *)
Definition countdown_shown (s : TimerBaseVariant.Countdown.t)
  : option TimerBaseVariant.button_state :=
  match TimerBaseVariant.Countdown.hidden s TimerBaseVariant.Countdown.startBtn,
        TimerBaseVariant.Countdown.hidden s TimerBaseVariant.Countdown.pauseBtn,
        TimerBaseVariant.Countdown.hidden s TimerBaseVariant.Countdown.continueBtn
  with
  | false, true, true => Some TimerBaseVariant.initial
  | true, false, true => Some TimerBaseVariant.running
  | true, true, false => Some TimerBaseVariant.paused
  | _, _, _ => None
  end.

Definition controls_shown (s : TimerBaseVariant.Countdown.t)
  : option TimerBaseVariant.control_state :=
  match TimerBaseVariant.Countdown.hidden s
          TimerBaseVariant.Countdown.inputControls,
        TimerBaseVariant.Countdown.hidden s
          TimerBaseVariant.Countdown.timerControls
  with
  | false, true => Some TimerBaseVariant.input
  | true, false => Some TimerBaseVariant.timer
  | _, _ => None
  end.

(** What every history of a Countdown keeps. *)
Definition countdown_ok (s : TimerBaseVariant.Countdown.t) : Prop :=
  countdown_intervals_ok s
  /\ (exists b, countdown_shown s = Some b
      /\ (b = TimerBaseVariant.running
          -> TimerBaseVariant.Countdown.isRunning s = true)
      /\ (b = TimerBaseVariant.paused
          -> TimerBaseVariant.Countdown.isRunning s = false))
  /\ (exists p, controls_shown s = Some p)
  /\ TimerBaseVariant.Countdown.hidden s TimerBaseVariant.Countdown.clearTimerBtn
     = false.

(** A string without a dot. *)
Definition no_dot (s : jsstring) : Prop := Forall (fun c => c <> "."%char) s.

(** The two-digit field of the padded row that starts at position k:
    the minutes at 2 and the seconds at 4. *)
Definition typed_field (k : nat) (ds : list Z) : Z :=
  let p := repeat 0 (6 - List.length ds) ++ ds in
  10 * nth k p 0 + nth (S k) p 0.

(** ** A run of the TimerBase variant's Countdown

    [counting id r t0 t c]: the countdown [c] runs on the interval [id]
    alone; it was started at [t0] with [r] ms remaining and has last
    ticked at [t] (or not yet, when [t] is [t0]). *)
Definition counting (id : nat) (r t0 t : Z) (c : TimerBaseVariant.Countdown.t)
  : Prop :=
  TimerBaseVariant.Countdown.isRunning c = true
  /\ TimerBaseVariant.Countdown.timerInterval c = Some id
  /\ Intervals.active (TimerBaseVariant.Countdown.intervals c) = [(id, tt)]
  /\ TimerBaseVariant.Countdown.startTime c = Num t
  /\ TimerBaseVariant.Countdown.remainingTime c = Num (r - (t - t0)).

(** The run: start() at [t0], the ticks of its interval at [us], the
    tick at [now], the ticks at [late]. *)
Definition timerbase_run (id : nat) (t0 : Z) (us : list Z) (now : Z)
  (late : list Z) : M TimerBaseVariant.Countdown.t unit :=
  TimerBaseVariant.Countdown.start t0 ;;
  for_each (TimerBaseVariant.Countdown.fire id) us ;;
  TimerBaseVariant.Countdown.fire id now ;;
  for_each (TimerBaseVariant.Countdown.fire id) late.

(** ** A run of the script variant's countdown

    The ids of a table of intervals are below the next id it gives. *)
Definition table_fresh {C : Type} (tb : Intervals.table C) : Prop :=
  Forall (fun e => (fst e < Intervals.next_id tb)%nat) (Intervals.active tb).

(** [script_counting id e s]: the countdown runs towards the end [e] on
    the interval [id], whose callback is runCountdown. *)
Definition script_counting (id : nat) (e : Z) (s : ScriptVariant.t) : Prop :=
  ScriptVariant.cdEnd s = Num e
  /\ ScriptVariant.cdInterval s = Some id
  /\ Intervals.callback_of id (ScriptVariant.intervals s)
     = Some ScriptVariant.runCountdown_cb.

(** The run: Start clicked at [t0], the ticks of its interval at [us],
    the tick at [now], the ticks at [late]. *)
Definition script_run (id : nat) (t0 : Z) (us : list Z) (now : Z)
  (late : list Z) : M ScriptVariant.t unit :=
  ScriptVariant.cdStartBtn_onclick t0 ;;
  for_each (ScriptVariant.fire id) us ;;
  ScriptVariant.fire id now ;;
  for_each (ScriptVariant.fire id) late.

(** ** Sessions at the stopwatch of the class variant

    The clicks on the four buttons of the stopwatch, the button each
    lands on and the handler it runs.  A session starts with the
    constructor on a page that shows Start and hides Pause and
    Continue, or with a click on Clear; it goes on with clicks on
    buttons that are not hidden, with the frames of the browser and
    with changes of screen. *)
Inductive stopwatch_click : Type :=
| ClickStart (now now' : Z)
| ClickPause
| ClickContinue (now now' : Z)
| ClickClear.

(** The click lands on a button that is not hidden; the script never
    changes the classes of Clear. *)
Definition can_click (ui : ClassVariant.UIController.t) (c : stopwatch_click)
  : Prop :=
  match c with
  | ClickStart _ _ =>
      ClassVariant.UIController.hidden ui
        ClassVariant.UIController.startStopwatchBtn = false
  | ClickPause =>
      ClassVariant.UIController.hidden ui
        ClassVariant.UIController.pauseStopwatchBtn = false
  | ClickContinue _ _ =>
      ClassVariant.UIController.hidden ui
        ClassVariant.UIController.continueStopwatchBtn = false
  | ClickClear => True
  end.

Definition run_stopwatch_click (c : stopwatch_click)
  : M ClassVariant.UIController.t unit :=
  match c with
  | ClickStart now now' => ClassVariant.UIController.startStopwatch now now'
  | ClickPause => ClassVariant.UIController.pauseStopwatch
  | ClickContinue now now' => ClassVariant.UIController.continueStopwatch now now'
  | ClickClear => ClassVariant.UIController.clearStopwatch
  end.

Inductive stopwatch_session : ClassVariant.UIController.t -> Prop :=
| session_new (page : ClassVariant.UIController.element -> bool)
    (sw cd : display) :
    page ClassVariant.UIController.startStopwatchBtn = false ->
    page ClassVariant.UIController.pauseStopwatchBtn = true ->
    page ClassVariant.UIController.continueStopwatchBtn = true ->
    stopwatch_session (ClassVariant.UIController.new page sw cd)
| session_cleared (ui : ClassVariant.UIController.t) :
    stopwatch_session (exec ClassVariant.UIController.clearStopwatch ui)
| session_click (ui : ClassVariant.UIController.t) (c : stopwatch_click) :
    stopwatch_session ui ->
    can_click ui c ->
    stopwatch_session (exec (run_stopwatch_click c) ui)
| session_frame (ui : ClassVariant.UIController.t)
    (f : ClassVariant.UIController.frame) :
    stopwatch_session ui ->
    stopwatch_session (exec (ClassVariant.UIController.run_frame f) ui)
| session_screen (ui : ClassVariant.UIController.t) (screen : String.string) :
    stopwatch_session ui ->
    stopwatch_session (exec (ClassVariant.UIController.showScreen screen) ui).

(** Which of Start, Pause and Continue is shown, if exactly one is. *)
Definition class_stopwatch_shown (ui : ClassVariant.UIController.t)
  : option TimerBaseVariant.button_state :=
  match ClassVariant.UIController.hidden ui
          ClassVariant.UIController.startStopwatchBtn,
        ClassVariant.UIController.hidden ui
          ClassVariant.UIController.pauseStopwatchBtn,
        ClassVariant.UIController.hidden ui
          ClassVariant.UIController.continueStopwatchBtn
  with
  | false, true, true => Some TimerBaseVariant.initial
  | true, false, true => Some TimerBaseVariant.running
  | true, true, false => Some TimerBaseVariant.paused
  | _, _, _ => None
  end.

(** What every session keeps. *)
Definition session_ok (ui : ClassVariant.UIController.t) : Prop :=
  exists b, class_stopwatch_shown ui = Some b
    /\ (b = TimerBaseVariant.running
        <-> ClassVariant.Timer.isRunning (ClassVariant.UIController.stopwatch ui)
            = true)
    /\ (b = TimerBaseVariant.initial
        -> ClassVariant.Timer.elapsedTime (ClassVariant.UIController.stopwatch ui)
           = Num 0).

(** The warnings among the effects of a method. *)
Definition is_warning (e : effect) : bool :=
  match e with
  | ConsoleWarn _ => true
  | _ => false
  end.

(** ** Sessions of the script variant

    What the user and the browser do to the page of the script
    variant: clicks on the buttons of the stopwatch and of the
    countdown, ticks of an interval, changes of screen.  A click needs
    its button not to be hidden, where the script hides it; the digit
    buttons are children of cdInputControls. *)
Inductive script_action : Type :=
| SwStartClick (now : Z)
| SwPauseClick (now : Z)
| SwContClick (now : Z)
| SwClearClick
| CdDigitClick (i : Z)
| CdSetClick
| CdClearInputClick
| CdStartClick (now : Z)
| CdPauseClick (now : Z)
| CdContClick (now : Z)
| CdClearClick
| Tick (id : nat) (now : Z)
| ShowHome
| ShowStopwatch
| ShowCountdown.

Definition run_script_action (a : script_action) : M ScriptVariant.t unit :=
  match a with
  | SwStartClick now => ScriptVariant.swStartBtn_onclick now
  | SwPauseClick now => ScriptVariant.swPauseBtn_onclick now
  | SwContClick now => ScriptVariant.swContBtn_onclick now
  | SwClearClick => ScriptVariant.swClearBtn_onclick
  | CdDigitClick i => ScriptVariant.digit_onclick i
  | CdSetClick => ScriptVariant.cdSetBtn_onclick
  | CdClearInputClick => ScriptVariant.cdClearInputBtn_onclick
  | CdStartClick now => ScriptVariant.cdStartBtn_onclick now
  | CdPauseClick now => ScriptVariant.cdPauseBtn_onclick now
  | CdContClick now => ScriptVariant.cdContBtn_onclick now
  | CdClearClick => ScriptVariant.cdClearBtn_onclick
  | Tick id now => ScriptVariant.fire id now
  | ShowHome => ScriptVariant.showScreen ScriptVariant.homeScreen
  | ShowStopwatch => ScriptVariant.showScreen ScriptVariant.stopwatchScreen
  | ShowCountdown => ScriptVariant.showScreen ScriptVariant.countdownScreen
  end.

Definition script_can (s : ScriptVariant.t) (a : script_action) : Prop :=
  match a with
  | SwStartClick _ => ScriptVariant.hidden s ScriptVariant.swStartBtn = false
  | SwPauseClick _ => ScriptVariant.hidden s ScriptVariant.swPauseBtn = false
  | SwContClick _ => ScriptVariant.hidden s ScriptVariant.swContBtn = false
  | CdDigitClick _ =>
      ScriptVariant.hidden s ScriptVariant.cdInputControls = false
  | CdSetClick => ScriptVariant.hidden s ScriptVariant.cdSetBtn = false
  | CdClearInputClick =>
      ScriptVariant.hidden s ScriptVariant.cdClearInputBtn = false
  | CdStartClick _ => ScriptVariant.hidden s ScriptVariant.cdStartBtn = false
  | CdPauseClick _ => ScriptVariant.hidden s ScriptVariant.cdPauseBtn = false
  | CdContClick _ => ScriptVariant.hidden s ScriptVariant.cdContBtn = false
  | _ => True
  end.

(** The page shows Start alone, for the stopwatch and for the
    countdown. *)
Definition script_page_ok (page : ScriptVariant.element -> bool) : Prop :=
  page ScriptVariant.swStartBtn = false
  /\ page ScriptVariant.swPauseBtn = true
  /\ page ScriptVariant.swContBtn = true
  /\ page ScriptVariant.cdStartBtn = false
  /\ page ScriptVariant.cdPauseBtn = true
  /\ page ScriptVariant.cdContBtn = true.

Inductive script_session : ScriptVariant.t -> Prop :=
| script_session_new (page : ScriptVariant.element -> bool) (sw cd : display) :
    script_page_ok page -> script_session (ScriptVariant.new page sw cd)
| script_session_step (s : ScriptVariant.t) (a : script_action) :
    script_session s -> script_can s a ->
    script_session (exec (run_script_action a) s).

(** The live intervals of a callback. *)
Definition is_callback (cb : ScriptVariant.callback)
  (e : nat * ScriptVariant.callback) : bool :=
  match cb, snd e with
  | ScriptVariant.updateStopwatch_cb, ScriptVariant.updateStopwatch_cb => true
  | ScriptVariant.runCountdown_cb, ScriptVariant.runCountdown_cb => true
  | _, _ => false
  end.

Definition live (cb : ScriptVariant.callback) (s : ScriptVariant.t)
  : list (nat * ScriptVariant.callback) :=
  filter (is_callback cb) (Intervals.active (ScriptVariant.intervals s)).

(** Which of Start, Pause and Continue is shown, if exactly one is. *)
Definition shown_of (start pause cont : bool)
  : option TimerBaseVariant.button_state :=
  match start, pause, cont with
  | false, true, true => Some TimerBaseVariant.initial
  | true, false, true => Some TimerBaseVariant.running
  | true, true, false => Some TimerBaseVariant.paused
  | _, _, _ => None
  end.

Definition script_stopwatch_shown (s : ScriptVariant.t)
  : option TimerBaseVariant.button_state :=
  shown_of (ScriptVariant.hidden s ScriptVariant.swStartBtn)
    (ScriptVariant.hidden s ScriptVariant.swPauseBtn)
    (ScriptVariant.hidden s ScriptVariant.swContBtn).

Definition script_countdown_shown (s : ScriptVariant.t)
  : option TimerBaseVariant.button_state :=
  shown_of (ScriptVariant.hidden s ScriptVariant.cdStartBtn)
    (ScriptVariant.hidden s ScriptVariant.cdPauseBtn)
    (ScriptVariant.hidden s ScriptVariant.cdContBtn).

(** What a session keeps of the table of intervals: its ids are fresh
    and distinct; a live interval of updateStopwatch is the one
    swInterval names and goes with a shown Pause button of the
    stopwatch, and likewise for runCountdown and cdInterval; the two
    variables name intervals the table has given, and not the same. *)
Definition entry_ok (swi cdi : option nat) (swp cdp : bool)
  (e : nat * ScriptVariant.callback) : Prop :=
  match snd e with
  | ScriptVariant.updateStopwatch_cb => swi = Some (fst e) /\ swp = false
  | ScriptVariant.runCountdown_cb => cdi = Some (fst e) /\ cdp = false
  end.

Definition table_ok (swi cdi : option nat) (swp cdp : bool)
  (act : list (nat * ScriptVariant.callback)) (nx : nat) : Prop :=
  Forall (fun e => (fst e < nx)%nat) act
  /\ NoDup (map fst act)
  /\ Forall (entry_ok swi cdi swp cdp) act
  /\ (forall i, swi = Some i -> (i < nx)%nat)
  /\ (forall i, cdi = Some i -> (i < nx)%nat)
  /\ (forall i j, swi = Some i -> cdi = Some j -> i <> j)
  /\ (swp = false ->
      exists i, swi = Some i /\ In (i, ScriptVariant.updateStopwatch_cb) act).

Definition script_ok (s : ScriptVariant.t) : Prop :=
  table_ok (ScriptVariant.swInterval s) (ScriptVariant.cdInterval s)
    (ScriptVariant.hidden s ScriptVariant.swPauseBtn)
    (ScriptVariant.hidden s ScriptVariant.cdPauseBtn)
    (Intervals.active (ScriptVariant.intervals s))
    (Intervals.next_id (ScriptVariant.intervals s))
  /\ (exists b, script_stopwatch_shown s = Some b)
  /\ (exists b, script_countdown_shown s = Some b).

(** ** The script variant's page under a clock

    The reading of Date.now() an action makes, if it makes one, and the
    sessions whose readings do not go backwards: [script_clocked clock s]
    when the session has reached s and [clock] bounds its readings from
    above. *)
Definition script_reading (a : script_action) : option Z :=
  match a with
  | SwStartClick now | SwPauseClick now | SwContClick now
  | CdStartClick now | CdPauseClick now | CdContClick now
  | Tick _ now => Some now
  | _ => None
  end.

Definition clock_after (clock : Z) (a : script_action) : Z :=
  match script_reading a with
  | Some now => now
  | None => clock
  end.

Inductive script_clocked : Z -> ScriptVariant.t -> Prop :=
| script_clocked_new (page : ScriptVariant.element -> bool) (sw cd : display)
    (clock : Z) :
    script_page_ok page -> script_clocked clock (ScriptVariant.new page sw cd)
| script_clocked_step (clock : Z) (s : ScriptVariant.t) (a : script_action) :
    script_clocked clock s -> script_can s a ->
    clock <= clock_after clock a ->
    script_clocked (clock_after clock a) (exec (run_script_action a) s).

(** While Set is shown no duration is configured, and a countdown that
    was started all the same has its end in the past. *)
Definition script_input_ok (clock : Z) (s : ScriptVariant.t) : Prop :=
  ScriptVariant.hidden s ScriptVariant.cdSetBtn = false ->
  ScriptVariant.cdMilliseconds s = Num 0
  /\ (ScriptVariant.hidden s ScriptVariant.cdPauseBtn = false ->
      exists e, ScriptVariant.cdEnd s = Num e /\ e <= clock).

(** The page as it is loaded: the stopwatch and the countdown show
    Start, and the countdown its input, with Set and Clear. *)
Definition script_page (e : ScriptVariant.element) : bool :=
  match e with
  | ScriptVariant.swPauseBtn | ScriptVariant.swContBtn
  | ScriptVariant.cdPauseBtn | ScriptVariant.cdContBtn
  | ScriptVariant.cdControls | ScriptVariant.stopwatchScreen
  | ScriptVariant.countdownScreen => true
  | _ => false
  end.

(** ** The TimerBase variant's ViewManager

    The three screens and the classes showView puts on them and takes
    off; the modal; and the callbacks showView hands to
    requestAnimationFrame, which the browser runs at the next frame in
    the order of the requests. *)
Module ViewManager.

Inductive screen : Type := homeScreen | stopwatchScreen | countdownScreen.

Inductive class : Type :=
| hidden | translate_x_full | translate_x_0 | screen_hidden | screen_active.

Definition screen_eq_dec (a b : screen) : {a = b} + {a <> b}.
Proof. decide equality. Defined.

Definition class_eq_dec (a b : class) : {a = b} + {a <> b}.
Proof. decide equality. Defined.

(** The three callbacks of showView(viewName), one inside the other:
    the one that hides all screens, the one that shows the screen
    named, the one that slides it in. *)
Inductive callback : Type :=
| hide_all (viewName : String.string)
| show_named (viewName : String.string)
| slide_in (screenToShow : screen).

(** screenTitle is None on a page without the title element. *)
Record t : Type := mk {
  classList : screen -> class -> bool;
  screenTitle : option String.string;
  transition : String.string;
  modalMessage : String.string;
  modalOverlay_hidden : bool;
  modalOverlay_flex : bool;
  currentView : String.string;
  requested : list callback
}.

Definition set_classList (v : screen -> class -> bool) (s : t) : t :=
  mk v (screenTitle s) (transition s) (modalMessage s) (modalOverlay_hidden s)
    (modalOverlay_flex s) (currentView s) (requested s).
Definition set_screenTitle (v : option String.string) (s : t) : t :=
  mk (classList s) v (transition s) (modalMessage s) (modalOverlay_hidden s)
    (modalOverlay_flex s) (currentView s) (requested s).
Definition set_transition (v : String.string) (s : t) : t :=
  mk (classList s) (screenTitle s) v (modalMessage s) (modalOverlay_hidden s)
    (modalOverlay_flex s) (currentView s) (requested s).
Definition set_modalMessage (v : String.string) (s : t) : t :=
  mk (classList s) (screenTitle s) (transition s) v (modalOverlay_hidden s)
    (modalOverlay_flex s) (currentView s) (requested s).
Definition set_modalOverlay_hidden (v : bool) (s : t) : t :=
  mk (classList s) (screenTitle s) (transition s) (modalMessage s) v
    (modalOverlay_flex s) (currentView s) (requested s).
Definition set_modalOverlay_flex (v : bool) (s : t) : t :=
  mk (classList s) (screenTitle s) (transition s) (modalMessage s)
    (modalOverlay_hidden s) v (currentView s) (requested s).
Definition set_currentView (v : String.string) (s : t) : t :=
  mk (classList s) (screenTitle s) (transition s) (modalMessage s)
    (modalOverlay_hidden s) (modalOverlay_flex s) v (requested s).
Definition set_requested (v : list callback) (s : t) : t :=
  mk (classList s) (screenTitle s) (transition s) (modalMessage s)
    (modalOverlay_hidden s) (modalOverlay_flex s) (currentView s) v.

(** e.classList.add(c) and e.classList.remove(c) *)
Definition add_class (e : screen) (c : class) : M t unit :=
  modify (fun s =>
    set_classList
      (fun x k =>
         if screen_eq_dec x e then
           if class_eq_dec k c then true else classList s x k
         else classList s x k) s).
Definition remove_class (e : screen) (c : class) : M t unit :=
  modify (fun s =>
    set_classList
      (fun x k =>
         if screen_eq_dec x e then
           if class_eq_dec k c then false else classList s x k
         else classList s x k) s).

Definition requestAnimationFrame (cb : callback) : M t unit :=
  modify (fun s => set_requested (requested s ++ [cb]) s).

(** showView(viewName), up to its request of the first callback *)
Definition showView (viewName : String.string) : M t unit :=
  s <- get ;;
  when (match screenTitle s with Some _ => true | None => false end)
    (if String.eqb viewName "stopwatch"
     then modify (set_screenTitle (Some "Stopwatch"%string))
     else if String.eqb viewName "countdown"
     then modify (set_screenTitle (Some "Countdown"%string))
     else modify (set_screenTitle (Some "Timer App"%string))) ;;
  modify (set_transition "none") ;;
  requestAnimationFrame (hide_all viewName).

(** The screen a view name stands for, undefined for any other name *)
Definition screenToShow (viewName : String.string) : option screen :=
  if String.eqb viewName "home" then Some homeScreen
  else if String.eqb viewName "stopwatch" then Some stopwatchScreen
  else if String.eqb viewName "countdown" then Some countdownScreen
  else None.

Definition run_callback (cb : callback) : M t unit :=
  match cb with
  | hide_all viewName =>
      add_class homeScreen hidden ;;
      add_class homeScreen translate_x_full ;;
      add_class stopwatchScreen hidden ;;
      add_class stopwatchScreen translate_x_full ;;
      add_class countdownScreen hidden ;;
      add_class countdownScreen translate_x_full ;;
      requestAnimationFrame (show_named viewName)
  | show_named viewName =>
      modify (set_transition "transform 0.5s ease-in-out") ;;
      match screenToShow viewName with
      | Some e =>
          remove_class e hidden ;;
          requestAnimationFrame (slide_in e)
      | None => ret tt
      end ;;
      modify (set_currentView viewName)
  | slide_in e =>
      remove_class e translate_x_full ;;
      add_class e translate_x_0 ;;
      remove_class e screen_hidden ;;
      add_class e screen_active
  end.

(** One frame of the browser: the callbacks requested so far run in
    the order of their requests; what they request waits for the next
    frame. *)
Definition frame : M t unit :=
  s <- get ;;
  modify (set_requested []) ;;
  for_each run_callback (requested s).

(** showAlert(message) and hideAlert() *)
Definition showAlert (message : String.string) : M t unit :=
  modify (set_modalMessage message) ;;
  modify (set_modalOverlay_hidden false) ;;
  modify (set_modalOverlay_flex true).

Definition hideAlert : M t unit :=
  modify (set_modalOverlay_hidden true) ;;
  modify (set_modalOverlay_flex false).

(** init(), after it has set the listeners *)
Definition init : M t unit := showView "home".

End ViewManager.

(** A row of calls of showView within one frame, and the three frames
    that follow. *)
Definition navigate (viewNames : list String.string) : M ViewManager.t unit :=
  for_each ViewManager.showView viewNames ;;
  ViewManager.frame ;;
  ViewManager.frame ;;
  ViewManager.frame.

(** Some name of the row stands for the screen. *)
Definition named (viewNames : list String.string) (e : ViewManager.screen)
  : bool :=
  existsb (fun v =>
             match ViewManager.screenToShow v with
             | Some x => if ViewManager.screen_eq_dec x e then true else false
             | None => false
             end) viewNames.

(** The title showView writes for a view name. *)
Definition title_of (viewName : String.string) : String.string :=
  if String.eqb viewName "stopwatch" then "Stopwatch"%string
  else if String.eqb viewName "countdown" then "Countdown"%string
  else "Timer App"%string.

(** The callbacks that slide in the screens the names stand for. *)
Definition slide_ins (viewNames : list String.string)
  : list ViewManager.callback :=
  flat_map (fun v =>
              match ViewManager.screenToShow v with
              | Some e => [ViewManager.slide_in e]
              | None => []
              end) viewNames.

(** What showView and its callbacks leave alone: the modal. *)
Definition modal_of (s : ViewManager.t) : String.string * bool * bool :=
  (ViewManager.modalMessage s, ViewManager.modalOverlay_hidden s,
   ViewManager.modalOverlay_flex s).

(** The classes hide_all puts on every screen. *)
Definition put_off (k : ViewManager.class) : bool :=
  match k with
  | ViewManager.hidden | ViewManager.translate_x_full => true
  | _ => false
  end.

(** The classes of a screen that was slid in, given those it had. *)
Definition slid_in (k : ViewManager.class) (before : bool) : bool :=
  match k with
  | ViewManager.translate_x_full | ViewManager.screen_hidden => false
  | ViewManager.translate_x_0 | ViewManager.screen_active => true
  | ViewManager.hidden => before
  end.

(** The classes of the screen a navigation ends on. *)
Definition active_classes (k : ViewManager.class) : bool :=
  match k with
  | ViewManager.translate_x_0 | ViewManager.screen_active => true
  | _ => false
  end.

(** ** Stretches of running of the countdowns

    A stretch of the script variant's countdown: Continue clicked at
    [a], the ticks of the interval at [us], Pause clicked at [b]; the
    first stretch of a run starts with Start instead. *)
Definition script_countdown_stretch (st : Z * list Z * Z)
  : M ScriptVariant.t unit :=
  let '(a, us, b) := st in
  ScriptVariant.cdContBtn_onclick a ;;
  for_each ScriptVariant.runCountdown us ;;
  ScriptVariant.cdPauseBtn_onclick b.

Definition script_countdown_first (st : Z * list Z * Z)
  : M ScriptVariant.t unit :=
  let '(a, us, b) := st in
  ScriptVariant.cdStartBtn_onclick a ;;
  for_each ScriptVariant.runCountdown us ;;
  ScriptVariant.cdPauseBtn_onclick b.

(** Every stretch ends when or after it starts. *)
Definition forward (sts : list (Z * list Z * Z)) : Prop :=
  Forall (fun st => 0 <= script_stretch_length st) sts.

(** A stretch of the TimerBase variant's Countdown: start() at [a], the
    ticks of the interval it sets at [us], pause(). *)
Definition timerbase_countdown_stretch (st : Z * list Z)
  : M TimerBaseVariant.Countdown.t unit :=
  let '(a, us) := st in
  s <- get ;;
  let id := Intervals.next_id (TimerBaseVariant.Countdown.intervals s) in
  TimerBaseVariant.Countdown.start a ;;
  for_each (TimerBaseVariant.Countdown.fire id) us ;;
  TimerBaseVariant.Countdown.pause.

(** The ticks of the stretches come before the time left, [r] at the
    start of the first, has run out. *)
Fixpoint stretches_fit (r : Z) (sts : list (Z * list Z)) : Prop :=
  match sts with
  | [] => True
  | (a, us) :: rest =>
      0 < r /\ Forall (fun u => u - a < r) us
      /\ stretches_fit (r - (last us a - a)) rest
  end.

(** The time a stretch of the Countdown takes off: up to its last
    tick. *)
Definition timerbase_countdown_length (st : Z * list Z) : Z :=
  let '(a, us) := st in last us a - a.

(** ** A countdown left running behind hidden controls

    [silenced d t0 ui]: the controls of the countdown are hidden and
    nothing was notified, while the timer runs towards the duration [d]
    from the anchor [t0] or has expired; [lost ui]: it has expired. *)
Definition silenced (d t0 : Z) (ui : ClassVariant.UIController.t) : Prop :=
  let c := ClassVariant.UIController.countdownTimer ui in
  ClassVariant.UIController.hidden ui
    ClassVariant.UIController.countdownControls = true
  /\ ClassVariant.UIController.countdownExpired ui = false
  /\ ((ClassVariant.CountdownTimer.isRunning c = true
       /\ ClassVariant.CountdownTimer.initialTime c = Num d
       /\ ClassVariant.CountdownTimer.startTime c = Num t0)
      \/ (ClassVariant.CountdownTimer.isRunning c = false
          /\ ClassVariant.CountdownTimer.hasExpired c = true)).

Definition lost (ui : ClassVariant.UIController.t) : Prop :=
  let c := ClassVariant.UIController.countdownTimer ui in
  ClassVariant.UIController.hidden ui
    ClassVariant.UIController.countdownControls = true
  /\ ClassVariant.UIController.countdownExpired ui = false
  /\ ClassVariant.CountdownTimer.isRunning c = false
  /\ ClassVariant.CountdownTimer.hasExpired c = true.

(** * Properties *)

(** ** Arithmetic of the formatters *)

Lemma div_1000_3600 (ms : Z) : ms / 1000 / 3600 = ms / 3600000.
Proof. rewrite Z.div_div by lia. reflexivity. Qed.

Lemma quot_mod_shift (a b c : Z) :
  0 <= a -> 0 < b -> 0 < c -> (a / b) mod c = (a mod (b * c)) / b.
Proof.
  intros Ha Hb Hc.
  rewrite Z.rem_mul_r by lia.
  rewrite (Z.mul_comm b), Z.div_add by lia.
  rewrite (Z.div_small (a mod b) b) by (apply Z.mod_pos_bound; lia).
  reflexivity.
Qed.

Lemma minutes_of_totalSeconds (ms : Z) :
  0 <= ms -> Z.rem (ms / 1000) 3600 / 60 = (ms mod 3600000) / 60000.
Proof.
  intros H.
  rewrite Z.rem_mod_nonneg by (try apply Z.div_pos; lia).
  rewrite (quot_mod_shift ms 1000 3600) by lia.
  rewrite Z.div_div by lia. reflexivity.
Qed.

Lemma seconds_of_totalSeconds (ms : Z) :
  0 <= ms -> Z.rem (ms / 1000) 60 = (ms mod 60000) / 1000.
Proof.
  intros H.
  rewrite Z.rem_mod_nonneg by (try apply Z.div_pos; lia).
  apply (quot_mod_shift ms 1000 60); lia.
Qed.

(** Below 2^53 the double nearest to x / b has the floor of x / b. *)
Lemma round_half_even_bounds (p q : Z) :
  p / q <= round_half_even p q <= p / q + 1.
Proof.
  unfold round_half_even. cbv zeta.
  destruct (2 * (p mod q) <? q); [lia|].
  destruct (q <? 2 * (p mod q)); [lia|].
  destruct (Z.even (p / q)); lia.
Qed.

Lemma round_half_even_down (p q : Z) :
  2 * (p mod q) < q -> round_half_even p q = p / q.
Proof.
  intros H. unfold round_half_even. cbv zeta.
  destruct (Z.ltb_spec (2 * (p mod q)) q); [reflexivity | lia].
Qed.

Lemma scaled_quotient (x b K : Z) :
  0 <= x -> 0 < b -> 0 < K -> b < 2 * K ->
  round_half_even (x * K) b / K = x / b.
Proof.
  intros Hx Hb HK HbK.
  pose proof (Z.div_mod x b ltac:(lia)) as Ex.
  pose proof (Z.mod_pos_bound x b Hb) as Hr.
  set (q := x / b) in *. set (r := x mod b) in *.
  pose proof (Z.div_mod (x * K) b ltac:(lia)) as EP.
  pose proof (Z.mod_pos_bound (x * K) b Hb) as Hu.
  pose proof (round_half_even_bounds (x * K) b) as Hm.
  set (t := x * K / b) in *. set (u := (x * K) mod b) in *.
  assert (Ht1 : q * K <= t).
  { apply Z.div_le_lower_bound; [exact Hb|]. nia. }
  assert (Ht2 : t < (q + 1) * K).
  { apply Z.div_lt_upper_bound; [exact Hb|]. nia. }
  assert (Hm2 : round_half_even (x * K) b < (q + 1) * K).
  { destruct (Z.eq_dec t ((q + 1) * K - 1)) as [E|E]; [|lia].
    rewrite round_half_even_down; [fold t; lia|].
    fold u. nia. }
  symmetry. apply Z.div_unique with (r := round_half_even (x * K) b - q * K).
  - left. lia.
  - lia.
Qed.

Lemma floor_quotient_exact (x b : Z) :
  0 <= x < 2 ^ 53 -> 0 < b < 2 ^ 53 -> floor_quotient x b = x / b.
Proof.
  intros Hx Hb. unfold floor_quotient. cbv zeta.
  rewrite Z.abs_eq by lia.
  pose proof (Z.div_pos x b ltac:(lia) ltac:(lia)) as Hq.
  destruct (Z.eqb_spec (x / b) 0) as [E|E].
  - destruct (Z.ltb_spec x 0); [lia|].
    apply scaled_quotient; lia.
  - pose proof (Z.log2_spec (x / b) ltac:(lia)) as Hl.
    pose proof (Z.log2_nonneg (x / b)) as Hl0.
    pose proof (Z.mul_div_le x b ltac:(lia)) as Hqx.
    set (q := x / b) in *. set (e := Z.log2 q) in *.
    assert (He : e <= 52).
    { destruct (Z.le_gt_cases e 52) as [H|H]; [exact H|].
      assert (2 ^ 53 <= 2 ^ e) by (apply Z.pow_le_mono_r; lia). nia. }
    destruct (Z.leb_spec e 52); [|lia].
    assert (EK : 2 ^ e * 2 ^ (52 - e) = 2 ^ 52).
    { rewrite <- Z.pow_add_r by lia. f_equal. lia. }
    assert (HK : 0 < 2 ^ (52 - e)) by (apply Z.pow_pos_nonneg; lia).
    assert (HE : 0 < 2 ^ e) by (apply Z.pow_pos_nonneg; lia).
    apply scaled_quotient; try lia.
    assert (Hbe : b * 2 ^ e < 2 * 2 ^ 52) by nia.
    rewrite <- EK in Hbe. nia.
Qed.

Lemma floor_div_exact (x b : Z) :
  0 <= x < 2 ^ 53 -> 0 < b < 2 ^ 53 -> floor_div (Num x) b = Num (x / b).
Proof.
  intros Hx Hb. unfold floor_div. rewrite floor_quotient_exact by assumption.
  reflexivity.
Qed.

(** What String prints of some doubles, and the shortest decimal of
    some integers below 2^53, which is the integer itself. *)
Lemma toString_of_doubles :
  toString (Num (2 ^ 53)) = str "9007199254740992"
  /\ toString (Num (2 ^ 63)) = str "9223372036854776000"
  /\ toString (Num (- 2 ^ 64)) = str "-18446744073709552000"
  /\ toString (Num (10 ^ 21)) = str "1e+21"
  /\ toString (Num (2 ^ 70)) = str "1.1805916207174113e+21"
  /\ toString (Num (2 ^ 100)) = str "1.2676506002282294e+30"
  /\ map print_shortest
       [1; 7; 10; 99; 1000; 123456; 360000001; 9007199254740990;
        9007199254740991]
     = map (fun n => decimal (Z.to_N n))
         [1; 7; 10; 99; 1000; 123456; 360000001; 9007199254740990;
          9007199254740991].
Proof. repeat split; vm_compute; reflexivity. Qed.

Lemma toString_nonneg (v : Z) :
  0 <= v < 2 ^ 53 -> toString (Num v) = decimal (Z.to_N v).
Proof.
  intros H. unfold toString, print_integer.
  destruct (Z.ltb_spec v 0); [lia|].
  destruct (Z.ltb_spec v (2 ^ 53)); [reflexivity | lia].
Qed.

Lemma pad_toString (w : nat) (v : Z) :
  0 <= v < 2 ^ 53 -> padStart w "0" (toString (Num v)) = zero_padded w v.
Proof. intros H. unfold zero_padded. rewrite toString_nonneg by exact H. reflexivity. Qed.

(** ** Widths of the zero-padded fields *)

Lemma width_checked (w n : nat) :
  forallb (fun i => Nat.eqb (List.length (zero_padded w (Z.of_nat i))) w)
    (seq 0 n) = true ->
  forall v, 0 <= v < Z.of_nat n -> List.length (zero_padded w v) = w.
Proof.
  intros Hall v Hv.
  rewrite forallb_forall in Hall.
  specialize (Hall (Z.to_nat v)).
  rewrite Z2Nat.id in Hall by lia.
  apply Nat.eqb_eq, Hall, in_seq. lia.
Qed.

Lemma width_two (v : Z) : 0 <= v < 100 -> List.length (zero_padded 2 v) = 2%nat.
Proof. apply (width_checked 2 100). vm_compute. reflexivity. Qed.

Lemma width_three (v : Z) : 0 <= v < 1000 -> List.length (zero_padded 3 v) = 3%nat.
Proof. apply (width_checked 3 1000). vm_compute. reflexivity. Qed.

Lemma width_at_least (w : nat) (v : Z) : (w <= List.length (zero_padded w v))%nat.
Proof.
  unfold zero_padded, padStart.
  rewrite length_app, repeat_length. lia.
Qed.

Lemma zero_padded_keeps_digits (w : nat) (v : Z) :
  exists k, zero_padded w v = repeat "0"%char k ++ decimal (Z.to_N v).
Proof. eexists. reflexivity. Qed.

Lemma spec_components_bounds (ms : Z) :
  0 <= ms ->
  0 <= spec_hours ms /\ 0 <= spec_minutes ms < 60 /\
  0 <= spec_seconds ms < 60 /\ 0 <= spec_millis ms < 1000.
Proof.
  intros H. unfold spec_hours, spec_minutes, spec_seconds, spec_millis.
  pose proof (Z.mod_pos_bound ms 3600000 ltac:(lia)).
  pose proof (Z.mod_pos_bound ms 60000 ltac:(lia)).
  pose proof (Z.mod_pos_bound ms 1000 ltac:(lia)).
  repeat split; try lia.
  - apply Z.div_pos; lia.
  - apply Z.div_pos; lia.
  - apply Z.div_lt_upper_bound; lia.
  - apply Z.div_pos; lia.
  - apply Z.div_lt_upper_bound; lia.
Qed.

(** ** The three formatters *)

Lemma safe_quotient (x b : Z) :
  0 <= x < 2 ^ 53 -> 0 < b -> 0 <= x / b < 2 ^ 53.
Proof.
  intros Hx Hb. split; [apply Z.div_pos; lia|].
  apply Z.div_lt_upper_bound; nia.
Qed.

Lemma safe_remainder (x b : Z) :
  0 <= x -> 0 < b < 2 ^ 53 -> 0 <= Z.rem x b < 2 ^ 53.
Proof.
  intros Hx Hb. rewrite Z.rem_mod_nonneg by lia.
  pose proof (Z.mod_pos_bound x b ltac:(lia)). lia.
Qed.

Lemma totalSeconds_fields (ms : Z) :
  0 <= ms < 2 ^ 53 ->
  floor_div (Num ms) 1000 = Num (ms / 1000)
  /\ floor_div (Num (ms / 1000)) 3600 = Num (spec_hours ms)
  /\ floor_div (rem (Num (ms / 1000)) 3600) 60 = Num (spec_minutes ms)
  /\ rem (Num (ms / 1000)) 60 = Num (spec_seconds ms)
  /\ rem (Num ms) 1000 = Num (spec_millis ms).
Proof.
  intros H.
  pose proof (safe_quotient ms 1000 H ltac:(lia)) as Hts.
  unfold rem, spec_hours, spec_minutes, spec_seconds, spec_millis.
  rewrite !floor_div_exact
    by first [lia | apply safe_remainder; lia].
  rewrite div_1000_3600, minutes_of_totalSeconds, seconds_of_totalSeconds by lia.
  rewrite (Z.rem_mod_nonneg ms 1000) by lia.
  repeat split; reflexivity.
Qed.

Lemma class_formatTime_fields (ms : Z) :
  0 <= ms < 2 ^ 53 ->
  let hh := zero_padded 2 (spec_hours ms) in
  let mm := zero_padded 2 (spec_minutes ms) in
  let ss := zero_padded 2 (spec_seconds ms) in
  let mmm := zero_padded 3 (spec_millis ms) in
  ClassVariant.Timer.formatTime (Num ms)
  = ClassVariant.mkFormatted hh mm ss mmm
      (hh ++ str ":" ++ mm ++ str ":" ++ ss)
      (hh ++ str ":" ++ mm ++ str ":" ++ ss ++ str "." ++ mmm).
Proof.
  intros H hh mm ss mmm.
  destruct (spec_components_bounds ms (proj1 H)) as (Hh & Hm & Hs & Hms).
  destruct (totalSeconds_fields ms H) as (Ets & Eh & Em & Es & Ems).
  pose proof (safe_quotient ms 3600000 H ltac:(lia)) as Hh'.
  fold (spec_hours ms) in Hh'.
  unfold ClassVariant.Timer.formatTime.
  rewrite Ets, Eh, Em, Es, Ems.
  rewrite !pad_toString by lia.
  reflexivity.
Qed.

Lemma script_formatTime_fields (ms : Z) :
  0 <= ms < 2 ^ 53 ->
  ScriptVariant.formatTime (Num ms)
  = mkDisplay
      (zero_padded 2 (spec_hours ms) ++ str ":" ++ zero_padded 2 (spec_minutes ms)
         ++ str ":" ++ zero_padded 2 (spec_seconds ms))
      (str "." ++ zero_padded 3 (spec_millis ms)).
Proof.
  intros H.
  destruct (spec_components_bounds ms (proj1 H)) as (Hh & Hm & Hs & Hms).
  destruct (totalSeconds_fields ms H) as (Ets & Eh & Em & Es & Ems).
  pose proof (safe_quotient ms 3600000 H ltac:(lia)) as Hh'.
  fold (spec_hours ms) in Hh'.
  unfold ScriptVariant.formatTime.
  rewrite Ets, Eh, Em, Es, Ems.
  rewrite !pad_toString by lia.
  reflexivity.
Qed.

Lemma timerbase_formatTime_fields (ms : Z) :
  0 <= ms < 2 ^ 53 ->
  TimerBaseVariant.TimerBase.formatTime (Num ms)
  = zero_padded 2 (spec_hours ms) ++ str ":" ++ zero_padded 2 (spec_minutes ms)
      ++ str ":" ++ zero_padded 2 (spec_seconds ms) ++ str "."
      ++ zero_padded 3 (spec_millis ms).
Proof.
  intros H.
  destruct (spec_components_bounds ms (proj1 H)) as (Hh & Hm & Hs & Hms).
  pose proof (safe_quotient ms 3600000 H ltac:(lia)) as Hh'.
  unfold TimerBaseVariant.TimerBase.formatTime, Math_max, lift2, rem.
  rewrite Z.max_r by lia.
  rewrite !floor_div_exact by first [lia | apply safe_remainder; lia].
  rewrite !Z.rem_mod_nonneg by lia.
  unfold spec_hours, spec_minutes, spec_seconds, spec_millis in *.
  rewrite !pad_toString by lia.
  reflexivity.
Qed.

(** C9, as the code has it.  For every integer 0 <= ms < 2^53 each of
    the three formatters (Timer.formatTime, the script's formatTime,
    TimerBase.formatTime) returns hours = floor(ms / 3600000), minutes =
    floor((ms mod 3600000) / 60000), seconds = floor((ms mod 60000) /
    1000) and millis = ms mod 1000, written in decimal and zero-padded
    to 2, 2, 2 and 3 characters; minutes and seconds take exactly 2
    characters and millis exactly 3, and hours at least 2, with all
    their digits kept whatever their number.  Below 2^53 the doubles
    hold the integers, the rounded quotients of Math.floor have the
    exact floors and String prints every digit. *)
Theorem C9_formatter_decomposition (ms : Z) :
  0 <= ms < 2 ^ 53 ->
  let h := spec_hours ms in
  let hh := zero_padded 2 h in
  let mm := zero_padded 2 (spec_minutes ms) in
  let ss := zero_padded 2 (spec_seconds ms) in
  let mmm := zero_padded 3 (spec_millis ms) in
  ClassVariant.Timer.formatTime (Num ms)
  = ClassVariant.mkFormatted hh mm ss mmm
      (hh ++ str ":" ++ mm ++ str ":" ++ ss)
      (hh ++ str ":" ++ mm ++ str ":" ++ ss ++ str "." ++ mmm)
  /\ ScriptVariant.formatTime (Num ms)
     = mkDisplay (hh ++ str ":" ++ mm ++ str ":" ++ ss) (str "." ++ mmm)
  /\ TimerBaseVariant.TimerBase.formatTime (Num ms)
     = hh ++ str ":" ++ mm ++ str ":" ++ ss ++ str "." ++ mmm
  /\ List.length mm = 2%nat /\ List.length ss = 2%nat
  /\ List.length mmm = 3%nat /\ (2 <= List.length hh)%nat
  /\ (h < 100 -> List.length hh = 2%nat)
  /\ (exists k, hh = repeat "0"%char k ++ decimal (Z.to_N h)).
Proof.
  intros H h hh mm ss mmm.
  destruct (spec_components_bounds ms (proj1 H)) as (Hh & Hm & Hs & Hms).
  split; [apply class_formatTime_fields; exact H|].
  split; [apply script_formatTime_fields; exact H|].
  split; [apply timerbase_formatTime_fields; exact H|].
  split; [apply width_two; lia|].
  split; [apply width_two; lia|].
  split; [apply width_three; lia|].
  split; [apply width_at_least|].
  split; [intros Hlt; apply width_two; fold h in Hh; lia|].
  apply zero_padded_keeps_digits.
Qed.

Lemma C9_formatter_decomposition_witness :
  0 <= 360000001 < 2 ^ 53 /\
  TimerBaseVariant.TimerBase.formatTime (Num 360000001) = str "100:00:00.001".
Proof.
  split; [lia|].
  exact (proj1 (proj2 (proj2 (C9_formatter_decomposition 360000001 ltac:(lia))))).
Defined.

(** The claim C9 as stated fails from 2^53 on.  2^60 ms are 6 seconds
    past the minute, but Math.floor(2^60 / 1000) is one above the floor
    of the quotient, which the double does not hold, and Timer.formatTime
    and the script's formatTime show the seconds 07.  The hours of 2^100
    ms are no more printed digit by digit: TimerBase.formatTime returns
    3.521251667300637e+23:06:45.376. *)
Lemma C9_formatTime_beyond_2_53 :
  spec_seconds (2 ^ 60) = 6
  /\ floor_div (Num (2 ^ 60)) 1000 = Num (2 ^ 60 / 1000 + 1)
  /\ ClassVariant.fullFormatted (ClassVariant.Timer.formatTime (Num (2 ^ 60)))
     = str "320255973501:54:07.976"
  /\ ScriptVariant.formatTime (Num (2 ^ 60))
     = mkDisplay (str "320255973501:54:07") (str ".976")
  /\ ScriptVariant.formatTime (Num (2 ^ 60))
     <> mkDisplay
          (zero_padded 2 (spec_hours (2 ^ 60)) ++ str ":"
             ++ zero_padded 2 (spec_minutes (2 ^ 60)) ++ str ":"
             ++ zero_padded 2 (spec_seconds (2 ^ 60)))
          (str "." ++ zero_padded 3 (spec_millis (2 ^ 60)))
  /\ TimerBaseVariant.TimerBase.formatTime (Num (2 ^ 100))
     = str "3.521251667300637e+23:06:45.376"
  /\ TimerBaseVariant.TimerBase.formatTime (Num (2 ^ 100))
     <> zero_padded 2 (spec_hours (2 ^ 100)) ++ str ":"
          ++ zero_padded 2 (spec_minutes (2 ^ 100)) ++ str ":"
          ++ zero_padded 2 (spec_seconds (2 ^ 100)) ++ str "."
          ++ zero_padded 3 (spec_millis (2 ^ 100)).
Proof.
  split; [vm_compute; reflexivity|].
  split; [vm_compute; reflexivity|].
  split; [vm_compute; reflexivity|].
  split; [vm_compute; reflexivity|].
  split; [intros H; vm_compute in H; discriminate H|].
  split; [vm_compute; reflexivity|].
  intros H; vm_compute in H; discriminate H.
Qed.

(** C10.  TimerBase.formatTime clamps a negative ms to zero before it
    takes it apart: for every integer ms < 0 it returns what it returns
    for 0, the string 00:00:00.000. *)
Theorem C10_timerbase_formatTime_negative (ms : Z) :
  ms < 0 ->
  TimerBaseVariant.TimerBase.formatTime (Num ms)
  = TimerBaseVariant.TimerBase.formatTime (Num 0)
  /\ TimerBaseVariant.TimerBase.formatTime (Num ms) = str "00:00:00.000".
Proof.
  intros H.
  assert (E : TimerBaseVariant.TimerBase.formatTime (Num ms)
              = TimerBaseVariant.TimerBase.formatTime (Num 0)).
  { unfold TimerBaseVariant.TimerBase.formatTime at 1.
    unfold Math_max, lift2. rewrite Z.max_l by lia. reflexivity. }
  split; [exact E|]. rewrite E. reflexivity.
Qed.

Lemma C10_timerbase_formatTime_negative_witness :
  -5 < 0 /\
  TimerBaseVariant.TimerBase.formatTime (Num (-5)) = str "00:00:00.000".
Proof.
  split; [lia|].
  exact (proj2 (C10_timerbase_formatTime_negative (-5) ltac:(lia))).
Defined.

(** ** Digits and their characters *)

Lemma digit_cases (d : Z) :
  is_digit d ->
  d = 0 \/ d = 1 \/ d = 2 \/ d = 3 \/ d = 4 \/ d = 5 \/ d = 6 \/ d = 7
  \/ d = 8 \/ d = 9.
Proof. unfold is_digit. lia. Qed.

Ltac each_digit H :=
  apply digit_cases in H;
  repeat (destruct H as [H | H]); subst.

Lemma digit_text_char (d : Z) : is_digit d -> digit_text d = [digit_char d].
Proof. intros H. each_digit H; reflexivity. Qed.

Lemma digits_text_map (ds : list Z) :
  Forall is_digit ds -> digits_text ds = map digit_char ds.
Proof.
  induction 1 as [|d ds Hd Hds IH]; [reflexivity|].
  unfold digits_text in *. cbn [map List.concat].
  rewrite IH, digit_text_char by exact Hd. reflexivity.
Qed.

Lemma parseInt_pair (a b : Z) :
  is_digit a -> is_digit b ->
  parseInt [digit_char a; digit_char b] = Num (10 * a + b).
Proof. intros Ha Hb. each_digit Ha; each_digit Hb; reflexivity. Qed.

Lemma padStart_digits (ds : list Z) :
  padStart 6 "0" (map digit_char ds)
  = map digit_char (repeat 0 (6 - List.length ds) ++ ds).
Proof.
  unfold padStart.
  rewrite length_map, map_app, map_repeat. reflexivity.
Qed.

Lemma padded_digits (ds : list Z) :
  Forall is_digit ds -> (List.length ds <= 6)%nat ->
  exists a b c d e f,
    repeat 0 (6 - List.length ds) ++ ds = [a; b; c; d; e; f]
    /\ is_digit a /\ is_digit b /\ is_digit c /\ is_digit d /\ is_digit e
    /\ is_digit f.
Proof.
  intros Hds Hlen.
  assert (Hp : Forall is_digit (repeat 0 (6 - List.length ds) ++ ds)).
  { apply Forall_app. split; [|exact Hds].
    apply Forall_forall. intros x Hx. apply repeat_spec in Hx. subst.
    unfold is_digit. lia. }
  assert (Hl : List.length (repeat 0 (6 - List.length ds) ++ ds) = 6%nat).
  { rewrite length_app, repeat_length. lia. }
  destruct (repeat 0 (6 - List.length ds) ++ ds)
    as [|a [|b [|c [|d [|e [|f [|g p]]]]]]]; try discriminate Hl.
  exists a, b, c, d, e, f.
  repeat match goal with
         | H : Forall _ (_ :: _) |- _ => inversion H; subst; clear H
         end.
  split; [reflexivity|].
  repeat (split; [assumption|]). assumption.
Qed.

(** ** C8: the duration of a buffer *)

Lemma class_totalMs_digits (ds : list Z) :
  Forall is_digit ds -> (List.length ds <= 6)%nat ->
  ClassVariant.UIController.totalMs (digits_text ds) = Num (hhmmss_ms ds).
Proof.
  intros Hds Hlen.
  rewrite digits_text_map by exact Hds.
  unfold ClassVariant.UIController.totalMs, hhmmss_ms.
  rewrite padStart_digits.
  destruct (padded_digits ds Hds Hlen)
    as (a & b & c & d & e & f & -> & Ha & Hb & Hc & Hd & He & Hf).
  cbn [map slice Nat.sub skipn firstn nth].
  rewrite !parseInt_pair by assumption.
  reflexivity.
Qed.

Lemma script_getCountdownMilliseconds_digits (ds : list Z) :
  Forall is_digit ds -> (List.length ds <= 6)%nat ->
  ScriptVariant.getCountdownMilliseconds (digits_text ds) = Num (hhmmss_ms ds).
Proof.
  intros Hds Hlen.
  rewrite digits_text_map by exact Hds.
  unfold ScriptVariant.getCountdownMilliseconds, hhmmss_ms.
  rewrite padStart_digits.
  destruct (padded_digits ds Hds Hlen)
    as (a & b & c & d & e & f & -> & Ha & Hb & Hc & Hd & He & Hf).
  cbn [map slice Nat.sub skipn firstn nth].
  rewrite !parseInt_pair by assumption.
  reflexivity.
Qed.

Lemma concat_digit_texts (ds : list Z) :
  List.concat (map digit_text ds) = digits_text ds.
Proof. reflexivity. Qed.

Lemma timerbase_currentInputMs_digits (ds : list Z) :
  Forall is_digit ds -> (List.length ds <= 6)%nat ->
  TimerBaseVariant.Countdown.currentInputMs (map digit_text ds)
  = Num (hhmmss_ms ds).
Proof.
  intros Hds Hlen.
  unfold TimerBaseVariant.Countdown.currentInputMs.
  rewrite concat_digit_texts, digits_text_map by exact Hds.
  rewrite length_map.
  destruct (Nat.ltb_spec 6 (List.length ds)) as [Hgt|_]; [lia|].
  unfold hhmmss_ms.
  rewrite padStart_digits.
  destruct (padded_digits ds Hds Hlen)
    as (a & b & c & d & e & f & -> & Ha & Hb & Hc & Hd & He & Hf).
  cbn [map slice Nat.sub skipn firstn nth].
  rewrite !parseInt_pair by assumption.
  cbn [add mul lift2]. f_equal. lia.
Qed.

(** C8.  For every buffer of at most 6 digits, the duration each
    variant derives from it (setCountdownTime's totalMs,
    getCountdownMilliseconds, updateInputDisplay's currentInputMs) is
    the buffer padded to 6 digits with leading zeros, split into HH, MM
    and SS, as (HH * 3600 + MM * 60 + SS) * 1000 milliseconds; MM and SS
    are not checked to be below 60. *)
Theorem C8_current_duration_arithmetic (ds : list Z) :
  Forall is_digit ds -> (List.length ds <= 6)%nat ->
  ClassVariant.UIController.totalMs (digits_text ds) = Num (hhmmss_ms ds)
  /\ ScriptVariant.getCountdownMilliseconds (digits_text ds) = Num (hhmmss_ms ds)
  /\ TimerBaseVariant.Countdown.currentInputMs (map digit_text ds)
     = Num (hhmmss_ms ds).
Proof.
  intros Hds Hlen.
  split; [apply class_totalMs_digits; assumption|].
  split; [apply script_getCountdownMilliseconds_digits; assumption|].
  apply timerbase_currentInputMs_digits; assumption.
Qed.

Lemma all_digits_decidable (ds : list Z) :
  forallb (fun d => (0 <=? d) && (d <=? 9)) ds = true -> Forall is_digit ds.
Proof.
  intros H. rewrite forallb_forall in H. apply Forall_forall.
  intros d Hd. specialize (H d Hd). unfold is_digit. lia.
Qed.

Lemma C8_current_duration_arithmetic_witness :
  Forall is_digit [7; 9; 9] /\ (List.length [7; 9; 9] <= 6)%nat /\
  ScriptVariant.getCountdownMilliseconds (str "799")
  = Num ((0 * 3600 + 7 * 60 + 99) * 1000).
Proof.
  split; [apply all_digits_decidable; reflexivity|].
  split; [simpl; lia|].
  exact (proj1 (proj2 (C8_current_duration_arithmetic [7; 9; 9]
                         (all_digits_decidable [7; 9; 9] eq_refl)
                         ltac:(simpl; lia)))).
Defined.

(** ** Running methods one after the other *)

Lemma exec_bind {S A B} (m : M S A) (f : A -> M S B) (s : S) (a : A) :
  value (m s) = inl a -> exec (bind m f) s = exec (f a) (exec m s).
Proof.
  unfold exec, bind. destruct (m s) as [v s1 o1]. cbn. intros ->.
  destruct (f a s1). reflexivity.
Qed.

Lemma output_bind {S A B} (m : M S A) (f : A -> M S B) (s : S) (a : A) :
  value (m s) = inl a ->
  output (bind m f s) = output (m s) ++ output (f a (exec m s)).
Proof.
  unfold exec, bind. destruct (m s) as [v s1 o1]. cbn. intros ->.
  destruct (f a s1). reflexivity.
Qed.

Lemma value_bind {S A B} (m : M S A) (f : A -> M S B) (s : S) (a : A) :
  value (m s) = inl a -> value (bind m f s) = value (f a (exec m s)).
Proof.
  unfold exec, bind. destruct (m s) as [v s1 o1]. cbn. intros ->.
  destruct (f a s1). reflexivity.
Qed.

Lemma for_each_value {S A} (f : A -> M S unit) (l : list A) :
  (forall a s, value (f a s) = inl tt) ->
  forall s, value (for_each f l s) = inl tt.
Proof.
  intros Hf. induction l as [|a l IH]; intros s; [reflexivity|].
  cbn [for_each]. rewrite (value_bind _ _ _ tt) by apply Hf. apply IH.
Qed.

Lemma for_each_cons {S A} (f : A -> M S unit) (a : A) (l : list A) (s : S) :
  value (f a s) = inl tt ->
  exec (for_each f (a :: l)) s = exec (for_each f l) (exec (f a) s).
Proof.
  intros H. cbn [for_each].
  exact (exec_bind (f a) (fun _ => for_each f l) s tt H).
Qed.

Lemma for_each_app {S A} (f : A -> M S unit) (l1 l2 : list A) :
  (forall a s, value (f a s) = inl tt) ->
  forall s,
    exec (for_each f (l1 ++ l2)) s = exec (for_each f l2) (exec (for_each f l1) s).
Proof.
  intros Hf. induction l1 as [|a l1 IH]; intros s; [reflexivity|].
  cbn [app]. rewrite !for_each_cons by apply Hf. apply IH.
Qed.

(** ** The last digits of a row *)

Lemma skipn_app_within {A} (k : nat) (l r : list A) :
  (k <= List.length l)%nat -> skipn k (l ++ r) = skipn k l ++ r.
Proof.
  intros H. rewrite skipn_app.
  replace (k - List.length l)%nat with 0%nat by lia. reflexivity.
Qed.

Lemma last_n_length {A} (n : nat) (l : list A) :
  List.length (last_n n l) = Nat.min n (List.length l).
Proof. unfold last_n. rewrite length_skipn. lia. Qed.

Lemma last_n_short {A} (n : nat) (l : list A) :
  (List.length l <= n)%nat -> last_n n l = l.
Proof.
  intros H. unfold last_n.
  replace (List.length l - n)%nat with 0%nat by lia. reflexivity.
Qed.

Lemma last_n_snoc {A} (n : nat) (l : list A) (x : A) :
  last_n n (last_n n l ++ [x]) = last_n n (l ++ [x]).
Proof.
  destruct (Nat.le_gt_cases (List.length l) n) as [Hle|Hgt].
  - rewrite (last_n_short n l) by exact Hle. reflexivity.
  - destruct n as [|n].
    { unfold last_n. rewrite !Nat.sub_0_r, !skipn_all. reflexivity. }
    unfold last_n at 1 3.
    rewrite !length_app, last_n_length. cbn [List.length].
    rewrite !skipn_app_within by (rewrite ?last_n_length; lia).
    f_equal. unfold last_n. rewrite skipn_skipn. f_equal. lia.
Qed.

Lemma last_n_snoc_tl {A} (m : list A) (x : A) :
  (List.length m <= 6)%nat ->
  last_n 6 (m ++ [x])
  = (if (6 <=? List.length m)%nat then tl m else m) ++ [x].
Proof.
  intros H. unfold last_n. rewrite length_app. cbn [List.length].
  destruct (Nat.leb_spec 6 (List.length m)) as [Hfull|Hroom].
  - replace (List.length m + 1 - 6)%nat with 1%nat by lia.
    destruct m as [|y m]; [cbn in Hfull; lia|reflexivity].
  - replace (List.length m + 1 - 6)%nat with 0%nat by lia. reflexivity.
Qed.

Lemma slice_last_map {A} (f : A -> ascii) (n : nat) (l : list A) :
  slice_last n (map f l) = map f (last_n n l).
Proof. unfold slice_last, last_n. rewrite length_map, skipn_map. reflexivity. Qed.

Lemma Forall_last_n {A} (P : A -> Prop) (n : nat) (l : list A) :
  Forall P l -> Forall P (last_n n l).
Proof.
  intros H. apply Forall_forall. intros x Hx.
  rewrite Forall_forall in H. apply H.
  unfold last_n in Hx.
  rewrite <- (firstn_skipn (List.length l - n) l). apply in_or_app. right. exact Hx.
Qed.

Lemma Forall_firstn {A} (P : A -> Prop) (n : nat) (l : list A) :
  Forall P l -> Forall P (firstn n l).
Proof.
  intros H. apply Forall_forall. intros x Hx.
  rewrite Forall_forall in H. apply H.
  rewrite <- (firstn_skipn n l). apply in_or_app. left. exact Hx.
Qed.

(** Unfolds the plumbing of methods, and nothing of what they compute. *)
Ltac run_method :=
  cbv beta iota zeta
    delta [bind get modify emit ret throw when exec try_catch on_member
           value state output].

(** ** C1: pressing digit buttons *)

Section ClassPresses.
Import ClassVariant.UIController.

Lemma handleNumberInput_value (n : jsstring) (ui : t) :
  value (handleNumberInput n ui) = inl tt.
Proof. reflexivity. Qed.

Lemma handleNumberInput_inputSequence (n : jsstring) (ui : t) :
  inputSequence (exec (handleNumberInput n) ui)
  = slice_last 6 (inputSequence ui ++ n).
Proof. reflexivity. Qed.

Lemma handleNumberInput_display (n : jsstring) (ui : t) :
  countdownDisplay (exec (handleNumberInput n) ui)
  = input_display (inputSequence (exec (handleNumberInput n) ui)).
Proof. reflexivity. Qed.

Lemma class_press_buffer (ds : list Z) :
  Forall is_digit ds ->
  forall pre ui,
    inputSequence ui = map digit_char (last_n 6 pre) ->
    inputSequence (exec (class_press ds) ui)
    = map digit_char (last_n 6 (pre ++ ds)).
Proof.
  induction 1 as [|d ds Hd Hds IH]; intros pre ui Hui.
  - rewrite app_nil_r. exact Hui.
  - unfold class_press in *.
    rewrite for_each_cons by apply handleNumberInput_value.
    replace (pre ++ d :: ds) with ((pre ++ [d]) ++ ds)
      by (rewrite <- app_assoc; reflexivity).
    apply IH.
    rewrite handleNumberInput_inputSequence, Hui, digit_text_char by exact Hd.
    change [digit_char d] with (map digit_char [d]).
    rewrite <- map_app, slice_last_map, last_n_snoc. reflexivity.
Qed.

Lemma class_press_display (ds : list Z) (ui : t) :
  ds <> [] ->
  countdownDisplay (exec (class_press ds) ui)
  = input_display (inputSequence (exec (class_press ds) ui)).
Proof.
  intros Hne.
  destruct (exists_last Hne) as (ds' & d & ->).
  unfold class_press.
  rewrite for_each_app by (intros; apply handleNumberInput_value).
  rewrite for_each_cons by apply handleNumberInput_value.
  reflexivity.
Qed.

Lemma input_display_digits (ds : list Z) :
  Forall is_digit ds -> (List.length ds <= 6)%nat ->
  input_display (digits_text ds) = mkDisplay (hhmmss_text ds) (str ".000").
Proof.
  intros Hds Hlen.
  unfold input_display, hhmmss_text.
  rewrite digits_text_map, padStart_digits by exact Hds.
  destruct (padded_digits ds Hds Hlen)
    as (a & b & c & d & e & f & -> & Ha & Hb & Hc & Hd & He & Hf).
  cbn [map slice Nat.sub skipn firstn].
  rewrite !digits_text_map
    by (repeat (apply Forall_cons; [assumption|]); apply Forall_nil).
  reflexivity.
Qed.

End ClassPresses.

Section ScriptPresses.
Import ScriptVariant.

Lemma digit_onclick_value (i : Z) (s : t) :
  value (digit_onclick i s) = inl tt.
Proof.
  unfold digit_onclick. run_method.
  destruct (6 <=? List.length (cdDigits s))%nat; reflexivity.
Qed.

Lemma digit_onclick_cdDigits (i : Z) (s : t) :
  cdDigits (exec (digit_onclick i) s)
  = if (6 <=? List.length (cdDigits s))%nat then cdDigits s
    else cdDigits s ++ toString (Num i).
Proof.
  unfold digit_onclick. run_method.
  destruct (6 <=? List.length (cdDigits s))%nat; reflexivity.
Qed.

Lemma firstn_snoc_full {A} (pre : list A) (x : A) :
  (6 <= List.length pre)%nat -> firstn 6 (pre ++ [x]) = firstn 6 pre.
Proof.
  intros H. rewrite firstn_app.
  replace (6 - List.length pre)%nat with 0%nat by lia.
  cbn [firstn]. apply app_nil_r.
Qed.

Lemma script_press_buffer (ds : list Z) :
  Forall is_digit ds ->
  forall pre s,
    cdDigits s = map digit_char (firstn 6 pre) ->
    cdDigits (exec (script_press ds) s)
    = map digit_char (firstn 6 (pre ++ ds)).
Proof.
  induction 1 as [|d ds Hd Hds IH]; intros pre s Hs.
  - rewrite app_nil_r. exact Hs.
  - unfold script_press in *.
    rewrite for_each_cons by apply digit_onclick_value.
    replace (pre ++ d :: ds) with ((pre ++ [d]) ++ ds)
      by (rewrite <- app_assoc; reflexivity).
    apply IH.
    rewrite digit_onclick_cdDigits, Hs, length_map, length_firstn.
    destruct (Nat.leb_spec 6 (Nat.min 6 (List.length pre))) as [Hfull|Hroom].
    + rewrite firstn_snoc_full by lia. reflexivity.
    + rewrite !firstn_all2 by (rewrite ?length_app; cbn [List.length]; lia).
      fold (digit_text d). rewrite digit_text_char by exact Hd.
      rewrite map_app. reflexivity.
Qed.

End ScriptPresses.

Section TimerBasePresses.
Import TimerBaseVariant.Countdown.

Lemma appendDigit_value (digit : jsstring) (c : t) :
  value (appendDigit digit c) = inl tt.
Proof.
  unfold appendDigit. run_method.
  destruct (6 <=? List.length (inputBuffer c))%nat; reflexivity.
Qed.

Lemma appendDigit_inputBuffer (digit : jsstring) (c : t) :
  inputBuffer (exec (appendDigit digit) c)
  = (if (6 <=? List.length (inputBuffer c))%nat then tl (inputBuffer c)
     else inputBuffer c) ++ [digit].
Proof.
  unfold appendDigit. run_method.
  destruct (6 <=? List.length (inputBuffer c))%nat; reflexivity.
Qed.

Lemma appendDigit_remainingTime (digit : jsstring) (c : t) :
  remainingTime (exec (appendDigit digit) c)
  = currentInputMs (inputBuffer (exec (appendDigit digit) c)).
Proof.
  unfold appendDigit. run_method.
  destruct (6 <=? List.length (inputBuffer c))%nat; reflexivity.
Qed.

Lemma appendDigit_display (digit : jsstring) (c : t) :
  displayElement (exec (appendDigit digit) c)
  = TimerBaseVariant.TimerBase.updateDisplay
      (remainingTime (exec (appendDigit digit) c)).
Proof.
  unfold appendDigit. run_method.
  destruct (6 <=? List.length (inputBuffer c))%nat; reflexivity.
Qed.

Lemma appendDigit_initialTime (digit : jsstring) (c : t) :
  initialTime (exec (appendDigit digit) c) = initialTime c.
Proof.
  unfold appendDigit. run_method.
  destruct (6 <=? List.length (inputBuffer c))%nat; reflexivity.
Qed.

Lemma timerbase_press_buffer (ds : list Z) :
  Forall is_digit ds ->
  forall pre c,
    inputBuffer c = map digit_text (last_n 6 pre) ->
    inputBuffer (exec (timerbase_press ds) c)
    = map digit_text (last_n 6 (pre ++ ds)).
Proof.
  induction 1 as [|d ds Hd Hds IH]; intros pre c Hc.
  - rewrite app_nil_r. exact Hc.
  - unfold timerbase_press in *.
    rewrite for_each_cons by apply appendDigit_value.
    replace (pre ++ d :: ds) with ((pre ++ [d]) ++ ds)
      by (rewrite <- app_assoc; reflexivity).
    apply IH.
    rewrite appendDigit_inputBuffer, Hc, length_map.
    rewrite <- last_n_snoc, last_n_snoc_tl by (rewrite last_n_length; lia).
    rewrite map_app.
    destruct (6 <=? List.length (last_n 6 pre))%nat; [|reflexivity].
    destruct (last_n 6 pre); reflexivity.
Qed.

Lemma timerbase_press_remaining (ds : list Z) (c : t) :
  ds <> [] ->
  remainingTime (exec (timerbase_press ds) c)
  = currentInputMs (inputBuffer (exec (timerbase_press ds) c))
  /\ displayElement (exec (timerbase_press ds) c)
     = TimerBaseVariant.TimerBase.updateDisplay
         (remainingTime (exec (timerbase_press ds) c)).
Proof.
  intros Hne.
  destruct (exists_last Hne) as (ds' & d & ->).
  unfold timerbase_press.
  rewrite for_each_app by (intros; apply appendDigit_value).
  rewrite for_each_cons by apply appendDigit_value.
  split; [apply appendDigit_remainingTime | apply appendDigit_display].
Qed.

End TimerBasePresses.

Lemma last_n_at_most (n : nat) (ds : list Z) :
  (List.length (last_n n ds) <= n)%nat.
Proof. rewrite last_n_length. lia. Qed.

(** C1, as the code has it.  For every row of digit presses that starts
    on an empty buffer: in the class variant (handleNumberInput) and in
    the TimerBase variant (appendDigit) the buffer holds the last 6
    digits pressed, the oldest being dropped when a 7th arrives, and the
    duration derived from it is these digits, left-padded with zeros,
    read as HHMMSS; the class variant displays them as HH:MM:SS.  In the
    script variant a press on a buffer of 6 digits is ignored: the
    buffer holds the first 6 digits pressed, with their HHMMSS duration,
    which are the last 6 for rows of at most 6 presses.  In all three,
    pressing 1, 2, 3, 4, 5 displays 00:00:01, 00:00:12, 00:01:23,
    00:12:34, 01:23:45 one after the other. *)
Theorem C1_digit_buffer_shift (ds : list Z) :
  Forall is_digit ds ->
  (forall ui : ClassVariant.UIController.t,
      ClassVariant.UIController.inputSequence ui = [] ->
      let ui' := exec (class_press ds) ui in
      ClassVariant.UIController.inputSequence ui' = digits_text (last_n 6 ds)
      /\ ClassVariant.UIController.totalMs
           (ClassVariant.UIController.inputSequence ui')
         = Num (hhmmss_ms (last_n 6 ds))
      /\ (ds <> [] ->
          ClassVariant.UIController.countdownDisplay ui'
          = mkDisplay (hhmmss_text (last_n 6 ds)) (str ".000")))
  /\ (forall c : TimerBaseVariant.Countdown.t,
      TimerBaseVariant.Countdown.inputBuffer c = [] ->
      let c' := exec (timerbase_press ds) c in
      TimerBaseVariant.Countdown.inputBuffer c' = map digit_text (last_n 6 ds)
      /\ (ds <> [] ->
          TimerBaseVariant.Countdown.remainingTime c'
          = Num (hhmmss_ms (last_n 6 ds))))
  /\ (forall s : ScriptVariant.t,
      ScriptVariant.cdDigits s = [] ->
      let s' := exec (script_press ds) s in
      ScriptVariant.cdDigits s' = digits_text (firstn 6 ds)
      /\ ScriptVariant.getCountdownMilliseconds (ScriptVariant.cdDigits s')
         = Num (hhmmss_ms (firstn 6 ds))
      /\ ((List.length ds <= 6)%nat ->
          ScriptVariant.cdDigits s' = digits_text (last_n 6 ds)))
  /\ (forall (ui : ClassVariant.UIController.t) (c : TimerBaseVariant.Countdown.t)
             (s : ScriptVariant.t),
      ClassVariant.UIController.inputSequence ui = [] ->
      TimerBaseVariant.Countdown.inputBuffer c = [] ->
      ScriptVariant.cdDigits s = [] ->
      let shown := map str ["00:00:01"; "00:00:12"; "00:01:23"; "00:12:34";
                            "01:23:45"]%string in
      let rows := map (fun k => firstn k [1; 2; 3; 4; 5]) [1; 2; 3; 4; 5]%nat in
      map (fun row => time_text (ClassVariant.UIController.countdownDisplay
                                   (exec (class_press row) ui))) rows = shown
      /\ map (fun row => time_text (TimerBaseVariant.Countdown.displayElement
                                      (exec (timerbase_press row) c))) rows = shown
      /\ map (fun row => time_text (ScriptVariant.cdDisplay
                                      (exec (script_press row) s))) rows = shown).
Proof.
  intros Hds.
  pose proof (Forall_last_n is_digit 6 ds Hds) as Hlast.
  pose proof (Forall_firstn is_digit 6 ds Hds) as Hfirst.
  pose proof (last_n_at_most 6 ds) as Hlen.
  split; [|split; [|split]].
  - intros ui Hui ui'.
    assert (E : ClassVariant.UIController.inputSequence ui'
                = digits_text (last_n 6 ds)).
    { rewrite digits_text_map by exact Hlast.
      apply (class_press_buffer ds Hds [] ui). rewrite Hui. reflexivity. }
    split; [exact E|].
    split.
    + rewrite E. apply class_totalMs_digits; assumption.
    + intros Hne. unfold ui'. rewrite class_press_display by exact Hne.
      fold ui'. rewrite E. apply input_display_digits; assumption.
  - intros c Hc c'.
    assert (E : TimerBaseVariant.Countdown.inputBuffer c'
                = map digit_text (last_n 6 ds)).
    { apply (timerbase_press_buffer ds Hds [] c). rewrite Hc. reflexivity. }
    split; [exact E|].
    intros Hne. unfold c'.
    rewrite (proj1 (timerbase_press_remaining ds c Hne)).
    fold c'. rewrite E. apply timerbase_currentInputMs_digits; assumption.
  - intros s Hs s'.
    assert (E : ScriptVariant.cdDigits s' = digits_text (firstn 6 ds)).
    { rewrite digits_text_map by exact Hfirst.
      apply (script_press_buffer ds Hds [] s). rewrite Hs. reflexivity. }
    split; [exact E|].
    split.
    + rewrite E. apply script_getCountdownMilliseconds_digits;
        [exact Hfirst | rewrite length_firstn; lia].
    + intros Hshort. rewrite E, last_n_short, firstn_all2 by lia. reflexivity.
  - intros ui c s Hui Hc Hs.
    destruct ui, c, s. cbn in Hui, Hc, Hs. subst.
    repeat split; reflexivity.
Qed.

Lemma C1_digit_buffer_shift_witness :
  Forall is_digit [1; 2; 3; 4; 5; 6; 7] /\
  ClassVariant.UIController.inputSequence
    (exec (class_press [1; 2; 3; 4; 5; 6; 7]) class_ui0) = str "234567"
  /\ ScriptVariant.cdDigits (exec (script_press [1; 2; 3; 4; 5; 6; 7]) script0)
     = str "123456".
Proof.
  split; [apply all_digits_decidable; reflexivity|].
  pose (H := C1_digit_buffer_shift [1; 2; 3; 4; 5; 6; 7]
               (all_digits_decidable [1; 2; 3; 4; 5; 6; 7] eq_refl)).
  split.
  - exact (proj1 (proj1 H class_ui0 eq_refl)).
  - exact (proj1 (proj1 (proj2 (proj2 H)) script0 eq_refl)).
Defined.

(** The claim C1 as stated fails in the script variant: after the
    presses 1, 2, 3, 4, 5, 6, 7 the buffer cdDigits holds 123456 and not
    the last six digits 234567, and the duration is that of 12:34:56. *)
Lemma C1_script_ignores_seventh_digit :
  let s' := exec (script_press [1; 2; 3; 4; 5; 6; 7]) script0 in
  ScriptVariant.cdDigits s' = str "123456"
  /\ ScriptVariant.cdDigits s' <> digits_text (last_n 6 [1; 2; 3; 4; 5; 6; 7])
  /\ ScriptVariant.getCountdownMilliseconds (ScriptVariant.cdDigits s')
     <> Num (hhmmss_ms (last_n 6 [1; 2; 3; 4; 5; 6; 7])).
Proof.
  cbv zeta. split; [reflexivity|].
  split; intros H; vm_compute in H; discriminate H.
Qed.

(** ** C4: a zero duration is rejected *)

Lemma countdownTimer_setTime_rejects (s : ClassVariant.CountdownTimer.t) (ms : Z) :
  ms <= 0 ->
  ClassVariant.CountdownTimer.setTime (Num ms) s
  = mkResult (inr "Countdown time must be positive"%string) s [].
Proof.
  intros H. unfold ClassVariant.CountdownTimer.setTime, leb.
  destruct (Z.leb_spec ms 0); [reflexivity | lia].
Qed.

Lemma setCountdownTime_rejects (ui : ClassVariant.UIController.t) (ms : Z) :
  ClassVariant.UIController.totalMs (ClassVariant.UIController.inputSequence ui)
  = Num ms ->
  ms <= 0 ->
  ClassVariant.UIController.setCountdownTime ui
  = mkResult (inl tt) ui
      [ConsoleError
         "Error setting countdown time: Countdown time must be greater than zero";
       ShowAlert "Please enter a valid time greater than zero" "error"].
Proof.
  intros Hms H. unfold ClassVariant.UIController.setCountdownTime.
  run_method. rewrite Hms. unfold leb.
  destruct (Z.leb_spec ms 0); [reflexivity | lia].
Qed.

Lemma timerbase_setTime_rejects (c : TimerBaseVariant.Countdown.t) :
  TimerBaseVariant.Countdown.inputBuffer c = []
  \/ TimerBaseVariant.Countdown.remainingTime c = Num 0 ->
  TimerBaseVariant.Countdown.setTime c
  = mkResult (inl tt) c
      [ConsoleWarn "Cannot set countdown to 0. Please enter a valid time.";
       Modal "Please enter a time greater than zero."].
Proof.
  intros H. unfold TimerBaseVariant.Countdown.setTime. run_method.
  assert (E : ((List.length (TimerBaseVariant.Countdown.inputBuffer c) =? 0)%nat
               || strict_eq (TimerBaseVariant.Countdown.remainingTime c) (Num 0))
              = true).
  { destruct H as [H|H]; rewrite H; [reflexivity|].
    apply orb_true_r. }
  rewrite E. reflexivity.
Qed.

Lemma script_set_zero (s : ScriptVariant.t) :
  ScriptVariant.getCountdownMilliseconds (ScriptVariant.cdDigits s) = Num 0 ->
  ScriptVariant.cdSetBtn_onclick s
  = mkResult (inl tt) (ScriptVariant.set_cdMilliseconds (Num 0) s)
      [Alert "Set a valid time."].
Proof.
  intros H. unfold ScriptVariant.cdSetBtn_onclick. run_method.
  cbn [ScriptVariant.set_cdMilliseconds ScriptVariant.cdMilliseconds].
  rewrite H. reflexivity.
Qed.

Lemma script_set_cdMilliseconds_same (s : ScriptVariant.t) (v : number) :
  ScriptVariant.cdMilliseconds s = v -> ScriptVariant.set_cdMilliseconds v s = s.
Proof. intros <-. destruct s. reflexivity. Qed.

(** The Set handler run where the page hides its button.  After 5 and
    Set the button is hidden; the handlers of Clear (of the input) and
    of Set, run all the same, would put cdMilliseconds from 5000 to 0
    with the alert. *)
Lemma script_set_handler_when_hidden :
  let prior :=
    exec (script_press [5] ;; ScriptVariant.cdSetBtn_onclick ;;
          ScriptVariant.cdClearInputBtn_onclick) script0 in
  ScriptVariant.cdMilliseconds prior = Num 5000
  /\ ScriptVariant.hidden prior ScriptVariant.cdSetBtn = true
  /\ ScriptVariant.getCountdownMilliseconds (ScriptVariant.cdDigits prior) = Num 0
  /\ output (ScriptVariant.cdSetBtn_onclick prior) = [Alert "Set a valid time."]
  /\ ScriptVariant.cdMilliseconds (exec ScriptVariant.cdSetBtn_onclick prior)
     = Num 0.
Proof. cbv zeta. repeat split; reflexivity. Qed.

(** ** C5: the maximum duration *)

Lemma timerbase_maxTimeMs (page : TimerBaseVariant.Countdown.element -> bool) :
  TimerBaseVariant.Countdown.maxTimeMs (TimerBaseVariant.Countdown.new page)
  = Num 359999000.
Proof. reflexivity. Qed.

Lemma timerbase_setTime_accepts (c : TimerBaseVariant.Countdown.t) (d : Z) :
  TimerBaseVariant.Countdown.inputBuffer c <> [] ->
  TimerBaseVariant.Countdown.remainingTime c = Num d ->
  TimerBaseVariant.Countdown.maxTimeMs c = Num 359999000 ->
  0 < d <= 359999000 ->
  let r := TimerBaseVariant.Countdown.setTime c in
  value r = inl tt /\ output r = []
  /\ TimerBaseVariant.Countdown.initialTime (state r) = Num d
  /\ TimerBaseVariant.Countdown.remainingTime (state r) = Num d
  /\ TimerBaseVariant.Countdown.inputBuffer (state r)
     = TimerBaseVariant.Countdown.inputBuffer c
  /\ TimerBaseVariant.Countdown.hidden (state r)
       TimerBaseVariant.Countdown.timerControls = false
  /\ TimerBaseVariant.Countdown.hidden (state r)
       TimerBaseVariant.Countdown.inputControls = true.
Proof.
  intros Hbuf Hrem Hmax Hd r. unfold r, TimerBaseVariant.Countdown.setTime.
  run_method. rewrite Hrem, Hmax.
  destruct (TimerBaseVariant.Countdown.inputBuffer c) as [|x b] eqn:E;
    [contradiction|].
  cbn [List.length Nat.eqb orb strict_eq gtb].
  destruct (Z.eqb_spec d 0); [lia|].
  destruct (Z.ltb_spec 359999000 d); [lia|].
  cbn. rewrite E, Hrem. repeat split; reflexivity.
Qed.

Lemma timerbase_setTime_overflow (c : TimerBaseVariant.Countdown.t) (d : Z) :
  TimerBaseVariant.Countdown.inputBuffer c <> [] ->
  TimerBaseVariant.Countdown.remainingTime c = Num d ->
  TimerBaseVariant.Countdown.maxTimeMs c = Num 359999000 ->
  359999000 < d ->
  let r := TimerBaseVariant.Countdown.setTime c in
  value r = inl tt
  /\ output r = [ConsoleWarn (TimerBaseVariant.Countdown.exceeds_message (Num d));
                 Modal "Maximum time allowed is 99:59:59."]
  /\ TimerBaseVariant.Countdown.inputBuffer (state r) = []
  /\ TimerBaseVariant.Countdown.initialTime (state r) = Num 0
  /\ TimerBaseVariant.Countdown.remainingTime (state r) = Num 0
  /\ TimerBaseVariant.Countdown.hidden (state r)
       TimerBaseVariant.Countdown.inputControls = false.
Proof.
  intros Hbuf Hrem Hmax Hd r. unfold r, TimerBaseVariant.Countdown.setTime.
  run_method. rewrite Hrem, Hmax.
  destruct (TimerBaseVariant.Countdown.inputBuffer c) as [|x b] eqn:E;
    [contradiction|].
  cbn [List.length Nat.eqb orb strict_eq gtb].
  destruct (Z.eqb_spec d 0); [lia|].
  destruct (Z.ltb_spec 359999000 d); [|lia].
  cbn. repeat split; reflexivity.
Qed.

Lemma countdownTimer_setTime_accepts (s : ClassVariant.CountdownTimer.t) (d : Z) :
  0 < d ->
  let r := ClassVariant.CountdownTimer.setTime (Num d) s in
  value r = inl tt /\ output r = []
  /\ ClassVariant.CountdownTimer.initialTime (state r) = Num d
  /\ ClassVariant.CountdownTimer.remainingTime (state r) = Num d
  /\ ClassVariant.CountdownTimer.hasExpired (state r) = false.
Proof.
  intros Hd r. unfold r, ClassVariant.CountdownTimer.setTime, leb.
  destruct (Z.leb_spec d 0); [lia|].
  repeat split; reflexivity.
Qed.

(** C5, as the code has it.  The maximum of 99:59:59 = 359,999,000 ms
    is a policy of the TimerBase variant only: there, confirming a
    non-empty buffer whose duration d has 0 < d <= 359,999,000 succeeds
    (initialTime = d, the timer controls are shown), and for d >
    359,999,000 it is refused with 'Maximum time allowed is 99:59:59.'
    and the buffer is reset to empty, with both times at 0.
    CountdownTimer.setTime of the class variant has no maximum: it
    accepts every d > 0. *)
Theorem C5_maximum_duration_policy :
  (forall page, TimerBaseVariant.Countdown.maxTimeMs
                  (TimerBaseVariant.Countdown.new page) = Num 359999000)
  /\ (forall (c : TimerBaseVariant.Countdown.t) (d : Z),
      TimerBaseVariant.Countdown.inputBuffer c <> [] ->
      TimerBaseVariant.Countdown.remainingTime c = Num d ->
      TimerBaseVariant.Countdown.maxTimeMs c = Num 359999000 ->
      let r := TimerBaseVariant.Countdown.setTime c in
      (0 < d <= 359999000 ->
       value r = inl tt /\ output r = []
       /\ TimerBaseVariant.Countdown.initialTime (state r) = Num d
       /\ TimerBaseVariant.Countdown.remainingTime (state r) = Num d
       /\ TimerBaseVariant.Countdown.inputBuffer (state r)
          = TimerBaseVariant.Countdown.inputBuffer c
       /\ TimerBaseVariant.Countdown.hidden (state r)
            TimerBaseVariant.Countdown.timerControls = false)
      /\ (359999000 < d ->
          output r = [ConsoleWarn (TimerBaseVariant.Countdown.exceeds_message (Num d));
                      Modal "Maximum time allowed is 99:59:59."]
          /\ TimerBaseVariant.Countdown.inputBuffer (state r) = []
          /\ TimerBaseVariant.Countdown.initialTime (state r) = Num 0
          /\ TimerBaseVariant.Countdown.remainingTime (state r) = Num 0))
  /\ (forall (s : ClassVariant.CountdownTimer.t) (d : Z),
      0 < d ->
      let r := ClassVariant.CountdownTimer.setTime (Num d) s in
      value r = inl tt
      /\ ClassVariant.CountdownTimer.initialTime (state r) = Num d
      /\ ClassVariant.CountdownTimer.remainingTime (state r) = Num d).
Proof.
  split; [exact timerbase_maxTimeMs|]. split.
  - intros c d Hbuf Hrem Hmax r. split; intros Hd.
    + destruct (timerbase_setTime_accepts c d Hbuf Hrem Hmax Hd)
        as (H1 & H2 & H3 & H4 & H5 & H6 & _).
      repeat split; assumption.
    + destruct (timerbase_setTime_overflow c d Hbuf Hrem Hmax Hd)
        as (_ & H2 & H3 & H4 & H5 & _).
      repeat split; assumption.
  - intros s d Hd r.
    destruct (countdownTimer_setTime_accepts s d Hd) as (H1 & _ & H3 & H4 & _).
    repeat split; assumption.
Qed.

Lemma C5_maximum_duration_policy_witness :
  let c := exec (timerbase_press [9; 9; 9; 9; 9; 9]) timerbase0 in
  TimerBaseVariant.Countdown.inputBuffer c <> []
  /\ TimerBaseVariant.Countdown.remainingTime c = Num 362439000
  /\ TimerBaseVariant.Countdown.maxTimeMs c = Num 359999000
  /\ 359999000 < 362439000
  /\ TimerBaseVariant.Countdown.inputBuffer
       (exec TimerBaseVariant.Countdown.setTime c) = [].
Proof.
  cbv zeta.
  split; [intros H; discriminate H|].
  split; [reflexivity|]. split; [reflexivity|]. split; [lia|].
  refine (proj1 (proj2 (proj2 (proj1 (proj2 C5_maximum_duration_policy)
            (exec (timerbase_press [9; 9; 9; 9; 9; 9]) timerbase0) 362439000
            _ eq_refl eq_refl) ltac:(lia)))).
  intros H; discriminate H.
Defined.

(** The claim C5 as stated fails in the class variant: the input
    999999 is a duration of 362,439,000 ms, above 359,999,000, and
    setCountdownTime() and CountdownTimer.setTime accept it without any
    error or alert and leave the input sequence as it is. *)
Lemma C5_class_accepts_above_maximum :
  let ui := exec (class_press [9; 9; 9; 9; 9; 9]) class_ui0 in
  ClassVariant.UIController.totalMs (ClassVariant.UIController.inputSequence ui)
  = Num 362439000
  /\ 359999000 < 362439000
  /\ output (ClassVariant.UIController.setCountdownTime ui) = []
  /\ ClassVariant.CountdownTimer.initialTime
       (ClassVariant.UIController.countdownTimer
          (exec ClassVariant.UIController.setCountdownTime ui))
     = Num 362439000
  /\ ClassVariant.UIController.inputSequence
       (exec ClassVariant.UIController.setCountdownTime ui) = str "999999"
  /\ value (ClassVariant.CountdownTimer.setTime (Num 362439000)
              ClassVariant.CountdownTimer.new) = inl tt.
Proof.
  cbv zeta. repeat split; try reflexivity.
Qed.

(** ** C7: start() while running *)

Lemma timer_start_running (s : ClassVariant.Timer.t) (now now' : Z) :
  ClassVariant.Timer.isRunning s = true ->
  ClassVariant.Timer.start now now' s
  = mkResult (inl tt) s [ConsoleWarn "Timer is already running"].
Proof.
  intros H. unfold ClassVariant.Timer.start. run_method. rewrite H. reflexivity.
Qed.

Lemma timer_start_value (s : ClassVariant.Timer.t) (now now' : Z) :
  value (ClassVariant.Timer.start now now' s) = inl tt.
Proof.
  unfold ClassVariant.Timer.start, ClassVariant.Timer._update. run_method.
  destruct (ClassVariant.Timer.isRunning s); reflexivity.
Qed.

Lemma timer_start_runs (s : ClassVariant.Timer.t) (now now' : Z) :
  ClassVariant.Timer.isRunning (exec (ClassVariant.Timer.start now now') s) = true.
Proof.
  unfold ClassVariant.Timer.start, ClassVariant.Timer._update. run_method.
  destruct (ClassVariant.Timer.isRunning s) eqn:E; [exact E | reflexivity].
Qed.

Lemma timer_start_anchor (s : ClassVariant.Timer.t) (now now' : Z) :
  ClassVariant.Timer.isRunning s = false ->
  ClassVariant.Timer.startTime (exec (ClassVariant.Timer.start now now') s)
  = sub (Num now) (ClassVariant.Timer.elapsedTime s).
Proof.
  intros H. unfold ClassVariant.Timer.start, ClassVariant.Timer._update.
  run_method. rewrite H. reflexivity.
Qed.

Lemma timer_start_twice (s : ClassVariant.Timer.t) (t1 t1' t2 t2' : Z) :
  exec (ClassVariant.Timer.start t1 t1' ;; ClassVariant.Timer.start t2 t2') s
  = exec (ClassVariant.Timer.start t1 t1') s.
Proof.
  rewrite (exec_bind _ _ _ tt) by apply timer_start_value.
  unfold exec at 1.
  rewrite timer_start_running by apply timer_start_runs.
  reflexivity.
Qed.

Lemma timerbase_stopwatch_start_running
  (s : TimerBaseVariant.Stopwatch.t) (now : Z) :
  TimerBaseVariant.Stopwatch.isRunning s = true ->
  TimerBaseVariant.Stopwatch.start now s = mkResult (inl tt) s [].
Proof.
  intros H. unfold TimerBaseVariant.Stopwatch.start. run_method.
  rewrite H. reflexivity.
Qed.

Lemma script_start_anchor (s : ScriptVariant.t) (now : Z) :
  ScriptVariant.swStart (exec (ScriptVariant.swStartBtn_onclick now) s) = Num now
  /\ ScriptVariant.swElapsed (exec (ScriptVariant.swStartBtn_onclick now) s)
     = ScriptVariant.swElapsed s
  /\ value (ScriptVariant.swStartBtn_onclick now s) = inl tt
  /\ output (ScriptVariant.swStartBtn_onclick now s) = []
  /\ Intervals.active
       (ScriptVariant.intervals (exec (ScriptVariant.swStartBtn_onclick now) s))
     = Intervals.active (ScriptVariant.intervals s)
       ++ [(Intervals.next_id (ScriptVariant.intervals s),
            ScriptVariant.updateStopwatch_cb)].
Proof. repeat split; reflexivity. Qed.

(** The Start handler run where the page hides its button.  The first
    run hides Start; a second run, made all the same at time 1000,
    would set the anchor swStart anew and enter a second interval. *)
Lemma script_start_handler_when_hidden :
  let once := exec (ScriptVariant.swStartBtn_onclick 0) script0 in
  let twice := exec (ScriptVariant.swStartBtn_onclick 1000) once in
  ScriptVariant.hidden once ScriptVariant.swStartBtn = true
  /\ ScriptVariant.swStart once = Num 0
  /\ ScriptVariant.swStart twice = Num 1000
  /\ map fst (Intervals.active (ScriptVariant.intervals twice)) = [1; 2]%nat.
Proof. cbv zeta. repeat split; reflexivity. Qed.

(** ** C2: the expiration of a countdown of the class variant *)

Section Expiration.
Import ClassVariant.UIController.

Lemma expirations_app (a b : list effect) :
  expirations (a ++ b) = (expirations a + expirations b)%nat.
Proof. unfold expirations. rewrite filter_app, length_app. reflexivity. Qed.

(** Runs the methods of the class variant on a state given by its
    fields, down to the tests on integers and on the page. *)
Ltac run_class :=
  cbv beta iota zeta
    delta [bind get modify emit ret throw when exec try_catch on_member
           value state output leb gtb strict_eq sub add mul Math_max lift2
           negb andb orb
           run_frames for_each run_frame on_countdownTimer on_stopwatch
           _updateDisplays _playCompletionSound showAlert hide unhide
           setCountdownTime startCountdown pauseCountdown continueCountdown
           clearCountdown resetCountdownUI clearCountdownInput
           hidden stopwatchDisplay countdownDisplay stopwatch countdownTimer
           inputSequence stopwatchExpired countdownExpired
           set_hidden set_stopwatchDisplay set_countdownDisplay set_stopwatch
           set_countdownTimer set_inputSequence set_stopwatchExpired
           set_countdownExpired
           ClassVariant.CountdownTimer._update ClassVariant.CountdownTimer.start
           ClassVariant.CountdownTimer.stop ClassVariant.CountdownTimer.setTime
           ClassVariant.CountdownTimer.reset ClassVariant.CountdownTimer.clear
           ClassVariant.CountdownTimer.isExpired
           ClassVariant.CountdownTimer.initialTime
           ClassVariant.CountdownTimer.remainingTime
           ClassVariant.CountdownTimer.isRunning
           ClassVariant.CountdownTimer.startTime
           ClassVariant.CountdownTimer.animationFrame
           ClassVariant.CountdownTimer.hasExpired
           ClassVariant.CountdownTimer.set_initialTime
           ClassVariant.CountdownTimer.set_remainingTime
           ClassVariant.CountdownTimer.set_isRunning
           ClassVariant.CountdownTimer.set_startTime
           ClassVariant.CountdownTimer.set_animationFrame
           ClassVariant.CountdownTimer.set_hasExpired
           ClassVariant.Timer._update ClassVariant.Timer.start
           ClassVariant.Timer.stop ClassVariant.Timer.reset
           ClassVariant.Timer.startTime ClassVariant.Timer.elapsedTime
           ClassVariant.Timer.isRunning ClassVariant.Timer.animationFrame
           ClassVariant.Timer.set_startTime ClassVariant.Timer.set_elapsedTime
           ClassVariant.Timer.set_isRunning
           ClassVariant.Timer.set_animationFrame].

Ltac run_class_all :=
  cbv beta iota zeta
    delta [bind get modify emit ret throw when exec try_catch on_member
           value state output leb gtb strict_eq sub add mul Math_max lift2
           negb andb orb
           run_frames for_each run_frame on_countdownTimer on_stopwatch
           _updateDisplays _playCompletionSound showAlert hide unhide
           setCountdownTime startCountdown pauseCountdown continueCountdown
           clearCountdown resetCountdownUI clearCountdownInput
           hidden stopwatchDisplay countdownDisplay stopwatch countdownTimer
           inputSequence stopwatchExpired countdownExpired
           set_hidden set_stopwatchDisplay set_countdownDisplay set_stopwatch
           set_countdownTimer set_inputSequence set_stopwatchExpired
           set_countdownExpired
           ClassVariant.CountdownTimer._update ClassVariant.CountdownTimer.start
           ClassVariant.CountdownTimer.stop ClassVariant.CountdownTimer.setTime
           ClassVariant.CountdownTimer.reset ClassVariant.CountdownTimer.clear
           ClassVariant.CountdownTimer.isExpired
           ClassVariant.CountdownTimer.initialTime
           ClassVariant.CountdownTimer.remainingTime
           ClassVariant.CountdownTimer.isRunning
           ClassVariant.CountdownTimer.startTime
           ClassVariant.CountdownTimer.animationFrame
           ClassVariant.CountdownTimer.hasExpired
           ClassVariant.CountdownTimer.set_initialTime
           ClassVariant.CountdownTimer.set_remainingTime
           ClassVariant.CountdownTimer.set_isRunning
           ClassVariant.CountdownTimer.set_startTime
           ClassVariant.CountdownTimer.set_animationFrame
           ClassVariant.CountdownTimer.set_hasExpired
           ClassVariant.Timer._update ClassVariant.Timer.start
           ClassVariant.Timer.stop ClassVariant.Timer.reset
           ClassVariant.Timer.startTime ClassVariant.Timer.elapsedTime
           ClassVariant.Timer.isRunning ClassVariant.Timer.animationFrame
           ClassVariant.Timer.set_startTime ClassVariant.Timer.set_elapsedTime
           ClassVariant.Timer.set_isRunning
           ClassVariant.Timer.set_animationFrame] in *.


(** Decides the tests on elements of the page. *)
Ltac same_element :=
  repeat match goal with
         | |- context [element_eq_dec ?a ?b] =>
             let E := fresh "E" in
             destruct (element_eq_dec a b) as [E|E];
             [try discriminate E | try (exfalso; apply E; reflexivity)]
         end.

(** Opens a controller, its countdown timer and its stopwatch into
    their fields. *)
Ltac open_ui ui :=
  let h := fresh "h" in
  let c := fresh "c" in
  let w := fresh "w" in
  destruct ui as [h ? ? w c ? ? ?]; destruct c as [? ? ? ? ? ?];
  destruct w as [? ? ? ?].

Ltac split_ifs :=
  repeat match goal with
         | |- context [if ?b then _ else _] =>
             lazymatch type of b with
             | bool => destruct b eqn:?; run_class
             end
         end.

Lemma run_frame_value (f : frame) (ui : t) : value (run_frame f ui) = inl tt.
Proof.
  destruct f as [now|now|]; open_ui ui; run_class; split_ifs;
    try reflexivity;
    repeat match goal with
           | |- context [match ?x with Num _ => _ | NaN => _ end] =>
               destruct x; run_class; split_ifs
           end; reflexivity.
Qed.

Lemma run_frames_cons (f : frame) (fs : list frame) (ui : t) :
  exec (run_frames (f :: fs)) ui = exec (run_frames fs) (exec (run_frame f) ui)
  /\ output (run_frames (f :: fs) ui)
     = output (run_frame f ui) ++ output (run_frames fs (exec (run_frame f) ui)).
Proof.
  unfold run_frames. cbn [for_each]. split.
  - exact (exec_bind _ _ _ tt (run_frame_value f ui)).
  - exact (output_bind _ _ _ tt (run_frame_value f ui)).
Qed.

Lemma run_frames_app (fs1 fs2 : list frame) (ui : t) :
  exec (run_frames (fs1 ++ fs2)) ui
  = exec (run_frames fs2) (exec (run_frames fs1) ui)
  /\ output (run_frames (fs1 ++ fs2) ui)
     = output (run_frames fs1 ui)
       ++ output (run_frames fs2 (exec (run_frames fs1) ui)).
Proof.
  revert ui. induction fs1 as [|f fs1 IH]; intros ui.
  - split; reflexivity.
  - cbn [app].
    destruct (run_frames_cons f (fs1 ++ fs2) ui) as [-> ->].
    destruct (run_frames_cons f fs1 ui) as [-> ->].
    destruct (IH (exec (run_frame f) ui)) as [-> ->].
    rewrite app_assoc. split; reflexivity.
Qed.

Ltac leb_cases :=
  match goal with
  | |- context [(?a <=? ?b)%Z] => destruct (Z.leb_spec a b)
  end.

Lemma countdown_frame_armed (d t0 now : Z) (ui : t) :
  armed d t0 ui ->
  output (run_frame (CountdownFrame now) ui) = []
  /\ (now < t0 + d -> armed d t0 (exec (run_frame (CountdownFrame now)) ui))
  /\ (t0 + d <= now ->
      expired (exec (run_frame (CountdownFrame now)) ui)
      /\ countdownExpired (exec (run_frame (CountdownFrame now)) ui) = false).
Proof.
  intros H. open_ui ui. unfold armed, expired in *. run_class_all.
  destruct H as (H1 & H2 & H3 & H4 & H5 & H6 & H7 & H8). subst.
  leb_cases; run_class; (split; [reflexivity|]); split; intros Hnow;
    try lia; repeat split; assumption || reflexivity.
Qed.

Lemma stopwatch_frame_same (now : Z) (ui : t) :
  output (run_frame (StopwatchFrame now) ui) = []
  /\ hidden (exec (run_frame (StopwatchFrame now)) ui) = hidden ui
  /\ countdownTimer (exec (run_frame (StopwatchFrame now)) ui) = countdownTimer ui
  /\ countdownExpired (exec (run_frame (StopwatchFrame now)) ui)
     = countdownExpired ui.
Proof.
  open_ui ui. run_class. split_ifs; repeat split; reflexivity.
Qed.

Lemma display_frame_armed (d t0 : Z) (ui : t) :
  armed d t0 ui ->
  expirations (output (run_frame DisplayFrame ui)) = 0%nat
  /\ armed d t0 (exec (run_frame DisplayFrame) ui).
Proof.
  intros H. open_ui ui. unfold armed in *. run_class_all.
  destruct H as (H1 & H2 & H3 & H4 & H5 & H6 & H7 & H8). subst.
  rewrite H1, H2. run_class. split_ifs; (split; [reflexivity|]);
    repeat split; assumption || reflexivity.
Qed.

Lemma display_frame_expired (ui : t) :
  expired ui ->
  (fired ui + expirations (output (run_frame DisplayFrame ui)))%nat = 1%nat
  /\ expired (exec (run_frame DisplayFrame) ui)
  /\ countdownExpired (exec (run_frame DisplayFrame) ui) = true.
Proof.
  intros H. open_ui ui. unfold expired, fired in *. run_class_all.
  destruct H as (H1 & H2 & H3 & H4 & H5). subst.
  rewrite H1, H2. run_class. same_element.
  split_ifs; (split; [reflexivity|]); (split; [|reflexivity]);
    repeat split; assumption || reflexivity.
Qed.

Lemma countdown_frame_expired (now : Z) (ui : t) :
  expired ui ->
  run_frame (CountdownFrame now) ui = mkResult (inl tt) ui [].
Proof.
  intros H. open_ui ui. unfold expired in *. run_class_all.
  destruct H as (H1 & H2 & H3 & H4 & H5). subst. reflexivity.
Qed.

Lemma stopwatch_frame_phase (d t0 now : Z) (ui : t) (n : nat) :
  run_phase d t0 ui n ->
  run_phase d t0 (exec (run_frame (StopwatchFrame now)) ui) n.
Proof.
  destruct (stopwatch_frame_same now ui) as (_ & Hh & Hc & He).
  unfold run_phase, armed, expired, fired. rewrite Hh, Hc, He. tauto.
Qed.

Lemma run_frame_phase (d t0 : Z) (f : frame) (ui : t) (n : nat) :
  run_phase d t0 ui n ->
  run_phase d t0 (exec (run_frame f) ui)
    (n + expirations (output (run_frame f ui))).
Proof.
  intros H. destruct f as [now|now|].
  - destruct H as [[Ha ->]|[He ->]].
    + destruct (countdown_frame_armed d t0 now ui Ha) as (-> & Hearly & Hlate).
      destruct (Z.lt_ge_cases now (t0 + d)) as [Hlt|Hge].
      * left. split; [auto | reflexivity].
      * right. destruct (Hlate Hge) as [He Hc]. split; [exact He|].
        unfold fired. rewrite Hc. reflexivity.
    + unfold exec. rewrite (countdown_frame_expired now ui He).
      right. split; [exact He | cbn; lia].
  - destruct (stopwatch_frame_same now ui) as (-> & _).
    replace (n + expirations [])%nat with n by (cbn; lia).
    apply stopwatch_frame_phase. exact H.
  - destruct H as [[Ha ->]|[He ->]].
    + destruct (display_frame_armed d t0 ui Ha) as (-> & Ha').
      left. split; [exact Ha' | reflexivity].
    + destruct (display_frame_expired ui He) as (Hn & He' & Hc).
      right. split; [exact He'|]. unfold fired at 2. rewrite Hc. exact Hn.
Qed.

Lemma run_frames_phase (d t0 : Z) (fs : list frame) :
  forall (ui : t) (n : nat),
    run_phase d t0 ui n ->
    run_phase d t0 (exec (run_frames fs) ui)
      (n + expirations (output (run_frames fs ui))).
Proof.
  induction fs as [|f fs IH]; intros ui n H.
  - cbn. replace (n + 0)%nat with n by lia. exact H.
  - destruct (run_frames_cons f fs ui) as [-> ->].
    rewrite expirations_app, Nat.add_assoc.
    apply IH, run_frame_phase, H.
Qed.

Lemma run_frames_before (d t0 : Z) (fs : list frame) :
  forall ui : t,
    armed d t0 ui -> frames_before (t0 + d) fs ->
    armed d t0 (exec (run_frames fs) ui).
Proof.
  induction fs as [|f fs IH]; intros ui Ha Hb; [exact Ha|].
  destruct (run_frames_cons f fs ui) as [-> _].
  apply IH; [|intros now Hin; apply Hb; right; exact Hin].
  destruct f as [now|now|].
  - apply (countdown_frame_armed d t0 now ui Ha). apply Hb. left. reflexivity.
  - destruct (stopwatch_frame_phase d t0 now ui 0 (or_introl (conj Ha eq_refl)))
      as [[Ha' _]|[He _]]; [exact Ha'|].
    destruct Ha as (_ & _ & Hrun & _). destruct He as (_ & _ & Hstop & _).
    destruct (stopwatch_frame_same now ui) as (_ & _ & Hc & _).
    rewrite Hc in Hstop. congruence.
  - apply (display_frame_armed d t0 ui Ha).
Qed.

Lemma run_frames_expired (fs : list frame) :
  forall ui : t,
    expired ui ->
    expired (exec (run_frames fs) ui)
    /\ (countdownExpired ui = true
        -> countdownExpired (exec (run_frames fs) ui) = true).
Proof.
  induction fs as [|f fs IH]; intros ui He; [split; [exact He | auto]|].
  destruct (run_frames_cons f fs ui) as [-> _].
  assert (Hstep : expired (exec (run_frame f) ui)
                  /\ (countdownExpired ui = true
                      -> countdownExpired (exec (run_frame f) ui) = true)).
  { destruct f as [now|now|].
    - unfold exec. rewrite (countdown_frame_expired now ui He). auto.
    - destruct (stopwatch_frame_same now ui) as (_ & Hh & Hc & Hx).
      unfold expired. rewrite Hh, Hc, Hx. auto.
    - destruct (display_frame_expired ui He) as (_ & He' & Hc). auto. }
  destruct Hstep as [He' Hc'].
  destruct (IH _ He') as [He'' Hc'']. auto.
Qed.

Lemma fired_at_most_one (ui : t) : (fired ui <= 1)%nat.
Proof. unfold fired. destruct (countdownExpired ui); lia. Qed.

Lemma bind_assoc {S A B C} (m : M S A) (f : A -> M S B) (g : B -> M S C)
  (s : S) :
  bind (bind m f) g s = bind m (fun a => bind (f a) g) s.
Proof.
  unfold bind. destruct (m s) as [[a|e] s1 o1]; [|reflexivity].
  destruct (f a s1) as [[b|e] s2 o2]; [|reflexivity].
  destruct (g b s2) as [v s3 o3]. rewrite app_assoc. reflexivity.
Qed.

Lemma configure_and_start (ui : t) (d t0 t0' : Z) :
  hidden ui countdownScreen = false ->
  ClassVariant.CountdownTimer.isRunning (countdownTimer ui) = false ->
  totalMs (inputSequence ui) = Num d ->
  0 < d ->
  let r := (setCountdownTime ;; startCountdown t0 t0') ui in
  value r = inl tt
  /\ expirations (output r) = 0%nat
  /\ run_phase d t0 (state r) 0
  /\ (t0' < t0 + d -> armed d t0 (state r)).
Proof.
  intros Hscreen Hrun Hms Hd. open_ui ui.
  unfold run_phase, armed, expired, fired. run_class_all. subst.
  rewrite Hms. run_class.
  repeat (leb_cases; try lia; run_class; same_element).
  all: split; [reflexivity|]; split; [reflexivity|]; split;
    [ (left; repeat split; assumption || reflexivity)
      || (right; repeat split; assumption || reflexivity)
    | intros Hlt; try lia; repeat split; assumption || reflexivity ].
Qed.

Lemma countdown_run_split (ui : t) (t0 t0' : Z) (fs : list frame) :
  value ((setCountdownTime ;; startCountdown t0 t0') ui) = inl tt ->
  let started := exec (setCountdownTime ;; startCountdown t0 t0') ui in
  exec (countdown_run t0 t0' fs) ui = exec (run_frames fs) started
  /\ output (countdown_run t0 t0' fs ui)
     = output ((setCountdownTime ;; startCountdown t0 t0') ui)
       ++ output (run_frames fs started).
Proof.
  intros Hv started. unfold countdown_run, exec.
  rewrite <- (bind_assoc setCountdownTime (fun _ => startCountdown t0 t0')
                (fun _ => run_frames fs)).
  split.
  - exact (exec_bind _ _ _ tt Hv).
  - exact (output_bind _ _ _ tt Hv).
Qed.

Lemma phase_not_both (d t0 : Z) (ui : t) : armed d t0 ui -> expired ui -> False.
Proof.
  intros (_ & _ & Hrun & _) (_ & _ & Hstop & _). congruence.
Qed.

Lemma late_frame_expires (d t0 t1 : Z) (ui : t) (n : nat) :
  run_phase d t0 ui n -> t0 + d <= t1 ->
  expired (exec (run_frame (CountdownFrame t1)) ui).
Proof.
  intros [[Ha _]|[He _]] Hlate.
  - apply (countdown_frame_armed d t0 t1 ui Ha). exact Hlate.
  - unfold exec. rewrite (countdown_frame_expired t1 ui He). exact He.
Qed.

Lemma late_frames_expire (d t0 t1 : Z) (pre mid : list frame) (ui : t) (n : nat) :
  run_phase d t0 ui n -> t0 + d <= t1 ->
  expired (exec (run_frames (pre ++ CountdownFrame t1 :: mid)) ui).
Proof.
  intros Hp Hlate.
  destruct (run_frames_app pre (CountdownFrame t1 :: mid) ui) as [-> _].
  destruct (run_frames_cons (CountdownFrame t1) mid (exec (run_frames pre) ui))
    as [-> _].
  apply run_frames_expired.
  apply (late_frame_expires d t0 t1 _ _ (run_frames_phase d t0 pre ui n Hp) Hlate).
Qed.

Lemma notified_frames (d t0 t1 : Z) (pre mid post : list frame) (ui : t) (n : nat) :
  run_phase d t0 ui n -> t0 + d <= t1 ->
  let fs := pre ++ CountdownFrame t1 :: mid ++ DisplayFrame :: post in
  expired (exec (run_frames fs) ui)
  /\ countdownExpired (exec (run_frames fs) ui) = true.
Proof.
  intros Hp Hlate fs. unfold fs.
  replace (pre ++ CountdownFrame t1 :: mid ++ DisplayFrame :: post)
    with ((pre ++ CountdownFrame t1 :: mid) ++ DisplayFrame :: post)
    by (rewrite <- app_assoc; reflexivity).
  destruct (run_frames_app (pre ++ CountdownFrame t1 :: mid)
              (DisplayFrame :: post) ui) as [-> _].
  pose proof (late_frames_expire d t0 t1 pre mid ui n Hp Hlate) as He.
  destruct (run_frames_cons DisplayFrame post
              (exec (run_frames (pre ++ CountdownFrame t1 :: mid)) ui))
    as [-> _].
  destruct (display_frame_expired _ He) as (_ & He' & Hc).
  destruct (run_frames_expired post _ He') as [He'' Hc''].
  split; [exact He'' | exact (Hc'' Hc)].
Qed.

End Expiration.

(** C2.  In the class variant, on a shown countdown screen with a
    stopped timer and an input of duration d > 0: after Set and Start,
    whatever frames of the timer, the stopwatch and the display loop
    the browser runs, the expiration alert is shown at most once; it is
    not shown, and the timer still runs with its next frame requested,
    as long as every reading of the clock is before the anchor plus d; once a frame of the timer reads
    a time that is d or more past the anchor, the timer has stopped with
    hasExpired set and remainingTime = 0, and stays so; and once a frame
    of the display loop has followed, the alert was shown exactly once,
    whatever frames come after. *)
Theorem C2_expiration_fires_once
  (ui : ClassVariant.UIController.t) (d t0 t0' : Z) :
  ClassVariant.UIController.hidden ui ClassVariant.UIController.countdownScreen
  = false ->
  ClassVariant.CountdownTimer.isRunning
    (ClassVariant.UIController.countdownTimer ui) = false ->
  ClassVariant.UIController.totalMs (ClassVariant.UIController.inputSequence ui)
  = Num d ->
  0 < d ->
  (forall fs,
      (ClassVariant.UIController.expirations
         (output (countdown_run t0 t0' fs ui)) <= 1)%nat)
  /\ (forall fs,
      t0' < t0 + d -> frames_before (t0 + d) fs ->
      ClassVariant.UIController.expirations
        (output (countdown_run t0 t0' fs ui)) = 0%nat
      /\ ClassVariant.CountdownTimer.isRunning
           (ClassVariant.UIController.countdownTimer
              (exec (countdown_run t0 t0' fs) ui)) = true
      /\ ClassVariant.CountdownTimer.animationFrame
           (ClassVariant.UIController.countdownTimer
              (exec (countdown_run t0 t0' fs) ui)) = true)
  /\ (forall pre t1 mid,
      t0 + d <= t1 ->
      let c := ClassVariant.UIController.countdownTimer
                 (exec (countdown_run t0 t0'
                          (pre ++ ClassVariant.UIController.CountdownFrame t1 :: mid))
                    ui) in
      ClassVariant.CountdownTimer.isRunning c = false
      /\ ClassVariant.CountdownTimer.hasExpired c = true
      /\ ClassVariant.CountdownTimer.remainingTime c = Num 0)
  /\ (forall pre t1 mid post,
      t0 + d <= t1 ->
      let r := countdown_run t0 t0'
                 (pre ++ ClassVariant.UIController.CountdownFrame t1
                      :: mid ++ ClassVariant.UIController.DisplayFrame :: post)
                 ui in
      let c := ClassVariant.UIController.countdownTimer (state r) in
      ClassVariant.UIController.expirations (output r) = 1%nat
      /\ ClassVariant.CountdownTimer.isRunning c = false
      /\ ClassVariant.CountdownTimer.hasExpired c = true
      /\ ClassVariant.CountdownTimer.remainingTime c = Num 0).
Proof.
  intros Hscreen Hrun Hms Hd.
  destruct (configure_and_start ui d t0 t0' Hscreen Hrun Hms Hd)
    as (Hv & Hzero & Hphase & Harmed).
  assert (Hcount : forall fs,
             run_phase d t0 (exec (countdown_run t0 t0' fs) ui)
               (ClassVariant.UIController.expirations
                  (output (countdown_run t0 t0' fs ui)))).
  { intros fs.
    destruct (countdown_run_split ui t0 t0' fs Hv) as [-> ->].
    rewrite expirations_app, Hzero.
    apply (run_frames_phase d t0 fs _ 0%nat Hphase). }
  split; [|split; [|split]].
  - intros fs. destruct (Hcount fs) as [[_ ->]|[_ ->]];
      [lia | apply fired_at_most_one].
  - intros fs Hlt Hbefore.
    assert (Ha : armed d t0 (exec (countdown_run t0 t0' fs) ui)).
    { destruct (countdown_run_split ui t0 t0' fs Hv) as [-> _].
      apply run_frames_before; [apply Harmed; exact Hlt | exact Hbefore]. }
    split; [|split].
    + destruct (Hcount fs) as [[_ ->]|[He _]]; [reflexivity|].
      destruct (phase_not_both d t0 _ Ha He).
    + apply Ha.
    + apply Ha.
  - intros pre t1 mid Hlate c. unfold c.
    destruct (countdown_run_split ui t0 t0'
                (pre ++ ClassVariant.UIController.CountdownFrame t1 :: mid) Hv)
      as [-> _].
    destruct (late_frames_expire d t0 t1 pre mid _ 0%nat Hphase Hlate)
      as (_ & _ & H1 & H2 & H3).
    repeat split; assumption.
  - intros pre t1 mid post Hlate r c. subst c r.
    set (fs := pre ++ ClassVariant.UIController.CountdownFrame t1
                   :: mid ++ ClassVariant.UIController.DisplayFrame :: post).
    assert (Hn : expired (exec (countdown_run t0 t0' fs) ui)
                 /\ ClassVariant.UIController.countdownExpired
                      (exec (countdown_run t0 t0' fs) ui) = true).
    { destruct (countdown_run_split ui t0 t0' fs Hv) as [-> _].
      apply (notified_frames d t0 t1 pre mid post _ 0%nat Hphase Hlate). }
    destruct Hn as [He Hc].
    split.
    + destruct (Hcount fs) as [[Ha _]|[_ Hn]].
      * destruct (phase_not_both d t0 _ Ha He).
      * rewrite Hn. unfold fired. rewrite Hc. reflexivity.
    + destruct He as (_ & _ & H1 & H2 & H3). repeat split; assumption.
Qed.

Lemma C2_expiration_fires_once_witness :
  let ui := exec (class_press [5]) class_ui0 in
  ClassVariant.UIController.hidden ui ClassVariant.UIController.countdownScreen
  = false
  /\ ClassVariant.CountdownTimer.isRunning
       (ClassVariant.UIController.countdownTimer ui) = false
  /\ ClassVariant.UIController.totalMs (ClassVariant.UIController.inputSequence ui)
     = Num 5000
  /\ 0 < 5000
  /\ ClassVariant.UIController.expirations
       (output
          (countdown_run 0 0
             ([ClassVariant.UIController.CountdownFrame 2000;
               ClassVariant.UIController.DisplayFrame]
              ++ ClassVariant.UIController.CountdownFrame 5000
              :: [] ++ ClassVariant.UIController.DisplayFrame
              :: [ClassVariant.UIController.CountdownFrame 5016;
                  ClassVariant.UIController.DisplayFrame])
             ui)) = 1%nat.
Proof.
  cbv zeta.
  split; [reflexivity|]. split; [reflexivity|]. split; [reflexivity|].
  split; [lia|].
  exact (proj1 (proj2 (proj2 (proj2
           (C2_expiration_fires_once (exec (class_press [5]) class_ui0)
              5000 0 0 eq_refl eq_refl eq_refl ltac:(lia))))
           [ClassVariant.UIController.CountdownFrame 2000;
            ClassVariant.UIController.DisplayFrame]
           5000 []
           [ClassVariant.UIController.CountdownFrame 5016;
            ClassVariant.UIController.DisplayFrame]
           ltac:(lia))).
Defined.

(** ** C3: pausing and resuming a countdown *)

Lemma countdownTimer_resume (s : ClassVariant.CountdownTimer.t) (d r t t' : Z) :
  ClassVariant.CountdownTimer.isRunning s = false ->
  ClassVariant.CountdownTimer.initialTime s = Num d ->
  ClassVariant.CountdownTimer.remainingTime s = Num r ->
  0 < r ->
  ClassVariant.CountdownTimer.remainingTime
    (exec (ClassVariant.CountdownTimer.start t t') s)
  = Num (Z.max 0 (d - (t' - t))).
Proof.
  intros Hrun Hd Hr Hpos. destruct s as [i rem run st af he].
  cbn in Hrun, Hd, Hr. subst.
  unfold ClassVariant.CountdownTimer.start, ClassVariant.CountdownTimer._update.
  cbv beta iota zeta
    delta [bind get modify emit ret when exec value state output leb sub
           Math_max lift2 negb
           ClassVariant.CountdownTimer.initialTime
           ClassVariant.CountdownTimer.remainingTime
           ClassVariant.CountdownTimer.isRunning
           ClassVariant.CountdownTimer.startTime
           ClassVariant.CountdownTimer.set_remainingTime
           ClassVariant.CountdownTimer.set_isRunning
           ClassVariant.CountdownTimer.set_startTime
           ClassVariant.CountdownTimer.set_animationFrame
           ClassVariant.CountdownTimer.set_hasExpired].
  destruct (Z.leb_spec r 0); [lia|].
  destruct (Z.leb_spec (Z.max 0 (d - (t' - t))) 0); cbn; f_equal; lia.
Qed.

(** C3, on the code.  In the class variant a countdown of 5000 ms that
    ran for 2000 ms is paused with 3000 ms left; resumed at time 10000,
    it has 5000 ms left again: 3000 ms later it has not expired but
    shows 2000 ms, and it expires only 5000 ms after the resumption,
    after 7000 ms of running in all.  The same happens through the
    buttons of the page. *)
Theorem C3_class_resume_restarts_countdown :
  let paused :=
    exec (ClassVariant.CountdownTimer.setTime (Num 5000) ;;
          ClassVariant.CountdownTimer.start 0 0 ;;
          ClassVariant.CountdownTimer._update 2000 ;;
          ClassVariant.CountdownTimer.stop)
      ClassVariant.CountdownTimer.new in
  let resumed := exec (ClassVariant.CountdownTimer.start 10000 10000) paused in
  let later := exec (ClassVariant.CountdownTimer._update 13000) resumed in
  let through_page :=
    exec (class_press [5] ;;
          ClassVariant.UIController.setCountdownTime ;;
          ClassVariant.UIController.startCountdown 0 0 ;;
          ClassVariant.UIController.run_frames
            [ClassVariant.UIController.CountdownFrame 2000] ;;
          ClassVariant.UIController.pauseCountdown ;;
          ClassVariant.UIController.continueCountdown 10000 10000)
      class_ui0 in
  ClassVariant.CountdownTimer.remainingTime paused = Num 3000
  /\ ClassVariant.CountdownTimer.remainingTime resumed = Num 5000
  /\ ClassVariant.CountdownTimer.remainingTime later = Num 2000
  /\ ClassVariant.CountdownTimer.hasExpired later = false
  /\ ClassVariant.CountdownTimer.hasExpired
       (exec (ClassVariant.CountdownTimer._update 14999) resumed) = false
  /\ ClassVariant.CountdownTimer.hasExpired
       (exec (ClassVariant.CountdownTimer._update 15000) resumed) = true
  /\ ClassVariant.CountdownTimer.remainingTime
       (ClassVariant.UIController.countdownTimer through_page) = Num 5000.
Proof. cbv zeta. repeat split; reflexivity. Qed.

(** Runs the handlers of the script variant on a state given by its
    fields, down to the tests on integers and on the page. *)
Ltac run_script :=
  cbv beta iota zeta
    delta [bind get modify emit ret throw when exec value state output
           leb gtb strict_eq sub add mul Math_max lift2 negb andb orb fst snd
           ScriptVariant.hide ScriptVariant.unhide ScriptVariant.setInterval
           ScriptVariant.clearInterval ScriptVariant.runCountdown
           ScriptVariant.cdStartBtn_onclick ScriptVariant.cdPauseBtn_onclick
           ScriptVariant.cdContBtn_onclick ScriptVariant.cdClearBtn_onclick
           ScriptVariant.hidden ScriptVariant.swDisplay ScriptVariant.cdDisplay
           ScriptVariant.swInterval ScriptVariant.swStart ScriptVariant.swElapsed
           ScriptVariant.cdDigits ScriptVariant.cdMilliseconds
           ScriptVariant.cdInterval ScriptVariant.cdEnd ScriptVariant.intervals
           ScriptVariant.set_hidden ScriptVariant.set_swDisplay
           ScriptVariant.set_cdDisplay ScriptVariant.set_swInterval
           ScriptVariant.set_swStart ScriptVariant.set_swElapsed
           ScriptVariant.set_cdDigits ScriptVariant.set_cdMilliseconds
           ScriptVariant.set_cdInterval ScriptVariant.set_cdEnd
           ScriptVariant.set_intervals].

(** The script variant keeps the time left over a pause: after Start at
    t0, Pause at t1 and Continue at t2 a countdown of d ms ends at t2
    plus what was left at t1, so that the update of any later time shows
    d less the time run, t1 - t0 before the pause and now - t2 after
    it. *)
Lemma script_pause_resume_conserves (s : ScriptVariant.t) (d t0 t1 t2 now : Z) :
  ScriptVariant.cdMilliseconds s = Num d ->
  t0 <= t1 -> t1 - t0 <= d -> t2 <= now ->
  let s' := exec (ScriptVariant.cdStartBtn_onclick t0 ;;
                  ScriptVariant.cdPauseBtn_onclick t1 ;;
                  ScriptVariant.cdContBtn_onclick t2) s in
  ScriptVariant.cdMilliseconds s' = Num (d - (t1 - t0))
  /\ ScriptVariant.cdEnd s' = Num (t2 + (d - (t1 - t0)))
  /\ ScriptVariant.cdDisplay (exec (ScriptVariant.runCountdown now) s')
     = ScriptVariant.formatTime (Num (Z.max 0 (d - ((t1 - t0) + (now - t2)))))
  /\ (ScriptVariant.expirations (output (ScriptVariant.runCountdown now s'))
      = if d <=? (t1 - t0) + (now - t2) then 1%nat else 0%nat).
Proof.
  intros Hd H01 Hleft H2 s'. subst s'. destruct s. cbn in Hd. subst.
  run_script.
  replace (Z.max 0 (t0 + d - t1)) with (d - (t1 - t0)) by lia.
  replace (Z.max 0 (t2 + (d - (t1 - t0)) - now))
    with (Z.max 0 (d - (t1 - t0 + (now - t2)))) by lia.
  split; [reflexivity|]. split; [reflexivity|].
  destruct (Z.leb_spec (Z.max 0 (d - (t1 - t0 + (now - t2)))) 0);
    destruct (Z.leb_spec d (t1 - t0 + (now - t2))); try lia;
    split; reflexivity.
Qed.

(** ** C6: remainingTime and initialTime *)

Ltac run_countdownTimer :=
  cbv beta iota zeta
    delta [bind get modify emit ret throw when exec value state output
           leb gtb strict_eq sub add mul Math_max lift2 negb andb orb
           run_op
           ClassVariant.CountdownTimer._update ClassVariant.CountdownTimer.start
           ClassVariant.CountdownTimer.stop ClassVariant.CountdownTimer.setTime
           ClassVariant.CountdownTimer.reset ClassVariant.CountdownTimer.clear
           ClassVariant.CountdownTimer.new
           ClassVariant.CountdownTimer.initialTime
           ClassVariant.CountdownTimer.remainingTime
           ClassVariant.CountdownTimer.isRunning
           ClassVariant.CountdownTimer.startTime
           ClassVariant.CountdownTimer.animationFrame
           ClassVariant.CountdownTimer.hasExpired
           ClassVariant.CountdownTimer.set_initialTime
           ClassVariant.CountdownTimer.set_remainingTime
           ClassVariant.CountdownTimer.set_isRunning
           ClassVariant.CountdownTimer.set_startTime
           ClassVariant.CountdownTimer.set_animationFrame
           ClassVariant.CountdownTimer.set_hasExpired] in *.

Ltac bool_cases :=
  repeat match goal with
         | |- context [if ?b then _ else _] =>
             lazymatch type of b with
             | bool =>
                 lazymatch b with
                 | (?x <=? ?y)%Z => destruct (Z.leb_spec x y)
                 | (?x <? ?y)%Z => destruct (Z.ltb_spec x y)
                 | (?x =? ?y)%Z => destruct (Z.eqb_spec x y)
                 | _ => destruct b eqn:?
                 end
             end
         end.

Lemma op_keeps_bounds (s : ClassVariant.CountdownTimer.t) (o : countdown_op) :
  (exists i r t,
      ClassVariant.CountdownTimer.initialTime s = Num i
      /\ ClassVariant.CountdownTimer.remainingTime s = Num r
      /\ ClassVariant.CountdownTimer.startTime s = Num t
      /\ 0 <= r <= i) ->
  clock_ok s o ->
  exists i r t,
    ClassVariant.CountdownTimer.initialTime (exec (run_op o) s) = Num i
    /\ ClassVariant.CountdownTimer.remainingTime (exec (run_op o) s) = Num r
    /\ ClassVariant.CountdownTimer.startTime (exec (run_op o) s) = Num t
    /\ 0 <= r <= i.
Proof.
  intros (i & r & t & Hi & Hr & Ht & Hb) Hclock.
  destruct s as [i0 r0 run st af he]. cbn in Hi, Hr, Ht. subst.
  destruct o as [ms|now now'|  | | |now]; cbn [clock_ok] in Hclock;
    run_countdownTimer; bool_cases; run_countdownTimer; bool_cases;
    try (do 3 eexists; repeat split; try reflexivity; lia).
  all: specialize (Hclock t eq_refl);
    do 3 eexists; repeat split; try reflexivity; lia.
Qed.

Lemma reachable_bounds (s : ClassVariant.CountdownTimer.t) :
  reachable s ->
  exists i r t,
    ClassVariant.CountdownTimer.initialTime s = Num i
    /\ ClassVariant.CountdownTimer.remainingTime s = Num r
    /\ ClassVariant.CountdownTimer.startTime s = Num t
    /\ 0 <= r <= i.
Proof.
  induction 1 as [|s o Hs IH Hclock].
  - exists 0, 0, 0. repeat split; reflexivity || lia.
  - apply op_keeps_bounds; assumption.
Qed.

Lemma op_keeps_initialTime (s : ClassVariant.CountdownTimer.t) (o : countdown_op) :
  configures o = false ->
  ClassVariant.CountdownTimer.initialTime (exec (run_op o) s)
  = ClassVariant.CountdownTimer.initialTime s.
Proof.
  intros Ho. destruct s as [i0 r0 run st af he].
  destruct o as [ms|now now'|  | | |now]; try discriminate Ho;
    run_countdownTimer; bool_cases; run_countdownTimer; bool_cases;
    try reflexivity;
    repeat match goal with
           | |- context [match ?x with Num _ => _ | NaN => _ end] =>
               destruct x; run_countdownTimer; bool_cases
           end; reflexivity.
Qed.

Ltac run_timerbase :=
  cbv beta iota zeta
    delta [bind get modify emit ret throw when exec try_catch value state
           output leb gtb strict_eq sub add mul Math_max lift2 negb andb orb
           run_timerbase_op
           TimerBaseVariant.Countdown.setTime TimerBaseVariant.Countdown.start
           TimerBaseVariant.Countdown.tick TimerBaseVariant.Countdown.pause
           TimerBaseVariant.Countdown.continue
           TimerBaseVariant.Countdown.resetInput
           TimerBaseVariant.Countdown.resetTimer
           TimerBaseVariant.Countdown.clearInterval
           TimerBaseVariant.Countdown.updateDisplay
           TimerBaseVariant.Countdown.updateButtonVisibility
           TimerBaseVariant.Countdown.updateControlVisibility
           TimerBaseVariant.Countdown.hide TimerBaseVariant.Countdown.unhide
           TimerBaseVariant.Countdown.displayElement
           TimerBaseVariant.Countdown.timerInterval
           TimerBaseVariant.Countdown.isRunning
           TimerBaseVariant.Countdown.initialTime
           TimerBaseVariant.Countdown.remainingTime
           TimerBaseVariant.Countdown.inputBuffer
           TimerBaseVariant.Countdown.maxTimeMs
           TimerBaseVariant.Countdown.startTime
           TimerBaseVariant.Countdown.hidden
           TimerBaseVariant.Countdown.intervals
           TimerBaseVariant.Countdown.set_displayElement
           TimerBaseVariant.Countdown.set_timerInterval
           TimerBaseVariant.Countdown.set_isRunning
           TimerBaseVariant.Countdown.set_initialTime
           TimerBaseVariant.Countdown.set_remainingTime
           TimerBaseVariant.Countdown.set_inputBuffer
           TimerBaseVariant.Countdown.set_startTime
           TimerBaseVariant.Countdown.set_hidden
           TimerBaseVariant.Countdown.set_intervals] in *.

Lemma timerbase_op_keeps_within (c : TimerBaseVariant.Countdown.t)
  (o : timerbase_op) :
  is_digit_entry o = false ->
  timerbase_clock_ok c o ->
  within_initial (TimerBaseVariant.Countdown.initialTime c)
    (TimerBaseVariant.Countdown.remainingTime c) ->
  within_initial
    (TimerBaseVariant.Countdown.initialTime (exec (run_timerbase_op o) c))
    (TimerBaseVariant.Countdown.remainingTime (exec (run_timerbase_op o) c)).
Proof.
  intros Ho Hclock (i & r & Hi & Hr & Hle).
  destruct c as [disp ti run i0 r0 buf mx st hid tb]. cbn in Hi, Hr. subst.
  unfold within_initial.
  destruct o as [d| |now|now| |now| | ]; try discriminate Ho;
    cbn [timerbase_clock_ok] in Hclock.
  - run_timerbase. destruct mx as [m|]; bool_cases; run_timerbase;
      do 2 eexists; repeat split; try reflexivity; lia.
  - run_timerbase. bool_cases; run_timerbase;
      do 2 eexists; repeat split; try reflexivity; lia.
  - destruct Hclock as (t & Ht & Hnow). run_timerbase. subst.
    run_timerbase. bool_cases; run_timerbase;
      do 2 eexists; repeat split; try reflexivity; lia.
  - run_timerbase. bool_cases; run_timerbase;
      do 2 eexists; repeat split; try reflexivity; lia.
  - run_timerbase. bool_cases; run_timerbase;
      do 2 eexists; repeat split; try reflexivity; lia.
  - run_timerbase. do 2 eexists; repeat split; try reflexivity; lia.
  - run_timerbase. do 2 eexists; repeat split; try reflexivity; lia.
Qed.

Lemma timerbase_pause_initialTime (c : TimerBaseVariant.Countdown.t) :
  TimerBaseVariant.Countdown.initialTime (exec TimerBaseVariant.Countdown.pause c)
  = TimerBaseVariant.Countdown.initialTime c.
Proof.
  destruct c as [disp ti run i0 r0 buf mx st hid tb].
  run_timerbase. bool_cases; reflexivity.
Qed.

Lemma timerbase_expiring_tick (c : TimerBaseVariant.Countdown.t) (now t r : Z) :
  TimerBaseVariant.Countdown.startTime c = Num t ->
  TimerBaseVariant.Countdown.remainingTime c = Num r ->
  r <= now - t ->
  let c' := exec (TimerBaseVariant.Countdown.tick now) c in
  TimerBaseVariant.Countdown.initialTime c' = Num 0
  /\ TimerBaseVariant.Countdown.remainingTime c' = Num 0
  /\ TimerBaseVariant.Countdown.inputBuffer c' = []
  /\ TimerBaseVariant.Countdown.isRunning c' = false.
Proof.
  intros Ht Hr Hle c'. subst c'.
  destruct c as [disp ti run i0 r0 buf mx st hid tb]. cbn in Ht, Hr. subst.
  run_timerbase. bool_cases; [|lia]. repeat split; reflexivity.
Qed.

(** C6, as the code has it.  In the class variant, whatever calls of
    setTime, start, stop, reset, clear and _update a new CountdownTimer
    receives, with integer arguments and clock readings that do not go
    back, 0 <= remainingTime <= initialTime holds in the state reached,
    and no call but setTime and clear changes initialTime.  In the
    TimerBase variant digit entry writes the duration typed so far into
    remainingTime and leaves initialTime as it is, so the inequality is
    not kept by it; setTime, start, pause, continue, resetInput and
    resetTimer keep it, and so does the tick when startTime holds a
    reading that is not after the tick's own (the tick subtracts the
    difference and tests no bound above); and initialTime is also put
    back to 0 by the tick that finds the time run out. *)
Theorem C6_remaining_within_configured :
  (forall s : ClassVariant.CountdownTimer.t,
      reachable s ->
      exists i r,
        ClassVariant.CountdownTimer.initialTime s = Num i
        /\ ClassVariant.CountdownTimer.remainingTime s = Num r
        /\ 0 <= r <= i)
  /\ (forall (s : ClassVariant.CountdownTimer.t) (o : countdown_op),
      configures o = false ->
      ClassVariant.CountdownTimer.initialTime (exec (run_op o) s)
      = ClassVariant.CountdownTimer.initialTime s)
  /\ (forall (c : TimerBaseVariant.Countdown.t) (d : Z),
      let c' := exec (run_timerbase_op (TbAppendDigit d)) c in
      TimerBaseVariant.Countdown.initialTime c'
      = TimerBaseVariant.Countdown.initialTime c
      /\ TimerBaseVariant.Countdown.remainingTime c'
         = TimerBaseVariant.Countdown.currentInputMs
             (TimerBaseVariant.Countdown.inputBuffer c'))
  /\ (forall (c : TimerBaseVariant.Countdown.t) (o : timerbase_op),
      is_digit_entry o = false ->
      timerbase_clock_ok c o ->
      within_initial (TimerBaseVariant.Countdown.initialTime c)
        (TimerBaseVariant.Countdown.remainingTime c) ->
      within_initial
        (TimerBaseVariant.Countdown.initialTime (exec (run_timerbase_op o) c))
        (TimerBaseVariant.Countdown.remainingTime (exec (run_timerbase_op o) c)))
  /\ (forall (c : TimerBaseVariant.Countdown.t) (now t r : Z),
      TimerBaseVariant.Countdown.startTime c = Num t ->
      TimerBaseVariant.Countdown.remainingTime c = Num r ->
      r <= now - t ->
      TimerBaseVariant.Countdown.initialTime
        (exec (run_timerbase_op (TbTick now)) c) = Num 0).
Proof.
  split; [|split; [|split; [|split]]].
  - intros s Hs. destruct (reachable_bounds s Hs) as (i & r & t & Hi & Hr & _ & Hb).
    exists i, r. repeat split; assumption || lia.
  - exact op_keeps_initialTime.
  - intros c d c'. split.
    + apply appendDigit_initialTime.
    + apply appendDigit_remainingTime.
  - exact timerbase_op_keeps_within.
  - intros c now t r Ht Hr Hle.
    apply (timerbase_expiring_tick c now t r Ht Hr Hle).
Qed.

Lemma C6_remaining_within_configured_witness :
  let s := exec (run_op (OpUpdate 2000))
             (exec (run_op (OpStart 0 0))
                (exec (run_op (OpSetTime 5000)) ClassVariant.CountdownTimer.new)) in
  reachable s
  /\ ClassVariant.CountdownTimer.remainingTime s = Num 3000
  /\ exists i r,
       ClassVariant.CountdownTimer.initialTime s = Num i
       /\ ClassVariant.CountdownTimer.remainingTime s = Num r
       /\ 0 <= r <= i.
Proof.
  cbv zeta.
  assert (H : reachable
                (exec (run_op (OpUpdate 2000))
                   (exec (run_op (OpStart 0 0))
                      (exec (run_op (OpSetTime 5000))
                         ClassVariant.CountdownTimer.new)))).
  { apply reachable_op; [apply reachable_op; [apply reachable_op|]|].
    - apply reachable_new.
    - exact I.
    - cbn. lia.
    - cbn. intros t Ht. injection Ht as <-. lia. }
  split; [exact H|]. split; [reflexivity|].
  exact (proj1 C6_remaining_within_configured _ H).
Defined.

(** The claim C6 as stated fails in the TimerBase variant: on a new
    Countdown the press of digit 1 makes remainingTime 1000 while
    initialTime is 0; and after 5, Set, Start at time 0, the tick of
    time 5000 puts the confirmed initialTime of 5000 back to 0. *)
Lemma C6_timerbase_digit_entry_exceeds :
  let typing := exec (timerbase_press [1]) timerbase0 in
  let confirmed := exec (timerbase_press [5] ;;
                         TimerBaseVariant.Countdown.setTime ;;
                         TimerBaseVariant.Countdown.start 0) timerbase0 in
  TimerBaseVariant.Countdown.remainingTime typing = Num 1000
  /\ TimerBaseVariant.Countdown.initialTime typing = Num 0
  /\ ~ within_initial (TimerBaseVariant.Countdown.initialTime typing)
         (TimerBaseVariant.Countdown.remainingTime typing)
  /\ TimerBaseVariant.Countdown.initialTime confirmed = Num 5000
  /\ TimerBaseVariant.Countdown.initialTime
       (exec (TimerBaseVariant.Countdown.tick 5000) confirmed) = Num 0.
Proof.
  cbv zeta. split; [reflexivity|]. split; [reflexivity|].
  split; [|split; reflexivity].
  intros (i & r & Hi & Hr & Hle).
  vm_compute in Hi, Hr. injection Hi as <-. injection Hr as <-. lia.
Qed.

(** The tick of the TimerBase variant under a clock that went back:
    after 5, Set and Start at time 1000, the tick that reads 0 leaves
    6000 ms of the 5000. *)
Lemma timerbase_tick_before_startTime :
  let confirmed := exec (timerbase_press [5] ;;
                         TimerBaseVariant.Countdown.setTime ;;
                         TimerBaseVariant.Countdown.start 1000) timerbase0 in
  TimerBaseVariant.Countdown.startTime confirmed = Num 1000
  /\ TimerBaseVariant.Countdown.initialTime
       (exec (TimerBaseVariant.Countdown.tick 0) confirmed) = Num 5000
  /\ TimerBaseVariant.Countdown.remainingTime
       (exec (TimerBaseVariant.Countdown.tick 0) confirmed) = Num 6000.
Proof. cbv zeta. repeat split; reflexivity. Qed.

(** The TimerBase variant keeps the time left over a pause too: it
    takes from remainingTime what passed between two ticks, and what
    passed between Continue and the next tick; only the time between
    the last tick and Pause, less than one period of the interval, is
    not counted. *)
Lemma timerbase_pause_resume_conserves
  (c : TimerBaseVariant.Countdown.t) (r t0 t1 t2 now : Z) :
  TimerBaseVariant.Countdown.isRunning c = false ->
  TimerBaseVariant.Countdown.remainingTime c = Num r ->
  t0 <= t1 -> t2 <= now -> (t1 - t0) + (now - t2) < r ->
  let c' := exec (TimerBaseVariant.Countdown.start t0 ;;
                  TimerBaseVariant.Countdown.tick t1 ;;
                  TimerBaseVariant.Countdown.pause ;;
                  TimerBaseVariant.Countdown.continue t2 ;;
                  TimerBaseVariant.Countdown.tick now) c in
  TimerBaseVariant.Countdown.remainingTime c' = Num (r - ((t1 - t0) + (now - t2)))
  /\ TimerBaseVariant.Countdown.initialTime c'
     = TimerBaseVariant.Countdown.initialTime c.
Proof.
  intros Hrun Hr H1 H2 H3 c'. subst c'.
  destruct c as [disp ti run i0 r0 buf mx st hid tb]. cbn in Hrun, Hr. subst.
  run_timerbase.
  repeat (bool_cases; try lia; run_timerbase).
  split; [f_equal; lia | reflexivity].
Qed.

(** ** The expiration in the other two variants, on a run of 5000 ms

    The tick that finds the time run out removes the interval, so the
    later ticks of that interval do not run and the alert is given
    once. *)

Example timerbase_expires_once :
  let r := (timerbase_press [5] ;;
            TimerBaseVariant.Countdown.setTime ;;
            TimerBaseVariant.Countdown.start 0 ;;
            TimerBaseVariant.Countdown.fire 1 2000 ;;
            TimerBaseVariant.Countdown.fire 1 5000 ;;
            TimerBaseVariant.Countdown.fire 1 5010 ;;
            TimerBaseVariant.Countdown.fire 1 5020) timerbase0 in
  List.length (filter TimerBaseVariant.Countdown.is_expiration (output r)) = 1%nat
  /\ TimerBaseVariant.Countdown.remainingTime (state r) = Num 0
  /\ TimerBaseVariant.Countdown.isRunning (state r) = false.
Proof. cbv zeta. repeat split; reflexivity. Qed.

Example script_expires_once :
  let r := (script_press [5] ;;
            ScriptVariant.cdSetBtn_onclick ;;
            ScriptVariant.cdStartBtn_onclick 0 ;;
            ScriptVariant.fire_all [(1%nat, 2000); (1%nat, 5000); (1%nat, 5050);
                                    (1%nat, 5100)]) script0 in
  ScriptVariant.expirations (output r) = 1%nat
  /\ ScriptVariant.cdDisplay (state r) = mkDisplay (str "00:00:00") (str ".000").
Proof. cbv zeta. repeat split; reflexivity. Qed.

(** ** A click on Start after the expiration, in the class variant

    CountdownTimer.start() refuses to start on a remaining time of zero
    and leaves hasExpired set, while startCountdown() clears
    countdownExpired: the next frame of the display loop shows the
    alert again.  This is the effect of a user action, not of a tick. *)
Example class_start_after_expiration :
  let r := (countdown_run 0 0
              [ClassVariant.UIController.CountdownFrame 5000;
               ClassVariant.UIController.DisplayFrame;
               ClassVariant.UIController.DisplayFrame] ;;
            ClassVariant.UIController.startCountdown 6000 6000 ;;
            ClassVariant.UIController.run_frames
              [ClassVariant.UIController.CountdownFrame 6016;
               ClassVariant.UIController.DisplayFrame;
               ClassVariant.UIController.DisplayFrame])
             (exec (class_press [5]) class_ui0) in
  ClassVariant.UIController.expirations (output r) = 2%nat
  /\ In (ConsoleWarn "Countdown time is not set or expired") (output r).
Proof.
  cbv zeta. split; [reflexivity|]. vm_compute. tauto.
Qed.

(** ** Sample runs *)

Example formatTime_samples :
  ClassVariant.fullFormatted (ClassVariant.Timer.formatTime (Num 5025678))
  = str "01:23:45.678"
  /\ ScriptVariant.formatTime (Num 5025678)
     = mkDisplay (str "01:23:45") (str ".678")
  /\ TimerBaseVariant.TimerBase.formatTime (Num 5025678) = str "01:23:45.678"
  /\ TimerBaseVariant.TimerBase.updateDisplay (Num 5025678)
     = mkDisplay (str "01:23:45") (str "678").
Proof. repeat split; reflexivity. Qed.

(** Minutes and seconds above 59 are taken as they are typed: 9, 9 is a
    duration of 99 seconds in every variant.  The class and script
    variants display the digits typed, the TimerBase variant displays
    the formatted duration. *)
Example ninety_nine_seconds :
  ClassVariant.UIController.totalMs (digits_text [9; 9]) = Num 99000
  /\ time_text (ClassVariant.UIController.countdownDisplay
                  (exec (class_press [9; 9]) class_ui0)) = str "00:00:99"
  /\ time_text (ScriptVariant.cdDisplay (exec (script_press [9; 9]) script0))
     = str "00:00:99"
  /\ TimerBaseVariant.Countdown.remainingTime
       (exec (timerbase_press [9; 9]) timerbase0) = Num 99000
  /\ time_text (TimerBaseVariant.Countdown.displayElement
                  (exec (timerbase_press [9; 9]) timerbase0)) = str "00:01:39".
Proof. repeat split; reflexivity. Qed.

Example backspace_sample :
  ClassVariant.UIController.inputSequence
    (exec (class_press [1; 2; 3] ;; ClassVariant.UIController.handleBackspace)
       class_ui0) = str "12".
Proof. reflexivity. Qed.

(** * Further properties of the code *)

(** ** Stretches of running: the class variant's Timer *)

Lemma last_cons_default {A} (u : A) (us : list A) (x : A) :
  last (u :: us) x = last us u.
Proof.
  revert u x. induction us as [|v us IH]; intros u x; [reflexivity|].
  change (last (u :: v :: us) x) with (last (v :: us) x).
  rewrite (IH v x), (IH v u). reflexivity.
Qed.

Lemma total_app (l1 l2 : list Z) : total (l1 ++ l2) = total l1 + total l2.
Proof.
  unfold total. induction l1 as [|x l1 IH]; cbn; [reflexivity|].
  rewrite IH. lia.
Qed.

Ltac run_timer :=
  cbv beta iota zeta
    delta [bind get modify emit ret throw when exec value state output
           leb sub add lift2 negb
           ClassVariant.Timer._update ClassVariant.Timer.start
           ClassVariant.Timer.stop ClassVariant.Timer.reset
           ClassVariant.Timer.startTime ClassVariant.Timer.elapsedTime
           ClassVariant.Timer.isRunning ClassVariant.Timer.animationFrame
           ClassVariant.Timer.set_startTime ClassVariant.Timer.set_elapsedTime
           ClassVariant.Timer.set_isRunning
           ClassVariant.Timer.set_animationFrame] in *.

Lemma timer_update_value (now : Z) (s : ClassVariant.Timer.t) :
  value (ClassVariant.Timer._update now s) = inl tt.
Proof. destruct s as [st e run af]. run_timer. destruct run; reflexivity. Qed.

Lemma timer_stop_value (s : ClassVariant.Timer.t) :
  value (ClassVariant.Timer.stop s) = inl tt.
Proof.
  destruct s as [st e run af]. run_timer. destruct run, af; reflexivity.
Qed.

Lemma timer_updates_running (us : list Z) :
  forall (st x : Z) (af : bool),
  exists af',
    exec (for_each ClassVariant.Timer._update us)
      (ClassVariant.Timer.mk (Num st) (Num (x - st)) true af)
    = ClassVariant.Timer.mk (Num st) (Num (last us x - st)) true af'.
Proof.
  induction us as [|u us IH]; intros st x af.
  - exists af. reflexivity.
  - rewrite for_each_cons by apply timer_update_value.
    rewrite last_cons_default.
    destruct (IH st u true) as [af' E]. exists af'. exact E.
Qed.

Lemma class_stretch_adds (stc : Z * Z * list Z) (s : ClassVariant.Timer.t) (e : Z) :
  ClassVariant.Timer.isRunning s = false ->
  ClassVariant.Timer.elapsedTime s = Num e ->
  value (class_stretch stc s) = inl tt
  /\ ClassVariant.Timer.isRunning (exec (class_stretch stc) s) = false
  /\ ClassVariant.Timer.animationFrame (exec (class_stretch stc) s) = false
  /\ ClassVariant.Timer.elapsedTime (exec (class_stretch stc) s)
     = Num (e + class_stretch_length stc).
Proof.
  intros Hrun He. destruct stc as [[a a'] us].
  destruct s as [st e0 run af]. cbn in Hrun, He. subst.
  unfold class_stretch, class_stretch_length.
  assert (Hstart : ClassVariant.Timer.start a a'
                     (ClassVariant.Timer.mk st (Num e) false af)
                   = mkResult (inl tt)
                       (ClassVariant.Timer.mk (Num (a - e)) (Num (a' - (a - e)))
                          true true) []).
  { reflexivity. }
  destruct (timer_updates_running us (a - e) a' true) as [af' Hups].
  assert (Hv : value (for_each ClassVariant.Timer._update us
                        (ClassVariant.Timer.mk (Num (a - e)) (Num (a' - (a - e)))
                           true true)) = inl tt).
  { apply for_each_value. intros; apply timer_update_value. }
  assert (Hs : exec (ClassVariant.Timer.start a a')
                 (ClassVariant.Timer.mk st (Num e) false af)
               = ClassVariant.Timer.mk (Num (a - e)) (Num (a' - (a - e)))
                   true true).
  { unfold exec. rewrite Hstart. reflexivity. }
  split.
  - rewrite (value_bind _ _ _ tt) by (rewrite Hstart; reflexivity).
    rewrite Hs.
    rewrite (value_bind _ _ _ tt) by exact Hv.
    apply timer_stop_value.
  - rewrite (exec_bind _ _ _ tt) by (rewrite Hstart; reflexivity).
    rewrite Hs.
    rewrite (exec_bind _ _ _ tt) by exact Hv.
    rewrite Hups.
    destruct af'; (split; [reflexivity|]); (split; [reflexivity|]);
      cbn; f_equal; lia.
Qed.

(** X1.  The class variant's stopwatch adds up its stretches of running:
    on a stopped Timer whose elapsed time is e, any row of stretches
    (start, frames, stop) leaves it stopped, with elapsedTime = e plus
    the lengths of the stretches, each being its last clock reading less
    its first; nothing is lost or gained over a pause. *)
Theorem X1_class_stopwatch_adds_stretches (sts : list (Z * Z * list Z)) :
  forall (s : ClassVariant.Timer.t) (e : Z),
    ClassVariant.Timer.isRunning s = false ->
    ClassVariant.Timer.elapsedTime s = Num e ->
    let s' := exec (for_each class_stretch sts) s in
    ClassVariant.Timer.isRunning s' = false
    /\ ClassVariant.Timer.elapsedTime s'
       = Num (e + total (map class_stretch_length sts)).
Proof.
  induction sts as [|stc sts IH]; intros s e Hrun He s'; subst s'.
  - cbn. rewrite He, Z.add_0_r. split; [exact Hrun | reflexivity].
  - destruct (class_stretch_adds stc s e Hrun He) as (Hv & Hr & _ & He').
    rewrite for_each_cons by exact Hv.
    destruct (IH _ _ Hr He') as [H1 H2].
    split; [exact H1|]. rewrite H2. cbn [map total fold_right].
    f_equal. unfold total. lia.
Qed.

Lemma X1_class_stopwatch_adds_stretches_witness :
  ClassVariant.Timer.isRunning ClassVariant.Timer.new = false
  /\ ClassVariant.Timer.elapsedTime ClassVariant.Timer.new = Num 0
  /\ ClassVariant.Timer.elapsedTime
       (exec (for_each class_stretch
                [(1000, 1000, [1016; 2500]); (4000, 4001, [4500])])
          ClassVariant.Timer.new) = Num 2000.
Proof.
  split; [reflexivity|]. split; [reflexivity|].
  exact (proj2 (X1_class_stopwatch_adds_stretches
                  [(1000, 1000, [1016; 2500]); (4000, 4001, [4500])]
                  ClassVariant.Timer.new 0 eq_refl eq_refl)).
Defined.

(** ** Stretches of running: the script variant's stopwatch *)

Lemma updateStopwatch_keeps (us : list Z) :
  forall s : ScriptVariant.t,
    value (for_each ScriptVariant.updateStopwatch us s) = inl tt
    /\ ScriptVariant.swStart (exec (for_each ScriptVariant.updateStopwatch us) s)
       = ScriptVariant.swStart s
    /\ ScriptVariant.swElapsed (exec (for_each ScriptVariant.updateStopwatch us) s)
       = ScriptVariant.swElapsed s.
Proof.
  induction us as [|u us IH]; intros s; [repeat split; reflexivity|].
  assert (Hv : value (ScriptVariant.updateStopwatch u s) = inl tt) by reflexivity.
  rewrite for_each_cons by exact Hv.
  destruct (IH (exec (ScriptVariant.updateStopwatch u) s)) as (H1 & H2 & H3).
  split; [|split].
  - cbn [for_each]. rewrite (value_bind _ _ _ tt) by exact Hv. exact H1.
  - rewrite H2. reflexivity.
  - rewrite H3. reflexivity.
Qed.

Lemma script_stretch_adds (stc : Z * list Z * Z) (s : ScriptVariant.t) (e : Z) :
  ScriptVariant.swElapsed s = Num e ->
  value (script_stretch stc s) = inl tt
  /\ ScriptVariant.swElapsed (exec (script_stretch stc) s)
     = Num (e + script_stretch_length stc).
Proof.
  intros He. destruct stc as [[a us] b].
  unfold script_stretch, script_stretch_length.
  assert (Hc : value (ScriptVariant.swContBtn_onclick a s) = inl tt)
    by reflexivity.
  set (s1 := exec (ScriptVariant.swContBtn_onclick a) s).
  assert (Hs1 : ScriptVariant.swStart s1 = Num a
                /\ ScriptVariant.swElapsed s1 = ScriptVariant.swElapsed s)
    by (split; reflexivity).
  destruct (updateStopwatch_keeps us s1) as (Hu & Hu1 & Hu2).
  set (s2 := exec (for_each ScriptVariant.updateStopwatch us) s1) in *.
  assert (Hp : value (ScriptVariant.swPauseBtn_onclick b s2) = inl tt
               /\ ScriptVariant.swElapsed
                    (exec (ScriptVariant.swPauseBtn_onclick b) s2)
                  = add (ScriptVariant.swElapsed s2)
                      (sub (Num b) (ScriptVariant.swStart s2)))
    by (split; reflexivity).
  split.
  - rewrite (value_bind _ _ _ tt) by exact Hc. fold s1.
    rewrite (value_bind _ _ _ tt) by exact Hu. apply Hp.
  - rewrite (exec_bind _ _ _ tt) by exact Hc. fold s1.
    rewrite (exec_bind _ _ _ tt) by exact Hu. fold s2.
    rewrite (proj2 Hp), Hu1, Hu2, (proj1 Hs1), (proj2 Hs1), He.
    reflexivity.
Qed.

(** X2.  The script variant's stopwatch adds up its stretches of
    running: whatever the state, with swElapsed = e, a row of stretches
    (Continue at a, updates, Pause at b) leaves swElapsed = e plus the
    sum of the b - a; and the update of time now, in a stretch begun at
    a, displays the elapsed time e + (now - a). *)
Theorem X2_script_stopwatch_adds_stretches (sts : list (Z * list Z * Z)) :
  forall (s : ScriptVariant.t) (e : Z),
    ScriptVariant.swElapsed s = Num e ->
    ScriptVariant.swElapsed (exec (for_each script_stretch sts) s)
    = Num (e + total (map script_stretch_length sts))
    /\ (forall a now : Z,
        ScriptVariant.swDisplay
          (exec (ScriptVariant.swContBtn_onclick a ;;
                 ScriptVariant.updateStopwatch now) s)
        = ScriptVariant.formatTime (Num (now - a + e))
        /\ ScriptVariant.swDisplay
             (exec (ScriptVariant.swStartBtn_onclick a ;;
                    ScriptVariant.updateStopwatch now) s)
           = ScriptVariant.formatTime (Num (now - a + e))).
Proof.
  induction sts as [|stc sts IH]; intros s e He.
  - split.
    + cbn. rewrite He, Z.add_0_r. reflexivity.
    + intros a now. destruct s. cbn in He. subst. split; reflexivity.
  - destruct (script_stretch_adds stc s e He) as (Hv & He').
    rewrite for_each_cons by exact Hv.
    destruct (IH _ _ He') as [H1 _].
    split.
    + rewrite H1. cbn [map total fold_right]. f_equal. unfold total. lia.
    + intros a now. destruct s. cbn in He. subst. split; reflexivity.
Qed.

Lemma X2_script_stopwatch_adds_stretches_witness :
  ScriptVariant.swElapsed script0 = Num 0
  /\ ScriptVariant.swElapsed
       (exec (for_each script_stretch
                [(1000, [1050; 1100], 2500); (4000, [], 4500)]) script0)
     = Num 2000.
Proof.
  split; [reflexivity|].
  exact (proj1 (X2_script_stopwatch_adds_stretches
                  [(1000, [1050; 1100], 2500); (4000, [], 4500)]
                  script0 0 eq_refl)).
Defined.

(** ** Stretches of running: the TimerBase variant's Stopwatch *)

Ltac run_timerbase_stopwatch :=
  cbv beta iota zeta
    delta [bind get modify emit ret throw when exec value state output
           leb sub add lift2 negb fst snd
           TimerBaseVariant.Stopwatch.start TimerBaseVariant.Stopwatch.tick
           TimerBaseVariant.Stopwatch.pause TimerBaseVariant.Stopwatch.continue
           TimerBaseVariant.Stopwatch.reset
           TimerBaseVariant.Stopwatch.updateDisplay
           TimerBaseVariant.Stopwatch.updateButtonVisibility
           TimerBaseVariant.Stopwatch.hide TimerBaseVariant.Stopwatch.unhide
           TimerBaseVariant.Stopwatch.displayElement
           TimerBaseVariant.Stopwatch.timerInterval
           TimerBaseVariant.Stopwatch.isRunning
           TimerBaseVariant.Stopwatch.startTime
           TimerBaseVariant.Stopwatch.elapsedTime
           TimerBaseVariant.Stopwatch.hidden
           TimerBaseVariant.Stopwatch.intervals
           TimerBaseVariant.Stopwatch.set_displayElement
           TimerBaseVariant.Stopwatch.set_timerInterval
           TimerBaseVariant.Stopwatch.set_isRunning
           TimerBaseVariant.Stopwatch.set_startTime
           TimerBaseVariant.Stopwatch.set_elapsedTime
           TimerBaseVariant.Stopwatch.set_hidden
           TimerBaseVariant.Stopwatch.set_intervals] in *.

Lemma timerbase_ticks_running (us : list Z) :
  forall (s : TimerBaseVariant.Stopwatch.t) (st : Z),
    TimerBaseVariant.Stopwatch.startTime s = Num st ->
    TimerBaseVariant.Stopwatch.isRunning s = true ->
    let s' := exec (for_each TimerBaseVariant.Stopwatch.tick us) s in
    value (for_each TimerBaseVariant.Stopwatch.tick us s) = inl tt
    /\ TimerBaseVariant.Stopwatch.startTime s' = Num st
    /\ TimerBaseVariant.Stopwatch.isRunning s' = true
    /\ TimerBaseVariant.Stopwatch.elapsedTime s'
       = match us with
         | [] => TimerBaseVariant.Stopwatch.elapsedTime s
         | _ => Num (last us 0 - st)
         end.
Proof.
  induction us as [|u us IH]; intros s st Hst Hrun s'; subst s'.
  - repeat split; assumption || reflexivity.
  - assert (Hv : value (TimerBaseVariant.Stopwatch.tick u s) = inl tt)
      by reflexivity.
    rewrite for_each_cons by exact Hv.
    set (s1 := exec (TimerBaseVariant.Stopwatch.tick u) s).
    assert (H1 : TimerBaseVariant.Stopwatch.startTime s1 = Num st
                 /\ TimerBaseVariant.Stopwatch.isRunning s1 = true
                 /\ TimerBaseVariant.Stopwatch.elapsedTime s1 = Num (u - st)).
    { subst s1. destruct s. cbn in Hst, Hrun. subst. repeat split; reflexivity. }
    destruct H1 as (Hst1 & Hrun1 & He1).
    destruct (IH s1 st Hst1 Hrun1) as (Hv' & Hst' & Hrun' & He').
    split; [|split; [|split]].
    + cbn [for_each]. rewrite (value_bind _ _ _ tt) by exact Hv. exact Hv'.
    + exact Hst'.
    + exact Hrun'.
    + rewrite He'. destruct us as [|v us]; [exact He1|].
      rewrite (last_cons_default u (v :: us) 0).
      destruct (exists_last (l := v :: us) ltac:(discriminate)) as (l & z & ->).
      rewrite !last_last. reflexivity.
Qed.

Lemma timerbase_stretch_adds (stc : Z * list Z)
  (s : TimerBaseVariant.Stopwatch.t) (e : Z) :
  TimerBaseVariant.Stopwatch.isRunning s = false ->
  TimerBaseVariant.Stopwatch.elapsedTime s = Num e ->
  value (timerbase_stretch stc s) = inl tt
  /\ TimerBaseVariant.Stopwatch.isRunning (exec (timerbase_stretch stc) s) = false
  /\ TimerBaseVariant.Stopwatch.elapsedTime (exec (timerbase_stretch stc) s)
     = Num (e + timerbase_stretch_length stc).
Proof.
  intros Hrun He. destruct stc as [a us].
  unfold timerbase_stretch, timerbase_stretch_length.
  set (s1 := exec (TimerBaseVariant.Stopwatch.start a) s).
  assert (H1 : value (TimerBaseVariant.Stopwatch.start a s) = inl tt
               /\ TimerBaseVariant.Stopwatch.startTime s1 = Num (a - e)
               /\ TimerBaseVariant.Stopwatch.isRunning s1 = true
               /\ TimerBaseVariant.Stopwatch.elapsedTime s1 = Num e).
  { subst s1. destruct s. cbn in Hrun, He. subst. repeat split; reflexivity. }
  destruct H1 as (Hv1 & Hst1 & Hrun1 & He1).
  destruct (timerbase_ticks_running us s1 (a - e) Hst1 Hrun1)
    as (Hv2 & Hst2 & Hrun2 & He2).
  set (s2 := exec (for_each TimerBaseVariant.Stopwatch.tick us) s1) in *.
  assert (H3 : value (TimerBaseVariant.Stopwatch.pause s2) = inl tt
               /\ TimerBaseVariant.Stopwatch.isRunning
                    (exec TimerBaseVariant.Stopwatch.pause s2) = false
               /\ TimerBaseVariant.Stopwatch.elapsedTime
                    (exec TimerBaseVariant.Stopwatch.pause s2)
                  = TimerBaseVariant.Stopwatch.elapsedTime s2).
  { destruct s2. cbn in Hrun2. subst. repeat split; reflexivity. }
  destruct H3 as (Hv3 & Hrun3 & He3).
  split; [|split].
  - rewrite (value_bind _ _ _ tt) by exact Hv1. fold s1.
    rewrite (value_bind _ _ _ tt) by exact Hv2. exact Hv3.
  - rewrite (exec_bind _ _ _ tt) by exact Hv1. fold s1.
    rewrite (exec_bind _ _ _ tt) by exact Hv2. exact Hrun3.
  - rewrite (exec_bind _ _ _ tt) by exact Hv1. fold s1.
    rewrite (exec_bind _ _ _ tt) by exact Hv2. fold s2.
    rewrite He3, He2. destruct us as [|u us].
    + rewrite He1. f_equal. lia.
    + rewrite (last_cons_default u us 0), (last_cons_default u us a).
      f_equal. lia.
Qed.

(** X3.  The TimerBase variant's Stopwatch adds up its stretches of
    running up to their last ticks: on a stopped Stopwatch whose
    elapsed time is e, a row of stretches (start at a, ticks, pause)
    leaves it stopped with elapsedTime = e plus, for each stretch that
    had a tick, its last tick less a; the time between the last tick
    and pause(), and a stretch without a tick, are not counted. *)
Theorem X3_timerbase_stopwatch_adds_stretches (sts : list (Z * list Z)) :
  forall (s : TimerBaseVariant.Stopwatch.t) (e : Z),
    TimerBaseVariant.Stopwatch.isRunning s = false ->
    TimerBaseVariant.Stopwatch.elapsedTime s = Num e ->
    let s' := exec (for_each timerbase_stretch sts) s in
    TimerBaseVariant.Stopwatch.isRunning s' = false
    /\ TimerBaseVariant.Stopwatch.elapsedTime s'
       = Num (e + total (map timerbase_stretch_length sts)).
Proof.
  induction sts as [|stc sts IH]; intros s e Hrun He s'; subst s'.
  - cbn. rewrite He, Z.add_0_r. split; [exact Hrun | reflexivity].
  - destruct (timerbase_stretch_adds stc s e Hrun He) as (Hv & Hr & He').
    rewrite for_each_cons by exact Hv.
    destruct (IH _ _ Hr He') as [H1 H2].
    split; [exact H1|]. rewrite H2. cbn [map total fold_right].
    f_equal. unfold total. lia.
Qed.

Lemma X3_timerbase_stopwatch_adds_stretches_witness :
  TimerBaseVariant.Stopwatch.isRunning timerbase_stopwatch0 = false
  /\ TimerBaseVariant.Stopwatch.elapsedTime timerbase_stopwatch0 = Num 0
  /\ TimerBaseVariant.Stopwatch.elapsedTime
       (exec (for_each timerbase_stretch
                [(1000, [1010; 2500]); (3000, []); (4000, [4500])])
          timerbase_stopwatch0) = Num 2000.
Proof.
  split; [reflexivity|]. split; [reflexivity|].
  exact (proj2 (X3_timerbase_stopwatch_adds_stretches
                  [(1000, [1010; 2500]); (3000, []); (4000, [4500])]
                  timerbase_stopwatch0 0 eq_refl eq_refl)).
Defined.

(** ** What a CountdownTimer of the class variant keeps *)

Lemma countdown_op_keeps (s : ClassVariant.CountdownTimer.t) (o : countdown_op) :
  (ClassVariant.CountdownTimer.hasExpired s = true ->
   ClassVariant.CountdownTimer.isRunning s = false
   /\ ClassVariant.CountdownTimer.remainingTime s = Num 0) ->
  (ClassVariant.CountdownTimer.isRunning s = true ->
   ClassVariant.CountdownTimer.animationFrame s = true) ->
  let s' := exec (run_op o) s in
  (ClassVariant.CountdownTimer.hasExpired s' = true ->
   ClassVariant.CountdownTimer.isRunning s' = false
   /\ ClassVariant.CountdownTimer.remainingTime s' = Num 0)
  /\ (ClassVariant.CountdownTimer.isRunning s' = true ->
      ClassVariant.CountdownTimer.animationFrame s' = true).
Proof.
  intros Hexp Hrun s'. subst s'. destruct s as [i r run st af he].
  run_countdownTimer.
  destruct o as [ms|now now'|  | | |now]; run_countdownTimer;
    repeat (bool_cases; run_countdownTimer);
    repeat match goal with
           | |- context [match ?x with Num _ => _ | NaN => _ end] =>
               destruct x; run_countdownTimer;
               repeat (bool_cases; run_countdownTimer)
           end;
    split; intros Hyp; try discriminate Hyp; try (split; reflexivity);
    try reflexivity; auto.
  all: destruct (Hexp Hyp) as [Hstop Hzero]; subst; try discriminate;
    split; reflexivity.
Qed.


(** X4. Whatever calls a CountdownTimer of the class variant has
    received since its constructor (setTime, start, stop, reset, clear
    and _update, at any readings of the clock): when hasExpired is set
    the countdown is not running and remainingTime is 0, and when it is
    running a frame is requested. *)
Theorem X4_class_countdown_expired_is_stopped_at_zero
  (s : ClassVariant.CountdownTimer.t) :
  countdown_history s ->
  (ClassVariant.CountdownTimer.hasExpired s = true ->
   ClassVariant.CountdownTimer.isRunning s = false
   /\ ClassVariant.CountdownTimer.remainingTime s = Num 0)
  /\ (ClassVariant.CountdownTimer.isRunning s = true ->
      ClassVariant.CountdownTimer.animationFrame s = true).
Proof.
  induction 1 as [|s o Hs [IHexp IHrun]].
  - split; intros Hyp; discriminate Hyp.
  - exact (countdown_op_keeps s o IHexp IHrun).
Qed.

Lemma X4_class_countdown_expired_is_stopped_at_zero_witness :
  let s := exec (run_op (OpSetTime 5000) ;; run_op (OpStart 100 100) ;;
                 run_op (OpUpdate 6000))
             ClassVariant.CountdownTimer.new in
  ClassVariant.CountdownTimer.hasExpired s = true
  /\ ClassVariant.CountdownTimer.isRunning s = false
  /\ ClassVariant.CountdownTimer.remainingTime s = Num 0.
Proof.
  intros s.
  assert (Hs : countdown_history s).
  { exact (history_op _ (OpUpdate 6000)
             (history_op _ (OpStart 100 100)
                (history_op _ (OpSetTime 5000) history_new))). }
  split; [reflexivity|].
  exact (proj1 (X4_class_countdown_expired_is_stopped_at_zero s Hs) eq_refl).
Defined.


(** ** Entering a time in the class variant: digits, backspace, clear *)

Section ClassInput.
Import ClassVariant.UIController.

Lemma class_input_value (o : input_op) (ui : t) :
  value (class_input o ui) = inl tt.
Proof. destruct o; reflexivity. Qed.

Lemma slice_init_map {A} (f : A -> ascii) (l : list A) :
  slice_init (map f l) = map f (removelast l).
Proof.
  unfold slice_init.
  rewrite length_map, removelast_firstn_len, firstn_map.
  replace (Nat.pred (List.length l)) with (List.length l - 1)%nat by lia.
  reflexivity.
Qed.

Lemma typed_digits (l : list Z) (o : input_op) :
  presses_digits o -> Forall is_digit l -> (List.length l <= 6)%nat ->
  Forall is_digit (typed l o) /\ (List.length (typed l o) <= 6)%nat.
Proof.
  intros Ho Hl H6. destruct o as [d| |]; cbn [typed presses_digits] in *.
  - split.
    + apply Forall_last_n, Forall_app. split; [exact Hl|].
      apply Forall_cons; [exact Ho|apply Forall_nil].
    + rewrite last_n_length. lia.
  - rewrite removelast_firstn_len. split.
    + apply Forall_firstn. exact Hl.
    + rewrite length_firstn. lia.
  - split; [apply Forall_nil|]. cbn. lia.
Qed.

Lemma class_input_step (o : input_op) (l : list Z) (ui : t) :
  presses_digits o -> Forall is_digit l -> (List.length l <= 6)%nat ->
  inputSequence ui = digits_text l ->
  let ui' := exec (class_input o) ui in
  inputSequence ui' = digits_text (typed l o)
  /\ countdownDisplay ui' = mkDisplay (hhmmss_text (typed l o)) (str ".000")
  /\ countdownTimer ui' = countdownTimer ui
  /\ stopwatch ui' = stopwatch ui
  /\ hidden ui' = hidden ui.
Proof.
  intros Ho Hl H6 Hui ui'.
  destruct (typed_digits l o Ho Hl H6) as [Hl' H6'].
  assert (Hseq : inputSequence ui' = digits_text (typed l o)).
  { subst ui'. destruct o as [d| |]; cbn [typed presses_digits class_input] in *.
    - rewrite handleNumberInput_inputSequence, Hui.
      rewrite (digits_text_map (last_n 6 (l ++ [d]))) by exact Hl'.
      rewrite digits_text_map, digit_text_char by assumption.
      change [digit_char d] with (map digit_char [d]).
      rewrite <- map_app, slice_last_map. reflexivity.
    - change (inputSequence (exec handleBackspace ui))
        with (slice_init (inputSequence ui)).
      rewrite Hui, (digits_text_map (removelast l)) by exact Hl'.
      rewrite digits_text_map, slice_init_map by assumption. reflexivity.
    - reflexivity. }
  split; [exact Hseq|].
  split; [|subst ui'; destruct o; repeat split; reflexivity].
  rewrite <- input_display_digits by assumption.
  rewrite <- Hseq. subst ui'. destruct o; reflexivity.
Qed.

(** X5. From a state whose input sequence holds at most six digits,
    any row of presses of digit buttons, of Backspace and of the
    button that clears the input leaves in inputSequence the digits
    that remain typed (a digit enters on the right and pushes out the
    seventh from the right, Backspace takes the last one off, clearing
    takes all); they are at most six, setCountdownTime would read them
    as (HH * 3600 + MM * 60 + SS) * 1000 ms, the display shows them as
    HH:MM:SS.000 once a button was pressed, and neither the countdown
    timer, the stopwatch nor the hidden classes change. *)
Theorem X5_class_input_buttons (ops : list input_op) (l : list Z) (ui : t) :
  Forall presses_digits ops -> Forall is_digit l -> (List.length l <= 6)%nat ->
  inputSequence ui = digits_text l ->
  let ui' := exec (for_each class_input ops) ui in
  let l' := fold_left typed ops l in
  inputSequence ui' = digits_text l'
  /\ (List.length l' <= 6)%nat
  /\ totalMs (inputSequence ui') = Num (hhmmss_ms l')
  /\ (ops <> [] ->
      countdownDisplay ui' = mkDisplay (hhmmss_text l') (str ".000"))
  /\ countdownTimer ui' = countdownTimer ui
  /\ stopwatch ui' = stopwatch ui
  /\ hidden ui' = hidden ui.
Proof.
  intros Hops. revert l ui.
  induction Hops as [|o ops Ho Hops IH]; intros l ui Hl H6 Hui ui' l'.
  - subst ui' l'. cbn [for_each fold_left]. unfold exec, ret. cbn [state].
    split; [exact Hui|]. split; [exact H6|].
    split; [rewrite Hui; apply class_totalMs_digits; assumption|].
    split; [intros Hne; contradiction Hne; reflexivity|].
    repeat split; reflexivity.
  - subst ui' l'. cbn [fold_left].
    rewrite for_each_cons by apply class_input_value.
    destruct (typed_digits l o Ho Hl H6) as [Hl1 H61].
    destruct (class_input_step o l ui Ho Hl H6 Hui)
      as (Hseq & Hdisp & Hcd & Hsw & Hhid).
    destruct (IH (typed l o) (exec (class_input o) ui) Hl1 H61 Hseq)
      as (Kseq & K6 & Kms & Kdisp & Kcd & Ksw & Khid).
    split; [exact Kseq|]. split; [exact K6|]. split; [exact Kms|].
    split.
    + intros _. destruct ops as [|o' ops'].
      * exact Hdisp.
      * apply Kdisp. discriminate.
    + rewrite Kcd, Ksw, Khid, Hcd, Hsw, Hhid. repeat split; reflexivity.
Qed.

Lemma X5_class_input_buttons_witness :
  let ops := [Press 1; Press 2; Press 3; Backspace; Press 9] in
  let ui' := exec (for_each class_input ops) class_ui0 in
  inputSequence ui' = str "129"
  /\ totalMs (inputSequence ui') = Num 89000
  /\ countdownDisplay ui' = mkDisplay (str "00:01:29") (str ".000").
Proof.
  intros ops ui'.
  assert (Hops : Forall presses_digits ops).
  { repeat (apply Forall_cons; [cbn; unfold is_digit; lia|]).
    apply Forall_nil. }
  destruct (X5_class_input_buttons ops [] class_ui0 Hops (Forall_nil _)
              ltac:(cbn; lia) eq_refl)
    as (Hseq & _ & Hms & Hdisp & _).
  split; [exact Hseq|]. split; [exact Hms|].
  apply Hdisp. discriminate.
Defined.

End ClassInput.


(** ** Switching screens in the class variant *)

(** Runs the methods of the class variant's controller on a state
    given by its fields. *)
Ltac run_ui :=
  cbv beta iota zeta
    delta [bind get modify emit ret throw when exec try_catch on_member
           value state output leb gtb strict_eq sub add mul Math_max lift2
           negb andb orb
           ClassVariant.UIController.showScreen
           ClassVariant.UIController.startStopwatch
           ClassVariant.UIController.pauseStopwatch
           ClassVariant.UIController.continueStopwatch
           ClassVariant.UIController.clearStopwatch
           ClassVariant.UIController.on_countdownTimer
           ClassVariant.UIController.on_stopwatch
           ClassVariant.UIController.showAlert
           ClassVariant.UIController.hide ClassVariant.UIController.unhide
           ClassVariant.UIController.setCountdownTime
           ClassVariant.UIController.startCountdown
           ClassVariant.UIController.pauseCountdown
           ClassVariant.UIController.continueCountdown
           ClassVariant.UIController.clearCountdown
           ClassVariant.UIController.resetCountdownUI
           ClassVariant.UIController.clearCountdownInput
           ClassVariant.UIController.hidden
           ClassVariant.UIController.stopwatchDisplay
           ClassVariant.UIController.countdownDisplay
           ClassVariant.UIController.stopwatch
           ClassVariant.UIController.countdownTimer
           ClassVariant.UIController.inputSequence
           ClassVariant.UIController.stopwatchExpired
           ClassVariant.UIController.countdownExpired
           ClassVariant.UIController.set_hidden
           ClassVariant.UIController.set_stopwatchDisplay
           ClassVariant.UIController.set_countdownDisplay
           ClassVariant.UIController.set_stopwatch
           ClassVariant.UIController.set_countdownTimer
           ClassVariant.UIController.set_inputSequence
           ClassVariant.UIController.set_stopwatchExpired
           ClassVariant.UIController.set_countdownExpired
           ClassVariant.CountdownTimer._update ClassVariant.CountdownTimer.start
           ClassVariant.CountdownTimer.stop ClassVariant.CountdownTimer.setTime
           ClassVariant.CountdownTimer.reset ClassVariant.CountdownTimer.clear
           ClassVariant.CountdownTimer.isExpired
           ClassVariant.CountdownTimer.initialTime
           ClassVariant.CountdownTimer.remainingTime
           ClassVariant.CountdownTimer.isRunning
           ClassVariant.CountdownTimer.startTime
           ClassVariant.CountdownTimer.animationFrame
           ClassVariant.CountdownTimer.hasExpired
           ClassVariant.CountdownTimer.set_initialTime
           ClassVariant.CountdownTimer.set_remainingTime
           ClassVariant.CountdownTimer.set_isRunning
           ClassVariant.CountdownTimer.set_startTime
           ClassVariant.CountdownTimer.set_animationFrame
           ClassVariant.CountdownTimer.set_hasExpired
           ClassVariant.Timer._update ClassVariant.Timer.start
           ClassVariant.Timer.stop ClassVariant.Timer.reset
           ClassVariant.Timer.startTime ClassVariant.Timer.elapsedTime
           ClassVariant.Timer.isRunning ClassVariant.Timer.animationFrame
           ClassVariant.Timer.set_startTime ClassVariant.Timer.set_elapsedTime
           ClassVariant.Timer.set_isRunning
           ClassVariant.Timer.set_animationFrame] in *.

(** X6. showScreen(screen) never throws, and after it a screen is shown
    exactly when it is the one named: each of the three names shows its
    screen alone and logs no error, any other name leaves all three
    hidden and logs that the screen is invalid.  It leaves the countdown
    timer and the stopwatch as they are, running or not; on the name
    countdown it brings the countdown screen back to the entry of a
    time, with an empty input sequence and the controls hidden. *)
Theorem X6_class_showScreen (screen : String.string)
  (ui : ClassVariant.UIController.t) :
  let r := ClassVariant.UIController.showScreen screen ui in
  let ui' := state r in
  value r = inl tt
  /\ (forall name e, In (name, e) screens ->
      ClassVariant.UIController.hidden ui' e = negb (String.eqb screen name))
  /\ output r
     = (if is_screen screen then []
        else [ConsoleError
                (String.append "Error switching screens: "
                   (String.append "Invalid screen: " screen))])
  /\ ClassVariant.UIController.countdownTimer ui'
     = ClassVariant.UIController.countdownTimer ui
  /\ ClassVariant.UIController.stopwatch ui'
     = ClassVariant.UIController.stopwatch ui
  /\ (screen = "countdown"%string ->
      ClassVariant.UIController.inputSequence ui' = []
      /\ ClassVariant.UIController.countdownDisplay ui'
         = mkDisplay (str "00:00:00") (str ".000")
      /\ ClassVariant.UIController.hidden ui'
           ClassVariant.UIController.countdownInput = false
      /\ ClassVariant.UIController.hidden ui'
           ClassVariant.UIController.countdownControls = true
      /\ ClassVariant.UIController.countdownExpired ui' = false).
Proof.
  intros r ui'. subst ui' r.
  destruct ui as [h swd cdd sw cd inp swe cde].
  unfold is_screen, screens. cbn [existsb fst].
  run_ui.
  destruct (String.eqb_spec screen "home") as [->|Hh];
    [|destruct (String.eqb_spec screen "stopwatch") as [->|Hs];
      [|destruct (String.eqb_spec screen "countdown") as [->|Hc]]];
    cbn;
    (split; [reflexivity|]);
    (split;
     [intros name e [E|[E|[E|[]]]]; inversion E; subst; cbn;
      try reflexivity;
      symmetry; apply Bool.negb_true_iff, String.eqb_neq; assumption|]);
    (split; [reflexivity|]); (split; [reflexivity|]);
    (split; [reflexivity|]);
    intros E; try discriminate E; try contradiction;
    repeat split; reflexivity.
Qed.


Lemma X6_class_showScreen_witness :
  let r := ClassVariant.UIController.showScreen "settings" class_ui0 in
  ClassVariant.UIController.hidden (state r)
    ClassVariant.UIController.homeScreen = true
  /\ output r
     = [ConsoleError "Error switching screens: Invalid screen: settings"].
Proof.
  intros r.
  destruct (X6_class_showScreen "settings" class_ui0)
    as (_ & Hhid & Hout & _).
  split; [|exact Hout].
  exact (Hhid "home"%string ClassVariant.UIController.homeScreen
           (or_introl eq_refl)).
Defined.


(** ** Histories of the TimerBase variant's Stopwatch *)

Ltac run_stopwatch_calls :=
  cbv beta iota zeta
    delta [bind get modify emit ret throw when exec value state output
           leb sub add lift2 negb fst snd app filter find option_map
           run_stopwatch_call stopwatch_constructed stopwatch_intervals_ok
           stopwatch_shown
           Intervals.setInterval Intervals.clearInterval Intervals.callback_of
           Intervals.active Intervals.next_id Intervals.empty
           TimerBaseVariant.Stopwatch.fire
           TimerBaseVariant.Stopwatch.start TimerBaseVariant.Stopwatch.tick
           TimerBaseVariant.Stopwatch.pause TimerBaseVariant.Stopwatch.continue
           TimerBaseVariant.Stopwatch.reset
           TimerBaseVariant.Stopwatch.updateDisplay
           TimerBaseVariant.Stopwatch.updateButtonVisibility
           TimerBaseVariant.Stopwatch.hide TimerBaseVariant.Stopwatch.unhide
           TimerBaseVariant.Stopwatch.displayElement
           TimerBaseVariant.Stopwatch.timerInterval
           TimerBaseVariant.Stopwatch.isRunning
           TimerBaseVariant.Stopwatch.startTime
           TimerBaseVariant.Stopwatch.elapsedTime
           TimerBaseVariant.Stopwatch.hidden
           TimerBaseVariant.Stopwatch.intervals
           TimerBaseVariant.Stopwatch.set_displayElement
           TimerBaseVariant.Stopwatch.set_timerInterval
           TimerBaseVariant.Stopwatch.set_isRunning
           TimerBaseVariant.Stopwatch.set_startTime
           TimerBaseVariant.Stopwatch.set_elapsedTime
           TimerBaseVariant.Stopwatch.set_hidden
           TimerBaseVariant.Stopwatch.set_intervals] in *.

Ltac stopwatch_buttons :=
  repeat match goal with
         | |- context [TimerBaseVariant.Stopwatch.element_eq_dec ?a ?b] =>
             let E := fresh "E" in
             destruct (TimerBaseVariant.Stopwatch.element_eq_dec a b) as [E|E];
             [try discriminate E | try (exfalso; apply E; reflexivity)]
         end.

Lemma stopwatch_constructed_ok (page : TimerBaseVariant.Stopwatch.element -> bool) :
  stopwatch_ok (stopwatch_constructed page).
Proof.
  unfold stopwatch_ok. run_stopwatch_calls. stopwatch_buttons.
  split; [reflexivity|]. split; [|reflexivity].
  exists TimerBaseVariant.initial. split; [reflexivity|].
  split; [split; intros E'; discriminate E'|reflexivity].
Qed.

Lemma stopwatch_call_ok (s : TimerBaseVariant.Stopwatch.t) (c : stopwatch_call) :
  stopwatch_ok s -> stopwatch_ok (exec (run_stopwatch_call c) s).
Proof.
  unfold stopwatch_ok.
  destruct s as [d ti run st el h [act nx]].
  intros (Hiv & (b & Hb & Hrun & Hzero) & Hclear).
  run_stopwatch_calls.
  destruct run.
  - destruct Hiv as (i & -> & ->).
    assert (b = TimerBaseVariant.running) as -> by (apply Hrun; reflexivity).
    destruct c as [now| |now| |id now]; run_stopwatch_calls;
      try rewrite Nat.eqb_refl; try destruct (Nat.eqb i id);
      run_stopwatch_calls; stopwatch_buttons;
      try (split; [exists i; split; reflexivity|];
           split; [|exact Hclear];
           exists TimerBaseVariant.running;
           split; [exact Hb|];
           split; [split; reflexivity|intros E'; discriminate E']);
      (split; [reflexivity|]); (split; [|reflexivity]);
      eexists; (split; [reflexivity|]);
      (split; [split; intros E'; discriminate E'|]);
      intros E'; try discriminate E'; reflexivity.
  - subst act. destruct ti as [i|].
    all: destruct c as [now| |now| |id now]; run_stopwatch_calls;
      stopwatch_buttons;
      try (split; [reflexivity|];
           split; [exists b; split; [exact Hb|split; assumption]|exact Hclear]);
      try (split; [eexists; split; reflexivity|]; split; [|reflexivity];
           eexists; (split; [reflexivity|]);
           split; [split; reflexivity|intros E'; discriminate E']);
      (split; [reflexivity|]); (split; [|reflexivity]);
      eexists; (split; [reflexivity|]);
      (split; [split; intros E'; discriminate E'|]);
      intros E'; try discriminate E'; reflexivity.
Qed.

(** X7. Whatever calls a Stopwatch of the TimerBase variant has received
    since its constructor (start, pause, continue, reset, ticks of any
    interval id, at any clock readings): its only live interval is the
    one timerInterval names while it runs, and it has none when it does
    not run; exactly one of Start, Pause and Continue is shown, Pause
    exactly when it runs, and Start only with elapsedTime = 0; Clear is
    shown; and the tick of any other interval, or of any interval while
    it does not run, changes nothing. *)
Theorem X7_timerbase_stopwatch_history (s : TimerBaseVariant.Stopwatch.t) :
  stopwatch_history s ->
  stopwatch_intervals_ok s
  /\ (exists b, stopwatch_shown s = Some b
      /\ (b = TimerBaseVariant.running
          <-> TimerBaseVariant.Stopwatch.isRunning s = true)
      /\ (b = TimerBaseVariant.initial
          -> TimerBaseVariant.Stopwatch.elapsedTime s = Num 0))
  /\ TimerBaseVariant.Stopwatch.hidden s TimerBaseVariant.Stopwatch.clearBtn
     = false
  /\ (forall id now,
      TimerBaseVariant.Stopwatch.timerInterval s <> Some id
      \/ TimerBaseVariant.Stopwatch.isRunning s = false ->
      TimerBaseVariant.Stopwatch.fire id now s = mkResult (inl tt) s []).
Proof.
  intros Hs.
  assert (Hok : stopwatch_ok s).
  { induction Hs as [page|s c Hs IH].
    - apply stopwatch_constructed_ok.
    - apply stopwatch_call_ok. exact IH. }
  destruct Hok as (Hiv & Hshown & Hclear).
  split; [exact Hiv|]. split; [exact Hshown|]. split; [exact Hclear|].
  intros id now Hother.
  destruct s as [d ti run st el h [act nx]].
  run_stopwatch_calls.
  destruct run.
  - destruct Hiv as (i & -> & ->). run_stopwatch_calls.
    destruct Hother as [Hne|Hstop]; [|discriminate Hstop].
    destruct (Nat.eqb_spec i id) as [->|_]; [|reflexivity].
    contradiction Hne. reflexivity.
  - subst act. reflexivity.
Qed.

Lemma X7_timerbase_stopwatch_history_witness :
  let s := exec (run_stopwatch_call SwPause)
             (exec (run_stopwatch_call (SwFire 1 150))
                (exec (run_stopwatch_call (SwStart 100))
                   (stopwatch_constructed (fun _ => true)))) in
  TimerBaseVariant.Stopwatch.elapsedTime s = Num 50
  /\ Intervals.active (TimerBaseVariant.Stopwatch.intervals s) = []
  /\ TimerBaseVariant.Stopwatch.fire 1 900 s = mkResult (inl tt) s [].
Proof.
  intros s.
  assert (Hs : stopwatch_history s).
  { apply stopwatch_history_call, stopwatch_history_call,
      stopwatch_history_call, stopwatch_history_new. }
  destruct (X7_timerbase_stopwatch_history s Hs) as (Hiv & _ & _ & Hfire).
  split; [vm_compute; reflexivity|].
  split; [|apply Hfire; right; vm_compute; reflexivity].
  vm_compute in Hiv. vm_compute. exact Hiv.
Defined.


(** ** Histories of the TimerBase variant's Countdown *)

Ltac run_countdown_calls :=
  cbv beta iota zeta
    delta [bind get modify emit ret throw when exec try_catch value state
           output leb gtb strict_eq sub add mul Math_max lift2 negb andb orb
           fst snd app filter find option_map
           run_countdown_call countdown_intervals_ok countdown_shown
           controls_shown
           Intervals.setInterval Intervals.clearInterval Intervals.callback_of
           Intervals.active Intervals.next_id Intervals.empty
           TimerBaseVariant.Countdown.new
           TimerBaseVariant.Countdown.fire
           TimerBaseVariant.Countdown.appendDigit
           TimerBaseVariant.Countdown.updateInputDisplay
           TimerBaseVariant.Countdown.setTime TimerBaseVariant.Countdown.start
           TimerBaseVariant.Countdown.tick TimerBaseVariant.Countdown.pause
           TimerBaseVariant.Countdown.continue
           TimerBaseVariant.Countdown.resetInput
           TimerBaseVariant.Countdown.resetTimer
           TimerBaseVariant.Countdown.clearInterval
           TimerBaseVariant.Countdown.updateDisplay
           TimerBaseVariant.Countdown.updateButtonVisibility
           TimerBaseVariant.Countdown.updateControlVisibility
           TimerBaseVariant.Countdown.hide TimerBaseVariant.Countdown.unhide
           TimerBaseVariant.Countdown.displayElement
           TimerBaseVariant.Countdown.timerInterval
           TimerBaseVariant.Countdown.isRunning
           TimerBaseVariant.Countdown.initialTime
           TimerBaseVariant.Countdown.remainingTime
           TimerBaseVariant.Countdown.inputBuffer
           TimerBaseVariant.Countdown.maxTimeMs
           TimerBaseVariant.Countdown.startTime
           TimerBaseVariant.Countdown.hidden
           TimerBaseVariant.Countdown.intervals
           TimerBaseVariant.Countdown.set_displayElement
           TimerBaseVariant.Countdown.set_timerInterval
           TimerBaseVariant.Countdown.set_isRunning
           TimerBaseVariant.Countdown.set_initialTime
           TimerBaseVariant.Countdown.set_remainingTime
           TimerBaseVariant.Countdown.set_inputBuffer
           TimerBaseVariant.Countdown.set_startTime
           TimerBaseVariant.Countdown.set_hidden
           TimerBaseVariant.Countdown.set_intervals] in *.

Ltac countdown_buttons :=
  repeat match goal with
         | |- context [TimerBaseVariant.Countdown.element_eq_dec ?a ?b] =>
             let E := fresh "E" in
             destruct (TimerBaseVariant.Countdown.element_eq_dec a b) as [E|E];
             [try discriminate E | try (exfalso; apply E; reflexivity)]
         end.

(** Splits on the first test a method is stuck on. *)
Ltac next_test :=
  match goal with
  | |- context [if ?b then _ else _] =>
      lazymatch type of b with
      | bool =>
          lazymatch b with
          | context [if _ then _ else _] => fail
          | _ => destruct b eqn:?
          end
      end
  | |- context [match ?x with Num _ => _ | NaN => _ end] => destruct x
  end.

Lemma countdown_new_ok (page : TimerBaseVariant.Countdown.element -> bool) :
  countdown_ok (TimerBaseVariant.Countdown.new page).
Proof.
  unfold countdown_ok. run_countdown_calls. countdown_buttons.
  split; [reflexivity|].
  split; [eexists; split; [reflexivity|split; intros E'; discriminate E']|].
  split; [eexists; reflexivity|reflexivity].
Qed.

Lemma countdown_call_ok (s : TimerBaseVariant.Countdown.t) (c : countdown_call) :
  countdown_ok s -> countdown_ok (exec (run_countdown_call c) s).
Proof.
  unfold countdown_ok.
  destruct s as [d ti run ini rem buf mx st h [act nx]].
  intros (Hiv & (b & Hb & Hrun & Hpaused) & (p & Hp) & Hclear).
  run_countdown_calls.
  destruct run.
  - destruct Hiv as (i & -> & ->).
    destruct c as [digit| | |now| |now| |id now]; run_countdown_calls;
      try rewrite Nat.eqb_refl; try destruct (Nat.eqb i id);
      run_countdown_calls;
      repeat (first [rewrite Nat.eqb_refl | next_test]; run_countdown_calls);
      countdown_buttons;
      ((split; [first [reflexivity | eexists; split; reflexivity]|]);
      (split;
       [first [exists b; split; [exact Hb|split; assumption]
              | eexists; split; [reflexivity|];
                split; intros E'; first [discriminate E' | reflexivity]]|]);
      (split; [first [exists p; exact Hp | eexists; reflexivity]
              |first [exact Hclear | reflexivity]])).
  - subst act. destruct ti as [i|].
    all: destruct c as [digit| | |now| |now| |id now]; run_countdown_calls;
      repeat (next_test; run_countdown_calls);
      countdown_buttons;
      (split; [first [reflexivity | eexists; split; reflexivity]|]);
      (split;
       [first [exists b; split; [exact Hb|split; assumption]
              | eexists; split; [reflexivity|];
                split; intros E'; first [discriminate E' | reflexivity]]|]);
      (split; [first [exists p; exact Hp | eexists; reflexivity]
              |first [exact Hclear | reflexivity]]).
Qed.

(** X8. Whatever calls a Countdown of the TimerBase variant has received
    since its constructor (digits, Set, the two Clear buttons, start,
    pause, continue, ticks of any interval id, at any clock readings):
    its only live interval is the one timerInterval names while it
    runs, and it has none when it does not run, so that no second
    interval ever counts down; exactly one of Start, Pause and Continue
    is shown, Pause only while it runs and Continue only while it does
    not; exactly one of the two groups of controls is shown; the Clear
    button of the timer is shown; and the tick of any other interval, or
    of any interval while it does not run, changes nothing. *)
Theorem X8_timerbase_countdown_history (s : TimerBaseVariant.Countdown.t) :
  timerbase_countdown_history s ->
  countdown_intervals_ok s
  /\ (exists b, countdown_shown s = Some b
      /\ (b = TimerBaseVariant.running
          -> TimerBaseVariant.Countdown.isRunning s = true)
      /\ (b = TimerBaseVariant.paused
          -> TimerBaseVariant.Countdown.isRunning s = false))
  /\ (exists p, controls_shown s = Some p)
  /\ TimerBaseVariant.Countdown.hidden s TimerBaseVariant.Countdown.clearTimerBtn
     = false
  /\ (forall id now,
      TimerBaseVariant.Countdown.timerInterval s <> Some id
      \/ TimerBaseVariant.Countdown.isRunning s = false ->
      TimerBaseVariant.Countdown.fire id now s = mkResult (inl tt) s []).
Proof.
  intros Hs.
  assert (Hok : countdown_ok s).
  { induction Hs as [page|s c Hs IH].
    - apply countdown_new_ok.
    - apply countdown_call_ok. exact IH. }
  destruct Hok as (Hiv & Hshown & Hpanel & Hclear).
  split; [exact Hiv|]. split; [exact Hshown|]. split; [exact Hpanel|].
  split; [exact Hclear|].
  intros id now Hother.
  destruct s as [d ti run ini rem buf mx st h [act nx]].
  run_countdown_calls.
  destruct run.
  - destruct Hiv as (i & -> & ->). run_countdown_calls.
    destruct Hother as [Hne|Hstop]; [|discriminate Hstop].
    destruct (Nat.eqb_spec i id) as [->|_]; [|reflexivity].
    contradiction Hne. reflexivity.
  - subst act. reflexivity.
Qed.

Lemma X8_timerbase_countdown_history_witness :
  let s := exec (run_countdown_call (CdFire 1 7000))
             (exec (run_countdown_call (CdStart 1000))
                (exec (run_countdown_call CdSet)
                   (exec (run_countdown_call (CdDigit (str "5")))
                      (TimerBaseVariant.Countdown.new (fun _ => true))))) in
  TimerBaseVariant.Countdown.isRunning s = false
  /\ Intervals.active (TimerBaseVariant.Countdown.intervals s) = []
  /\ controls_shown s = Some TimerBaseVariant.input
  /\ TimerBaseVariant.Countdown.fire 1 7010 s = mkResult (inl tt) s [].
Proof.
  intros s.
  assert (Hs : timerbase_countdown_history s).
  { apply timerbase_countdown_call, timerbase_countdown_call,
      timerbase_countdown_call, timerbase_countdown_call,
      timerbase_countdown_new. }
  destruct (X8_timerbase_countdown_history s Hs) as (Hiv & _ & _ & _ & Hfire).
  split; [vm_compute; reflexivity|].
  split; [vm_compute in Hiv; vm_compute; exact Hiv|].
  split; [vm_compute; reflexivity|].
  apply Hfire. right. vm_compute. reflexivity.
Defined.


(** ** What TimerBase.updateDisplay puts in the two spans *)

Lemma decimal_no_dot (n : N) : no_dot (decimal n).
Proof.
  unfold decimal, str, no_dot.
  induction (N.to_uint n) as [|u IH|u IH|u IH|u IH|u IH|u IH|u IH|u IH|u IH|u IH];
    cbn [NilEmpty.string_of_uint list_ascii_of_string];
    [apply Forall_nil|..]; (apply Forall_cons; [discriminate|exact IH]).
Qed.

Lemma zero_padded_no_dot (w : nat) (v : Z) : no_dot (zero_padded w v).
Proof.
  unfold zero_padded, padStart, no_dot. apply Forall_app. split.
  - apply Forall_forall. intros c Hc. apply repeat_spec in Hc. subst.
    discriminate.
  - apply decimal_no_dot.
Qed.

Lemma before_dot_app (a rest : jsstring) :
  no_dot a -> TimerBaseVariant.TimerBase.before_dot (a ++ "."%char :: rest) = a.
Proof.
  induction 1 as [|c a Hc Ha IH]; [reflexivity|].
  cbn [app TimerBaseVariant.TimerBase.before_dot].
  destruct (Ascii.eqb_spec c "."); [contradiction|]. rewrite IH. reflexivity.
Qed.

Lemma after_dot_app (a rest : jsstring) :
  no_dot a -> TimerBaseVariant.TimerBase.after_dot (a ++ "."%char :: rest) = rest.
Proof.
  induction 1 as [|c a Hc Ha IH]; [reflexivity|].
  cbn [app TimerBaseVariant.TimerBase.after_dot].
  destruct (Ascii.eqb_spec c "."); [contradiction|]. exact IH.
Qed.

Lemma before_dot_all (a : jsstring) :
  no_dot a -> TimerBaseVariant.TimerBase.before_dot a = a.
Proof.
  induction 1 as [|c a Hc Ha IH]; [reflexivity|].
  cbn [TimerBaseVariant.TimerBase.before_dot].
  destruct (Ascii.eqb_spec c "."); [contradiction|]. rewrite IH. reflexivity.
Qed.

Lemma timerbase_formatTime_clamps (z : Z) :
  TimerBaseVariant.TimerBase.formatTime (Num z)
  = TimerBaseVariant.TimerBase.formatTime (Num (Z.max 0 z)).
Proof.
  unfold TimerBaseVariant.TimerBase.formatTime, Math_max, lift2.
  replace (Z.max 0 (Z.max 0 z)) with (Z.max 0 z) by lia. reflexivity.
Qed.

Lemma timerbase_updateDisplay_spans (z : Z) :
  z < 2 ^ 53 ->
  let ms := Z.max 0 z in
  TimerBaseVariant.TimerBase.updateDisplay (Num z)
  = mkDisplay
      (zero_padded 2 (spec_hours ms) ++ str ":"
         ++ zero_padded 2 (spec_minutes ms) ++ str ":"
         ++ zero_padded 2 (spec_seconds ms))
      (zero_padded 3 (spec_millis ms)).
Proof.
  intros Hz ms. unfold TimerBaseVariant.TimerBase.updateDisplay.
  rewrite timerbase_formatTime_clamps. fold ms.
  rewrite timerbase_formatTime_fields by (unfold ms; lia).
  assert (Hmain : no_dot (zero_padded 2 (spec_hours ms) ++ str ":"
                            ++ zero_padded 2 (spec_minutes ms) ++ str ":"
                            ++ zero_padded 2 (spec_seconds ms))).
  { unfold no_dot. rewrite !Forall_app.
    repeat split; try apply zero_padded_no_dot;
      (apply Forall_cons; [discriminate|apply Forall_nil]). }
  replace (zero_padded 2 (spec_hours ms) ++ str ":"
             ++ zero_padded 2 (spec_minutes ms) ++ str ":"
             ++ zero_padded 2 (spec_seconds ms) ++ str "."
             ++ zero_padded 3 (spec_millis ms))
    with ((zero_padded 2 (spec_hours ms) ++ str ":"
             ++ zero_padded 2 (spec_minutes ms) ++ str ":"
             ++ zero_padded 2 (spec_seconds ms))
            ++ "."%char :: zero_padded 3 (spec_millis ms))
    by (rewrite <- !app_assoc; reflexivity).
  rewrite before_dot_app, after_dot_app by exact Hmain.
  rewrite before_dot_all by apply zero_padded_no_dot.
  reflexivity.
Qed.

(** X9. updateDisplay(timeInMs) of the TimerBase variant, for every
    integer time below 2^53: the first span holds HH:MM:SS and the
    second the three digits of the milliseconds, those of the time
    itself when it is not negative and of 0 when it is; the formatted
    time has one dot and the split at it loses nothing, whether the
    hours take two digits or more. *)
Theorem X9_timerbase_updateDisplay (z : Z) :
  z < 2 ^ 53 ->
  let ms := Z.max 0 z in
  TimerBaseVariant.TimerBase.updateDisplay (Num z)
  = mkDisplay
      (zero_padded 2 (spec_hours ms) ++ str ":"
         ++ zero_padded 2 (spec_minutes ms) ++ str ":"
         ++ zero_padded 2 (spec_seconds ms))
      (zero_padded 3 (spec_millis ms)).
Proof. exact (timerbase_updateDisplay_spans z). Qed.

Lemma X9_timerbase_updateDisplay_witness :
  360000001 < 2 ^ 53
  /\ TimerBaseVariant.TimerBase.updateDisplay (Num 360000001)
     = mkDisplay (str "100:00:00") (str "001").
Proof.
  split; [lia|].
  exact (X9_timerbase_updateDisplay 360000001 ltac:(lia)).
Defined.


(** ** Showing the time that was typed *)

Lemma zero_padded_pair (a b : Z) :
  is_digit a -> is_digit b ->
  zero_padded 2 (10 * a + b) = [digit_char a; digit_char b].
Proof. intros Ha Hb. each_digit Ha; each_digit Hb; reflexivity. Qed.

Lemma typed_components (H M S : Z) :
  0 <= H -> 0 <= M < 60 -> 0 <= S < 60 ->
  let ms := (H * 3600 + M * 60 + S) * 1000 in
  spec_hours ms = H /\ spec_minutes ms = M /\ spec_seconds ms = S
  /\ spec_millis ms = 0.
Proof.
  intros HH HM HS ms.
  unfold spec_hours, spec_minutes, spec_seconds, spec_millis.
  assert (E1 : ms mod 3600000 = M * 60000 + S * 1000).
  { symmetry. apply (Z.mod_unique ms 3600000 H); unfold ms; lia. }
  assert (E2 : ms mod 60000 = S * 1000).
  { symmetry. apply (Z.mod_unique ms 60000 (H * 60 + M)); unfold ms; lia. }
  split; [symmetry; apply (Z.div_unique ms 3600000 H (M * 60000 + S * 1000));
          unfold ms; lia|].
  split; [rewrite E1; symmetry;
          apply (Z.div_unique _ 60000 M (S * 1000)); lia|].
  split; [rewrite E2; symmetry; apply (Z.div_unique _ 1000 S 0); lia|].
  symmetry. apply (Z.mod_unique ms 1000 (H * 3600 + M * 60 + S)); unfold ms; lia.
Qed.

(** X10. A time typed with minutes and seconds below 60 is shown as it
    was typed: for at most six digits whose fields MM and SS are below
    60, the duration the variants derive from them,
    (HH * 3600 + MM * 60 + SS) * 1000, is formatted by each of the
    three formatters as the digits themselves, HH:MM:SS, with the
    milliseconds 000. *)
Theorem X10_typed_time_is_shown (ds : list Z) :
  Forall is_digit ds -> (List.length ds <= 6)%nat ->
  typed_field 2 ds < 60 -> typed_field 4 ds < 60 ->
  ClassVariant.UIController.shown
    (ClassVariant.Timer.formatTime (Num (hhmmss_ms ds)))
  = mkDisplay (hhmmss_text ds) (str ".000")
  /\ ScriptVariant.formatTime (Num (hhmmss_ms ds))
     = mkDisplay (hhmmss_text ds) (str ".000")
  /\ TimerBaseVariant.TimerBase.updateDisplay (Num (hhmmss_ms ds))
     = mkDisplay (hhmmss_text ds) (str "000").
Proof.
  intros Hds Hlen. unfold typed_field, hhmmss_ms, hhmmss_text.
  destruct (padded_digits ds Hds Hlen)
    as (a & b & c & d & e & f & -> & Ha & Hb & Hc & Hd & He & Hf).
  cbn [nth skipn firstn]. intros HM HS.
  assert (Hpos : 0 <= (10 * a + b) /\ 0 <= 10 * c + d /\ 0 <= 10 * e + f)
    by (unfold is_digit in *; lia).
  destruct (typed_components (10 * a + b) (10 * c + d) (10 * e + f))
    as (Eh & Em & Es & Ems); try lia.
  set (ms := ((10 * a + b) * 3600 + (10 * c + d) * 60 + (10 * e + f)) * 1000)
    in *.
  assert (Hms : 0 <= ms < 2 ^ 53)
    by (unfold ms; unfold is_digit in *; lia).
  rewrite !digits_text_map
    by (repeat (apply Forall_cons; [assumption|]); apply Forall_nil).
  cbn [map].
  rewrite class_formatTime_fields, script_formatTime_fields by exact Hms.
  rewrite timerbase_updateDisplay_spans by lia.
  unfold ClassVariant.UIController.shown.
  cbn [ClassVariant.formatted ClassVariant.milliseconds].
  rewrite Z.max_r by lia.
  rewrite Eh, Em, Es, Ems, !zero_padded_pair by assumption.
  repeat split; reflexivity.
Qed.

Lemma X10_typed_time_is_shown_witness :
  TimerBaseVariant.TimerBase.updateDisplay (Num (hhmmss_ms [1; 2; 3; 4; 5]))
  = mkDisplay (str "01:23:45") (str "000").
Proof.
  exact (proj2 (proj2 (X10_typed_time_is_shown [1; 2; 3; 4; 5]
                         (all_digits_decidable [1; 2; 3; 4; 5] eq_refl)
                         ltac:(simpl; lia) ltac:(vm_compute; reflexivity)
                         ltac:(vm_compute; reflexivity)))).
Defined.


(** ** A run of the TimerBase variant's Countdown *)

Lemma timerbase_start_counting (c : TimerBaseVariant.Countdown.t) (r t0 : Z) :
  TimerBaseVariant.Countdown.isRunning c = false ->
  Intervals.active (TimerBaseVariant.Countdown.intervals c) = [] ->
  TimerBaseVariant.Countdown.remainingTime c = Num r -> 0 < r ->
  let res := TimerBaseVariant.Countdown.start t0 c in
  value res = inl tt /\ output res = []
  /\ counting (Intervals.next_id (TimerBaseVariant.Countdown.intervals c))
       r t0 t0 (state res).
Proof.
  destruct c as [d ti run ini rem buf mx st h [act nx]].
  intros Hrun Hact Hrem Hr. unfold counting.
  run_countdown_calls. subst.
  destruct (Z.leb_spec r 0); [lia|].
  run_countdown_calls.
  repeat split; try reflexivity. f_equal. lia.
Qed.

Lemma timerbase_fire_counting (c : TimerBaseVariant.Countdown.t) (id : nat)
  (r t0 t u : Z) :
  counting id r t0 t c -> u - t0 < r ->
  let res := TimerBaseVariant.Countdown.fire id u c in
  value res = inl tt /\ output res = []
  /\ counting id r t0 u (state res)
  /\ TimerBaseVariant.Countdown.displayElement (state res)
     = TimerBaseVariant.TimerBase.updateDisplay (Num (r - (u - t0))).
Proof.
  destruct c as [d ti run ini rem buf mx st h [act nx]].
  unfold counting. intros (Hrun & Hti & Hact & Hst & Hrem) Hu.
  run_countdown_calls. subst. rewrite Nat.eqb_refl.
  run_countdown_calls.
  destruct (Z.leb_spec (r - (t - t0) - (u - t)) 0); [lia|].
  run_countdown_calls.
  replace (r - (t - t0) - (u - t)) with (r - (u - t0)) by lia.
  repeat split; reflexivity.
Qed.

Lemma timerbase_fires_counting (id : nat) (r t0 : Z) (us : list Z) :
  Forall (fun u => u - t0 < r) us ->
  forall (t : Z) (c : TimerBaseVariant.Countdown.t),
    counting id r t0 t c ->
    let res := for_each (TimerBaseVariant.Countdown.fire id) us c in
    value res = inl tt /\ output res = []
    /\ counting id r t0 (last us t) (state res).
Proof.
  induction 1 as [|u us Hu Hus IH]; intros t c Hc.
  - split; [reflexivity|]. split; [reflexivity|]. exact Hc.
  - destruct (timerbase_fire_counting c id r t0 t u Hc Hu)
      as (Hv & Ho & Hc' & _).
    destruct (IH u _ Hc') as (Kv & Ko & Kc).
    cbn [for_each]. cbv zeta.
    rewrite (value_bind _ _ _ _ Hv), (output_bind _ _ _ _ Hv).
    change (state (bind (TimerBaseVariant.Countdown.fire id u)
                     (fun _ => for_each (TimerBaseVariant.Countdown.fire id) us)
                     c))
      with (exec (bind (TimerBaseVariant.Countdown.fire id u)
                    (fun _ => for_each (TimerBaseVariant.Countdown.fire id) us))
              c).
    rewrite (exec_bind _ _ _ _ Hv).
    unfold exec. rewrite Ho, Ko.
    split; [exact Kv|]. split; [reflexivity|].
    rewrite last_cons_default. exact Kc.
Qed.

Lemma timerbase_fire_idle (c : TimerBaseVariant.Countdown.t) (id : nat) (u : Z) :
  Intervals.active (TimerBaseVariant.Countdown.intervals c) = [] ->
  TimerBaseVariant.Countdown.fire id u c = mkResult (inl tt) c [].
Proof.
  destruct c as [d ti run ini rem buf mx st h [act nx]].
  run_countdown_calls. intros ->. reflexivity.
Qed.

Lemma timerbase_fires_idle (c : TimerBaseVariant.Countdown.t) (id : nat)
  (us : list Z) :
  Intervals.active (TimerBaseVariant.Countdown.intervals c) = [] ->
  for_each (TimerBaseVariant.Countdown.fire id) us c = mkResult (inl tt) c [].
Proof.
  intros Hc. induction us as [|u us IH]; [reflexivity|].
  cbn [for_each]. unfold bind.
  rewrite (timerbase_fire_idle c id u Hc), IH. reflexivity.
Qed.

Lemma timerbase_fire_expires (c : TimerBaseVariant.Countdown.t) (id : nat)
  (r t0 t now : Z) :
  counting id r t0 t c -> r <= now - t0 ->
  let res := TimerBaseVariant.Countdown.fire id now c in
  let c' := state res in
  value res = inl tt /\ output res = [Modal "Countdown Expired!"]
  /\ TimerBaseVariant.Countdown.isRunning c' = false
  /\ Intervals.active (TimerBaseVariant.Countdown.intervals c') = []
  /\ TimerBaseVariant.Countdown.remainingTime c' = Num 0
  /\ TimerBaseVariant.Countdown.initialTime c' = Num 0
  /\ TimerBaseVariant.Countdown.inputBuffer c' = []
  /\ TimerBaseVariant.Countdown.displayElement c'
     = mkDisplay (str "00:00:00") (str "000")
  /\ controls_shown c' = Some TimerBaseVariant.input
  /\ countdown_shown c' = Some TimerBaseVariant.initial.
Proof.
  destruct c as [d ti run ini rem buf mx st h [act nx]].
  unfold counting. intros (Hrun & Hti & Hact & Hst & Hrem) Hu.
  run_countdown_calls. subst. rewrite Nat.eqb_refl.
  run_countdown_calls.
  destruct (Z.leb_spec (r - (t - t0) - (now - t)) 0); [|lia].
  run_countdown_calls. rewrite Nat.eqb_refl. run_countdown_calls.
  countdown_buttons.
  repeat split; reflexivity.
Qed.

(** X11. A run of the TimerBase variant's Countdown.  On a countdown
    that is not running, has no live interval and has r > 0 ms
    remaining, start() at t0 sets an interval; as long as the ticks of
    that interval come less than r ms after t0 they give no alert and
    leave remainingTime = r less the time from t0 to the last tick; the
    first tick that comes r ms or more after t0 gives the alert
    Countdown Expired! and resets the countdown to the entry of a time
    (not running, no interval, remainingTime, initialTime and the
    buffer cleared, the display at 00:00:00 000, the input controls
    and Start shown); the ticks that follow do nothing, so that the
    whole run gives that one alert. *)
Theorem X11_timerbase_countdown_run (c : TimerBaseVariant.Countdown.t)
  (r t0 : Z) (us : list Z) (now : Z) (late : list Z) :
  TimerBaseVariant.Countdown.isRunning c = false ->
  Intervals.active (TimerBaseVariant.Countdown.intervals c) = [] ->
  TimerBaseVariant.Countdown.remainingTime c = Num r -> 0 < r ->
  Forall (fun u => u - t0 < r) us -> r <= now - t0 ->
  let id := Intervals.next_id (TimerBaseVariant.Countdown.intervals c) in
  let before := (TimerBaseVariant.Countdown.start t0 ;;
                 for_each (TimerBaseVariant.Countdown.fire id) us) c in
  let res := timerbase_run id t0 us now late c in
  let c' := state res in
  output before = []
  /\ TimerBaseVariant.Countdown.remainingTime (state before)
     = Num (r - (last us t0 - t0))
  /\ output res = [Modal "Countdown Expired!"]
  /\ TimerBaseVariant.Countdown.isRunning c' = false
  /\ Intervals.active (TimerBaseVariant.Countdown.intervals c') = []
  /\ TimerBaseVariant.Countdown.remainingTime c' = Num 0
  /\ TimerBaseVariant.Countdown.initialTime c' = Num 0
  /\ TimerBaseVariant.Countdown.inputBuffer c' = []
  /\ TimerBaseVariant.Countdown.displayElement c'
     = mkDisplay (str "00:00:00") (str "000")
  /\ controls_shown c' = Some TimerBaseVariant.input
  /\ countdown_shown c' = Some TimerBaseVariant.initial.
Proof.
  intros Hrun Hact Hrem Hr Hus Hnow id before res c'.
  destruct (timerbase_start_counting c r t0 Hrun Hact Hrem Hr)
    as (Sv & So & Sc). fold id in Sc.
  destruct (timerbase_fires_counting id r t0 us Hus t0 _ Sc)
    as (Fv & Fo & Fc).
  destruct (timerbase_fire_expires _ id r t0 (last us t0) now Fc Hnow)
    as (Ev & Eo & Erun & Eact & Erest).
  pose proof (timerbase_fires_idle _ id late Eact) as Hlate.
  set (c1 := state (TimerBaseVariant.Countdown.start t0 c)) in *.
  set (c2 := state (for_each (TimerBaseVariant.Countdown.fire id) us c1)) in *.
  set (c3 := state (TimerBaseVariant.Countdown.fire id now c2)) in *.
  assert (Hbefore : before
                    = mkResult (inl tt) c2 []).
  { subst before. unfold bind.
    destruct (TimerBaseVariant.Countdown.start t0 c) as [v1 s1 o1].
    cbn in Sv, So, c1. subst v1 o1. subst c1.
    destruct (for_each (TimerBaseVariant.Countdown.fire id) us s1)
      as [v2 s2 o2].
    cbn in Fv, Fo, c2. subst v2 o2. subst c2. reflexivity. }
  assert (Hres : res = mkResult (inl tt) c3 [Modal "Countdown Expired!"]).
  { subst res. unfold timerbase_run, bind.
    destruct (TimerBaseVariant.Countdown.start t0 c) as [v1 s1 o1].
    cbn in Sv, So, c1. subst v1 o1. subst c1.
    destruct (for_each (TimerBaseVariant.Countdown.fire id) us s1)
      as [v2 s2 o2].
    cbn in Fv, Fo, c2. subst v2 o2. subst c2.
    destruct (TimerBaseVariant.Countdown.fire id now s2) as [v3 s3 o3].
    cbn in Ev, Eo, c3. subst v3 o3. subst c3.
    rewrite Hlate. reflexivity. }
  subst c'. rewrite Hbefore, Hres. cbn [state output].
  split; [reflexivity|].
  split; [apply Fc|].
  split; [reflexivity|].
  split; [exact Erun|]. split; [exact Eact|]. exact Erest.
Qed.

Lemma X11_timerbase_countdown_run_witness :
  let c := exec (timerbase_press [5] ;; TimerBaseVariant.Countdown.setTime)
             timerbase0 in
  output (timerbase_run 1 1000 [1010; 3000; 5990] 6000 [6010; 6020] c)
  = [Modal "Countdown Expired!"].
Proof.
  intros c.
  assert (Hus : Forall (fun u => u - 1000 < 5000) [1010; 3000; 5990]).
  { repeat (apply Forall_cons; [lia|]). apply Forall_nil. }
  exact (proj1 (proj2 (proj2
           (X11_timerbase_countdown_run c 5000 1000 [1010; 3000; 5990] 6000
              [6010; 6020] eq_refl eq_refl eq_refl ltac:(lia) Hus
              ltac:(lia))))).
Defined.


(** ** A run of the script variant's countdown *)

Lemma callback_of_fresh {C} (act : list (nat * C)) (id n : nat) (cb : C) :
  Forall (fun e => (fst e < id)%nat) act ->
  Intervals.callback_of id (Intervals.mkTable (act ++ [(id, cb)]) n) = Some cb.
Proof.
  unfold Intervals.callback_of. cbn [Intervals.active].
  induction 1 as [|e act He Hact IH]; cbn [app find fst].
  - rewrite Nat.eqb_refl. reflexivity.
  - destruct (Nat.eqb_spec (fst e) id) as [E|_]; [lia|exact IH].
Qed.

Lemma callback_of_cleared {C} (tb : Intervals.table C) (id : nat) :
  Intervals.callback_of id (Intervals.clearInterval (Some id) tb) = None.
Proof.
  unfold Intervals.callback_of, Intervals.clearInterval. cbn [Intervals.active].
  induction (Intervals.active tb) as [|e act IH]; [reflexivity|].
  cbn [filter]. destruct (Nat.eqb_spec (fst e) id) as [E|E]; cbn [negb].
  - exact IH.
  - cbn [find]. destruct (Nat.eqb_spec (fst e) id); [contradiction|exact IH].
Qed.

Ltac run_script_calls :=
  cbv beta iota zeta
    delta [bind get modify emit ret throw when exec value state output
           leb gtb strict_eq sub add mul Math_max lift2 negb andb orb fst snd
           script_counting
           ScriptVariant.fire
           ScriptVariant.hide ScriptVariant.unhide ScriptVariant.setInterval
           ScriptVariant.clearInterval ScriptVariant.runCountdown
           ScriptVariant.updateStopwatch
           ScriptVariant.swStartBtn_onclick ScriptVariant.swPauseBtn_onclick
           ScriptVariant.swContBtn_onclick ScriptVariant.swClearBtn_onclick
           ScriptVariant.cdStartBtn_onclick ScriptVariant.cdPauseBtn_onclick
           ScriptVariant.cdContBtn_onclick ScriptVariant.cdClearBtn_onclick
           ScriptVariant.hidden ScriptVariant.swDisplay ScriptVariant.cdDisplay
           ScriptVariant.swInterval ScriptVariant.swStart ScriptVariant.swElapsed
           ScriptVariant.cdDigits ScriptVariant.cdMilliseconds
           ScriptVariant.cdInterval ScriptVariant.cdEnd ScriptVariant.intervals
           ScriptVariant.set_hidden ScriptVariant.set_swDisplay
           ScriptVariant.set_cdDisplay ScriptVariant.set_swInterval
           ScriptVariant.set_swStart ScriptVariant.set_swElapsed
           ScriptVariant.set_cdDigits ScriptVariant.set_cdMilliseconds
           ScriptVariant.set_cdInterval ScriptVariant.set_cdEnd
           ScriptVariant.set_intervals] in *.

Lemma script_start_counting (s : ScriptVariant.t) (d t0 : Z) :
  ScriptVariant.cdMilliseconds s = Num d ->
  table_fresh (ScriptVariant.intervals s) ->
  let res := ScriptVariant.cdStartBtn_onclick t0 s in
  value res = inl tt /\ output res = []
  /\ script_counting (Intervals.next_id (ScriptVariant.intervals s)) (t0 + d)
       (state res)
  /\ ScriptVariant.cdMilliseconds (state res) = Num d
  /\ ScriptVariant.hidden (state res) ScriptVariant.cdPauseBtn = false
  /\ ScriptVariant.hidden (state res) ScriptVariant.cdStartBtn = true.
Proof.
  destruct s as [h swd cdd swi sws swe dig ms cdi cde [act nx]].
  unfold table_fresh. cbn [ScriptVariant.intervals Intervals.active
                             Intervals.next_id ScriptVariant.cdMilliseconds].
  intros -> Hfresh.
  run_script_calls. unfold Intervals.setInterval.
  cbn [Intervals.active Intervals.next_id fst snd].
  split; [reflexivity|]. split; [reflexivity|].
  split; [split; [reflexivity|split; [reflexivity|]]|].
  - apply callback_of_fresh. exact Hfresh.
  - split; [reflexivity|].
    split.
    + destruct (ScriptVariant.element_eq_dec ScriptVariant.cdPauseBtn
                  ScriptVariant.cdPauseBtn) as [_|E];
        [reflexivity|contradiction E; reflexivity].
    + destruct (ScriptVariant.element_eq_dec ScriptVariant.cdStartBtn
                  ScriptVariant.cdPauseBtn) as [E|_]; [discriminate E|].
      destruct (ScriptVariant.element_eq_dec ScriptVariant.cdStartBtn
                  ScriptVariant.cdStartBtn) as [_|E];
        [reflexivity|contradiction E; reflexivity].
Qed.

Lemma script_fire_counting (s : ScriptVariant.t) (id : nat) (e u : Z) :
  script_counting id e s -> u < e ->
  ScriptVariant.fire id u s
  = mkResult (inl tt)
      (ScriptVariant.set_cdDisplay (ScriptVariant.formatTime (Num (e - u))) s)
      [].
Proof.
  destruct s as [h swd cdd swi sws swe dig ms cdi cde iv].
  intros (He & Hi & Hcb) Hu. run_script_calls. subst. rewrite Hcb.
  run_script_calls.
  rewrite Z.max_r by lia.
  destruct (Z.leb_spec (e - u) 0); [lia|]. reflexivity.
Qed.

Lemma script_fires_counting (id : nat) (e : Z) (us : list Z) :
  Forall (fun u => u < e) us ->
  forall s : ScriptVariant.t,
    script_counting id e s ->
    exists disp,
      for_each (ScriptVariant.fire id) us s
      = mkResult (inl tt) (ScriptVariant.set_cdDisplay disp s) []
      /\ (us <> [] -> disp = ScriptVariant.formatTime (Num (e - last us 0)))
      /\ (us = [] -> disp = ScriptVariant.cdDisplay s).
Proof.
  induction 1 as [|u us Hu Hus IH]; intros s Hs.
  - exists (ScriptVariant.cdDisplay s).
    split; [destruct s; reflexivity|].
    split; [intros E; contradiction E; reflexivity|reflexivity].
  - pose proof (script_fire_counting s id e u Hs Hu) as Hfire.
    assert (Hs' : script_counting id e
                    (ScriptVariant.set_cdDisplay
                       (ScriptVariant.formatTime (Num (e - u))) s)).
    { destruct s. exact Hs. }
    destruct (IH _ Hs') as (disp & Hrest & Hlast & Hnone).
    exists disp. cbn [for_each]. unfold bind. rewrite Hfire, Hrest.
    split; [destruct s; reflexivity|].
    split; [|intros E; discriminate E].
    intros _. destruct us as [|v us].
    + rewrite (Hnone eq_refl). destruct s; reflexivity.
    + rewrite Hlast by discriminate.
      rewrite (last_cons_default u (v :: us) 0), (last_cons_default v us u),
        (last_cons_default v us 0).
      reflexivity.
Qed.

Lemma script_fire_expires (s : ScriptVariant.t) (id : nat) (e now : Z) :
  script_counting id e s -> e <= now ->
  ScriptVariant.fire id now s
  = mkResult (inl tt)
      (ScriptVariant.set_intervals
         (Intervals.clearInterval (Some id) (ScriptVariant.intervals s))
         (ScriptVariant.set_cdDisplay
            (mkDisplay (str "00:00:00") (str ".000")) s))
      [Alert "Time's up!"].
Proof.
  destruct s as [h swd cdd swi sws swe dig ms cdi cde iv].
  intros (He & Hi & Hcb) Hu. run_script_calls. subst. rewrite Hcb.
  run_script_calls.
  rewrite Z.max_l by lia. reflexivity.
Qed.

Lemma script_fire_idle (s : ScriptVariant.t) (id : nat) (u : Z) :
  Intervals.callback_of id (ScriptVariant.intervals s) = None ->
  ScriptVariant.fire id u s = mkResult (inl tt) s [].
Proof.
  destruct s as [h swd cdd swi sws swe dig ms cdi cde iv].
  run_script_calls. intros ->. reflexivity.
Qed.

Lemma script_fires_idle (s : ScriptVariant.t) (id : nat) (us : list Z) :
  Intervals.callback_of id (ScriptVariant.intervals s) = None ->
  for_each (ScriptVariant.fire id) us s = mkResult (inl tt) s [].
Proof.
  intros Hs. induction us as [|u us IH]; [reflexivity|].
  cbn [for_each]. unfold bind.
  rewrite (script_fire_idle s id u Hs), IH. reflexivity.
Qed.

(** X12. A run of the script variant's countdown.  With cdMilliseconds
    = d, Start clicked at t0 sets an interval; while its ticks come
    before t0 + d they give no alert and show the time left to t0 + d;
    the first tick at t0 + d or later shows 00:00:00.000, removes the
    interval and gives the alert Time's up!; the ticks that follow do
    nothing, so that the whole run gives that one alert.  The run
    leaves cdMilliseconds = d and the buttons as Start left them: Pause
    shown and Start hidden. *)
Theorem X12_script_countdown_run (s : ScriptVariant.t) (d t0 : Z)
  (us : list Z) (now : Z) (late : list Z) :
  ScriptVariant.cdMilliseconds s = Num d ->
  table_fresh (ScriptVariant.intervals s) ->
  Forall (fun u => u < t0 + d) us -> t0 + d <= now ->
  let id := Intervals.next_id (ScriptVariant.intervals s) in
  let before := (ScriptVariant.cdStartBtn_onclick t0 ;;
                 for_each (ScriptVariant.fire id) us) s in
  let res := script_run id t0 us now late s in
  output before = []
  /\ (us <> [] ->
      ScriptVariant.cdDisplay (state before)
      = ScriptVariant.formatTime (Num (t0 + d - last us 0)))
  /\ output res = [Alert "Time's up!"]
  /\ ScriptVariant.cdDisplay (state res)
     = mkDisplay (str "00:00:00") (str ".000")
  /\ Intervals.callback_of id (ScriptVariant.intervals (state res)) = None
  /\ ScriptVariant.cdMilliseconds (state res) = Num d
  /\ ScriptVariant.hidden (state res) ScriptVariant.cdPauseBtn = false
  /\ ScriptVariant.hidden (state res) ScriptVariant.cdStartBtn = true.
Proof.
  intros Hd Hfresh Hus Hnow id before res.
  destruct (script_start_counting s d t0 Hd Hfresh)
    as (Sv & So & Sc & Sd & Sp & Ss). fold id in Sc.
  destruct (ScriptVariant.cdStartBtn_onclick t0 s) as [v1 s1 o1] eqn:Hstart.
  cbn [value output state] in *. subst v1 o1.
  destruct (script_fires_counting id (t0 + d) us Hus s1 Sc)
    as (disp & Hfires & Hlast & _).
  set (s2 := ScriptVariant.set_cdDisplay disp s1) in *.
  assert (Sc2 : script_counting id (t0 + d) s2)
    by (subst s2; destruct s1; exact Sc).
  pose proof (script_fire_expires s2 id (t0 + d) now Sc2 Hnow) as Hexp.
  set (s3 := ScriptVariant.set_intervals
               (Intervals.clearInterval (Some id) (ScriptVariant.intervals s2))
               (ScriptVariant.set_cdDisplay
                  (mkDisplay (str "00:00:00") (str ".000")) s2)) in *.
  assert (Hidle : Intervals.callback_of id (ScriptVariant.intervals s3) = None).
  { subst s3. destruct s2. apply callback_of_cleared. }
  pose proof (script_fires_idle s3 id late Hidle) as Hlate.
  assert (Hbefore : before = mkResult (inl tt) s2 []).
  { subst before. unfold bind. rewrite Hstart, Hfires. reflexivity. }
  assert (Hres : res = mkResult (inl tt) s3 [Alert "Time's up!"]).
  { subst res. unfold script_run, bind.
    rewrite Hstart, Hfires, Hexp, Hlate. reflexivity. }
  rewrite Hbefore, Hres. cbn [state output].
  split; [reflexivity|].
  split; [intros Hne; subst s2; rewrite <- (Hlast Hne); destruct s1; reflexivity|].
  split; [reflexivity|].
  split; [subst s3; destruct s2; reflexivity|].
  split; [exact Hidle|].
  subst s3 s2. destruct s1. cbn in *. repeat split; assumption.
Qed.

Lemma X12_script_countdown_run_witness :
  let s := exec (script_press [5] ;; ScriptVariant.cdSetBtn_onclick) script0 in
  output (script_run 1 1000 [1050; 3000; 5950] 6000 [6050; 6100] s)
  = [Alert "Time's up!"].
Proof.
  intros s.
  assert (Hus : Forall (fun u => u < 1000 + 5000) [1050; 3000; 5950]).
  { repeat (apply Forall_cons; [lia|]). apply Forall_nil. }
  exact (proj1 (proj2 (proj2
           (X12_script_countdown_run s 5000 1000 [1050; 3000; 5950] 6000
              [6050; 6100] eq_refl (Forall_nil _) Hus ltac:(lia))))).
Defined.


(** ** Sessions at the stopwatch of the class variant *)

Ltac run_session :=
  cbv beta iota zeta
    delta [bind get modify emit ret throw when exec try_catch on_member
           value state output leb gtb strict_eq sub add mul Math_max lift2
           negb andb orb
           run_stopwatch_click can_click class_stopwatch_shown session_ok
           ClassVariant.UIController.new
           ClassVariant.Timer.new ClassVariant.CountdownTimer.new
           ClassVariant.UIController.run_frame
           ClassVariant.UIController._updateDisplays
           ClassVariant.UIController._playCompletionSound
           ClassVariant.UIController.showScreen
           ClassVariant.UIController.startStopwatch
           ClassVariant.UIController.pauseStopwatch
           ClassVariant.UIController.continueStopwatch
           ClassVariant.UIController.clearStopwatch
           ClassVariant.UIController.on_countdownTimer
           ClassVariant.UIController.on_stopwatch
           ClassVariant.UIController.showAlert
           ClassVariant.UIController.hide ClassVariant.UIController.unhide
           ClassVariant.UIController.resetCountdownUI
           ClassVariant.UIController.clearCountdownInput
           ClassVariant.UIController.hidden
           ClassVariant.UIController.stopwatchDisplay
           ClassVariant.UIController.countdownDisplay
           ClassVariant.UIController.stopwatch
           ClassVariant.UIController.countdownTimer
           ClassVariant.UIController.inputSequence
           ClassVariant.UIController.stopwatchExpired
           ClassVariant.UIController.countdownExpired
           ClassVariant.UIController.set_hidden
           ClassVariant.UIController.set_stopwatchDisplay
           ClassVariant.UIController.set_countdownDisplay
           ClassVariant.UIController.set_stopwatch
           ClassVariant.UIController.set_countdownTimer
           ClassVariant.UIController.set_inputSequence
           ClassVariant.UIController.set_stopwatchExpired
           ClassVariant.UIController.set_countdownExpired
           ClassVariant.CountdownTimer._update
           ClassVariant.CountdownTimer.stop
           ClassVariant.CountdownTimer.isExpired
           ClassVariant.CountdownTimer.initialTime
           ClassVariant.CountdownTimer.remainingTime
           ClassVariant.CountdownTimer.isRunning
           ClassVariant.CountdownTimer.startTime
           ClassVariant.CountdownTimer.animationFrame
           ClassVariant.CountdownTimer.hasExpired
           ClassVariant.CountdownTimer.set_initialTime
           ClassVariant.CountdownTimer.set_remainingTime
           ClassVariant.CountdownTimer.set_isRunning
           ClassVariant.CountdownTimer.set_startTime
           ClassVariant.CountdownTimer.set_animationFrame
           ClassVariant.CountdownTimer.set_hasExpired
           ClassVariant.Timer._update ClassVariant.Timer.start
           ClassVariant.Timer.stop ClassVariant.Timer.reset
           ClassVariant.Timer.startTime ClassVariant.Timer.elapsedTime
           ClassVariant.Timer.isRunning ClassVariant.Timer.animationFrame
           ClassVariant.Timer.set_startTime ClassVariant.Timer.set_elapsedTime
           ClassVariant.Timer.set_isRunning
           ClassVariant.Timer.set_animationFrame] in *.

Ltac class_buttons :=
  repeat match goal with
         | |- context [ClassVariant.UIController.element_eq_dec ?a ?b] =>
             let E := fresh "E" in
             destruct (ClassVariant.UIController.element_eq_dec a b) as [E|E];
             [try discriminate E | try (exfalso; apply E; reflexivity)]
         end.

Lemma session_new_ok (page : ClassVariant.UIController.element -> bool)
  (sw cd : display) :
  page ClassVariant.UIController.startStopwatchBtn = false ->
  page ClassVariant.UIController.pauseStopwatchBtn = true ->
  page ClassVariant.UIController.continueStopwatchBtn = true ->
  session_ok (ClassVariant.UIController.new page sw cd).
Proof.
  intros H1 H2 H3. run_session. rewrite H1, H2, H3.
  exists TimerBaseVariant.initial.
  split; [reflexivity|]. split; [split; intros E; discriminate E|reflexivity].
Qed.

Lemma session_cleared_ok (ui : ClassVariant.UIController.t) :
  session_ok (exec ClassVariant.UIController.clearStopwatch ui).
Proof.
  destruct ui as [h swd cdd [st el run af] cd inp swe cde].
  run_session. destruct run; run_session; try destruct af; run_session;
    class_buttons;
    (exists TimerBaseVariant.initial;
     split; [reflexivity|];
     split; [split; intros E'; discriminate E'|reflexivity]).
Qed.

(** Opens a controller that keeps [session_ok] into the three cases
    of the button shown. *)
Ltac open_session Hok :=
  let b := fresh "b" in
  let Hb := fresh "Hb" in
  let Hrun := fresh "Hrun" in
  let Hzero := fresh "Hzero" in
  destruct Hok as (b & Hb & Hrun & Hzero);
  run_session;
  match type of Hb with
  | context [?h ClassVariant.UIController.startStopwatchBtn] =>
      destruct (h ClassVariant.UIController.startStopwatchBtn) eqn:Hs;
      destruct (h ClassVariant.UIController.pauseStopwatchBtn) eqn:Hp;
      destruct (h ClassVariant.UIController.continueStopwatchBtn) eqn:Hq;
      try discriminate Hb
  end;
  injection Hb as <-;
  match type of Hrun with
  | _ <-> ?run = true =>
      destruct run;
      try (destruct Hrun as [_ Hr]; discriminate (Hr eq_refl));
      try (destruct Hrun as [Hr _]; discriminate (Hr eq_refl))
  end;
  try (pose proof (Hzero eq_refl) as ->).

Ltac close_session :=
  try congruence;
  class_buttons;
  repeat match goal with
         | H : ?h _ = _ |- context [?h _] => rewrite H
         end;
  eexists; (split; [reflexivity|]);
  (split; [split; intros E'; first [discriminate E' | reflexivity]|]);
  intros E'; first [discriminate E' | reflexivity].

Lemma session_click_ok (ui : ClassVariant.UIController.t) (c : stopwatch_click) :
  session_ok ui -> can_click ui c ->
  session_ok (exec (run_stopwatch_click c) ui).
Proof.
  destruct ui as [h swd cdd [st el run af] cd inp swe cde].
  intros Hok Hc. open_session Hok;
    destruct c as [now now'| |now now'|]; run_session;
    try (rewrite Hc in *; discriminate);
    try destruct af; run_session; close_session.
Qed.

Lemma session_frame_ok (ui : ClassVariant.UIController.t)
  (f : ClassVariant.UIController.frame) :
  session_ok ui -> session_ok (exec (ClassVariant.UIController.run_frame f) ui).
Proof.
  destruct ui as [h swd cdd [st el run af] [ci cr crun cst caf che] inp swe cde].
  intros Hok. open_session Hok;
    destruct f as [now|now|]; run_session;
    repeat (next_test; run_session); close_session.
Qed.

Lemma session_screen_ok (ui : ClassVariant.UIController.t)
  (screen : String.string) :
  session_ok ui ->
  session_ok (exec (ClassVariant.UIController.showScreen screen) ui).
Proof.
  destruct ui as [h swd cdd [st el run af] cd inp swe cde].
  intros Hok. open_session Hok; run_session;
    repeat (next_test; run_session); close_session.
Qed.

(** X13. The stopwatch of the class variant, used through its buttons.
    In every session (from the constructor on a page that shows Start
    alone, or from a click on Clear; then clicks on buttons that are
    not hidden, frames of the browser and changes of screen) exactly
    one of Start, Pause and Continue is shown, Pause exactly when the
    stopwatch runs and Start only with elapsedTime = 0.  So the guards
    of Timer.start() and Timer.stop() are never met by Start, Pause and
    Continue, which log no warning; only Clear on a stopwatch that does
    not run logs one, as reset() calls stop(). *)
Theorem X13_class_stopwatch_session (ui : ClassVariant.UIController.t) :
  stopwatch_session ui ->
  (exists b, class_stopwatch_shown ui = Some b
     /\ (b = TimerBaseVariant.running
         <-> ClassVariant.Timer.isRunning (ClassVariant.UIController.stopwatch ui)
             = true)
     /\ (b = TimerBaseVariant.initial
         -> ClassVariant.Timer.elapsedTime (ClassVariant.UIController.stopwatch ui)
            = Num 0))
  /\ (forall c, can_click ui c ->
      filter is_warning (output (run_stopwatch_click c ui))
      = match c with
        | ClickClear =>
            if ClassVariant.Timer.isRunning
                 (ClassVariant.UIController.stopwatch ui)
            then []
            else [ConsoleWarn "Timer is not running"]
        | _ => []
        end).
Proof.
  intros Hses.
  assert (Hok : session_ok ui).
  { induction Hses as [page sw cd H1 H2 H3|ui|ui c Hses IH Hc|ui f Hses IH
                      |ui screen Hses IH].
    - apply session_new_ok; assumption.
    - apply session_cleared_ok.
    - apply session_click_ok; assumption.
    - apply session_frame_ok. exact IH.
    - apply session_screen_ok. exact IH. }
  split; [exact Hok|].
  intros c Hc.
  destruct ui as [h swd cdd [st el run af] cd inp swe cde].
  open_session Hok;
    destruct c as [now now'| |now now'|]; run_session;
    try (rewrite Hc in *; discriminate);
    try destruct af; reflexivity.
Qed.

Lemma X13_class_stopwatch_session_witness :
  let ui := exec (run_stopwatch_click ClickPause)
              (exec (ClassVariant.UIController.run_frame
                       (ClassVariant.UIController.StopwatchFrame 1500))
                 (exec (run_stopwatch_click (ClickStart 1000 1000))
                    (exec ClassVariant.UIController.clearStopwatch class_ui0))) in
  can_click ui (ClickContinue 2000 2000)
  /\ filter is_warning
       (output (run_stopwatch_click (ClickContinue 2000 2000) ui)) = [].
Proof.
  intros ui.
  assert (Hses : stopwatch_session ui).
  { apply session_click; [|reflexivity].
    apply session_frame.
    apply session_click; [|reflexivity].
    apply session_cleared. }
  split; [reflexivity|].
  exact (proj2 (X13_class_stopwatch_session ui Hses)
           (ClickContinue 2000 2000) eq_refl).
Defined.


(** ** Sessions of the script variant *)

Lemma NoDup_map_filter {A B} (g : A -> B) (f : A -> bool) (l : list A) :
  NoDup (map g l) -> NoDup (map g (filter f l)).
Proof.
  induction l as [|a l IH]; cbn [map filter]; intros H; [exact H|].
  inversion H as [|x xs Hx Hxs]; subst.
  destruct (f a); [|apply IH; exact Hxs].
  cbn [map]. apply NoDup_cons; [|apply IH; exact Hxs].
  intros Hin. apply Hx. apply in_map_iff in Hin.
  destruct Hin as (y & Hy & Hyin). apply in_map_iff. exists y.
  split; [exact Hy|]. apply filter_In in Hyin. apply Hyin.
Qed.

Lemma fresh_not_in (act : list (nat * ScriptVariant.callback)) (nx : nat) :
  Forall (fun e => (fst e < nx)%nat) act ->
  forall a, In a (map fst act) -> ~ In a [nx].
Proof.
  intros Hf a Ha [E|[]]. subst a. apply in_map_iff in Ha.
  destruct Ha as (e & He & Hin). rewrite Forall_forall in Hf.
  specialize (Hf e Hin). lia.
Qed.

Lemma fresh_next (act : list (nat * ScriptVariant.callback)) (nx : nat)
  (cb : ScriptVariant.callback) :
  Forall (fun e => (fst e < nx)%nat) act ->
  Forall (fun e => (fst e < S nx)%nat) (act ++ [(nx, cb)]).
Proof.
  intros Hf. apply Forall_app. split.
  - eapply Forall_impl; [|exact Hf]. cbn. intros e He. lia.
  - apply Forall_cons; [cbn; lia|apply Forall_nil].
Qed.

(** setInterval(updateStopwatch, 50) while Pause is hidden *)
Lemma table_ok_start_sw (swi cdi : option nat) (cdp : bool)
  (act : list (nat * ScriptVariant.callback)) (nx : nat) :
  table_ok swi cdi true cdp act nx ->
  table_ok (Some nx) cdi false cdp
    (act ++ [(nx, ScriptVariant.updateStopwatch_cb)]) (S nx).
Proof.
  intros (Hf & Hn & He & Hsw & Hcd & Hne & Hlive).
  split; [apply fresh_next; exact Hf|].
  split.
  { rewrite map_app. apply NoDup_app; [exact Hn| |apply fresh_not_in; exact Hf].
    apply NoDup_cons; [intros []|apply NoDup_nil]. }
  split.
  { apply Forall_app. split.
    - eapply Forall_impl; [|exact He]. intros [i cb]. unfold entry_ok.
      cbn [fst snd]. destruct cb; [intros [_ E]; discriminate E|exact (fun H => H)].
    - apply Forall_cons; [split; reflexivity|apply Forall_nil]. }
  split; [intros i E; injection E as <-; lia|].
  split; [intros i E; specialize (Hcd i E); lia|].
  split; [intros i j E1 E2; injection E1 as <-; specialize (Hcd j E2); lia|].
  intros _. exists nx. split; [reflexivity|].
  apply in_or_app. right. left. reflexivity.
Qed.

(** setInterval(runCountdown, 50) while the countdown's Pause is hidden *)
Lemma table_ok_start_cd (swi cdi : option nat) (swp : bool)
  (act : list (nat * ScriptVariant.callback)) (nx : nat) :
  table_ok swi cdi swp true act nx ->
  table_ok swi (Some nx) swp false
    (act ++ [(nx, ScriptVariant.runCountdown_cb)]) (S nx).
Proof.
  intros (Hf & Hn & He & Hsw & Hcd & Hne & Hlive).
  split; [apply fresh_next; exact Hf|].
  split.
  { rewrite map_app. apply NoDup_app; [exact Hn| |apply fresh_not_in; exact Hf].
    apply NoDup_cons; [intros []|apply NoDup_nil]. }
  split.
  { apply Forall_app. split.
    - eapply Forall_impl; [|exact He]. intros [i cb]. unfold entry_ok.
      cbn [fst snd]. destruct cb; [exact (fun H => H)|intros [_ E]; discriminate E].
    - apply Forall_cons; [split; reflexivity|apply Forall_nil]. }
  split; [intros i E; specialize (Hsw i E); lia|].
  split; [intros i E; injection E as <-; lia|].
  split; [intros i j E1 E2; injection E2 as <-; specialize (Hsw i E1); lia|].
  intros E. destruct (Hlive E) as (i & Hi & Hin). exists i.
  split; [exact Hi|]. apply in_or_app. left. exact Hin.
Qed.

(** clearInterval(swInterval), with Pause hidden afterwards *)
Lemma table_ok_clear_sw (swi cdi : option nat) (swp cdp : bool)
  (act : list (nat * ScriptVariant.callback)) (nx : nat) :
  table_ok swi cdi swp cdp act nx ->
  table_ok swi cdi true cdp
    (Intervals.active (Intervals.clearInterval swi (Intervals.mkTable act nx)))
    (Intervals.next_id (Intervals.clearInterval swi (Intervals.mkTable act nx))).
Proof.
  intros (Hf & Hn & He & Hsw & Hcd & Hne & Hlive).
  destruct swi as [i|]; cbn [Intervals.clearInterval Intervals.active
                               Intervals.next_id].
  - split; [apply Forall_forall; intros e Hin; apply filter_In in Hin;
            rewrite Forall_forall in Hf; apply Hf, Hin|].
    split; [apply NoDup_map_filter; exact Hn|].
    split.
    { apply Forall_forall. intros [k cb] Hin. apply filter_In in Hin.
      destruct Hin as [Hin Hk]. rewrite Forall_forall in He.
      specialize (He _ Hin). unfold entry_ok in *. cbn [fst snd] in *.
      destruct cb; [|exact He].
      destruct He as [E _]. injection E as <-.
      rewrite Nat.eqb_refl in Hk. discriminate Hk. }
    split; [exact Hsw|]. split; [exact Hcd|]. split; [exact Hne|].
    intros E. discriminate E.
  - split; [exact Hf|]. split; [exact Hn|].
    split.
    { eapply Forall_impl; [|exact He]. intros [k cb]. unfold entry_ok.
      cbn [fst snd]. destruct cb; [intros [E _]; discriminate E|exact (fun H => H)]. }
    split; [exact Hsw|]. split; [exact Hcd|]. split; [exact Hne|].
    intros E. discriminate E.
Qed.

(** clearInterval(cdInterval), whatever the countdown's Pause becomes *)
Lemma table_ok_clear_cd (swi cdi : option nat) (swp cdp cdp' : bool)
  (act : list (nat * ScriptVariant.callback)) (nx : nat) :
  table_ok swi cdi swp cdp act nx ->
  table_ok swi cdi swp cdp'
    (Intervals.active (Intervals.clearInterval cdi (Intervals.mkTable act nx)))
    (Intervals.next_id (Intervals.clearInterval cdi (Intervals.mkTable act nx))).
Proof.
  intros (Hf & Hn & He & Hsw & Hcd & Hne & Hlive).
  destruct cdi as [j|]; cbn [Intervals.clearInterval Intervals.active
                               Intervals.next_id].
  - split; [apply Forall_forall; intros e Hin; apply filter_In in Hin;
            rewrite Forall_forall in Hf; apply Hf, Hin|].
    split; [apply NoDup_map_filter; exact Hn|].
    split.
    { apply Forall_forall. intros [k cb] Hin. apply filter_In in Hin.
      destruct Hin as [Hin Hk]. rewrite Forall_forall in He.
      specialize (He _ Hin). unfold entry_ok in *. cbn [fst snd] in *.
      destruct cb; [exact He|].
      destruct He as [E _]. injection E as <-.
      rewrite Nat.eqb_refl in Hk. discriminate Hk. }
    split; [exact Hsw|]. split; [exact Hcd|]. split; [exact Hne|].
    intros E. destruct (Hlive E) as (i & Hi & Hin). exists i.
    split; [exact Hi|]. apply filter_In. split; [exact Hin|].
    cbn [fst]. destruct (Nat.eqb_spec i j) as [Eij|_]; [|reflexivity].
    exfalso. exact (Hne i j Hi eq_refl Eij).
  - split; [exact Hf|]. split; [exact Hn|].
    split.
    { eapply Forall_impl; [|exact He]. intros [k cb]. unfold entry_ok.
      cbn [fst snd]. destruct cb; [exact (fun H => H)|intros [E _]; discriminate E]. }
    split; [exact Hsw|]. split; [exact Hcd|]. split; [exact Hne|].
    exact Hlive.
Qed.

Ltac run_script_session :=
  cbv beta iota zeta
    delta [bind get modify emit ret throw when exec value state output
           leb gtb strict_eq sub add mul Math_max lift2 negb andb orb fst snd
           run_script_action script_can script_ok script_page_ok
           script_stopwatch_shown script_countdown_shown
           Intervals.setInterval Intervals.empty
           ScriptVariant.new ScriptVariant.fire ScriptVariant.showScreen
           ScriptVariant.digit_onclick ScriptVariant.updateCountdownDisplay
           ScriptVariant.cdSetBtn_onclick ScriptVariant.cdClearInputBtn_onclick
           ScriptVariant.hide ScriptVariant.unhide ScriptVariant.setInterval
           ScriptVariant.clearInterval ScriptVariant.runCountdown
           ScriptVariant.updateStopwatch
           ScriptVariant.swStartBtn_onclick ScriptVariant.swPauseBtn_onclick
           ScriptVariant.swContBtn_onclick ScriptVariant.swClearBtn_onclick
           ScriptVariant.cdStartBtn_onclick ScriptVariant.cdPauseBtn_onclick
           ScriptVariant.cdContBtn_onclick ScriptVariant.cdClearBtn_onclick
           ScriptVariant.hidden ScriptVariant.swDisplay ScriptVariant.cdDisplay
           ScriptVariant.swInterval ScriptVariant.swStart ScriptVariant.swElapsed
           ScriptVariant.cdDigits ScriptVariant.cdMilliseconds
           ScriptVariant.cdInterval ScriptVariant.cdEnd ScriptVariant.intervals
           ScriptVariant.set_hidden ScriptVariant.set_swDisplay
           ScriptVariant.set_cdDisplay ScriptVariant.set_swInterval
           ScriptVariant.set_swStart ScriptVariant.set_swElapsed
           ScriptVariant.set_cdDigits ScriptVariant.set_cdMilliseconds
           ScriptVariant.set_cdInterval ScriptVariant.set_cdEnd
           ScriptVariant.set_intervals] in *;
  cbn [Intervals.active Intervals.next_id] in *.

Ltac script_buttons :=
  repeat match goal with
         | |- context [ScriptVariant.element_eq_dec ?a ?b] =>
             let E := fresh "E" in
             destruct (ScriptVariant.element_eq_dec a b) as [E|E];
             [try discriminate E | try (exfalso; apply E; reflexivity)]
         end.

Lemma script_new_ok (page : ScriptVariant.element -> bool) (sw cd : display) :
  script_page_ok page -> script_ok (ScriptVariant.new page sw cd).
Proof.
  intros (H1 & H2 & H3 & H4 & H5 & H6). run_script_session.
  rewrite H1, H2, H3, H4, H5, H6.
  split; [|split; eexists; reflexivity].
  split; [apply Forall_nil|]. split; [apply NoDup_nil|].
  split; [apply Forall_nil|].
  split; [intros i E; discriminate E|].
  split; [intros i E; discriminate E|].
  split; [intros i j E; discriminate E|].
  intros E. discriminate E.
Qed.

Ltac close_script Htab :=
  script_buttons;
  repeat match goal with
         | H : ?h _ = _ |- context [?h _] => rewrite H
         end;
  (split;
   [first [exact Htab
          | exact (table_ok_start_sw _ _ _ _ _ Htab)
          | exact (table_ok_start_cd _ _ _ _ _ Htab)
          | exact (table_ok_clear_sw _ _ _ _ _ _ Htab)
          | exact (table_ok_clear_cd _ _ _ _ _ _ _ Htab)]
   |split; eexists; reflexivity]).

Lemma script_step_ok (s : ScriptVariant.t) (a : script_action) :
  script_ok s -> script_can s a -> script_ok (exec (run_script_action a) s).
Proof.
  destruct s as [h swd cdd swi sws swe dig ms cdi cde [act nx]].
  intros (Htab & (bs & Hbs) & (bc & Hbc)) Hcan.
  run_script_session.
  destruct (h ScriptVariant.swStartBtn) eqn:Hs1;
    destruct (h ScriptVariant.swPauseBtn) eqn:Hs2;
    destruct (h ScriptVariant.swContBtn) eqn:Hs3; try discriminate Hbs;
    clear Hbs bs;
    destruct (h ScriptVariant.cdStartBtn) eqn:Hc1;
    destruct (h ScriptVariant.cdPauseBtn) eqn:Hc2;
    destruct (h ScriptVariant.cdContBtn) eqn:Hc3; try discriminate Hbc;
    clear Hbc bc.
  all: destruct a as [now|now|now| |i| | |now|now|now| |id now| | |];
    run_script_session; try discriminate Hcan;
    try (destruct (Intervals.callback_of id
                     {| Intervals.active := act; Intervals.next_id := nx |})
           as [[|]|]);
    run_script_session;
    repeat (next_test; run_script_session);
    close_script Htab.
Qed.

Lemma filter_none {A} (f : A -> bool) (l : list A) :
  (forall x, In x l -> f x = false) -> filter f l = [].
Proof.
  induction l as [|a l IH]; intros H; [reflexivity|].
  cbn [filter]. rewrite (H a (or_introl eq_refl)).
  apply IH. intros x Hx. apply H. right. exact Hx.
Qed.

Lemma live_at_most_one (cb : ScriptVariant.callback) (v : option nat)
  (act : list (nat * ScriptVariant.callback)) :
  (forall e, In e act -> is_callback cb e = true -> v = Some (fst e)) ->
  NoDup (map fst act) ->
  (List.length (filter (is_callback cb) act) <= 1)%nat.
Proof.
  induction act as [|e l IH]; intros Hv Hn; [cbn; lia|].
  cbn [map] in Hn. inversion Hn as [|x xs Hx Hxs]; subst.
  cbn [filter]. destruct (is_callback cb e) eqn:He.
  - rewrite filter_none; [cbn; lia|].
    intros e' He'. destruct (is_callback cb e') eqn:Hcb; [|reflexivity].
    exfalso. apply Hx.
    pose proof (Hv e (or_introl eq_refl) He) as E1.
    pose proof (Hv e' (or_intror He') Hcb) as E2.
    rewrite E1 in E2. injection E2 as ->.
    apply in_map. exact He'.
  - apply IH; [|exact Hxs]. intros e' He'. apply Hv. right. exact He'.
Qed.

Lemma table_ok_live (swi cdi : option nat) (swp cdp : bool)
  (act : list (nat * ScriptVariant.callback)) (nx : nat) :
  table_ok swi cdi swp cdp act nx ->
  List.length (filter (is_callback ScriptVariant.updateStopwatch_cb) act)
  = (if swp then 0 else 1)%nat
  /\ (List.length (filter (is_callback ScriptVariant.runCountdown_cb) act)
      <= 1)%nat
  /\ (cdp = true ->
      filter (is_callback ScriptVariant.runCountdown_cb) act = []).
Proof.
  intros (Hf & Hn & He & Hsw & Hcd & Hne & Hlive).
  rewrite Forall_forall in He.
  assert (Hsw1 : (List.length
                    (filter (is_callback ScriptVariant.updateStopwatch_cb) act)
                  <= 1)%nat).
  { apply (live_at_most_one _ swi); [|exact Hn].
    intros [i cb] Hin Hcb. specialize (He _ Hin). unfold entry_ok in He.
    cbn [fst snd] in *. destruct cb; [apply He|discriminate Hcb]. }
  split; [|split].
  - destruct swp.
    + rewrite filter_none; [reflexivity|].
      intros [i cb] Hin. specialize (He _ Hin). unfold entry_ok in He.
      cbn [fst snd] in He. destruct cb; [destruct He as [_ E]; discriminate E|].
      reflexivity.
    + destruct (Hlive eq_refl) as (i & _ & Hin).
      assert (Hin' : In (i, ScriptVariant.updateStopwatch_cb)
                       (filter (is_callback ScriptVariant.updateStopwatch_cb)
                          act))
        by (apply filter_In; split; [exact Hin|reflexivity]).
      destruct (filter (is_callback ScriptVariant.updateStopwatch_cb) act)
        as [|e [|e' l]]; [destruct Hin'|reflexivity|cbn in Hsw1; lia].
  - apply (live_at_most_one _ cdi); [|exact Hn].
    intros [i cb] Hin Hcb. specialize (He _ Hin). unfold entry_ok in He.
    cbn [fst snd] in *. destruct cb; [discriminate Hcb|apply He].
  - intros ->. apply filter_none.
    intros [i cb] Hin. specialize (He _ Hin). unfold entry_ok in He.
    cbn [fst snd] in He. destruct cb; [reflexivity|].
    destruct He as [_ E]; discriminate E.
Qed.

(** X14. The script variant used through its buttons.  In every
    session (from a page that shows Start alone for the stopwatch and
    for the countdown; then clicks on buttons that are not hidden,
    ticks of any interval and changes of screen) exactly one of Start,
    Pause and Continue is shown for the stopwatch and for the
    countdown; the stopwatch has one live interval when its Pause is
    shown and none otherwise; the countdown has at most one, and none
    when its Pause is hidden.  No interval is left running behind
    another one. *)
Theorem X14_script_session (s : ScriptVariant.t) :
  script_session s ->
  (exists b, script_stopwatch_shown s = Some b)
  /\ (exists b, script_countdown_shown s = Some b)
  /\ List.length (live ScriptVariant.updateStopwatch_cb s)
     = (if ScriptVariant.hidden s ScriptVariant.swPauseBtn then 0 else 1)%nat
  /\ (List.length (live ScriptVariant.runCountdown_cb s) <= 1)%nat
  /\ (ScriptVariant.hidden s ScriptVariant.cdPauseBtn = true ->
      live ScriptVariant.runCountdown_cb s = [])
  /\ table_fresh (ScriptVariant.intervals s).
Proof.
  intros Hses.
  assert (Hok : script_ok s).
  { induction Hses as [page sw cd Hpage|s a Hses IH Hcan].
    - apply script_new_ok. exact Hpage.
    - apply script_step_ok; assumption. }
  destruct Hok as (Htab & Hsw & Hcd).
  split; [exact Hsw|]. split; [exact Hcd|].
  destruct (table_ok_live _ _ _ _ _ _ Htab) as (L1 & L2 & L3).
  split; [exact L1|]. split; [exact L2|]. split; [exact L3|].
  apply Htab.
Qed.

Lemma X14_script_session_witness :
  let page := fun e =>
    match e with
    | ScriptVariant.swPauseBtn | ScriptVariant.swContBtn
    | ScriptVariant.cdPauseBtn | ScriptVariant.cdContBtn => true
    | _ => false
    end in
  let s := exec (run_script_action (SwContClick 3000))
             (exec (run_script_action (SwPauseClick 2000))
                (exec (run_script_action (SwStartClick 1000))
                   (ScriptVariant.new page blank blank))) in
  List.length (live ScriptVariant.updateStopwatch_cb s) = 1%nat.
Proof.
  intros page s.
  assert (Hses : script_session s).
  { apply script_session_step; [|reflexivity].
    apply script_session_step; [|reflexivity].
    apply script_session_step; [|reflexivity].
    apply script_session_new. repeat split; reflexivity. }
  exact (proj1 (proj2 (proj2 (X14_script_session s Hses)))).
Defined.


(** ** Navigation in the TimerBase variant *)

Ltac run_vm :=
  cbv beta iota zeta
    delta [bind get modify ret when exec value state output
           ViewManager.showView ViewManager.run_callback ViewManager.frame
           ViewManager.showAlert ViewManager.hideAlert ViewManager.init
           ViewManager.add_class ViewManager.remove_class
           ViewManager.requestAnimationFrame
           ViewManager.classList ViewManager.screenTitle
           ViewManager.transition ViewManager.modalMessage
           ViewManager.modalOverlay_hidden ViewManager.modalOverlay_flex
           ViewManager.currentView ViewManager.requested
           ViewManager.set_classList ViewManager.set_screenTitle
           ViewManager.set_transition ViewManager.set_modalMessage
           ViewManager.set_modalOverlay_hidden ViewManager.set_modalOverlay_flex
           ViewManager.set_currentView ViewManager.set_requested] in *.

Lemma last_default {A} (l : list A) (d d' : A) :
  l <> [] -> last l d = last l d'.
Proof.
  induction l as [|a l IH]; intros H; [contradiction H; reflexivity|].
  destruct l as [|b l]; [reflexivity|].
  change (last (a :: b :: l) d) with (last (b :: l) d).
  change (last (a :: b :: l) d') with (last (b :: l) d').
  apply IH. discriminate.
Qed.

Lemma bind_run {S A B} (m : M S A) (f : A -> M S B) (s s1 s2 : S) (a : A)
  (v : B + String.string) (o1 o2 : list effect) :
  m s = mkResult (inl a) s1 o1 -> f a s1 = mkResult v s2 o2 ->
  bind m f s = mkResult v s2 (o1 ++ o2).
Proof. intros H1 H2. unfold bind. rewrite H1, H2. reflexivity. Qed.

Lemma showViews (vs : list String.string) :
  forall s : ViewManager.t,
    let r := for_each ViewManager.showView vs s in
    value r = inl tt /\ output r = []
    /\ ViewManager.requested (state r)
       = ViewManager.requested s ++ map ViewManager.hide_all vs
    /\ (forall x k, ViewManager.classList (state r) x k
                    = ViewManager.classList s x k)
    /\ ViewManager.currentView (state r) = ViewManager.currentView s
    /\ ViewManager.screenTitle (state r)
       = match vs, ViewManager.screenTitle s with
         | _ :: _, Some _ => Some (title_of (last vs EmptyString))
         | _, t => t
         end
    /\ modal_of (state r) = modal_of s.
Proof.
  induction vs as [|v vs IH]; intros s.
  - cbn [for_each map]. run_vm. rewrite app_nil_r.
    repeat split; reflexivity.
  - cbn [for_each map]. cbv zeta.
    destruct (ViewManager.showView v s) as [v1 s1 o1] eqn:Hshow.
    assert (Hs1 : v1 = inl tt /\ o1 = []
                  /\ ViewManager.requested s1
                     = ViewManager.requested s ++ [ViewManager.hide_all v]
                  /\ ViewManager.classList s1 = ViewManager.classList s
                  /\ ViewManager.currentView s1 = ViewManager.currentView s
                  /\ ViewManager.screenTitle s1
                     = match ViewManager.screenTitle s with
                       | Some _ => Some (title_of v)
                       | None => None
                       end
                  /\ modal_of s1 = modal_of s).
    { destruct s as [c [t|] tr m mh mf cv rq]; unfold title_of;
        run_vm; repeat (next_test; run_vm);
        injection Hshow as <- <- <-; repeat split; reflexivity. }
    destruct Hs1 as (-> & -> & Hrq & Hcl & Hcv & Htitle & Hm).
    specialize (IH s1). cbv zeta in IH.
    destruct (for_each ViewManager.showView vs s1) as [v2 s2 o2] eqn:Hrest.
    cbn [value output state] in IH.
    destruct IH as (-> & -> & Irq & Icl & Icv & Ititle & Im).
    rewrite (bind_run _ _ _ _ _ _ _ _ _ Hshow Hrest).
    cbn [value output state app].
    split; [reflexivity|]. split; [reflexivity|].
    split; [rewrite Irq, Hrq, <- app_assoc; reflexivity|].
    split; [intros x k; rewrite Icl, Hcl; reflexivity|].
    split; [rewrite Icv, Hcv; reflexivity|].
    split.
    + rewrite Ititle, Htitle. destruct (ViewManager.screenTitle s) as [t|].
      * destruct vs as [|w vs]; [reflexivity|].
        rewrite (last_cons_default v (w :: vs) EmptyString).
        rewrite (last_default (w :: vs) EmptyString v) by discriminate.
        reflexivity.
      * destruct vs; reflexivity.
    + rewrite Im, Hm. reflexivity.
Qed.

Lemma hide_all_step (v : String.string) (s : ViewManager.t) :
  exists s1,
    ViewManager.run_callback (ViewManager.hide_all v) s = mkResult (inl tt) s1 []
    /\ ViewManager.requested s1
       = ViewManager.requested s ++ [ViewManager.show_named v]
    /\ (forall x k, ViewManager.classList s1 x k
                    = if put_off k then true else ViewManager.classList s x k)
    /\ ViewManager.screenTitle s1 = ViewManager.screenTitle s
    /\ ViewManager.transition s1 = ViewManager.transition s
    /\ ViewManager.currentView s1 = ViewManager.currentView s
    /\ modal_of s1 = modal_of s.
Proof.
  destruct s as [c t tr m mh mf cv rq]. eexists. split; [reflexivity|].
  run_vm. split; [reflexivity|].
  split; [|repeat split; reflexivity].
  intros x k. destruct x, k; reflexivity.
Qed.

Lemma hide_alls (vs : list String.string) :
  forall s : ViewManager.t,
    let r := for_each ViewManager.run_callback (map ViewManager.hide_all vs) s in
    value r = inl tt /\ output r = []
    /\ ViewManager.requested (state r)
       = ViewManager.requested s ++ map ViewManager.show_named vs
    /\ (forall x k, ViewManager.classList (state r) x k
                    = match vs with
                      | [] => ViewManager.classList s x k
                      | _ => if put_off k then true
                             else ViewManager.classList s x k
                      end)
    /\ ViewManager.screenTitle (state r) = ViewManager.screenTitle s
    /\ ViewManager.transition (state r) = ViewManager.transition s
    /\ ViewManager.currentView (state r) = ViewManager.currentView s
    /\ modal_of (state r) = modal_of s.
Proof.
  induction vs as [|v vs IH]; intros s.
  - cbn [for_each map]. run_vm. rewrite app_nil_r. repeat split; reflexivity.
  - cbn [for_each map]. cbv zeta.
    destruct (hide_all_step v s) as (s1 & Hstep & Hrq & Hcl & Ht & Htr & Hcv & Hm).
    specialize (IH s1). cbv zeta in IH.
    destruct (for_each ViewManager.run_callback (map ViewManager.hide_all vs) s1)
      as [v2 s2 o2] eqn:Hrest.
    cbn [value output state] in IH.
    destruct IH as (-> & -> & Irq & Icl & It & Itr & Icv & Im).
    rewrite (bind_run _ _ _ _ _ _ _ _ _ Hstep Hrest).
    cbn [value output state app].
    split; [reflexivity|]. split; [reflexivity|].
    split; [rewrite Irq, Hrq, <- app_assoc; reflexivity|].
    split.
    { intros x k. rewrite Icl. destruct vs as [|w vs]; rewrite ?Hcl;
        destruct (put_off k); reflexivity. }
    rewrite It, Itr, Icv, Im, Ht, Htr, Hcv, Hm. repeat split; reflexivity.
Qed.

Lemma show_named_step (v : String.string) (s : ViewManager.t) :
  exists s1,
    ViewManager.run_callback (ViewManager.show_named v) s
    = mkResult (inl tt) s1 []
    /\ ViewManager.requested s1 = ViewManager.requested s ++ slide_ins [v]
    /\ (forall x k, ViewManager.classList s1 x k
                    = match k with
                      | ViewManager.hidden =>
                          if named [v] x then false
                          else ViewManager.classList s x k
                      | _ => ViewManager.classList s x k
                      end)
    /\ ViewManager.screenTitle s1 = ViewManager.screenTitle s
    /\ ViewManager.transition s1 = "transform 0.5s ease-in-out"%string
    /\ ViewManager.currentView s1 = v
    /\ modal_of s1 = modal_of s.
Proof.
  destruct s as [c t tr m mh mf cv rq].
  unfold slide_ins, named. cbn [flat_map existsb].
  run_vm. destruct (ViewManager.screenToShow v) as [e|]; run_vm;
    (eexists; split; [reflexivity|]); run_vm; rewrite ?app_nil_r;
    (split; [reflexivity|]); (split; [|repeat split; reflexivity]);
    intros x k; destruct k; try reflexivity;
    try (destruct (ViewManager.screen_eq_dec x e); reflexivity).
  - destruct (ViewManager.screen_eq_dec x e) as [->|Hne].
    + destruct (ViewManager.screen_eq_dec e e) as [_|E];
        [reflexivity|contradiction E; reflexivity].
    + destruct (ViewManager.screen_eq_dec e x) as [E|_];
        [contradiction Hne; symmetry; exact E|reflexivity].
Qed.

Lemma named_cons (v : String.string) (vs : list String.string)
  (x : ViewManager.screen) :
  named (v :: vs) x = named [v] x || named vs x.
Proof. unfold named. cbn [existsb]. rewrite orb_false_r. reflexivity. Qed.

Lemma show_nameds (vs : list String.string) :
  forall s : ViewManager.t,
    let r := for_each ViewManager.run_callback (map ViewManager.show_named vs)
               s in
    value r = inl tt /\ output r = []
    /\ ViewManager.requested (state r) = ViewManager.requested s ++ slide_ins vs
    /\ (forall x k, ViewManager.classList (state r) x k
                    = match k with
                      | ViewManager.hidden =>
                          if named vs x then false
                          else ViewManager.classList s x k
                      | _ => ViewManager.classList s x k
                      end)
    /\ ViewManager.screenTitle (state r) = ViewManager.screenTitle s
    /\ ViewManager.transition (state r)
       = match vs with
         | [] => ViewManager.transition s
         | _ => "transform 0.5s ease-in-out"%string
         end
    /\ ViewManager.currentView (state r) = last vs (ViewManager.currentView s)
    /\ modal_of (state r) = modal_of s.
Proof.
  induction vs as [|v vs IH]; intros s.
  - cbn [for_each map]. run_vm. unfold slide_ins. cbn [flat_map].
    rewrite app_nil_r.
    repeat split; try reflexivity. intros x k. destruct k; reflexivity.
  - cbn [for_each map]. cbv zeta.
    destruct (show_named_step v s)
      as (s1 & Hstep & Hrq & Hcl & Ht & Htr & Hcv & Hm).
    specialize (IH s1). cbv zeta in IH.
    destruct (for_each ViewManager.run_callback
                (map ViewManager.show_named vs) s1)
      as [v2 s2 o2] eqn:Hrest.
    cbn [value output state] in IH.
    destruct IH as (-> & -> & Irq & Icl & It & Itr & Icv & Im).
    rewrite (bind_run _ _ _ _ _ _ _ _ _ Hstep Hrest).
    cbn [value output state app].
    split; [reflexivity|]. split; [reflexivity|].
    split.
    { rewrite Irq, Hrq, <- app_assoc. unfold slide_ins. cbn [flat_map].
      rewrite app_nil_r. reflexivity. }
    split.
    { intros x k. rewrite Icl, named_cons. destruct k; rewrite Hcl;
        try reflexivity.
      destruct (named vs x), (named [v] x); reflexivity. }
    split; [rewrite It, Ht; reflexivity|].
    split; [rewrite Itr, Htr; destruct vs; reflexivity|].
    split; [rewrite Icv, Hcv, last_cons_default; reflexivity|].
    rewrite Im, Hm. reflexivity.
Qed.

Lemma slide_in_step (e : ViewManager.screen) (s : ViewManager.t) :
  exists s1,
    ViewManager.run_callback (ViewManager.slide_in e) s = mkResult (inl tt) s1 []
    /\ ViewManager.requested s1 = ViewManager.requested s
    /\ (forall x k, ViewManager.classList s1 x k
                    = if ViewManager.screen_eq_dec x e
                      then slid_in k (ViewManager.classList s x k)
                      else ViewManager.classList s x k)
    /\ ViewManager.screenTitle s1 = ViewManager.screenTitle s
    /\ ViewManager.transition s1 = ViewManager.transition s
    /\ ViewManager.currentView s1 = ViewManager.currentView s
    /\ modal_of s1 = modal_of s.
Proof.
  destruct s as [c t tr m mh mf cv rq]. eexists. split; [reflexivity|].
  run_vm. split; [reflexivity|].
  split; [|repeat split; reflexivity].
  intros x k. destruct (ViewManager.screen_eq_dec x e); destruct k; reflexivity.
Qed.

Lemma slid_in_twice (k : ViewManager.class) (b : bool) :
  slid_in k (slid_in k b) = slid_in k b.
Proof. destruct k; reflexivity. Qed.

Lemma slide_ins_run (vs : list String.string) :
  forall s : ViewManager.t,
    let r := for_each ViewManager.run_callback (slide_ins vs) s in
    value r = inl tt /\ output r = []
    /\ ViewManager.requested (state r) = ViewManager.requested s
    /\ (forall x k, ViewManager.classList (state r) x k
                    = if named vs x
                      then slid_in k (ViewManager.classList s x k)
                      else ViewManager.classList s x k)
    /\ ViewManager.screenTitle (state r) = ViewManager.screenTitle s
    /\ ViewManager.transition (state r) = ViewManager.transition s
    /\ ViewManager.currentView (state r) = ViewManager.currentView s
    /\ modal_of (state r) = modal_of s.
Proof.
  induction vs as [|v vs IH]; intros s.
  - unfold slide_ins. cbn [flat_map for_each]. run_vm.
    repeat split; reflexivity.
  - cbv zeta. specialize (IH).
    unfold slide_ins in *. cbn [flat_map].
    destruct (ViewManager.screenToShow v) as [e|] eqn:Hv.
    + cbn [app for_each].
      destruct (slide_in_step e s)
        as (s1 & Hstep & Hrq & Hcl & Ht & Htr & Hcv & Hm).
      specialize (IH s1). cbv zeta in IH.
      match type of IH with
      | value (?m s1) = _ /\ _ => destruct (m s1) as [v2 s2 o2] eqn:Hrest
      end.
      cbn [value output state] in IH.
      destruct IH as (-> & -> & Irq & Icl & It & Itr & Icv & Im).
      rewrite (bind_run _ _ _ _ _ _ _ _ _ Hstep Hrest).
      cbn [value output state app].
      split; [reflexivity|]. split; [reflexivity|].
      split; [rewrite Irq, Hrq; reflexivity|].
      split.
      { intros x k. rewrite Icl, Hcl, named_cons.
        unfold named at 2. cbn [existsb]. rewrite Hv, orb_false_r.
        destruct (ViewManager.screen_eq_dec x e) as [->|Hne].
        - destruct (ViewManager.screen_eq_dec e e) as [_|E];
            [|contradiction E; reflexivity].
          cbn [orb]. destruct (named vs e); [apply slid_in_twice|reflexivity].
        - destruct (ViewManager.screen_eq_dec e x) as [E|_];
            [contradiction Hne; symmetry; exact E|].
          reflexivity. }
      rewrite It, Itr, Icv, Im, Ht, Htr, Hcv, Hm. repeat split; reflexivity.
    + cbn [app]. specialize (IH s). cbv zeta in IH.
      destruct IH as (Iv & Io & Irq & Icl & Irest).
      split; [exact Iv|]. split; [exact Io|]. split; [exact Irq|].
      split; [|exact Irest].
      intros x k. rewrite Icl, named_cons.
      unfold named at 2. cbn [existsb]. rewrite Hv. reflexivity.
Qed.

Lemma frame_run (s : ViewManager.t) :
  ViewManager.frame s
  = for_each ViewManager.run_callback (ViewManager.requested s)
      (ViewManager.set_requested [] s).
Proof.
  unfold ViewManager.frame, bind, get, modify.
  destruct (for_each ViewManager.run_callback (ViewManager.requested s)
              (ViewManager.set_requested [] s)) as [v s1 o1].
  reflexivity.
Qed.

(** X15. Navigation in the TimerBase variant.  From a state with no
    callback pending, any calls of showView made within one frame,
    followed by three frames of the browser, leave no callback pending
    and show exactly the screens named by one of the calls: such a
    screen has lost hidden, translate-x-full and screen-hidden and has
    translate-x-0 and screen-active, every other screen has hidden and
    translate-x-full and keeps its other classes.  One call with the
    name of a screen shows that screen alone; a name that is no screen
    hides all three; two calls for two screens within one frame show
    both.  currentView is the name of the last call, the title is the
    one of that name when the page has a title, and the modal is not
    touched. *)
Theorem X15_view_navigation (vs : list String.string) (s : ViewManager.t) :
  ViewManager.requested s = [] -> vs <> [] ->
  let r := navigate vs s in
  let s' := state r in
  value r = inl tt /\ output r = []
  /\ ViewManager.requested s' = []
  /\ (forall x k,
      ViewManager.classList s' x k
      = if named vs x then active_classes k
        else if put_off k then true else ViewManager.classList s x k)
  /\ ViewManager.currentView s' = last vs EmptyString
  /\ ViewManager.transition s' = "transform 0.5s ease-in-out"%string
  /\ ViewManager.screenTitle s'
     = match ViewManager.screenTitle s with
       | Some _ => Some (title_of (last vs EmptyString))
       | None => None
       end
  /\ modal_of s' = modal_of s.
Proof.
  intros Hrq Hvs r s'. subst s' r. unfold navigate.
  (* the calls *)
  destruct (showViews vs s) as (V0 & O0 & R0 & C0 & CV0 & T0 & M0).
  destruct (for_each ViewManager.showView vs s) as [v0 s0 o0] eqn:E0.
  cbn [value output state] in *. subst v0 o0. rewrite Hrq in R0.
  cbn [app] in R0.
  (* the first frame *)
  pose proof (frame_run s0) as F1. rewrite R0 in F1.
  destruct (hide_alls vs (ViewManager.set_requested [] s0))
    as (V1 & O1 & R1 & C1 & T1 & TR1 & CV1 & M1).
  destruct (for_each ViewManager.run_callback (map ViewManager.hide_all vs)
              (ViewManager.set_requested [] s0)) as [v1 s1 o1] eqn:E1.
  cbn [value output state] in *. subst v1 o1.
  (* the second frame *)
  pose proof (frame_run s1) as F2.
  replace (ViewManager.requested s1) with (map ViewManager.show_named vs)
    in F2 by (rewrite R1; destruct s0; reflexivity).
  destruct (show_nameds vs (ViewManager.set_requested [] s1))
    as (V2 & O2 & R2 & C2 & T2 & TR2 & CV2 & M2).
  destruct (for_each ViewManager.run_callback (map ViewManager.show_named vs)
              (ViewManager.set_requested [] s1)) as [v2 s2 o2] eqn:E2.
  cbn [value output state] in *. subst v2 o2.
  (* the third frame *)
  pose proof (frame_run s2) as F3.
  replace (ViewManager.requested s2) with (slide_ins vs)
    in F3 by (rewrite R2; destruct s1; reflexivity).
  destruct (slide_ins_run vs (ViewManager.set_requested [] s2))
    as (V3 & O3 & R3 & C3 & T3 & TR3 & CV3 & M3).
  destruct (for_each ViewManager.run_callback (slide_ins vs)
              (ViewManager.set_requested [] s2)) as [v3 s3 o3] eqn:E3.
  cbn [value output state] in *. subst v3 o3.
  (* the whole *)
  rewrite (bind_run _ _ _ _ _ _ _ _ _ E0
             (bind_run _ _ _ _ _ _ _ _ _ F1
                (bind_run _ _ _ _ _ _ _ _ _ F2 F3))).
  cbn [value output state app].
  split; [reflexivity|]. split; [reflexivity|].
  split; [rewrite R3; destruct s2; reflexivity|].
  split.
  { intros x k. rewrite C3.
    replace (ViewManager.classList (ViewManager.set_requested [] s2) x k)
      with (ViewManager.classList s2 x k) by (destruct s2; reflexivity).
    rewrite C2.
    replace (ViewManager.classList (ViewManager.set_requested [] s1) x k)
      with (ViewManager.classList s1 x k) by (destruct s1; reflexivity).
    rewrite C1.
    replace (ViewManager.classList (ViewManager.set_requested [] s0) x k)
      with (ViewManager.classList s0 x k) by (destruct s0; reflexivity).
    rewrite C0.
    destruct vs as [|v vs]; [contradiction Hvs; reflexivity|].
    destruct (named (v :: vs) x); destruct k; reflexivity. }
  split.
  { rewrite CV3.
    replace (ViewManager.currentView (ViewManager.set_requested [] s2))
      with (ViewManager.currentView s2) by (destruct s2; reflexivity).
    rewrite CV2. apply last_default. exact Hvs. }
  split.
  { rewrite TR3.
    replace (ViewManager.transition (ViewManager.set_requested [] s2))
      with (ViewManager.transition s2) by (destruct s2; reflexivity).
    rewrite TR2. destruct vs; [contradiction Hvs; reflexivity|reflexivity]. }
  split.
  { rewrite T3.
    replace (ViewManager.screenTitle (ViewManager.set_requested [] s2))
      with (ViewManager.screenTitle s2) by (destruct s2; reflexivity).
    rewrite T2.
    replace (ViewManager.screenTitle (ViewManager.set_requested [] s1))
      with (ViewManager.screenTitle s1) by (destruct s1; reflexivity).
    rewrite T1.
    replace (ViewManager.screenTitle (ViewManager.set_requested [] s0))
      with (ViewManager.screenTitle s0) by (destruct s0; reflexivity).
    rewrite T0. destruct vs; [contradiction Hvs; reflexivity|].
    destruct (ViewManager.screenTitle s); reflexivity. }
  rewrite M3.
  replace (modal_of (ViewManager.set_requested [] s2)) with (modal_of s2)
    by (destruct s2; reflexivity).
  rewrite M2.
  replace (modal_of (ViewManager.set_requested [] s1)) with (modal_of s1)
    by (destruct s1; reflexivity).
  rewrite M1.
  replace (modal_of (ViewManager.set_requested [] s0)) with (modal_of s0)
    by (destruct s0; reflexivity).
  exact M0.
Qed.

Lemma X15_view_navigation_witness :
  let s0 := ViewManager.mk (fun _ _ => false) (Some "Timer App"%string)
              EmptyString EmptyString true false "home"%string [] in
  let s := exec (navigate ["stopwatch"%string; "countdown"%string]) s0 in
  ViewManager.classList s ViewManager.stopwatchScreen ViewManager.hidden = false
  /\ ViewManager.classList s ViewManager.countdownScreen ViewManager.hidden
     = false
  /\ ViewManager.classList s ViewManager.homeScreen ViewManager.hidden = true
  /\ ViewManager.currentView s = "countdown"%string.
Proof.
  intros s0 s.
  destruct (X15_view_navigation ["stopwatch"%string; "countdown"%string] s0
              eq_refl ltac:(discriminate))
    as (_ & _ & _ & Hcl & Hcv & _).
  split; [exact (Hcl ViewManager.stopwatchScreen ViewManager.hidden)|].
  split; [exact (Hcl ViewManager.countdownScreen ViewManager.hidden)|].
  split; [exact (Hcl ViewManager.homeScreen ViewManager.hidden)|].
  exact Hcv.
Defined.


(** ** A click on Start after the expiration, in general *)

(** X16. In the class variant a click on Start on an expired countdown
    gives the expiration alert again.  CountdownTimer.start() refuses
    the remaining time of zero with a warning and leaves hasExpired
    set, startCountdown() swaps Start for Pause all the same and
    clears countdownExpired, and the next frame of the display loop
    then calls stop() on the stopped timer (a second warning), plays
    the sound, shows the alert and brings Start back: the countdown is
    expired as before, and the next click does the same. *)
Theorem X16_class_start_after_expiry (ui : ClassVariant.UIController.t)
  (now now' : Z) :
  expired ui ->
  let r := (ClassVariant.UIController.startCountdown now now' ;;
            ClassVariant.UIController.run_frame
              ClassVariant.UIController.DisplayFrame) ui in
  output r
  = [ConsoleWarn "Countdown time is not set or expired";
     ConsoleWarn "Countdown is not running";
     Sound;
     ShowAlert "Countdown has expired!" "warning"]
  /\ expired (state r)
  /\ ClassVariant.UIController.countdownExpired (state r) = true
  /\ ClassVariant.UIController.countdownTimer (state r)
     = ClassVariant.UIController.countdownTimer ui
  /\ ClassVariant.UIController.hidden (state r)
       ClassVariant.UIController.startCountdownBtn = false
  /\ ClassVariant.UIController.hidden (state r)
       ClassVariant.UIController.pauseCountdownBtn = true.
Proof.
  destruct ui as [h swd cdd sw [ci cr crun cst caf che] inp swe cde].
  unfold expired. cbn [ClassVariant.UIController.countdownTimer
                        ClassVariant.UIController.hidden
                        ClassVariant.CountdownTimer.isRunning
                        ClassVariant.CountdownTimer.hasExpired
                        ClassVariant.CountdownTimer.remainingTime].
  intros (Hscreen & Hcontrols & -> & -> & ->).
  unfold ClassVariant.UIController.run_frame,
    ClassVariant.UIController._updateDisplays,
    ClassVariant.UIController._playCompletionSound.
  run_ui. cbn [Z.leb Z.compare].
  run_ui. class_buttons. rewrite Hscreen, Hcontrols. run_ui.
  class_buttons. rewrite ?Hscreen, ?Hcontrols.
  destruct (h ClassVariant.UIController.stopwatchScreen); run_ui;
    class_buttons; rewrite ?Hscreen, ?Hcontrols;
    repeat split; reflexivity.
Qed.

Lemma X16_class_start_after_expiry_witness :
  let ui := exec (ClassVariant.UIController.run_frames
                    [ClassVariant.UIController.CountdownFrame 5000;
                     ClassVariant.UIController.DisplayFrame])
              (exec (ClassVariant.UIController.startCountdown 0 0)
                 (exec ClassVariant.UIController.setCountdownTime
                    (exec (class_press [5]) class_ui0))) in
  ClassVariant.UIController.expirations
    (output ((ClassVariant.UIController.startCountdown 6000 6000 ;;
              ClassVariant.UIController.run_frame
                ClassVariant.UIController.DisplayFrame) ui)) = 1%nat.
Proof.
  intros ui.
  assert (Hexp : expired ui) by (vm_compute; repeat split; reflexivity).
  rewrite (proj1 (X16_class_start_after_expiry ui 6000 6000 Hexp)).
  reflexivity.
Defined.


(** ** The time left over pauses: the script variant's countdown *)

Lemma runCountdown_keeps (us : list Z) :
  forall s : ScriptVariant.t,
    value (for_each ScriptVariant.runCountdown us s) = inl tt
    /\ ScriptVariant.cdEnd (exec (for_each ScriptVariant.runCountdown us) s)
       = ScriptVariant.cdEnd s
    /\ ScriptVariant.cdMilliseconds
         (exec (for_each ScriptVariant.runCountdown us) s)
       = ScriptVariant.cdMilliseconds s.
Proof.
  induction us as [|u us IH]; intros s; [repeat split; reflexivity|].
  assert (Hu : value (ScriptVariant.runCountdown u s) = inl tt
               /\ ScriptVariant.cdEnd (exec (ScriptVariant.runCountdown u) s)
                  = ScriptVariant.cdEnd s
               /\ ScriptVariant.cdMilliseconds
                    (exec (ScriptVariant.runCountdown u) s)
                  = ScriptVariant.cdMilliseconds s).
  { destruct s as [h swd cdd swi sws swe dig ms cdi cde iv].
    run_script_calls. repeat (next_test; run_script_calls);
      repeat split; reflexivity. }
  destruct Hu as (Hv & He & Hm).
  rewrite for_each_cons by exact Hv.
  destruct (IH (exec (ScriptVariant.runCountdown u) s)) as (H1 & H2 & H3).
  split; [|split].
  - cbn [for_each]. rewrite (value_bind _ _ _ tt) by exact Hv. exact H1.
  - rewrite H2. exact He.
  - rewrite H3. exact Hm.
Qed.

Lemma script_countdown_stretch_takes (first : bool) (stc : Z * list Z * Z)
  (s : ScriptVariant.t) (d : Z) :
  ScriptVariant.cdMilliseconds s = Num d ->
  let m := if first then script_countdown_first stc
           else script_countdown_stretch stc in
  value (m s) = inl tt
  /\ ScriptVariant.cdMilliseconds (exec m s)
     = Num (Z.max 0 (d - script_stretch_length stc)).
Proof.
  intros Hd m. destruct stc as [[a us] b].
  set (start := if first then ScriptVariant.cdStartBtn_onclick a
                else ScriptVariant.cdContBtn_onclick a).
  assert (Hm : m = (start ;; for_each ScriptVariant.runCountdown us ;;
                    ScriptVariant.cdPauseBtn_onclick b))
    by (subst m start; destruct first; reflexivity).
  rewrite Hm. clear Hm m.
  assert (Hc : value (start s) = inl tt
               /\ ScriptVariant.cdEnd (exec start s) = Num (a + d)
               /\ ScriptVariant.cdMilliseconds (exec start s) = Num d).
  { subst start. destruct s as [h swd cdd swi sws swe dig ms cdi cde iv].
    cbn in Hd. subst ms. destruct first; repeat split; reflexivity. }
  destruct Hc as (Hc & Hend & Hms).
  set (s1 := exec start s) in *.
  destruct (runCountdown_keeps us s1) as (Hu & Hu1 & Hu2).
  set (s2 := exec (for_each ScriptVariant.runCountdown us) s1) in *.
  assert (Hp : value (ScriptVariant.cdPauseBtn_onclick b s2) = inl tt
               /\ ScriptVariant.cdMilliseconds
                    (exec (ScriptVariant.cdPauseBtn_onclick b) s2)
                  = Math_max (Num 0) (sub (ScriptVariant.cdEnd s2) (Num b)))
    by (split; reflexivity).
  split.
  - rewrite (value_bind _ _ _ tt) by exact Hc. fold s1.
    rewrite (value_bind _ _ _ tt) by exact Hu. apply Hp.
  - rewrite (exec_bind _ _ _ tt) by exact Hc. fold s1.
    rewrite (exec_bind _ _ _ tt) by exact Hu. fold s2.
    rewrite (proj2 Hp), Hu1, Hend.
    unfold script_stretch_length. cbn [Math_max sub lift2].
    f_equal. lia.
Qed.

Lemma script_countdown_stretches_take (sts : list (Z * list Z * Z)) :
  forall (s : ScriptVariant.t) (d : Z),
    ScriptVariant.cdMilliseconds s = Num d ->
    forward sts -> total (map script_stretch_length sts) <= d ->
    ScriptVariant.cdMilliseconds
      (exec (for_each script_countdown_stretch sts) s)
    = Num (d - total (map script_stretch_length sts)).
Proof.
  induction sts as [|stc sts IH]; intros s d Hd Hfw Htot.
  - cbn. rewrite Hd. f_equal. lia.
  - inversion Hfw as [|x xs Hlen Hrest]; subst.
    cbn [map total fold_right] in Htot. fold (total (map script_stretch_length sts)) in Htot.
    assert (Hsum : 0 <= total (map script_stretch_length sts)).
    { clear -Hrest. induction Hrest as [|st l Hst Hl IHl]; [cbn; lia|].
      cbn [map total fold_right]. fold (total (map script_stretch_length l)).
      lia. }
    destruct (script_countdown_stretch_takes false stc s d Hd) as (Hv & Hms).
    cbv zeta in Hv, Hms.
    rewrite for_each_cons by exact Hv.
    rewrite Z.max_r in Hms by lia.
    rewrite (IH _ _ Hms Hrest) by lia.
    cbn [map total fold_right]. fold (total (map script_stretch_length sts)).
    f_equal. lia.
Qed.

(** X17. The script variant's countdown keeps the time left over
    pauses.  With cdMilliseconds = d, a run of stretches (the first
    begun by Start, the others by Continue, each ended by Pause when or
    after it began, with any ticks in between) that take no more than d
    in all leaves cdMilliseconds = d less the time the stretches took:
    the countdown goes on from where it was paused. *)
Theorem X17_script_countdown_keeps_time_left
  (first : Z * list Z * Z) (sts : list (Z * list Z * Z))
  (s : ScriptVariant.t) (d : Z) :
  ScriptVariant.cdMilliseconds s = Num d ->
  forward (first :: sts) ->
  total (map script_stretch_length (first :: sts)) <= d ->
  ScriptVariant.cdMilliseconds
    (exec (script_countdown_first first ;;
           for_each script_countdown_stretch sts) s)
  = Num (d - total (map script_stretch_length (first :: sts))).
Proof.
  intros Hd Hfw Htot.
  inversion Hfw as [|x xs Hlen Hrest]; subst.
  cbn [map total fold_right] in *.
  fold (total (map script_stretch_length sts)) in *.
  assert (Hsum : 0 <= total (map script_stretch_length sts)).
  { clear -Hrest. induction Hrest as [|st l Hst Hl IHl]; [cbn; lia|].
    cbn [map total fold_right]. fold (total (map script_stretch_length l)).
    lia. }
  destruct (script_countdown_stretch_takes true first s d Hd) as (Hv & Hms).
  cbv zeta in Hv, Hms.
  rewrite (exec_bind _ _ _ tt) by exact Hv.
  rewrite Z.max_r in Hms by lia.
  rewrite (script_countdown_stretches_take sts _ _ Hms Hrest) by lia.
  f_equal. lia.
Qed.

Lemma X17_script_countdown_keeps_time_left_witness :
  let s := exec (script_press [9; 0] ;; ScriptVariant.cdSetBtn_onclick)
             script0 in
  ScriptVariant.cdMilliseconds
    (exec (script_countdown_first (1000, [1050; 1100], 21000) ;;
           for_each script_countdown_stretch
             [(30000, [], 40000); (50000, [50050], 80000)]) s)
  = Num 30000.
Proof.
  intros s.
  assert (Hfw : forward [(1000, [1050; 1100], 21000); (30000, [], 40000);
                         (50000, [50050], 80000)]).
  { repeat (apply Forall_cons; [cbn; lia|]). apply Forall_nil. }
  exact (X17_script_countdown_keeps_time_left (1000, [1050; 1100], 21000)
           [(30000, [], 40000); (50000, [50050], 80000)] s 90000
           eq_refl Hfw ltac:(cbn; lia)).
Defined.

(** ** The time left over pauses: the TimerBase variant's Countdown *)

Lemma timerbase_pause_counting (c : TimerBaseVariant.Countdown.t) (id : nat)
  (r t0 t : Z) :
  counting id r t0 t c ->
  let res := TimerBaseVariant.Countdown.pause c in
  value res = inl tt /\ output res = []
  /\ TimerBaseVariant.Countdown.isRunning (state res) = false
  /\ Intervals.active (TimerBaseVariant.Countdown.intervals (state res)) = []
  /\ TimerBaseVariant.Countdown.remainingTime (state res) = Num (r - (t - t0))
  /\ TimerBaseVariant.Countdown.initialTime (state res)
     = TimerBaseVariant.Countdown.initialTime c.
Proof.
  destruct c as [d ti run ini rem buf mx st h [act nx]].
  unfold counting. intros (Hrun & Hti & Hact & Hst & Hrem).
  run_countdown_calls. subst. run_countdown_calls. rewrite Nat.eqb_refl.
  repeat split; reflexivity.
Qed.

Lemma timerbase_countdown_stretch_takes (stc : Z * list Z)
  (c : TimerBaseVariant.Countdown.t) (r : Z) :
  TimerBaseVariant.Countdown.isRunning c = false ->
  Intervals.active (TimerBaseVariant.Countdown.intervals c) = [] ->
  TimerBaseVariant.Countdown.remainingTime c = Num r -> 0 < r ->
  Forall (fun u => u - fst stc < r) (snd stc) ->
  let res := timerbase_countdown_stretch stc c in
  value res = inl tt /\ output res = []
  /\ TimerBaseVariant.Countdown.isRunning (state res) = false
  /\ Intervals.active (TimerBaseVariant.Countdown.intervals (state res)) = []
  /\ TimerBaseVariant.Countdown.remainingTime (state res)
     = Num (r - timerbase_countdown_length stc).
Proof.
  destruct stc as [a us]. cbn [fst snd]. intros Hrun Hact Hrem Hr Hus.
  unfold timerbase_countdown_stretch, timerbase_countdown_length.
  set (id := Intervals.next_id (TimerBaseVariant.Countdown.intervals c)).
  destruct (timerbase_start_counting c r a Hrun Hact Hrem Hr)
    as (Sv & So & Sc). fold id in Sc.
  destruct (TimerBaseVariant.Countdown.start a c) as [v1 c1 o1] eqn:E1.
  cbn [value output state] in *. subst v1 o1.
  destruct (timerbase_fires_counting id r a us Hus a c1 Sc) as (Fv & Fo & Fc).
  destruct (for_each (TimerBaseVariant.Countdown.fire id) us c1)
    as [v2 c2 o2] eqn:E2.
  cbn [value output state] in *. subst v2 o2.
  destruct (timerbase_pause_counting c2 id r a (last us a) Fc)
    as (Pv & Po & Prun & Pact & Prem & _).
  destruct (TimerBaseVariant.Countdown.pause c2) as [v3 c3 o3] eqn:E3.
  cbn [value output state] in *. subst v3 o3.
  assert (Hres : (s <- get ;;
                  TimerBaseVariant.Countdown.start a ;;
                  for_each
                    (TimerBaseVariant.Countdown.fire
                       (Intervals.next_id
                          (TimerBaseVariant.Countdown.intervals s))) us ;;
                  TimerBaseVariant.Countdown.pause) c
                 = mkResult (inl tt) c3 []).
  { unfold bind at 1. unfold get. fold id.
    rewrite (bind_run _ _ _ _ _ _ _ _ _ E1
               (bind_run _ _ _ _ _ _ _ _ _ E2 E3)).
    reflexivity. }
  cbv zeta. rewrite Hres. cbn [value output state].
  repeat split; assumption.
Qed.

(** X18. The TimerBase variant's Countdown keeps the time left over
    pauses.  On a countdown that is not running, has no live interval
    and has r ms remaining, a run of stretches (start(), ticks of the
    interval it sets, pause()) whose ticks come before the time left
    has run out gives no alert and leaves the countdown stopped,
    without interval, with remainingTime = r less, for each stretch,
    the time from its start to its last tick: continue() goes on from
    the time that was left. *)
Theorem X18_timerbase_countdown_keeps_time_left (sts : list (Z * list Z)) :
  forall (c : TimerBaseVariant.Countdown.t) (r : Z),
    TimerBaseVariant.Countdown.isRunning c = false ->
    Intervals.active (TimerBaseVariant.Countdown.intervals c) = [] ->
    TimerBaseVariant.Countdown.remainingTime c = Num r ->
    stretches_fit r sts ->
    let res := for_each timerbase_countdown_stretch sts c in
    value res = inl tt /\ output res = []
    /\ TimerBaseVariant.Countdown.isRunning (state res) = false
    /\ Intervals.active (TimerBaseVariant.Countdown.intervals (state res)) = []
    /\ TimerBaseVariant.Countdown.remainingTime (state res)
       = Num (r - total (map timerbase_countdown_length sts)).
Proof.
  induction sts as [|stc sts IH]; intros c r Hrun Hact Hrem Hfit.
  - cbn. rewrite Hrem. repeat split; try assumption. f_equal. lia.
  - destruct stc as [a us]. cbn [stretches_fit] in Hfit.
    destruct Hfit as (Hr & Hus & Hrest).
    destruct (timerbase_countdown_stretch_takes (a, us) c r Hrun Hact Hrem Hr
                Hus) as (Sv & So & Srun & Sact & Srem).
    destruct (timerbase_countdown_stretch (a, us) c) as [v1 c1 o1] eqn:E1.
    cbn [value output state] in *. subst v1 o1.
    unfold timerbase_countdown_length in Srem.
    destruct (IH c1 _ Srun Sact Srem Hrest) as (Iv & Io & Irun & Iact & Irem).
    destruct (for_each timerbase_countdown_stretch sts c1)
      as [v2 c2 o2] eqn:E2.
    cbn [value output state] in *. subst v2 o2.
    cbn [for_each].
    rewrite (bind_run _ _ _ _ _ _ _ _ _ E1 E2).
    cbn [value output state app map total fold_right].
    fold (total (map timerbase_countdown_length sts)).
    repeat split; try assumption.
    rewrite Irem. unfold timerbase_countdown_length at 2. f_equal. lia.
Qed.

Lemma X18_timerbase_countdown_keeps_time_left_witness :
  let c := exec (timerbase_press [9; 0] ;; TimerBaseVariant.Countdown.setTime)
             timerbase0 in
  TimerBaseVariant.Countdown.remainingTime
    (exec (for_each timerbase_countdown_stretch
             [(1000, [1010; 21000]); (30000, []); (50000, [50010; 80000])]) c)
  = Num 40000.
Proof.
  intros c.
  assert (Hfit : stretches_fit 90000
                   [(1000, [1010; 21000]); (30000, []);
                    (50000, [50010; 80000])]).
  { cbn [stretches_fit last].
    repeat split; try lia;
      repeat (apply Forall_cons; [lia|]); apply Forall_nil. }
  exact (proj2 (proj2 (proj2 (proj2
           (X18_timerbase_countdown_keeps_time_left
              [(1000, [1010; 21000]); (30000, []); (50000, [50010; 80000])]
              c 90000 eq_refl eq_refl eq_refl Hfit))))).
Defined.


(** ** Starting a countdown that has no time left *)

(** X19. Start on a countdown that is not running and has r <= 0 ms
    left.  The class variant's CountdownTimer.start() logs a warning
    and changes nothing.  The TimerBase variant's Countdown.start()
    logs a warning, shows the alert Countdown is zero. Please set a
    time. and does what resetInput() does, which brings the entry of a
    time back.  The script variant has no such guard: the handler of
    Start sets the interval, and its first tick, at the time of the
    click or later, gives the alert Time's up!. *)
Theorem X19_start_without_time_left (r : Z) :
  r <= 0 ->
  (forall (s : ClassVariant.CountdownTimer.t) (now now' : Z),
      ClassVariant.CountdownTimer.isRunning s = false ->
      ClassVariant.CountdownTimer.remainingTime s = Num r ->
      ClassVariant.CountdownTimer.start now now' s
      = mkResult (inl tt) s
          [ConsoleWarn "Countdown time is not set or expired"])
  /\ (forall (c : TimerBaseVariant.Countdown.t) (now : Z),
      TimerBaseVariant.Countdown.isRunning c = false ->
      TimerBaseVariant.Countdown.remainingTime c = Num r ->
      TimerBaseVariant.Countdown.start now c
      = mkResult (inl tt) (exec TimerBaseVariant.Countdown.resetInput c)
          [ConsoleWarn "Cannot start countdown, time is zero or less.";
           Modal "Countdown is zero. Please set a time."]
      /\ controls_shown (exec TimerBaseVariant.Countdown.resetInput c)
         = Some TimerBaseVariant.input
      /\ TimerBaseVariant.Countdown.isRunning
           (exec TimerBaseVariant.Countdown.resetInput c) = false)
  /\ (forall (s : ScriptVariant.t) (now u : Z),
      ScriptVariant.cdMilliseconds s = Num r ->
      table_fresh (ScriptVariant.intervals s) ->
      now <= u ->
      output ((ScriptVariant.cdStartBtn_onclick now ;;
               ScriptVariant.fire
                 (Intervals.next_id (ScriptVariant.intervals s)) u) s)
      = [Alert "Time's up!"]).
Proof.
  intros Hr. split; [|split].
  - intros s now now' Hrun Hrem.
    destruct s as [i rem run st af he]. cbn in Hrun, Hrem. subst.
    run_countdownTimer. destruct (Z.leb_spec r 0); [reflexivity|lia].
  - intros c now Hrun Hrem.
    destruct c as [d ti run ini rem buf mx st h [act nx]].
    cbn in Hrun, Hrem. subst.
    run_countdown_calls. destruct (Z.leb_spec r 0); [|lia].
    run_countdown_calls. countdown_buttons.
    repeat split; reflexivity.
  - intros s now u Hd Hfresh Hu.
    destruct (script_start_counting s r now Hd Hfresh)
      as (Sv & So & Sc & _).
    destruct (ScriptVariant.cdStartBtn_onclick now s) as [v1 s1 o1] eqn:E1.
    cbn [value output state] in *. subst v1 o1.
    pose proof (script_fire_expires s1 _ (now + r) u Sc ltac:(lia)) as E2.
    rewrite (bind_run _ _ _ _ _ _ _ _ _ E1 E2). reflexivity.
Qed.

Lemma X19_start_without_time_left_witness :
  output (TimerBaseVariant.Countdown.start 1000 timerbase0)
  = [ConsoleWarn "Cannot start countdown, time is zero or less.";
     Modal "Countdown is zero. Please set a time."].
Proof.
  rewrite (proj1 (proj1 (proj2 (X19_start_without_time_left 0 ltac:(lia)))
                    timerbase0 1000 eq_refl eq_refl)).
  reflexivity.
Defined.


(** ** Pause and Continue on an expired countdown of the script variant *)

Lemma table_fresh_clear {C} (tb : Intervals.table C) (id : option nat) :
  table_fresh tb -> table_fresh (Intervals.clearInterval id tb).
Proof.
  unfold table_fresh. destruct id as [i|]; [|exact (fun H => H)].
  cbn [Intervals.clearInterval Intervals.active Intervals.next_id].
  intros H. apply Forall_forall. intros e He. apply filter_In in He.
  rewrite Forall_forall in H. apply H, He.
Qed.

Lemma script_pause_past_end (s : ScriptVariant.t) (e t1 : Z) :
  ScriptVariant.cdEnd s = Num e -> e <= t1 ->
  table_fresh (ScriptVariant.intervals s) ->
  let res := ScriptVariant.cdPauseBtn_onclick t1 s in
  value res = inl tt /\ output res = []
  /\ ScriptVariant.cdMilliseconds (state res) = Num 0
  /\ table_fresh (ScriptVariant.intervals (state res))
  /\ Intervals.next_id (ScriptVariant.intervals (state res))
     = Intervals.next_id (ScriptVariant.intervals s).
Proof.
  destruct s as [h swd cdd swi sws swe dig ms cdi cde iv].
  cbn [ScriptVariant.cdEnd ScriptVariant.intervals]. intros -> He Hfresh.
  run_script_calls. rewrite Z.max_l by lia.
  split; [reflexivity|]. split; [reflexivity|]. split; [reflexivity|].
  split; [apply table_fresh_clear; exact Hfresh|].
  destruct cdi; reflexivity.
Qed.

(** X20. In the script variant the expiration leaves Pause shown, and
    Pause then Continue on a countdown whose end has passed give the
    alert again: Pause at or after the end stores a time left of 0,
    Continue sets a new interval that ends at the time of the click,
    and the first tick of that interval gives the alert Time's up!. *)
Theorem X20_script_pause_continue_after_end (s : ScriptVariant.t)
  (e t1 t2 t3 : Z) :
  ScriptVariant.cdEnd s = Num e -> e <= t1 -> t2 <= t3 ->
  table_fresh (ScriptVariant.intervals s) ->
  let id := Intervals.next_id (ScriptVariant.intervals s) in
  let res := (ScriptVariant.cdPauseBtn_onclick t1 ;;
              ScriptVariant.cdContBtn_onclick t2 ;;
              ScriptVariant.fire id t3) s in
  output res = [Alert "Time's up!"]
  /\ ScriptVariant.cdMilliseconds (state res) = Num 0
  /\ ScriptVariant.cdDisplay (state res)
     = mkDisplay (str "00:00:00") (str ".000")
  /\ Intervals.callback_of id (ScriptVariant.intervals (state res)) = None.
Proof.
  intros He H1 H3 Hfresh id res. subst res.
  destruct (script_pause_past_end s e t1 He H1 Hfresh)
    as (Pv & Po & Pms & Pfresh & Pnext).
  destruct (ScriptVariant.cdPauseBtn_onclick t1 s) as [v1 s1 o1] eqn:E1.
  cbn [value output state] in *. subst v1 o1.
  assert (Hc : ScriptVariant.cdContBtn_onclick t2 s1
               = mkResult (inl tt) (exec (ScriptVariant.cdContBtn_onclick t2) s1)
                   []
               /\ script_counting id (t2 + 0)
                    (exec (ScriptVariant.cdContBtn_onclick t2) s1)
               /\ ScriptVariant.cdMilliseconds
                    (exec (ScriptVariant.cdContBtn_onclick t2) s1) = Num 0).
  { subst id. rewrite <- Pnext. clear E1 Pnext.
    destruct s1 as [h swd cdd swi sws swe dig ms cdi cde [act nx]].
    cbn [ScriptVariant.cdMilliseconds] in Pms. subst ms.
    unfold table_fresh in Pfresh.
    cbn [ScriptVariant.intervals Intervals.active Intervals.next_id] in *.
    run_script_calls. unfold Intervals.setInterval.
    cbn [Intervals.active Intervals.next_id fst snd].
    split; [reflexivity|]. split; [|reflexivity].
    split; [reflexivity|]. split; [reflexivity|].
    apply callback_of_fresh. exact Pfresh. }
  destruct Hc as (E2 & Sc & Sms).
  set (s2 := exec (ScriptVariant.cdContBtn_onclick t2) s1) in *.
  pose proof (script_fire_expires s2 id (t2 + 0) t3 Sc ltac:(lia)) as E3.
  rewrite (bind_run _ (fun _ => ScriptVariant.cdContBtn_onclick t2 ;;
                                ScriptVariant.fire id t3) _ _ _ _ _ _ _ E1
             (bind_run _ (fun _ => ScriptVariant.fire id t3) _ _ _ _ _ _ _
                E2 E3)).
  cbn [value output state app].
  split; [reflexivity|].
  split; [destruct s2; exact Sms|].
  split; [destruct s2; reflexivity|].
  destruct s2. apply callback_of_cleared.
Qed.

Lemma X20_script_pause_continue_after_end_witness :
  let s := state (script_run 1 1000 [3000] 6000 []
                    (exec (script_press [5] ;; ScriptVariant.cdSetBtn_onclick)
                       script0)) in
  ScriptVariant.hidden s ScriptVariant.cdPauseBtn = false
  /\ output ((ScriptVariant.cdPauseBtn_onclick 7000 ;;
              ScriptVariant.cdContBtn_onclick 8000 ;;
              ScriptVariant.fire 2 8050) s)
     = [Alert "Time's up!"].
Proof.
  intros s. split; [vm_compute; reflexivity|].
  assert (Hfresh : table_fresh (ScriptVariant.intervals s)).
  { vm_compute. apply Forall_nil. }
  exact (proj1 (X20_script_pause_continue_after_end s 6000 7000 8000 8050
                  eq_refl ltac:(lia) ltac:(lia) Hfresh)).
Defined.


(** ** A countdown left running behind hidden controls *)

Lemma frame_silenced (d t0 : Z) (f : ClassVariant.UIController.frame)
  (ui : ClassVariant.UIController.t) :
  silenced d t0 ui ->
  let r := ClassVariant.UIController.run_frame f ui in
  output r = []
  /\ silenced d t0 (state r)
  /\ (lost ui -> lost (state r))
  /\ (forall now, f = ClassVariant.UIController.CountdownFrame now ->
      t0 + d <= now -> lost (state r)).
Proof.
  destruct ui as [h swd cdd [st el run af] [ci cr crun cst caf che] inp swe cde].
  unfold silenced, lost.
  cbn [ClassVariant.UIController.countdownTimer ClassVariant.UIController.hidden
       ClassVariant.UIController.countdownExpired
       ClassVariant.CountdownTimer.isRunning
       ClassVariant.CountdownTimer.hasExpired
       ClassVariant.CountdownTimer.initialTime
       ClassVariant.CountdownTimer.startTime].
  intros (Hc & -> & [(-> & -> & ->)|(-> & ->)]);
    destruct f as [u|u|]; run_session; rewrite ?Hc; run_session;
    repeat (next_test; run_session);
    (split; [reflexivity|]);
    (split;
     [split; [first [exact Hc | reflexivity]|];
      split; [reflexivity|];
      first [left; repeat split; reflexivity
            | right; repeat split; reflexivity]|]);
    (split;
     [intros (_ & _ & E1 & E2);
      first [discriminate E1 | discriminate E2
            | repeat split; first [exact Hc | reflexivity | assumption]]|]);
    intros now E Hnow; try discriminate E;
    try (injection E as ->);
    try (repeat split; first [exact Hc | reflexivity]).
  exfalso.
  match goal with
  | H : (_ <=? _) = false |- _ => apply Z.leb_gt in H; lia
  end.
Qed.

Lemma frames_silenced (d t0 : Z) (fs : list ClassVariant.UIController.frame) :
  forall ui : ClassVariant.UIController.t,
    silenced d t0 ui ->
    let r := ClassVariant.UIController.run_frames fs ui in
    output r = [] /\ silenced d t0 (state r) /\ (lost ui -> lost (state r)).
Proof.
  induction fs as [|f fs IH]; intros ui Hui.
  - split; [reflexivity|]. split; [exact Hui|exact (fun H => H)].
  - destruct (frame_silenced d t0 f ui Hui) as (Ho & Hs & Hl & _).
    change (state (ClassVariant.UIController.run_frame f ui))
      with (exec (ClassVariant.UIController.run_frame f) ui) in Hs, Hl.
    destruct (IH _ Hs) as (Io & Is & Il).
    destruct (run_frames_cons f fs ui) as [Ee Eo].
    cbv zeta.
    change (state (ClassVariant.UIController.run_frames (f :: fs) ui))
      with (exec (ClassVariant.UIController.run_frames (f :: fs)) ui).
    rewrite Ee, Eo, Ho, Io.
    split; [reflexivity|]. split; [exact Is|].
    intros H. apply Il, Hl, H.
Qed.

(** X21. In the class variant a countdown that runs when the countdown
    screen is entered again expires without a word.  showScreen with
    the name countdown hides the controls and leaves the timer
    running; the frames of the timer go on and the one that finds the
    time run out sets hasExpired; but the display loop looks at the
    timer only while the controls are shown, so that whatever frames
    follow no alert is shown, no sound is played and countdownExpired
    remains unset. *)
Theorem X21_class_countdown_expires_unnoticed
  (ui : ClassVariant.UIController.t) (d t0 now : Z)
  (fs fs' : list ClassVariant.UIController.frame) :
  armed d t0 ui -> t0 + d <= now ->
  let r := (ClassVariant.UIController.showScreen "countdown" ;;
            ClassVariant.UIController.run_frames
              (fs ++ ClassVariant.UIController.CountdownFrame now :: fs')) ui in
  output r = []
  /\ ClassVariant.CountdownTimer.hasExpired
       (ClassVariant.UIController.countdownTimer (state r)) = true
  /\ ClassVariant.CountdownTimer.isRunning
       (ClassVariant.UIController.countdownTimer (state r)) = false
  /\ ClassVariant.UIController.countdownExpired (state r) = false
  /\ ClassVariant.UIController.hidden (state r)
       ClassVariant.UIController.countdownControls = true.
Proof.
  intros Harmed Hnow r. subst r.
  assert (Hshow : ClassVariant.UIController.showScreen "countdown" ui
                  = mkResult (inl tt)
                      (exec (ClassVariant.UIController.showScreen "countdown")
                         ui) []
                  /\ silenced d t0
                       (exec (ClassVariant.UIController.showScreen "countdown")
                          ui)).
  { destruct ui as [h swd cdd sw [ci cr crun cst caf che] inp swe cde].
    unfold armed in Harmed. unfold silenced.
    cbn [ClassVariant.UIController.countdownTimer
         ClassVariant.UIController.hidden
         ClassVariant.UIController.countdownExpired
         ClassVariant.CountdownTimer.isRunning
         ClassVariant.CountdownTimer.hasExpired
         ClassVariant.CountdownTimer.initialTime
         ClassVariant.CountdownTimer.startTime
         ClassVariant.CountdownTimer.animationFrame] in Harmed.
    destruct Harmed as (_ & _ & -> & -> & -> & _).
    run_ui. cbn [String.eqb Ascii.eqb Bool.eqb]. run_ui. class_buttons.
    split; [reflexivity|]. split; [reflexivity|]. split; [reflexivity|].
    left. repeat split; reflexivity. }
  destruct Hshow as (E1 & Hs1).
  set (ui1 := exec (ClassVariant.UIController.showScreen "countdown") ui) in *.
  set (late := ClassVariant.UIController.CountdownFrame now).
  set (ui2 := exec (ClassVariant.UIController.run_frames fs) ui1).
  set (ui3 := exec (ClassVariant.UIController.run_frame late) ui2).
  destruct (frames_silenced d t0 fs ui1 Hs1) as (O2 & Hs2 & _).
  destruct (frame_silenced d t0 late ui2 Hs2) as (O3 & Hs3 & _ & Hlost).
  specialize (Hlost now eq_refl Hnow).
  destruct (frames_silenced d t0 fs' ui3 Hs3) as (O4 & _ & Hkeep).
  specialize (Hkeep Hlost).
  destruct (run_frames_app fs (late :: fs') ui1) as [Ee Eo].
  destruct (run_frames_cons late fs' ui2) as [Ee3 Eo3].
  fold ui2 in Ee, Eo. fold ui3 in Ee3, Eo3.
  rewrite Eo3, O3 in Eo. rewrite Ee3 in Ee.
  cbv zeta in O2, O4. rewrite O2, O4 in Eo. cbn [app] in Eo.
  pose proof (for_each_value ClassVariant.UIController.run_frame
                (fs ++ late :: fs') run_frame_value ui1) as Hv.
  fold (ClassVariant.UIController.run_frames (fs ++ late :: fs')) in Hv.
  unfold exec in Ee.
  destruct (ClassVariant.UIController.run_frames (fs ++ late :: fs') ui1)
    as [v4 ui4 o4] eqn:E4.
  cbn [value output state] in Hv, Eo, Ee. subst v4 o4.
  rewrite (bind_run _ _ _ _ _ _ _ _ _ E1 E4). cbn [output state app].
  rewrite Ee. destruct Hkeep as (K1 & K2 & K3 & K4).
  split; [reflexivity|]. split; [exact K4|]. split; [exact K3|].
  split; [exact K2|exact K1].
Qed.

Lemma X21_class_countdown_expires_unnoticed_witness :
  let ui := exec (ClassVariant.UIController.startCountdown 0 0)
              (exec ClassVariant.UIController.setCountdownTime
                 (exec (class_press [5]) class_ui0)) in
  ClassVariant.UIController.expirations
    (output ((ClassVariant.UIController.showScreen "countdown" ;;
              ClassVariant.UIController.run_frames
                ([ClassVariant.UIController.DisplayFrame]
                   ++ ClassVariant.UIController.CountdownFrame 5000
                   :: [ClassVariant.UIController.DisplayFrame;
                       ClassVariant.UIController.DisplayFrame])) ui))
  = 0%nat.
Proof.
  intros ui.
  assert (Harmed : armed 5000 0 ui) by (vm_compute; repeat split; reflexivity).
  rewrite (proj1 (X21_class_countdown_expires_unnoticed ui 5000 0 5000
                    [ClassVariant.UIController.DisplayFrame]
                    [ClassVariant.UIController.DisplayFrame;
                     ClassVariant.UIController.DisplayFrame]
                    Harmed ltac:(lia))).
  reflexivity.
Defined.

(** * The script variant's handlers on the page

    The handlers of the script variant test no flag of their own: what
    the page lets the user click stands for it.  The sessions are those
    of [script_session]; [script_clocked] adds that the readings of
    Date.now() do not go backwards. *)

(** ** Set with a zero duration *)

Lemma script_input_ok_new (page : ScriptVariant.element -> bool)
  (sw cd : display) (clock : Z) :
  script_page_ok page -> script_input_ok clock (ScriptVariant.new page sw cd).
Proof.
  intros (_ & _ & _ & _ & H5 & _) _. split; [reflexivity|].
  cbn. intros E. rewrite H5 in E. discriminate E.
Qed.

Lemma script_input_ok_step (clock : Z) (s : ScriptVariant.t)
  (a : script_action) :
  script_input_ok clock s -> script_can s a ->
  clock <= clock_after clock a ->
  script_input_ok (clock_after clock a) (exec (run_script_action a) s).
Proof.
  destruct s as [h swd cdd swi sws swe dig ms cdi cde [act nx]].
  unfold script_input_ok, clock_after.
  intros Hok Hcan Hclock.
  destruct a as [now|now|now| |i| | |now|now|now| |id now| | |];
    cbn [script_reading] in *;
    try (destruct (Intervals.callback_of id
                     {| Intervals.active := act; Intervals.next_id := nx |})
           as [[|]|] eqn:Hcb);
    destruct ms as [ms|]; destruct cde as [cde|];
    run_script_session;
    try rewrite Hcb;
    run_script_session.
  all: script_buttons; repeat (next_test; run_script_session);
    script_buttons.
  all: intros Hset; try discriminate Hset.
  all: try solve [split; [reflexivity | intros Hp; discriminate Hp]].
  all: destruct (Hok Hset) as [Hms Hend]; try discriminate Hms;
    try (injection Hms as ->).
  all: try match goal with
         | Hp : ?f ScriptVariant.cdPauseBtn = false |- _ =>
             destruct (Hend Hp) as (e & He & Hle);
             first [discriminate He | injection He as <-]
         end.
  all: idtac;
    (split;
    [first [reflexivity
           | f_equal; lia
           | destruct (ScriptVariant.getCountdownMilliseconds dig);
             [f_equal; apply Z.eqb_eq; assumption | discriminate]]
    |intros Hp; try discriminate Hp;
     try (destruct (Hend Hp) as (e & He & Hle);
          first [discriminate He | injection He as <-]);
     eexists; (split; [reflexivity|lia])]).
Qed.
Lemma script_clocked_input_ok (clock : Z) (s : ScriptVariant.t) :
  script_clocked clock s -> script_input_ok clock s.
Proof.
  induction 1 as [page sw cd clock Hpage|clock s a Hses IH Hcan Hclock].
  - apply script_input_ok_new. exact Hpage.
  - apply script_input_ok_step; assumption.
Qed.

Lemma script_set_rejects_on_page (clock : Z) (s : ScriptVariant.t) :
  script_clocked clock s ->
  ScriptVariant.hidden s ScriptVariant.cdSetBtn = false ->
  ScriptVariant.getCountdownMilliseconds (ScriptVariant.cdDigits s) = Num 0 ->
  ScriptVariant.cdSetBtn_onclick s
  = mkResult (inl tt) s [Alert "Set a valid time."].
Proof.
  intros Hses Hset Hzero.
  rewrite script_set_zero by exact Hzero.
  rewrite script_set_cdMilliseconds_same; [reflexivity|].
  apply (script_clocked_input_ok clock s Hses Hset).
Qed.


(** C4.  A zero duration is rejected and nothing changes.  In the
    class variant, for every prior state, CountdownTimer.setTime(ms)
    with ms <= 0 throws 'Countdown time must be positive' and changes
    nothing, and setCountdownTime() on an input of zero duration reports
    the error and leaves the whole controller, remainingTime and
    initialTime included, as it was; so does setTime() of the TimerBase
    variant on an empty buffer or a zero remainingTime.  The Set handler
    of the script variant stores the computed duration in cdMilliseconds
    before it tests it, and rejects a zero duration with the alert 'Set
    a valid time.'; in every session whose clock does not go backwards
    cdMilliseconds is 0 already wherever Set is shown, so that the
    rejected click leaves the whole state as it was. *)
Theorem C4_zero_duration_rejected :
  (forall (s : ClassVariant.CountdownTimer.t) (ms : Z),
      ms <= 0 ->
      let r := ClassVariant.CountdownTimer.setTime (Num ms) s in
      value r = inr "Countdown time must be positive"%string
      /\ state r = s
      /\ ClassVariant.CountdownTimer.remainingTime (state r)
         = ClassVariant.CountdownTimer.remainingTime s
      /\ ClassVariant.CountdownTimer.initialTime (state r)
         = ClassVariant.CountdownTimer.initialTime s)
  /\ (forall (ui : ClassVariant.UIController.t) (ms : Z),
      ClassVariant.UIController.totalMs (ClassVariant.UIController.inputSequence ui)
      = Num ms ->
      ms <= 0 ->
      let r := ClassVariant.UIController.setCountdownTime ui in
      state r = ui
      /\ output r
         = [ConsoleError
              "Error setting countdown time: Countdown time must be greater than zero";
            ShowAlert "Please enter a valid time greater than zero" "error"])
  /\ (forall c : TimerBaseVariant.Countdown.t,
      TimerBaseVariant.Countdown.inputBuffer c = []
      \/ TimerBaseVariant.Countdown.remainingTime c = Num 0 ->
      let r := TimerBaseVariant.Countdown.setTime c in
      state r = c
      /\ output r
         = [ConsoleWarn "Cannot set countdown to 0. Please enter a valid time.";
            Modal "Please enter a time greater than zero."])
  /\ (forall s : ScriptVariant.t,
      ScriptVariant.getCountdownMilliseconds (ScriptVariant.cdDigits s) = Num 0 ->
      let r := ScriptVariant.cdSetBtn_onclick s in
      output r = [Alert "Set a valid time."]
      /\ state r = ScriptVariant.set_cdMilliseconds (Num 0) s)
  /\ (forall (clock : Z) (s : ScriptVariant.t),
      script_clocked clock s ->
      ScriptVariant.hidden s ScriptVariant.cdSetBtn = false ->
      ScriptVariant.cdMilliseconds s = Num 0
      /\ (ScriptVariant.getCountdownMilliseconds (ScriptVariant.cdDigits s)
          = Num 0 ->
          let r := ScriptVariant.cdSetBtn_onclick s in
          value r = inl tt
          /\ output r = [Alert "Set a valid time."]
          /\ state r = s)).
Proof.
  split; [|split; [|split; [|split]]].
  - intros s ms H r. unfold r.
    rewrite countdownTimer_setTime_rejects by exact H.
    repeat split; reflexivity.
  - intros ui ms Hms H r. unfold r.
    rewrite (setCountdownTime_rejects ui ms Hms H). split; reflexivity.
  - intros c H r. unfold r.
    rewrite timerbase_setTime_rejects by exact H. split; reflexivity.
  - intros s H r. unfold r.
    rewrite script_set_zero by exact H.
    split; reflexivity.
  - intros clock s Hses Hset.
    split; [apply (script_clocked_input_ok clock s Hses Hset)|].
    intros Hzero r. unfold r.
    rewrite (script_set_rejects_on_page clock s Hses Hset Hzero).
    repeat split; reflexivity.
Qed.

Lemma C4_zero_duration_rejected_witness :
  let s := exec (run_script_action CdClearClick)
             (exec (run_script_action (CdPauseClick 3000))
                (exec (run_script_action (CdStartClick 1000))
                   (exec (run_script_action CdSetClick)
                      (exec (run_script_action (CdDigitClick 5))
                         (ScriptVariant.new script_page blank blank))))) in
  script_clocked 3000 s
  /\ ScriptVariant.hidden s ScriptVariant.cdSetBtn = false
  /\ ScriptVariant.getCountdownMilliseconds (ScriptVariant.cdDigits s) = Num 0
  /\ state (ScriptVariant.cdSetBtn_onclick s) = s.
Proof.
  intros s.
  assert (Hses : script_clocked 3000 s).
  { apply (script_clocked_step 3000 _ CdClearClick); [|exact I|cbn; lia].
    apply (script_clocked_step 1000 _ (CdPauseClick 3000));
      [|reflexivity|cbn; lia].
    apply (script_clocked_step 0 _ (CdStartClick 1000));
      [|reflexivity|cbn; lia].
    apply (script_clocked_step 0 _ CdSetClick); [|reflexivity|cbn; lia].
    apply (script_clocked_step 0 _ (CdDigitClick 5)); [|reflexivity|cbn; lia].
    apply script_clocked_new. repeat split; reflexivity. }
  split; [exact Hses|]. split; [reflexivity|]. split; [reflexivity|].
  exact (proj2 (proj2 (proj2 (proj2 (proj2 (proj2 (proj2
           C4_zero_duration_rejected))) 3000 s Hses eq_refl) eq_refl))).
Defined.

(** ** Start while the stopwatch runs *)

Lemma script_session_ok (s : ScriptVariant.t) :
  script_session s -> script_ok s.
Proof.
  induction 1 as [page sw cd Hpage|s a Hses IH Hcan].
  - apply script_new_ok. exact Hpage.
  - apply script_step_ok; assumption.
Qed.

Lemma script_start_on_page (s : ScriptVariant.t) :
  script_session s ->
  (live ScriptVariant.updateStopwatch_cb s <> [] ->
   ScriptVariant.hidden s ScriptVariant.swStartBtn = true)
  /\ (forall now : Z,
      ScriptVariant.hidden s ScriptVariant.swStartBtn = false ->
      let r := ScriptVariant.swStartBtn_onclick now s in
      live ScriptVariant.updateStopwatch_cb s = []
      /\ live ScriptVariant.updateStopwatch_cb (state r)
         = [(Intervals.next_id (ScriptVariant.intervals s),
             ScriptVariant.updateStopwatch_cb)]
      /\ ScriptVariant.swStart (state r) = Num now
      /\ ScriptVariant.swElapsed (state r) = ScriptVariant.swElapsed s
      /\ ScriptVariant.hidden (state r) ScriptVariant.swStartBtn = true).
Proof.
  intros Hses.
  destruct (script_session_ok s Hses) as (Htab & (b & Hb) & _).
  destruct (table_ok_live _ _ _ _ _ _ Htab) as (L1 & _ & _).
  assert (Hidle : ScriptVariant.hidden s ScriptVariant.swStartBtn = false ->
                  live ScriptVariant.updateStopwatch_cb s = []).
  { intros Hs. unfold script_stopwatch_shown, shown_of in Hb.
    rewrite Hs in Hb.
    destruct (ScriptVariant.hidden s ScriptVariant.swPauseBtn);
      [|discriminate Hb].
    unfold live.
    destruct (filter (is_callback ScriptVariant.updateStopwatch_cb)
                (Intervals.active (ScriptVariant.intervals s)));
      [reflexivity | discriminate L1]. }
  split.
  - intros Hlive.
    destruct (ScriptVariant.hidden s ScriptVariant.swStartBtn) eqn:Hs;
      [reflexivity|].
    exfalso. apply Hlive, Hidle. reflexivity.
  - intros now Hs r. split; [apply Hidle; exact Hs|].
    split; [|repeat split; reflexivity].
    unfold r, live.
    destruct (script_start_anchor s now) as (_ & _ & _ & _ & E).
    unfold exec in E. rewrite E, filter_app.
    specialize (Hidle Hs). unfold live in Hidle. rewrite Hidle. reflexivity.
Qed.

(** C7.  start() while running.  In the class variant Timer.start()
    called while the timer runs only logs the warning 'Timer is already
    running': the state, anchor and elapsed time included, is the one
    before the call, so that two calls in a row leave the state of one
    call; Stopwatch.start() of the TimerBase variant returns at once in
    the same way and logs nothing.  The script variant has no start()
    and no running flag; its Start handler hides the Start button, and
    in every session Start is hidden for as long as an interval of
    updateStopwatch is live: the handler cannot be run a second time
    while the stopwatch runs.  Where Start can be clicked nothing runs,
    and the click sets the anchor, keeps the elapsed time and enters the
    one interval. *)
Theorem C7_start_while_running :
  (forall (s : ClassVariant.Timer.t) (now now' : Z),
      ClassVariant.Timer.isRunning s = true ->
      ClassVariant.Timer.start now now' s
      = mkResult (inl tt) s [ConsoleWarn "Timer is already running"])
  /\ (forall (s : ClassVariant.Timer.t) (t1 t1' t2 t2' : Z),
      exec (ClassVariant.Timer.start t1 t1' ;; ClassVariant.Timer.start t2 t2') s
      = exec (ClassVariant.Timer.start t1 t1') s)
  /\ (forall (s : TimerBaseVariant.Stopwatch.t) (now : Z),
      TimerBaseVariant.Stopwatch.isRunning s = true ->
      TimerBaseVariant.Stopwatch.start now s = mkResult (inl tt) s [])
  /\ (forall s : ScriptVariant.t,
      script_session s ->
      (live ScriptVariant.updateStopwatch_cb s <> [] ->
       ScriptVariant.hidden s ScriptVariant.swStartBtn = true)
      /\ (forall now : Z,
          ScriptVariant.hidden s ScriptVariant.swStartBtn = false ->
          let r := ScriptVariant.swStartBtn_onclick now s in
          live ScriptVariant.updateStopwatch_cb s = []
          /\ live ScriptVariant.updateStopwatch_cb (state r)
             = [(Intervals.next_id (ScriptVariant.intervals s),
                 ScriptVariant.updateStopwatch_cb)]
          /\ ScriptVariant.swStart (state r) = Num now
          /\ ScriptVariant.swElapsed (state r) = ScriptVariant.swElapsed s
          /\ ScriptVariant.hidden (state r) ScriptVariant.swStartBtn = true)).
Proof.
  split; [exact timer_start_running|].
  split; [exact timer_start_twice|].
  split; [exact timerbase_stopwatch_start_running|].
  exact script_start_on_page.
Qed.

Lemma C7_start_while_running_witness :
  let c := exec (ClassVariant.Timer.start 0 0) ClassVariant.Timer.new in
  let s := exec (run_script_action (SwStartClick 1000))
             (ScriptVariant.new script_page blank blank) in
  (ClassVariant.Timer.isRunning c = true
   /\ ClassVariant.Timer.start 1000 1000 c
      = mkResult (inl tt) c [ConsoleWarn "Timer is already running"])
  /\ (script_session s
      /\ live ScriptVariant.updateStopwatch_cb s <> []
      /\ ScriptVariant.hidden s ScriptVariant.swStartBtn = true).
Proof.
  intros c s. split.
  - split; [reflexivity|].
    exact (proj1 C7_start_while_running c 1000 1000 eq_refl).
  - assert (Hses : script_session s).
    { apply script_session_step; [|reflexivity].
      apply script_session_new. repeat split; reflexivity. }
    assert (Hlive : live ScriptVariant.updateStopwatch_cb s <> [])
      by (intros E; discriminate E).
    split; [exact Hses|]. split; [exact Hlive|].
    exact (proj1 (proj2 (proj2 (proj2 C7_start_while_running)) s Hses) Hlive).
Defined.
